(** * The mbox synchronisation engine (mbox-sync.c), shallowly embedded

    The engine reconciles an mbox file with the mail index.  Everything it
    calls outside its own file (the raw mbox stream, the header parser and
    rewriter, the index, the locking layer and the operating system) is a
    collaborator: a call to one of them is an event answered by a handler,
    and every call is appended to a trace together with its answer.

    Machine integers are [Z] with the wrap-around of the C type written out
    ([u32], [u64], [s64]).  A fallible C function returns its [int] code;
    a failed [i_assert] and an exhausted loop budget are outcomes of their
    own. *)

From Stdlib Require Import ZArith List Bool String Ascii Lia.
From Stdlib Require Import DecimalString.
Import ListNotations.
Local Open Scope string_scope.
Local Open Scope list_scope.
Local Open Scope Z_scope.

Set Implicit Arguments.

(** ** Machine integers *)

Definition u32 (x : Z) : Z := x mod 2 ^ 32.
Definition u64 (x : Z) : Z := x mod 2 ^ 64.
Definition u8 (x : Z) : Z := x mod 2 ^ 8.

(** [off_t]: two's complement on 64 bits. *)
Definition s64 (x : Z) : Z := (x + 2 ^ 63) mod 2 ^ 64 - 2 ^ 63.

Definition UINT32_MAX : Z := 4294967295.
Definition OFF_T_MAX : Z := 9223372036854775807.

Definition in_u32 (x : Z) : Prop := 0 <= x <= UINT32_MAX.
Definition in_off_t (x : Z) : Prop := 0 <= x <= OFF_T_MAX.

(** ** Data model *)

(** [enum mail_index_sync_type]; [SYNC_TYPE_NONE] is the value of a record
    cleared by [memset]. *)
Inductive mail_index_sync_type :=
| SYNC_TYPE_NONE
| SYNC_TYPE_APPEND
| SYNC_TYPE_EXPUNGE
| SYNC_TYPE_FLAGS
| SYNC_TYPE_KEYWORD_ADD
| SYNC_TYPE_KEYWORD_REMOVE
| SYNC_TYPE_KEYWORD_RESET.

Definition sync_type_eqb (a b : mail_index_sync_type) : bool :=
  match a, b with
  | SYNC_TYPE_NONE, SYNC_TYPE_NONE
  | SYNC_TYPE_APPEND, SYNC_TYPE_APPEND
  | SYNC_TYPE_EXPUNGE, SYNC_TYPE_EXPUNGE
  | SYNC_TYPE_FLAGS, SYNC_TYPE_FLAGS
  | SYNC_TYPE_KEYWORD_ADD, SYNC_TYPE_KEYWORD_ADD
  | SYNC_TYPE_KEYWORD_REMOVE, SYNC_TYPE_KEYWORD_REMOVE
  | SYNC_TYPE_KEYWORD_RESET, SYNC_TYPE_KEYWORD_RESET => true
  | _, _ => false
  end.

Record mail_index_sync_rec := {
  sr_uid1 : Z;
  sr_uid2 : Z;
  sr_type : mail_index_sync_type;
  sr_add_flags : Z;
  sr_remove_flags : Z;
  sr_keyword_idx : Z
}.

(** [memset(sync_rec, 0, sizeof( *sync_rec))] *)
Definition sync_rec_zero : mail_index_sync_rec :=
  {| sr_uid1 := 0; sr_uid2 := 0; sr_type := SYNC_TYPE_NONE;
     sr_add_flags := 0; sr_remove_flags := 0; sr_keyword_idx := 0 |}.

Record mail_index_record := {
  ir_uid : Z;
  ir_flags : Z
}.

Record mail_index_header := {
  h_uid_validity : Z;
  h_next_uid : Z;
  h_sync_stamp : Z;
  h_sync_size : Z
}.

(** [enum mbox_sync_flags], a set of six flags. *)
Record mbox_sync_flags := {
  MBOX_SYNC_LAST_COMMIT : bool;
  MBOX_SYNC_HEADER : bool;
  MBOX_SYNC_LOCK_READING : bool;
  MBOX_SYNC_UNDIRTY : bool;
  MBOX_SYNC_REWRITE : bool;
  MBOX_SYNC_FORCE_SYNC : bool
}.

Inductive lock_type := F_UNLCK | F_RDLCK | F_WRLCK.

Definition lock_type_eqb (a b : lock_type) : bool :=
  match a, b with
  | F_UNLCK, F_UNLCK | F_RDLCK, F_RDLCK | F_WRLCK, F_WRLCK => true
  | _, _ => false
  end.

(** [struct mbox_sync_mail]; [m_keywords] is [None] while the array is not
    created. *)
Record mbox_sync_mail := {
  m_uid : Z;
  m_idx_seq : Z;
  m_keywords : option (list Z);
  m_flags : Z;
  m_uid_broken : bool;
  m_from_offset : Z;
  m_body_size : Z;
  m_offset : Z;
  m_space : Z
}.

Definition mail_zero : mbox_sync_mail :=
  {| m_uid := 0; m_idx_seq := 0; m_keywords := None; m_flags := 0;
     m_uid_broken := false; m_from_offset := 0; m_body_size := 0;
     m_offset := 0; m_space := 0 |}.

(** [struct mbox_sync_mail_context], the fields this file reads or writes. *)
Record mbox_sync_mail_context := {
  mc_mail : mbox_sync_mail;
  mc_seq : Z;
  mc_hdr_offset : Z;
  mc_body_offset : Z;
  mc_hdr_md5_sum : list Z;
  mc_content_length : Z;
  mc_have_eoh : bool;
  mc_need_rewrite : bool;
  mc_pseudo : bool;
  mc_updated : bool;
  mc_recent : bool;
  mc_dirty : bool
}.

(** [memset(mail_ctx, 0, sizeof( *mail_ctx))] *)
Definition mail_ctx_zero : mbox_sync_mail_context :=
  {| mc_mail := mail_zero; mc_seq := 0; mc_hdr_offset := 0;
     mc_body_offset := 0; mc_hdr_md5_sum := []; mc_content_length := 0;
     mc_have_eoh := false; mc_need_rewrite := false; mc_pseudo := false;
     mc_updated := false; mc_recent := false; mc_dirty := false |}.

(** [struct mbox_sync_context].  The stream and view handles are state of
    the collaborators; [index_sync_ctx] and [t] record whether the handle
    is non-NULL.  Sequences and UIDs are [uint32_t], offsets [uoff_t],
    [expunged_space] and [space_diff] are [off_t]. *)
Record mbox_sync_context := {
  flags : mbox_sync_flags;
  write_fd : Z;
  index_sync_ctx : bool;
  t : bool;
  hdr : mail_index_header;
  header : string;
  from_line : string;
  base_uid_validity : Z;
  base_uid_last : Z;
  base_uid_last_offset : Z;
  mails : list mbox_sync_mail;
  syncs : list mail_index_sync_rec;
  sync_rec : mail_index_sync_rec;
  prev_msg_uid : Z;
  next_uid : Z;
  idx_next_uid : Z;
  seq : Z;
  idx_seq : Z;
  need_space_seq : Z;
  expunged_space : Z;
  space_diff : Z;
  orig_mtime : Z;
  orig_size : Z;
  dest_first_mail : bool;
  first_mail_crlf_expunged : bool;
  delay_writes : bool;
  renumber_uids : bool;
  moved_offsets : bool
}.

(** [struct mbox_mailbox], the fields this file reads or writes. *)
Record mbox_mailbox := {
  path : string;
  mbox_fd : Z;
  mbox_has_file_stream : bool;
  mbox_lock_type : lock_type;
  mbox_readonly : bool;
  mbox_sync_dirty : bool;
  mbox_save_md5 : bool;
  mbox_do_dirty_syncs : bool;
  mbox_very_dirty_syncs : bool;
  mbox_dirty_stamp : Z;
  mbox_dirty_size : Z;
  keep_recent : bool;
  sync_last_check : Z;
  commit_log_file_seq : Z;
  commit_log_file_offset : Z
}.

(** *** Field updates

    [set_f v r] is [r] with field [f] replaced by [v]; the other fields are
    the projections of [r].  The setter is built from the eta-expanded
    constructor of the record by abstracting the projection. *)

Ltac mk_setter eta proj :=
  let e := eval cbv delta [eta] in eta in
  match eval pattern proj in e with
  | ?abs _ =>
      let s := eval cbv beta in (fun v r => abs (fun _ => v) r) in
      exact s
  end.

Definition flags_eta (r : mbox_sync_flags) : mbox_sync_flags :=
  Build_mbox_sync_flags (MBOX_SYNC_LAST_COMMIT r) (MBOX_SYNC_HEADER r)
    (MBOX_SYNC_LOCK_READING r) (MBOX_SYNC_UNDIRTY r) (MBOX_SYNC_REWRITE r)
    (MBOX_SYNC_FORCE_SYNC r).

Definition set_MBOX_SYNC_UNDIRTY : bool -> mbox_sync_flags -> mbox_sync_flags :=
  ltac:(mk_setter flags_eta MBOX_SYNC_UNDIRTY).

Definition mail_eta (r : mbox_sync_mail) : mbox_sync_mail :=
  Build_mbox_sync_mail (m_uid r) (m_idx_seq r) (m_keywords r) (m_flags r)
    (m_uid_broken r) (m_from_offset r) (m_body_size r) (m_offset r)
    (m_space r).

Definition set_m_uid : Z -> mbox_sync_mail -> mbox_sync_mail :=
  ltac:(mk_setter mail_eta m_uid).
Definition set_m_idx_seq : Z -> mbox_sync_mail -> mbox_sync_mail :=
  ltac:(mk_setter mail_eta m_idx_seq).
Definition set_m_keywords : option (list Z) -> mbox_sync_mail -> mbox_sync_mail :=
  ltac:(mk_setter mail_eta m_keywords).
Definition set_m_flags : Z -> mbox_sync_mail -> mbox_sync_mail :=
  ltac:(mk_setter mail_eta m_flags).
Definition set_m_uid_broken : bool -> mbox_sync_mail -> mbox_sync_mail :=
  ltac:(mk_setter mail_eta m_uid_broken).
Definition set_m_from_offset : Z -> mbox_sync_mail -> mbox_sync_mail :=
  ltac:(mk_setter mail_eta m_from_offset).
Definition set_m_body_size : Z -> mbox_sync_mail -> mbox_sync_mail :=
  ltac:(mk_setter mail_eta m_body_size).
Definition set_m_offset : Z -> mbox_sync_mail -> mbox_sync_mail :=
  ltac:(mk_setter mail_eta m_offset).
Definition set_m_space : Z -> mbox_sync_mail -> mbox_sync_mail :=
  ltac:(mk_setter mail_eta m_space).

Definition mail_ctx_eta (r : mbox_sync_mail_context) : mbox_sync_mail_context :=
  Build_mbox_sync_mail_context (mc_mail r) (mc_seq r) (mc_hdr_offset r)
    (mc_body_offset r) (mc_hdr_md5_sum r) (mc_content_length r)
    (mc_have_eoh r) (mc_need_rewrite r) (mc_pseudo r) (mc_updated r)
    (mc_recent r) (mc_dirty r).

Definition set_mc_mail : mbox_sync_mail -> mbox_sync_mail_context -> mbox_sync_mail_context :=
  ltac:(mk_setter mail_ctx_eta mc_mail).
Definition set_mc_body_offset : Z -> mbox_sync_mail_context -> mbox_sync_mail_context :=
  ltac:(mk_setter mail_ctx_eta mc_body_offset).
Definition set_mc_seq : Z -> mbox_sync_mail_context -> mbox_sync_mail_context :=
  ltac:(mk_setter mail_ctx_eta mc_seq).
Definition set_mc_need_rewrite : bool -> mbox_sync_mail_context -> mbox_sync_mail_context :=
  ltac:(mk_setter mail_ctx_eta mc_need_rewrite).
Definition set_mc_recent : bool -> mbox_sync_mail_context -> mbox_sync_mail_context :=
  ltac:(mk_setter mail_ctx_eta mc_recent).
Definition set_mc_dirty : bool -> mbox_sync_mail_context -> mbox_sync_mail_context :=
  ltac:(mk_setter mail_ctx_eta mc_dirty).

(** Assignment to a field of [mail_ctx->mail]. *)
Definition upd_mail (f : mbox_sync_mail -> mbox_sync_mail)
    (m : mbox_sync_mail_context) : mbox_sync_mail_context :=
  set_mc_mail (f (mc_mail m)) m.

Definition ctx_eta (r : mbox_sync_context) : mbox_sync_context :=
  Build_mbox_sync_context (flags r) (write_fd r) (index_sync_ctx r) (t r)
    (hdr r) (header r) (from_line r) (base_uid_validity r) (base_uid_last r)
    (base_uid_last_offset r) (mails r) (syncs r) (sync_rec r)
    (prev_msg_uid r) (next_uid r) (idx_next_uid r) (seq r) (idx_seq r)
    (need_space_seq r) (expunged_space r) (space_diff r) (orig_mtime r)
    (orig_size r) (dest_first_mail r) (first_mail_crlf_expunged r)
    (delay_writes r) (renumber_uids r) (moved_offsets r).

Definition set_write_fd : Z -> mbox_sync_context -> mbox_sync_context :=
  ltac:(mk_setter ctx_eta write_fd).
Definition set_index_sync_ctx : bool -> mbox_sync_context -> mbox_sync_context :=
  ltac:(mk_setter ctx_eta index_sync_ctx).
Definition set_t : bool -> mbox_sync_context -> mbox_sync_context :=
  ltac:(mk_setter ctx_eta t).
Definition set_header : string -> mbox_sync_context -> mbox_sync_context :=
  ltac:(mk_setter ctx_eta header).
Definition set_from_line : string -> mbox_sync_context -> mbox_sync_context :=
  ltac:(mk_setter ctx_eta from_line).
Definition set_base_uid_validity : Z -> mbox_sync_context -> mbox_sync_context :=
  ltac:(mk_setter ctx_eta base_uid_validity).
Definition set_base_uid_last : Z -> mbox_sync_context -> mbox_sync_context :=
  ltac:(mk_setter ctx_eta base_uid_last).
Definition set_base_uid_last_offset : Z -> mbox_sync_context -> mbox_sync_context :=
  ltac:(mk_setter ctx_eta base_uid_last_offset).
Definition set_mails : list mbox_sync_mail -> mbox_sync_context -> mbox_sync_context :=
  ltac:(mk_setter ctx_eta mails).
Definition set_syncs : list mail_index_sync_rec -> mbox_sync_context -> mbox_sync_context :=
  ltac:(mk_setter ctx_eta syncs).
Definition set_sync_rec : mail_index_sync_rec -> mbox_sync_context -> mbox_sync_context :=
  ltac:(mk_setter ctx_eta sync_rec).
Definition set_prev_msg_uid : Z -> mbox_sync_context -> mbox_sync_context :=
  ltac:(mk_setter ctx_eta prev_msg_uid).
Definition set_next_uid : Z -> mbox_sync_context -> mbox_sync_context :=
  ltac:(mk_setter ctx_eta next_uid).
Definition set_idx_next_uid : Z -> mbox_sync_context -> mbox_sync_context :=
  ltac:(mk_setter ctx_eta idx_next_uid).
Definition set_seq : Z -> mbox_sync_context -> mbox_sync_context :=
  ltac:(mk_setter ctx_eta seq).
Definition set_idx_seq : Z -> mbox_sync_context -> mbox_sync_context :=
  ltac:(mk_setter ctx_eta idx_seq).
Definition set_need_space_seq : Z -> mbox_sync_context -> mbox_sync_context :=
  ltac:(mk_setter ctx_eta need_space_seq).
Definition set_expunged_space : Z -> mbox_sync_context -> mbox_sync_context :=
  ltac:(mk_setter ctx_eta expunged_space).
Definition set_space_diff : Z -> mbox_sync_context -> mbox_sync_context :=
  ltac:(mk_setter ctx_eta space_diff).
Definition set_orig_mtime : Z -> mbox_sync_context -> mbox_sync_context :=
  ltac:(mk_setter ctx_eta orig_mtime).
Definition set_orig_size : Z -> mbox_sync_context -> mbox_sync_context :=
  ltac:(mk_setter ctx_eta orig_size).
Definition set_dest_first_mail : bool -> mbox_sync_context -> mbox_sync_context :=
  ltac:(mk_setter ctx_eta dest_first_mail).
Definition set_first_mail_crlf_expunged : bool -> mbox_sync_context -> mbox_sync_context :=
  ltac:(mk_setter ctx_eta first_mail_crlf_expunged).
Definition set_renumber_uids : bool -> mbox_sync_context -> mbox_sync_context :=
  ltac:(mk_setter ctx_eta renumber_uids).
Definition set_moved_offsets : bool -> mbox_sync_context -> mbox_sync_context :=
  ltac:(mk_setter ctx_eta moved_offsets).

Definition mbox_eta (r : mbox_mailbox) : mbox_mailbox :=
  Build_mbox_mailbox (path r) (mbox_fd r) (mbox_has_file_stream r)
    (mbox_lock_type r) (mbox_readonly r) (mbox_sync_dirty r)
    (mbox_save_md5 r) (mbox_do_dirty_syncs r) (mbox_very_dirty_syncs r)
    (mbox_dirty_stamp r) (mbox_dirty_size r) (keep_recent r)
    (sync_last_check r) (commit_log_file_seq r) (commit_log_file_offset r).

Definition set_mbox_readonly : bool -> mbox_mailbox -> mbox_mailbox :=
  ltac:(mk_setter mbox_eta mbox_readonly).
Definition set_mbox_sync_dirty : bool -> mbox_mailbox -> mbox_mailbox :=
  ltac:(mk_setter mbox_eta mbox_sync_dirty).
Definition set_mbox_save_md5 : bool -> mbox_mailbox -> mbox_mailbox :=
  ltac:(mk_setter mbox_eta mbox_save_md5).
Definition set_mbox_dirty_stamp : Z -> mbox_mailbox -> mbox_mailbox :=
  ltac:(mk_setter mbox_eta mbox_dirty_stamp).
Definition set_mbox_dirty_size : Z -> mbox_mailbox -> mbox_mailbox :=
  ltac:(mk_setter mbox_eta mbox_dirty_size).
Definition set_sync_last_check : Z -> mbox_mailbox -> mbox_mailbox :=
  ltac:(mk_setter mbox_eta sync_last_check).
Definition set_commit_log_file_seq : Z -> mbox_mailbox -> mbox_mailbox :=
  ltac:(mk_setter mbox_eta commit_log_file_seq).
Definition set_commit_log_file_offset : Z -> mbox_mailbox -> mbox_mailbox :=
  ltac:(mk_setter mbox_eta commit_log_file_offset).

(** ** Collaborators

    Every function that mbox-sync.c calls and does not define is an event,
    but for the calls that build or empty a buffer, an array or a pool of
    the context, which are the operations on the values of its fields.  The
    answer type of an event holds the return value and everything the
    callee writes through its pointer arguments. *)

(** Messages given to [mail_storage_set_critical], with their arguments. *)
Inductive critical_msg :=
| CRIT_LOST_FROM_LINE (from_offset : Z)
| CRIT_EXPUNGED_REAPPEARED (uid idx_next_uid seq idx_msgs : Z)
| CRIT_UID_INSERTED (rec_uid uid seq idx_msgs : Z)
| CRIT_UIDVALIDITY_CHANGED (hdr_uid_validity base_uid_validity : Z)
| CRIT_UIDS_BROKEN_PARTIAL
| CRIT_OUT_OF_UIDS
| CRIT_UID_LAST_OUTSIDE
| CRIT_UID_LAST_LOST
| CRIT_FILE_SHRINKED (file_size v_offset : Z)
| CRIT_SEEK_BACK (old_offset : Z)
| CRIT_SEEK_END.

Inductive modify_type := MODIFY_ADD | MODIFY_REMOVE | MODIFY_REPLACE.

Inductive header_field :=
| FIELD_UID_VALIDITY | FIELD_NEXT_UID | FIELD_SYNC_STAMP | FIELD_SYNC_SIZE.

Inductive stream_id := STREAM_INPUT | STREAM_FILE_INPUT.

(** The memory that [mbox_sync] allocates for a sync context and
    [mbox_sync_context_free] releases. *)
Inductive pool_id := MAIL_KEYWORD_POOL | SAVED_KEYWORDS_POOL.
Inductive string_id := STR_HEADER | STR_FROM_LINE.
Inductive array_id := ARRAY_MAILS | ARRAY_SYNCS.

Inductive extE : Type -> Type :=
(* istream-raw-mbox.h, on sync_ctx->input *)
| RawSeek (offset : Z) : extE Z
| RawGetHeaderOffset : extE Z
| RawGetBodyOffset : extE Z
| RawGetStartOffset : extE Z
| RawGetBodySize (content_length : Z) : extE Z
| RawIsEof : extE bool
| RawNext (body_size : Z) : extE unit
| RawHasCrlfEnding : extE bool
(* istream.h *)
| StreamVOffset (i : stream_id) : extE Z
| StreamEof (i : stream_id) : extE bool
| StreamSync (i : stream_id) : extE unit
| StreamStat (exact : bool) : extE (option (Z * Z))   (* st_size, st_mtime *)
| StreamSeek (offset : Z) : extE unit
| StreamGetData : extE string
| StreamSkip (n : Z) : extE unit
| StreamRead : extE Z
(* the header parser and the rewriter *)
| ParseNextMail (c : mbox_sync_context) (m : mbox_sync_mail_context)
    : extE (mbox_sync_context * mbox_sync_mail_context)
| UpdateHeader (c : mbox_sync_context) (m : mbox_sync_mail_context)
    : extE (mbox_sync_context * mbox_sync_mail_context)
| TryRewrite (c : mbox_sync_context) (m : mbox_sync_mail_context)
    (move_diff : Z)
    : extE (Z * mbox_sync_context * mbox_sync_mail_context)
| Rewrite (c : mbox_sync_context) (m : option mbox_sync_mail_context)
    (end_offset move_diff extra_space first_seq last_seq : Z)
    : extE (Z * mbox_sync_context * option mbox_sync_mail_context)
| MboxMove (dest source size : Z) : extE Z
(* the index *)
| ViewGetMessagesCount : extE Z
| IndexGetHeader : extE mail_index_header
| IndexLookup (seq : Z) : extE (Z * option mail_index_record)
| IndexLookupUid (seq : Z) : extE (Z * Z)
| IndexLookupUidRange (uid1 uid2 : Z) : extE (Z * Z * Z)
| IndexLookupExtOffset (seq : Z) : extE (Z * option Z)
| IndexLookupExtMd5 (seq : Z) : extE (Z * option (list Z))
| IndexLookupKeywords (seq : Z) : extE (Z * list Z)
| IndexExpunge (seq : Z) : extE unit
| IndexAppend (uid : Z) : extE Z
| IndexUpdateFlags (seq : Z) (mode : modify_type) (fl : Z) : extE unit
| IndexUpdateFlagsRange (seq1 seq2 : Z) (mode : modify_type) (fl : Z)
    : extE unit
| IndexUpdateKeywords (seq : Z) (mode : modify_type) (kw : option (list Z))
    : extE unit
| IndexUpdateExtOffset (seq : Z) (offset : Z) : extE unit
| IndexUpdateExtMd5 (seq : Z) (md5 : list Z) : extE unit
| IndexUpdateHeader (f : header_field) (v : Z) (prepend : bool) : extE unit
| IndexSetRecent (seq : Z) : extE unit
| IndexGetKeywords : extE unit
| IndexMarkCorrupted : extE unit
| IndexSyncBegin (seq offset : Z) (sync_recent sync_dirty : bool) : extE Z
| IndexSyncHaveMore : extE bool
| IndexSyncNext : extE (Z * mail_index_sync_rec)
| IndexSyncReset : extE unit
| IndexSyncCommit : extE Z
| IndexSyncRollback : extE bool        (* the handle left in *ctx, non-NULL *)
| IndexSyncFlagsApply (r : mail_index_sync_rec) (fl : Z) : extE Z
| IndexSyncKeywordsApply (r : mail_index_sync_rec) (kw : list Z)
    : extE (bool * list Z)
| IndexKeywordArrayCmp (k1 k2 : option (list Z)) : extE bool
| TransactionBegin : extE unit
| TransactionCommit : extE (Z * Z * Z)                (* ret, seq, offset *)
| TransactionRollback : extE bool      (* the handle left in *t, non-NULL *)
(* error reporting *)
| SetCritical (msg : critical_msg) : extE unit
| SetError (msg : string) : extE unit
| SetIndexError : extE unit
| SetSyscallError (function : string) : extE unit
(* mbox-lock.h, mbox-file.h *)
| MboxLock (mb : mbox_mailbox) (ty : lock_type) (lock_id : Z)
    : extE (Z * Z * mbox_mailbox)                     (* ret, lock_id *)
| MboxUnlock (mb : mbox_mailbox) (lock_id : Z) : extE (Z * mbox_mailbox)
| MboxFileCloseStream (mb : mbox_mailbox) : extE mbox_mailbox
| MboxFileOpenStream (mb : mbox_mailbox) : extE (Z * mbox_mailbox)
| MboxFileSeek (mb : mbox_mailbox) (seq : Z)
    : extE (Z * bool * mbox_mailbox)                  (* ret, deleted *)
(* the operating system and the lib *)
| PreadFull (fd : Z) (size : Z) (offset : Z) : extE (Z * string)
| PwriteFull (fd : Z) (data : string) (offset : Z) : extE Z
| ErrnoIsNoSpace : extE bool                          (* ENOSPACE(errno) *)
| Ftruncate (fd : Z) (size : Z) : extE Z
| FileSetSize (fd : Z) (size : Z) : extE Z
| Stat (path : string) : extE (option (Z * Z))        (* st_size, st_mtime *)
| Utime (path : string) : extE Z
| Usleep (usecs : Z) : extE unit
| Getenv (name : string) : extE bool                  (* non-NULL *)
| IoloopTime : extE Z
| MboxFromCreate (sender : string) (time : Z) : extE string
| MessageDateCreate (time : Z) : extE string
| MyHostname : extE string
(* mempool.h, str.h, array.h: the release of the memory of the context *)
| PoolUnref (p : pool_id) : extE unit
| StrFree (b : string_id) : extE unit
| ArrayFree (a : array_id) : extE unit.

(** A call with its answer. *)
Inductive call : Type :=
| Call : forall T : Type, extE T -> T -> call.

(** The calls that change the bytes or the size of the mbox file. *)
Definition is_mbox_write (c : call) : bool :=
  match c with
  | Call (TryRewrite _ _ _) _
  | Call (Rewrite _ _ _ _ _ _ _) _
  | Call (MboxMove _ _ _) _
  | Call (PwriteFull _ _ _) _
  | Call (Ftruncate _ _) _
  | Call (FileSetSize _ _) _ => true
  | Call _ _ => false
  end.

Definition mbox_writes (tr : list call) : list call :=
  filter is_mbox_write tr.

Definition is_critical (c : call) : bool :=
  match c with
  | Call (SetCritical _) _ => true
  | Call _ _ => false
  end.

(** ** The monad of the engine *)

Inductive outcome (A : Type) : Type :=
| Ok (a : A)
| Panic           (* a failed i_assert, or a NULL record dereferenced *)
| OutOfFuel.      (* the loop budget of the model is used up *)

Arguments Ok {A} a.
Arguments Panic {A}.
Arguments OutOfFuel {A}.

(** The collaborators of a run: the handler that answers their calls, and
    the constants of headers that are not part of this file. *)
Record env (W : Type) : Type := {
  env_handle : forall T : Type, extE T -> W -> T * W;
  env_MBOX_HEADER_PADDING : Z;
  env_MAIL_FLAGS_MASK : Z;
  env_MAIL_RECENT : Z;
  env_MAIL_INDEX_MAIL_FLAG_DIRTY : Z;
  env_MBOX_EXPUNGED : Z
}.

(** The state of a run: the state [ext] of the collaborators, the calls
    made so far, the mailbox and the sync context. *)
Record st (W : Type) : Type := {
  ext : W;
  trace : list call;
  mbox : mbox_mailbox;
  ctx : mbox_sync_context
}.

Arguments Build_st {W} _ _ _ _.

Definition M (W A : Type) : Type := st W -> outcome A * st W.

Definition ret {W A} (a : A) : M W A := fun s => (Ok a, s).

Definition bind {W A B} (m : M W A) (k : A -> M W B) : M W B :=
  fun s =>
    match m s with
    | (Ok a, s') => k a s'
    | (Panic, s') => (Panic, s')
    | (OutOfFuel, s') => (OutOfFuel, s')
    end.

Definition panic {W A} : M W A := fun s => (Panic, s).
Definition out_of_fuel {W A} : M W A := fun s => (OutOfFuel, s).

Definition i_assert {W} (b : bool) : M W unit :=
  if b then ret tt else panic.

Definition get_ctx {W} : M W mbox_sync_context := fun s => (Ok (ctx s), s).
Definition get_mbox {W} : M W mbox_mailbox := fun s => (Ok (mbox s), s).

Definition put_ctx {W} (c : mbox_sync_context) : M W unit :=
  fun s => (Ok tt, {| ext := ext s; trace := trace s; mbox := mbox s;
                      ctx := c |}).
Definition put_mbox {W} (mb : mbox_mailbox) : M W unit :=
  fun s => (Ok tt, {| ext := ext s; trace := trace s; mbox := mb;
                      ctx := ctx s |}).

Definition modify_ctx {W} (f : mbox_sync_context -> mbox_sync_context)
  : M W unit :=
  fun s => (Ok tt, {| ext := ext s; trace := trace s; mbox := mbox s;
                      ctx := f (ctx s) |}).
Definition modify_mbox {W} (f : mbox_mailbox -> mbox_mailbox) : M W unit :=
  fun s => (Ok tt, {| ext := ext s; trace := trace s; mbox := f (mbox s);
                      ctx := ctx s |}).

Notation "x <- c1 ;; c2" := (bind c1 (fun x => c2))
  (at level 61, c1 at next level, right associativity).
Notation "' pat <- c1 ;; c2" := (bind c1 (fun x => let 'pat := x in c2))
  (at level 61, pat pattern, c1 at next level, right associativity).
Notation "c1 ;; c2" := (bind c1 (fun _ => c2))
  (at level 61, right associativity).

(** A loop that is left either by [return] or by falling out of it. *)
Inductive flow (R A : Type) : Type :=
| Return (r : R)
| Fall (a : A).

Arguments Return {R A} r.
Arguments Fall {R A} a.

Definition LF : string := String (ascii_of_nat 10) "".

(** [memset(&sync_ctx, 0, sizeof(sync_ctx))] and the assignments that
    follow it, up to the start of the transaction. *)
Definition sync_ctx_init (h : mail_index_header) (fl : mbox_sync_flags)
    (delay : bool) : mbox_sync_context :=
  {| flags := fl; write_fd := 0; index_sync_ctx := true; t := true;
     hdr := h; header := ""; from_line := "";
     base_uid_validity := 0; base_uid_last := 0; base_uid_last_offset := 0;
     mails := []; syncs := []; sync_rec := sync_rec_zero;
     prev_msg_uid := 0; next_uid := 0; idx_next_uid := 0; seq := 0;
     idx_seq := 0; need_space_seq := 0; expunged_space := 0;
     space_diff := 0; orig_mtime := 0; orig_size := 0;
     dest_first_mail := false; first_mail_crlf_expunged := false;
     delay_writes := delay; renumber_uids := false;
     moved_offsets := false |}.

(** ** A scripted collaborator

    A small world that answers every call from a script: the mails the
    parser will find, the index records, the queue of sync records and the
    results of the system calls.  It is used to run the engine on concrete
    inputs. *)

Record sim := {
  sim_mails : list (mbox_sync_mail_context -> mbox_sync_mail_context);
  sim_base : option (Z * Z * Z);   (* uid_validity, uid_last, offset *)
  sim_index : list mail_index_record;
  sim_hdr : mail_index_header;
  sim_syncs : list mail_index_sync_rec;
  sim_sync_next_fails : bool;
  sim_sync_begin : Z;
  sim_have_more : bool;
  sim_stat : Z * Z;                (* st_size, st_mtime *)
  sim_pread : Z * string;
  sim_pwrite : Z;
  sim_nospace : bool;
  sim_try_rewrite : Z;
  sim_lock : Z;                    (* what mbox_lock returns *)
  sim_locks_taken : Z              (* the last lock id given out *)
}.

Definition sim_eta (r : sim) : sim :=
  Build_sim (sim_mails r) (sim_base r) (sim_index r) (sim_hdr r)
    (sim_syncs r) (sim_sync_next_fails r) (sim_sync_begin r)
    (sim_have_more r) (sim_stat r) (sim_pread r) (sim_pwrite r)
    (sim_nospace r) (sim_try_rewrite r) (sim_lock r) (sim_locks_taken r).

Definition set_sim_mails
  : list (mbox_sync_mail_context -> mbox_sync_mail_context) -> sim -> sim :=
  ltac:(mk_setter sim_eta sim_mails).
Definition set_sim_base : option (Z * Z * Z) -> sim -> sim :=
  ltac:(mk_setter sim_eta sim_base).
Definition set_sim_hdr : mail_index_header -> sim -> sim :=
  ltac:(mk_setter sim_eta sim_hdr).
Definition set_sim_syncs : list mail_index_sync_rec -> sim -> sim :=
  ltac:(mk_setter sim_eta sim_syncs).
Definition set_sim_sync_next_fails : bool -> sim -> sim :=
  ltac:(mk_setter sim_eta sim_sync_next_fails).
Definition set_sim_stat : Z * Z -> sim -> sim :=
  ltac:(mk_setter sim_eta sim_stat).
Definition set_sim_pread : Z * string -> sim -> sim :=
  ltac:(mk_setter sim_eta sim_pread).
Definition set_sim_pwrite : Z -> sim -> sim :=
  ltac:(mk_setter sim_eta sim_pwrite).
Definition set_sim_nospace : bool -> sim -> sim :=
  ltac:(mk_setter sim_eta sim_nospace).
Definition set_sim_locks_taken : Z -> sim -> sim :=
  ltac:(mk_setter sim_eta sim_locks_taken).

Definition sim_pop_mail (w : sim) : sim :=
  set_sim_mails (tl (sim_mails w)) w.

Definition sim_pop_sync (w : sim) : sim :=
  set_sim_syncs (tl (sim_syncs w)) w.

Definition sim_locked (ty : lock_type) (mb : mbox_mailbox) : mbox_mailbox :=
  {| path := path mb; mbox_fd := mbox_fd mb;
     mbox_has_file_stream := mbox_has_file_stream mb; mbox_lock_type := ty;
     mbox_readonly := mbox_readonly mb; mbox_sync_dirty := mbox_sync_dirty mb;
     mbox_save_md5 := mbox_save_md5 mb;
     mbox_do_dirty_syncs := mbox_do_dirty_syncs mb;
     mbox_very_dirty_syncs := mbox_very_dirty_syncs mb;
     mbox_dirty_stamp := mbox_dirty_stamp mb;
     mbox_dirty_size := mbox_dirty_size mb; keep_recent := keep_recent mb;
     sync_last_check := sync_last_check mb;
     commit_log_file_seq := commit_log_file_seq mb;
     commit_log_file_offset := commit_log_file_offset mb |}.

(** The parser of the script: the next scripted mail, and on the first
    mail the X-IMAPbase values of the script. *)
Definition sim_parse (w : sim) (c : mbox_sync_context)
    (m : mbox_sync_mail_context) : mbox_sync_context * mbox_sync_mail_context :=
  let m' := match sim_mails w with f :: _ => f m | [] => m end in
  match sim_base w with
  | Some (v, l, o) =>
    if mc_seq m =? 1
    then (set_base_uid_last_offset o
            (set_base_uid_last l (set_base_uid_validity v c)), m')
    else (c, m')
  | None => (c, m')
  end.

Definition sim_handle (T : Type) (e : extE T) (w : sim) : T * sim :=
  match e in extE T return T * sim with
  | RawSeek _ => (0, w)
  | RawGetHeaderOffset => (0, w)
  | RawGetBodyOffset => (0, w)
  | RawGetStartOffset => (0, w)
  | RawGetBodySize _ => (0, w)
  | RawIsEof => (match sim_mails w with [] => true | _ => false end, w)
  | RawNext _ => (tt, sim_pop_mail w)
  | RawHasCrlfEnding => (false, w)
  | StreamVOffset STREAM_INPUT => (1, w)
  | StreamVOffset STREAM_FILE_INPUT => (fst (sim_stat w), w)
  | StreamEof _ => (true, w)
  | StreamSync _ => (tt, w)
  | StreamStat _ => (Some (sim_stat w), w)
  | StreamSeek _ => (tt, w)
  | StreamGetData => ("", w)
  | StreamSkip _ => (tt, w)
  | StreamRead => (-1, w)
  | ParseNextMail c m => (sim_parse w c m, w)
  | UpdateHeader c m => ((c, m), w)
  | TryRewrite c m _ => ((sim_try_rewrite w, c, m), w)
  | Rewrite c m _ _ _ _ _ => ((0, c, m), w)
  | MboxMove _ _ _ => (0, w)
  | ViewGetMessagesCount => (Z.of_nat (List.length (sim_index w)), w)
  | IndexGetHeader => (sim_hdr w, w)
  | IndexLookup s =>
    (match nth_error (sim_index w) (Z.to_nat (s - 1)) with
     | Some r => (1, Some r)
     | None => (0, None)
     end, w)
  | IndexLookupUid s =>
    (match nth_error (sim_index w) (Z.to_nat (s - 1)) with
     | Some r => (1, ir_uid r)
     | None => (0, 0)
     end, w)
  | IndexLookupUidRange _ _ => ((0, 0, 0), w)
  | IndexLookupExtOffset _ => ((0, None), w)
  | IndexLookupExtMd5 _ => ((0, None), w)
  | IndexLookupKeywords _ => ((0, []), w)
  | IndexExpunge _ => (tt, w)
  | IndexAppend _ => (Z.of_nat (List.length (sim_index w)) + 1, w)
  | IndexUpdateFlags _ _ _ => (tt, w)
  | IndexUpdateFlagsRange _ _ _ _ => (tt, w)
  | IndexUpdateKeywords _ _ _ => (tt, w)
  | IndexUpdateExtOffset _ _ => (tt, w)
  | IndexUpdateExtMd5 _ _ => (tt, w)
  | IndexUpdateHeader _ _ _ => (tt, w)
  | IndexSetRecent _ => (tt, w)
  | IndexGetKeywords => (tt, w)
  | IndexMarkCorrupted => (tt, w)
  | IndexSyncBegin _ _ _ _ => (sim_sync_begin w, w)
  | IndexSyncHaveMore => (sim_have_more w, w)
  | IndexSyncNext =>
    if sim_sync_next_fails w then ((-1, sync_rec_zero), w)
    else match sim_syncs w with
         | r :: _ => ((1, r), sim_pop_sync w)
         | [] => ((0, sync_rec_zero), w)
         end
  | IndexSyncReset => (tt, w)
  | IndexSyncCommit => (0, w)
  | IndexSyncRollback => (false, w)
  | IndexSyncFlagsApply r fl =>
    (Z.lor (Z.land fl (Z.lnot (sr_remove_flags r))) (sr_add_flags r), w)
  | IndexSyncKeywordsApply _ kw => ((false, kw), w)
  | IndexKeywordArrayCmp _ _ => (true, w)
  | TransactionBegin => (tt, w)
  | TransactionCommit => ((0, 0, 0), w)
  | TransactionRollback => (false, w)
  | SetCritical _ => (tt, w)
  | SetError _ => (tt, w)
  | SetIndexError => (tt, w)
  | SetSyscallError _ => (tt, w)
  | MboxLock mb ty id =>
    if sim_lock w <=? 0 then ((sim_lock w, id, mb), w)
    else ((sim_lock w, sim_locks_taken w + 1, sim_locked ty mb),
          set_sim_locks_taken (sim_locks_taken w + 1) w)
  | MboxUnlock mb _ => ((0, mb), w)
  | MboxFileCloseStream mb => (mb, w)
  | MboxFileOpenStream mb => ((0, mb), w)
  | MboxFileSeek mb _ => ((1, false, mb), w)
  | PreadFull _ _ _ => (sim_pread w, w)
  | PwriteFull _ _ _ => (sim_pwrite w, w)
  | ErrnoIsNoSpace => (sim_nospace w, w)
  | Ftruncate _ _ => (0, w)
  | FileSetSize _ _ => (0, w)
  | Stat _ => (Some (sim_stat w), w)
  | Utime _ => (0, w)
  | Usleep _ => (tt, w)
  | Getenv _ => (false, w)
  | IoloopTime => (1000, w)
  | MboxFromCreate _ _ => ("From MAILER_DAEMON" ++ LF, w)%string
  | MessageDateCreate _ => ("Thu, 01 Jan 1970 00:16:40 +0000", w)
  | MyHostname => ("localhost", w)
  | PoolUnref _ => (tt, w)
  | StrFree _ => (tt, w)
  | ArrayFree _ => (tt, w)
  end.

(** The scripted collaborators, with the constants of the headers. *)
Definition sim_env : env sim :=
  {| env_handle := sim_handle;
     env_MBOX_HEADER_PADDING := 64;
     env_MAIL_FLAGS_MASK := 63;
     env_MAIL_RECENT := 32;
     env_MAIL_INDEX_MAIL_FLAG_DIRTY := 128;
     env_MBOX_EXPUNGED := 64 |}.

Definition sim_world : sim :=
  {| sim_mails := []; sim_base := None; sim_index := [];
     sim_hdr := {| h_uid_validity := 0; h_next_uid := 1; h_sync_stamp := 0;
                   h_sync_size := 0 |};
     sim_syncs := []; sim_sync_next_fails := false; sim_sync_begin := 1;
     sim_have_more := true; sim_stat := (0, 0); sim_pread := (1, "");
     sim_pwrite := 0; sim_nospace := false; sim_try_rewrite := 1;
     sim_lock := 1; sim_locks_taken := 0 |}.

Definition sim_mbox : mbox_mailbox :=
  {| path := "/var/mail/user"; mbox_fd := 3; mbox_has_file_stream := false;
     mbox_lock_type := F_UNLCK; mbox_readonly := false;
     mbox_sync_dirty := false; mbox_save_md5 := false;
     mbox_do_dirty_syncs := true; mbox_very_dirty_syncs := false;
     mbox_dirty_stamp := 0; mbox_dirty_size := 0; keep_recent := false;
     sync_last_check := 0; commit_log_file_seq := 0;
     commit_log_file_offset := 0 |}.

Definition no_flags : mbox_sync_flags :=
  {| MBOX_SYNC_LAST_COMMIT := false; MBOX_SYNC_HEADER := false;
     MBOX_SYNC_LOCK_READING := false; MBOX_SYNC_UNDIRTY := false;
     MBOX_SYNC_REWRITE := false; MBOX_SYNC_FORCE_SYNC := false |}.

Definition sim_ctx : mbox_sync_context :=
  set_write_fd 3 (sync_ctx_init (sim_hdr sim_world) no_flags false).

Definition sim_st (w : sim) (mb : mbox_mailbox) (c : mbox_sync_context)
  : st sim :=
  {| ext := w; trace := []; mbox := mb; ctx := c |}.


(** ** mbox-sync.c *)

Section Engine.

Context {W : Type}.
Variable E : env W.

Local Abbreviation MBOX_HEADER_PADDING := (env_MBOX_HEADER_PADDING E).
Local Abbreviation MAIL_FLAGS_MASK := (env_MAIL_FLAGS_MASK E).
Local Abbreviation MAIL_RECENT := (env_MAIL_RECENT E).
Local Abbreviation MAIL_INDEX_MAIL_FLAG_DIRTY := (env_MAIL_INDEX_MAIL_FLAG_DIRTY E).
Local Abbreviation MBOX_EXPUNGED := (env_MBOX_EXPUNGED E).

(** Call a collaborator: the handler answers, the call is logged. *)
Definition call_ext {T} (e : extE T) : M W T :=
  fun s =>
    let r := env_handle E e (ext s) in
    (Ok (fst r),
     {| ext := snd r; trace := trace s ++ [Call e (fst r)];
        mbox := mbox s; ctx := ctx s |}).

Definition mbox_sync_seek (from_offset : Z) : M W Z :=
  r <- call_ext (RawSeek from_offset) ;;
  if r <? 0 then
    call_ext (SetCritical (CRIT_LOST_FROM_LINE from_offset)) ;;
    ret (-1)
  else ret 0.

(** Keeps the records whose range does not end before [last_uid]; the
    assertion is checked on every record of the array. *)
Definition mbox_sync_array_delete_to (last_uid : Z) : M W unit :=
  c <- get_ctx ;;
  i_assert (forallb (fun r => sr_uid1 r <=? last_uid) (syncs c)) ;;
  modify_ctx (set_syncs (filter (fun r => last_uid <=? sr_uid2 r) (syncs c))).

Definition mbox_sync_read_next_mail (mail_ctx : mbox_sync_mail_context)
  : M W (Z * mbox_sync_mail_context) :=
  (* get EOF *)
  call_ext RawGetHeaderOffset ;;
  eof <- call_ext RawIsEof ;;
  if eof then ret (0, mail_ctx)
  else
    modify_ctx (fun c => set_seq (u32 (seq c + 1)) c) ;;
    c <- get_ctx ;;
    let m := set_mc_seq (seq c) mail_ctx_zero in
    from_offset <- call_ext RawGetStartOffset ;;
    offset <- call_ext RawGetHeaderOffset ;;
    let m := upd_mail (fun x => set_m_offset offset
                                  (set_m_from_offset from_offset x)) m in
    ' (c', m) <- call_ext (ParseNextMail c m) ;;
    put_ctx c' ;;
    v_offset <- call_ext (StreamVOffset STREAM_INPUT) ;;
    at_eof <- (if v_offset =? m_from_offset (mc_mail m)
               then call_ext (StreamEof STREAM_INPUT) else ret true) ;;
    i_assert at_eof ;;
    body_size <- call_ext (RawGetBodySize (mc_content_length m)) ;;
    let m := upd_mail (set_m_body_size body_size) m in
    i_assert (body_size <? OFF_T_MAX) ;;
    mb <- get_mbox ;;
    let m :=
      if negb (Z.land (m_flags (mc_mail m)) MAIL_RECENT =? 0)
         && negb (mc_pseudo m)
      then
        (* need to add 'O' flag to Status-header *)
        set_mc_recent true
          (if negb (keep_recent mb) then set_mc_need_rewrite true m else m)
      else m in
    ret (1, m).

Definition mbox_sync_buf_have_expunges (syncs_arr : list mail_index_sync_rec)
  : bool :=
  existsb (fun r => sync_type_eqb (sr_type r) SYNC_TYPE_EXPUNGE) syncs_arr.

(** The [while] loop of [mbox_sync_read_index_syncs].  The first component
    of the result is [-1] when the function returns from inside the loop and
    [0] when the loop is left; the second is [*sync_expunge_r]. *)
Fixpoint read_index_syncs_loop (fuel : nat) (uid : Z) (sync_expunge : bool)
  : M W (Z * bool) :=
  match fuel with
  | O => out_of_fuel
  | S fuel' =>
    c <- get_ctx ;;
    mb <- get_mbox ;;
    let sr := sync_rec c in
    if uid >=? sr_uid1 sr then
      let take :=
        (uid <=? sr_uid2 sr)
        && negb (sync_type_eqb (sr_type sr) SYNC_TYPE_APPEND)
        && (negb (sync_type_eqb (sr_type sr) SYNC_TYPE_EXPUNGE)
            || negb (mbox_readonly mb)) in
      (if take then modify_ctx (fun c => set_syncs (syncs c ++ [sr]) c)
       else ret tt) ;;
      let sync_expunge :=
        if take && sync_type_eqb (sr_type sr) SYNC_TYPE_EXPUNGE
        then true else sync_expunge in
      ' (r, next) <- call_ext IndexSyncNext ;;
      modify_ctx (set_sync_rec next) ;;
      if r <? 0 then
        call_ext SetIndexError ;;
        ret (-1, sync_expunge)
      else if r =? 0 then
        modify_ctx (set_sync_rec sync_rec_zero) ;;
        ret (0, sync_expunge)
      else
        match sr_type next with
        | SYNC_TYPE_APPEND =>
          modify_ctx (fun c =>
            if sr_uid2 next >=? next_uid c
            then set_next_uid (u32 (sr_uid2 next + 1)) c else c) ;;
          modify_ctx (set_sync_rec sync_rec_zero) ;;
          read_index_syncs_loop fuel' uid sync_expunge
        | SYNC_TYPE_FLAGS
        | SYNC_TYPE_KEYWORD_ADD
        | SYNC_TYPE_KEYWORD_REMOVE
        | SYNC_TYPE_KEYWORD_RESET =>
          if delay_writes c then
            (* we're not going to write these yet *)
            ' (r, seq1, seq2) <-
               call_ext (IndexLookupUidRange (sr_uid1 next) (sr_uid2 next)) ;;
            if r <? 0 then ret (-1, sync_expunge)
            else
              (if seq1 >? 0 then
                 call_ext (IndexUpdateFlagsRange seq1 seq2 MODIFY_ADD
                             MAIL_INDEX_MAIL_FLAG_DIRTY)
               else ret tt) ;;
              modify_ctx (set_sync_rec sync_rec_zero) ;;
              read_index_syncs_loop fuel' uid sync_expunge
          else read_index_syncs_loop fuel' uid sync_expunge
        | SYNC_TYPE_EXPUNGE
        | SYNC_TYPE_NONE => read_index_syncs_loop fuel' uid sync_expunge
        end
    else ret (0, sync_expunge)
  end.

Definition mbox_sync_read_index_syncs (fuel : nat) (uid : Z) : M W (Z * bool) :=
  c <- get_ctx ;;
  if negb (index_sync_ctx c) then ret (0, false)
  else
    (* nothing for this or the future ones *)
    let uid := if uid =? 0 then UINT32_MAX else uid in
    mbox_sync_array_delete_to uid ;;
    ' (r, sync_expunge) <- read_index_syncs_loop fuel uid false ;;
    if r <? 0 then ret (-1, sync_expunge)
    else
      c <- get_ctx ;;
      ret (0, if sync_expunge then true
              else mbox_sync_buf_have_expunges (syncs c)).

(** Applies the buffered sync records to [mail]; the second component of
    the result is [*keywords_changed_r]. *)
Fixpoint apply_index_syncs_loop (l : list mail_index_sync_rec)
    (mail : mbox_sync_mail) (keywords_changed : bool)
  : M W (mbox_sync_mail * bool) :=
  match l with
  | [] => ret (mail, keywords_changed)
  | r :: l' =>
    match sr_type r with
    | SYNC_TYPE_FLAGS =>
      fl <- call_ext (IndexSyncFlagsApply r (m_flags mail)) ;;
      apply_index_syncs_loop l' (set_m_flags fl mail) keywords_changed
    | SYNC_TYPE_KEYWORD_ADD
    | SYNC_TYPE_KEYWORD_REMOVE
    | SYNC_TYPE_KEYWORD_RESET =>
      match m_keywords mail, sr_type r with
      | None, SYNC_TYPE_KEYWORD_REMOVE
      | None, SYNC_TYPE_KEYWORD_RESET =>
        (* no existing keywords *)
        apply_index_syncs_loop l' mail keywords_changed
      | kw, _ =>
        ' (changed, kw') <-
           call_ext (IndexSyncKeywordsApply r
                       (match kw with Some k => k | None => [] end)) ;;
        apply_index_syncs_loop l' (set_m_keywords (Some kw') mail)
          (if changed then true else keywords_changed)
      end
    | _ => apply_index_syncs_loop l' mail keywords_changed
    end
  end.

Definition mbox_sync_apply_index_syncs (mail : mbox_sync_mail)
  : M W (mbox_sync_mail * bool) :=
  c <- get_ctx ;;
  apply_index_syncs_loop (syncs c) mail false.

(** The scan of [mbox_sync_read_index_rec]: index records with a UID below
    [uid] were expunged externally and are removed from the index. *)
Fixpoint read_index_rec_loop (fuel : nat) (uid messages_count : Z)
    (rec : option mail_index_record)
  : M W (flow Z (option mail_index_record)) :=
  match fuel with
  | O => out_of_fuel
  | S fuel' =>
    c <- get_ctx ;;
    if idx_seq c <=? messages_count then
      ' (r, rec) <- call_ext (IndexLookup (idx_seq c)) ;;
      if r <? 0 then
        call_ext SetIndexError ;;
        ret (Return (-1))
      else
        i_assert (negb (r =? 0)) ;; (* we should be looking at head index *)
        match rec with
        | None => panic
        | Some rc =>
          if uid <=? ir_uid rc then ret (Fall (Some rc))
          else
            (* externally expunged message, remove from index *)
            call_ext (IndexExpunge (idx_seq c)) ;;
            modify_ctx (fun c => set_idx_seq (u32 (idx_seq c + 1)) c) ;;
            read_index_rec_loop fuel' uid messages_count None
        end
    else ret (Fall rec)
  end.

Definition mbox_sync_read_index_rec (fuel : nat) (uid : Z)
  : M W (Z * option mail_index_record) :=
  messages_count <- call_ext ViewGetMessagesCount ;;
  f <- read_index_rec_loop fuel uid messages_count None ;;
  match f with
  | Return r => ret (r, None)
  | Fall rec =>
    c <- get_ctx ;;
    match rec with
    | None =>
      if uid <? idx_next_uid c then
        (* this UID was already in index and it was expunged *)
        call_ext (SetCritical (CRIT_EXPUNGED_REAPPEARED uid (idx_next_uid c)
                                 (seq c) messages_count)) ;;
        ret (0, None)
      else ret (1, None)
    | Some rc =>
      if negb (ir_uid rc =? uid) then
        (* new UID in the middle of the mailbox - shouldn't happen *)
        call_ext (SetCritical (CRIT_UID_INSERTED (ir_uid rc) uid (seq c)
                                 messages_count)) ;;
        ret (0, None)
      else ret (1, Some rc)
    end
  end.

Fixpoint list_Z_eqb (a b : list Z) : bool :=
  match a, b with
  | [], [] => true
  | x :: a', y :: b' => (x =? y) && list_Z_eqb a' b'
  | _, _ => false
  end.

(** [memcmp(a, b, 16) == 0] *)
Definition md5_equal (a b : list Z) : bool :=
  list_Z_eqb (firstn 16 a) (firstn 16 b).

Fixpoint find_index_md5_loop (fuel : nat) (hdr_md5_sum : list Z)
    (messages_count : Z) (rec : option mail_index_record)
  : M W (flow Z (option mail_index_record)) :=
  match fuel with
  | O => out_of_fuel
  | S fuel' =>
    c <- get_ctx ;;
    if idx_seq c <=? messages_count then
      ' (r, rec) <- call_ext (IndexLookup (idx_seq c)) ;;
      if r <? 0 then
        call_ext SetIndexError ;;
        ret (Return (-1))
      else
        ' (r, data) <- call_ext (IndexLookupExtMd5 (idx_seq c)) ;;
        if r <? 0 then
          call_ext SetIndexError ;;
          ret (Return (-1))
        else if match data with
                | Some d => md5_equal d hdr_md5_sum
                | None => false
                end
        then ret (Fall rec)
        else
          (* externally expunged message, remove from index *)
          call_ext (IndexExpunge (idx_seq c)) ;;
          modify_ctx (fun c => set_idx_seq (u32 (idx_seq c + 1)) c) ;;
          find_index_md5_loop fuel' hdr_md5_sum messages_count None
    else ret (Fall rec)
  end.

Definition mbox_sync_find_index_md5 (fuel : nat) (hdr_md5_sum : list Z)
  : M W (Z * option mail_index_record) :=
  messages_count <- call_ext ViewGetMessagesCount ;;
  f <- find_index_md5_loop fuel hdr_md5_sum messages_count None ;;
  match f with
  | Return r => ret (r, None)
  | Fall rec => ret (0, rec)
  end.

Definition mbox_sync_update_from_offset (mail : mbox_sync_mail)
    (nocheck : bool) : M W Z :=
  c <- get_ctx ;;
  let update :=
    call_ext (IndexUpdateExtOffset (idx_seq c) (m_from_offset mail)) ;;
    ret 0 in
  if negb nocheck then
    (* see if from_offset needs updating *)
    ' (r, data) <- call_ext (IndexLookupExtOffset (idx_seq c)) ;;
    if r <? 0 then
      call_ext SetIndexError ;;
      ret (-1)
    else
      match data with
      | Some d => if d =? m_from_offset mail then ret 0 else update
      | None => update
      end
  else update.

Definition mbox_sync_update_index_keywords
    (mail_ctx : mbox_sync_mail_context) : M W unit :=
  c <- get_ctx ;;
  call_ext (IndexUpdateKeywords (idx_seq c) MODIFY_REPLACE
              (m_keywords (mc_mail mail_ctx))).

Definition mbox_sync_update_md5_if_changed
    (mail_ctx : mbox_sync_mail_context) : M W Z :=
  c <- get_ctx ;;
  ' (r, ext_data) <- call_ext (IndexLookupExtMd5 (idx_seq c)) ;;
  if r <? 0 then
    call_ext SetIndexError ;;
    ret (-1)
  else
    (if match ext_data with
        | None => true
        | Some d => negb (md5_equal (mc_hdr_md5_sum mail_ctx) d)
        end
     then call_ext (IndexUpdateExtMd5 (idx_seq c) (mc_hdr_md5_sum mail_ctx))
     else ret tt) ;;
    ret 0.

Definition SYNC_FLAGS : Z := Z.lor MAIL_RECENT MAIL_INDEX_MAIL_FLAG_DIRTY.

Definition mbox_sync_update_index (mail_ctx : mbox_sync_mail_context)
    (rec : option mail_index_record) : M W Z :=
  c <- get_ctx ;;
  mb <- get_mbox ;;
  let mail := mc_mail mail_ctx in
  let mbox_flags := u8 (Z.land (m_flags mail) MAIL_FLAGS_MASK) in
  let mbox_flags :=
    if mc_dirty mail_ctx
    then u8 (Z.lor mbox_flags MAIL_INDEX_MAIL_FLAG_DIRTY)
    else if negb (delay_writes c)
    then u8 (Z.land mbox_flags (Z.lnot MAIL_INDEX_MAIL_FLAG_DIRTY))
    else mbox_flags in
  r <-
    match rec with
    | None =>
      (* new message *)
      new_seq <- call_ext (IndexAppend (m_uid mail)) ;;
      modify_ctx (set_idx_seq new_seq) ;;
      call_ext (IndexUpdateFlags new_seq MODIFY_REPLACE mbox_flags) ;;
      mbox_sync_update_index_keywords mail_ctx ;;
      (if mbox_save_md5 mb
       then call_ext (IndexUpdateExtMd5 new_seq (mc_hdr_md5_sum mail_ctx))
       else ret tt) ;;
      ret 0
    | Some rc =>
      (* see if we need to update flags in index file *)
      let idx_mail := set_m_flags (ir_flags rc) mail_zero in
      (* get old keywords *)
      ' (r, kw) <- call_ext (IndexLookupKeywords (idx_seq c)) ;;
      if r <? 0 then
        call_ext SetIndexError ;;
        ret (-1)
      else
        ' (idx_mail, _) <-
           mbox_sync_apply_index_syncs (set_m_keywords (Some kw) idx_mail) ;;
        let idx_dirty :=
          negb (Z.land (m_flags idx_mail) MAIL_INDEX_MAIL_FLAG_DIRTY =? 0) in
        let mbox_flags :=
          if idx_dirty then
            (* flags are dirty. ignore whatever was in the mbox, but update
               recent/dirty flag states if needed. *)
            let f := u8 (Z.land mbox_flags SYNC_FLAGS) in
            let f := u8 (Z.lor f (Z.land (m_flags idx_mail)
                                    (Z.lnot SYNC_FLAGS))) in
            if delay_writes c
            then u8 (Z.lor f MAIL_INDEX_MAIL_FLAG_DIRTY) else f
          else
            (* keep index's internal flags *)
            let f := u8 (Z.land mbox_flags
                           (Z.lor MAIL_FLAGS_MASK SYNC_FLAGS)) in
            u8 (Z.lor f (Z.land (m_flags idx_mail)
                           (Z.lnot (Z.lor MAIL_FLAGS_MASK SYNC_FLAGS)))) in
        (if negb (Z.land (m_flags idx_mail) (Z.lnot SYNC_FLAGS)
                  =? Z.land mbox_flags (Z.lnot SYNC_FLAGS))
         then
           (* flags other than recent/dirty have changed *)
           call_ext (IndexUpdateFlags (idx_seq c) MODIFY_REPLACE mbox_flags)
         else
           (if negb (Z.land (Z.lxor (m_flags idx_mail) mbox_flags)
                       MAIL_RECENT =? 0)
            then (* drop recent flag (it can only be dropped) *)
              call_ext (IndexUpdateFlags (idx_seq c) MODIFY_REMOVE
                          MAIL_RECENT)
            else ret tt) ;;
           (if negb (Z.land (Z.lxor (m_flags idx_mail) mbox_flags)
                       MAIL_INDEX_MAIL_FLAG_DIRTY =? 0)
            then (* dirty flag state changed *)
              let dirty :=
                negb (Z.land mbox_flags MAIL_INDEX_MAIL_FLAG_DIRTY =? 0) in
              call_ext (IndexUpdateFlags (idx_seq c)
                          (if dirty then MODIFY_ADD else MODIFY_REMOVE)
                          MAIL_INDEX_MAIL_FLAG_DIRTY)
            else ret tt)) ;;
        same <- (if idx_dirty then ret true
                 else call_ext (IndexKeywordArrayCmp (m_keywords idx_mail)
                                  (m_keywords mail))) ;;
        (if negb idx_dirty && negb same
         then mbox_sync_update_index_keywords mail_ctx else ret tt) ;;
        (* see if we need to update md5 sum. *)
        if mbox_save_md5 mb
        then mbox_sync_update_md5_if_changed mail_ctx
        else ret 0
    end ;;
  if r <? 0 then ret (-1)
  else
    c <- get_ctx ;;
    (if mc_recent mail_ctx
        && match rec with
           | None => true
           | Some rc =>
             (Z.land (ir_flags rc) MAIL_INDEX_MAIL_FLAG_DIRTY =? 0)
             || negb (Z.land (ir_flags rc) MAIL_RECENT =? 0)
           end
     then call_ext (IndexSetRecent (idx_seq c)) else ret tt) ;;
    (* update from_offsets, but not if we're going to rewrite this message.
       rewriting would just move it anyway. *)
    if need_space_seq c =? 0 then
      let nocheck :=
        match rec with None => true | Some _ => false end
        || (expunged_space c >? 0) in
      r <- mbox_sync_update_from_offset mail nocheck ;;
      if r <? 0 then ret (-1) else ret 0
    else ret 0.

Definition string_len (s : string) : Z := Z.of_nat (String.length s).

Fixpoint read_from_line_loop (fuel : nat) (from_line_size : Z) : M W Z :=
  match fuel with
  | O => out_of_fuel
  | S fuel' =>
    data <- call_ext StreamGetData ;;
    let size := if string_len data >=? from_line_size
                then from_line_size else string_len data in
    modify_ctx (fun c =>
      set_from_line (from_line c ++ substring 0 (Z.to_nat size) data)%string
        c) ;;
    call_ext (StreamSkip size) ;;
    let from_line_size := u64 (from_line_size - size) in
    if from_line_size =? 0 then ret 0
    else
      r <- call_ext StreamRead ;;
      if r <? 0 then ret (-1)
      else read_from_line_loop fuel' from_line_size
  end.

Definition mbox_read_from_line (fuel : nat) (m : mbox_sync_mail_context)
  : M W Z :=
  modify_ctx (set_from_line "") ;;
  let from_line_size := u64 (mc_hdr_offset m - m_from_offset (mc_mail m)) in
  call_ext (StreamSeek (m_from_offset (mc_mail m))) ;;
  read_from_line_loop fuel from_line_size.

(** [buf[i]] of an [unsigned char] buffer. *)
Definition buf_byte (buf : string) (i : nat) : Z :=
  match String.get i buf with
  | Some ch => Z.of_nat (nat_of_ascii ch)
  | None => 0
  end.

(** The [for] loop of [mbox_rewrite_base_uid_last] over [buf[i..i+n-1]]:
    the digits are accumulated in a [uint32_t], a byte that is not a digit
    ends the loop with [(uint32_t)-1]. *)
Fixpoint read_uid_last (buf : string) (i n : nat) (uid_last : Z) : Z :=
  match n with
  | O => uid_last
  | S n' =>
    let b := buf_byte buf i in
    if (b <? 48) || (b >? 57) then UINT32_MAX
    else read_uid_last buf (S i) n' (u32 (uid_last * 10 + (b - 48)))
  end.

Definition digit_char (d : Z) : ascii := ascii_of_nat (Z.to_nat (48 + d)).

(** [t_strdup_printf("%010u", n)] for a [uint32_t] [n]. *)
Definition fmt_010u (n : Z) : string :=
  string_of_list_ascii
    (map (fun k => digit_char ((n / 10 ^ Z.of_nat k) mod 10))
         [9; 8; 7; 6; 5; 4; 3; 2; 1; 0]%nat).

(** [printf("%u", n)] *)
Definition fmt_u (n : Z) : string :=
  NilZero.string_of_uint (N.to_uint (Z.to_N n)).

Definition mbox_rewrite_base_uid_last : M W Z :=
  c <- get_ctx ;;
  i_assert (negb (base_uid_last_offset c =? 0)) ;;
  (* first check that the 10 bytes are there and they're exactly as
     expected. just an extra safety check to make sure we never write
     to wrong location in the mbox file. *)
  ' (r, buf) <- call_ext (PreadFull (write_fd c) 10 (base_uid_last_offset c)) ;;
  if r <? 0 then
    call_ext (SetSyscallError "pread_full()") ;;
    ret (-1)
  else if r =? 0 then
    call_ext (SetCritical CRIT_UID_LAST_OUTSIDE) ;;
    ret (-1)
  else
    let uid_last := read_uid_last buf 0 10 0 in
    if negb (uid_last =? base_uid_last c) then
      call_ext (SetCritical CRIT_UID_LAST_LOST) ;;
      ret (-1)
    else
      (* and write it *)
      let str := fmt_010u (u32 (next_uid c - 1)) in
      w <- call_ext (PwriteFull (write_fd c) str (base_uid_last_offset c)) ;;
      if w <? 0 then
        call_ext (SetSyscallError "pwrite_full()") ;;
        ret (-1)
      else
        modify_ctx (set_base_uid_last (u32 (next_uid c - 1))) ;;
        ret 0.

Definition mbox_write_from_line (m : mbox_sync_mail_context) : M W Z :=
  c <- get_ctx ;;
  w <- call_ext (PwriteFull (write_fd c) (from_line c)
                   (m_from_offset (mc_mail m))) ;;
  if w <? 0 then
    call_ext (SetSyscallError "pwrite_full()") ;;
    ret (-1)
  else
    call_ext (StreamSync STREAM_INPUT) ;;
    ret 0.

Fixpoint update_from_offsets_loop (l : list mbox_sync_mail) : M W unit :=
  match l with
  | [] => ret tt
  | mail :: l' =>
    (if (m_idx_seq mail =? 0)
        || negb (Z.land (m_flags mail) MBOX_EXPUNGED =? 0)
     then ret tt
     else
       modify_ctx (set_moved_offsets true) ;;
       call_ext (IndexUpdateExtOffset (m_idx_seq mail)
                   (m_from_offset mail))) ;;
    update_from_offsets_loop l'
  end.

Definition update_from_offsets : M W unit :=
  c <- get_ctx ;;
  update_from_offsets_loop (mails c).

Definition mbox_sync_handle_expunge (mail_ctx : mbox_sync_mail_context)
  : M W mbox_sync_mail_context :=
  let mail := mc_mail mail_ctx in
  let mail := set_m_flags MBOX_EXPUNGED mail in
  let mail := set_m_offset (m_from_offset mail) mail in
  let mail :=
    set_m_space (s64 (mc_body_offset mail_ctx - m_from_offset mail
                      + m_body_size mail)) mail in
  let mail := set_m_body_size 0 mail in
  c <- get_ctx ;;
  mail <-
    (if seq c =? 1 then
       (* expunging first message, fix space to contain next
          message's \n header too since it will be removed. *)
       let mail := set_m_space (s64 (m_space mail + 1)) mail in
       crlf <- call_ext RawHasCrlfEnding ;;
       mail <-
         (if crlf then
            modify_ctx (set_first_mail_crlf_expunged true) ;;
            ret (set_m_space (s64 (m_space mail + 1)) mail)
          else ret mail) ;;
       (* uid-last offset is invalid now *)
       modify_ctx (set_base_uid_last_offset 0) ;;
       ret mail
     else ret mail) ;;
  modify_ctx (fun c =>
    set_expunged_space (s64 (expunged_space c + m_space mail)) c) ;;
  ret (set_mc_mail mail mail_ctx).

(** The end of [mbox_sync_handle_header]: the first mail with no space to
    write it opens the rewrite window. *)
Definition handle_header_no_space (r : Z) (mail_ctx : mbox_sync_mail_context)
  : M W (Z * mbox_sync_mail_context) :=
  c <- get_ctx ;;
  if (r =? 0) && (need_space_seq c =? 0) then
    (* first mail with no space to write it *)
    modify_ctx (fun c => set_space_diff 0 (set_need_space_seq (seq c) c)) ;;
    (if expunged_space c >? 0 then
       (* create dummy message to describe the expunged data *)
       let offset :=
         u64 ((if dest_first_mail c then 1 else 0)
              + m_from_offset (mc_mail mail_ctx) - expunged_space c) in
       let mail :=
         set_m_space (expunged_space c)
           (set_m_from_offset offset
              (set_m_offset offset (set_m_flags MBOX_EXPUNGED mail_zero))) in
       modify_ctx (fun c =>
         set_expunged_space 0 (set_space_diff (expunged_space c) c)) ;;
       c <- get_ctx ;;
       i_assert (space_diff c <? s64 (- m_space (mc_mail mail_ctx))) ;;
       modify_ctx (fun c =>
         set_mails (mails c ++ [mail])
           (set_need_space_seq (u32 (need_space_seq c - 1)) c))
     else ret tt) ;;
    ret (0, mail_ctx)
  else ret (0, mail_ctx).

Definition mbox_sync_handle_header (fuel : nat)
    (mail_ctx : mbox_sync_mail_context)
  : M W (Z * mbox_sync_mail_context) :=
  c <- get_ctx ;;
  if (expunged_space c >? 0) && (need_space_seq c =? 0) then
    (* move the header backwards to fill expunged space *)
    let move_diff := s64 (- expunged_space c) in
    let orig_from_offset := m_from_offset (mc_mail mail_ctx) in
    let mail_ctx :=
      if dest_first_mail c then
        (* we're moving this mail to beginning of file. skip the initial \n
           (it's already counted in expunged_space) *)
        let m := upd_mail (fun x =>
                   set_m_from_offset (u64 (m_from_offset x + 1)) x) mail_ctx in
        if first_mail_crlf_expunged c
        then upd_mail (fun x =>
               set_m_from_offset (u64 (m_from_offset x + 1)) x) m
        else m
      else mail_ctx in
    (* read the From-line before rewriting overwrites it *)
    r <- mbox_read_from_line fuel mail_ctx ;;
    if r <? 0 then ret (-1, mail_ctx)
    else
      c <- get_ctx ;;
      ' (c', mail_ctx) <- call_ext (UpdateHeader c mail_ctx) ;;
      put_ctx c' ;;
      c <- get_ctx ;;
      ' (r, c', mail_ctx) <- call_ext (TryRewrite c mail_ctx move_diff) ;;
      put_ctx c' ;;
      if r <? 0 then ret (-1, mail_ctx)
      else if r >? 0 then
        (* rewrite successful, write From-line to new location *)
        i_assert ((move_diff >? 0)
                  || (s64 (m_from_offset (mc_mail mail_ctx))
                      >=? s64 (- move_diff))) ;;
        let mail_ctx :=
          upd_mail (fun x =>
            set_m_offset (u64 (m_offset x + move_diff))
              (set_m_from_offset (u64 (m_from_offset x + move_diff)) x))
            mail_ctx in
        w <- mbox_write_from_line mail_ctx ;;
        if w <? 0 then ret (-1, mail_ctx)
        else handle_header_no_space r mail_ctx
      else
        c <- get_ctx ;;
        let mail_ctx :=
          if dest_first_mail c then
            (* didn't have enough space, move the offset back so seeking
               into it doesn't fail *)
            upd_mail (set_m_from_offset orig_from_offset) mail_ctx
          else mail_ctx in
        handle_header_no_space r mail_ctx
  else if mc_need_rewrite mail_ctx || negb (List.length (syncs c) =? 0)%nat then
    ' (c', mail_ctx) <- call_ext (UpdateHeader c mail_ctx) ;;
    put_ctx c' ;;
    c <- get_ctx ;;
    if delay_writes c then
      (* mark it dirty and do it later *)
      ret (0, set_mc_dirty true mail_ctx)
    else
      ' (r, c', mail_ctx) <- call_ext (TryRewrite c mail_ctx 0) ;;
      put_ctx c' ;;
      if r <? 0 then ret (-1, mail_ctx)
      else handle_header_no_space r mail_ctx
  else
    (* nothing to do *)
    ret (0, mail_ctx).

Definition mbox_sync_handle_missing_space (mail_ctx : mbox_sync_mail_context)
  : M W (Z * mbox_sync_mail_context) :=
  let mail := mc_mail mail_ctx in
  i_assert ((m_uid mail =? 0) || (m_space mail >? 0)
            || (m_offset mail =? mc_hdr_offset mail_ctx)) ;;
  modify_ctx (fun c => set_mails (mails c ++ [mail]) c) ;;
  modify_ctx (fun c => set_space_diff (s64 (space_diff c + m_space mail)) c) ;;
  c <- get_ctx ;;
  if space_diff c <? 0 then
    (if expunged_space c >? 0 then
       i_assert (expunged_space c =? m_space mail) ;;
       modify_ctx (set_expunged_space 0)
     else ret tt) ;;
    ret (0, mail_ctx)
  else
    (* we have enough space now *)
    ' (last_seq, end_offset, move_diff, extra_space) <-
      (if m_uid mail =? 0 then
         (* this message was expunged. fill more or less of the space.
            space_diff now consists of a negative "bytes needed" sum,
            plus the expunged space of this message. so it contains how
            many bytes of _extra_ space we have. *)
         i_assert (m_space mail >=? space_diff c) ;;
         let extra_space :=
           u32 (MBOX_HEADER_PADDING
                * u32 (u32 (seq c - need_space_seq c) + 1)) in
         let needed_space := u64 (m_space mail - space_diff c) in
         ' (move_diff, extra_space) <-
           (if u64 (space_diff c) >? u64 (needed_space + extra_space) then
              (* don't waste too much on padding *)
              let move_diff := u64 (needed_space + extra_space) in
              modify_ctx (set_expunged_space
                            (s64 (m_space mail - move_diff))) ;;
              ret (move_diff, extra_space)
            else
              modify_ctx (set_expunged_space 0) ;;
              ret (u64 (m_space mail), u64 (space_diff c))) ;;
         modify_ctx (fun c => set_mails (removelast (mails c)) c) ;;
         ret (u32 (seq c - 1), m_from_offset mail, move_diff, extra_space)
       else
         (* this message gave enough space from headers. rewriting stops
            at the end of this message's headers. *)
         modify_ctx (set_expunged_space 0) ;;
         ret (seq c, mc_body_offset mail_ctx, 0, u64 (space_diff c))) ;;
    c <- get_ctx ;;
    ' (r, c', m') <-
       call_ext (Rewrite c
                   (if last_seq =? seq c then Some mail_ctx else None)
                   end_offset move_diff extra_space
                   (need_space_seq c) last_seq) ;;
    put_ctx c' ;;
    if r <? 0 then
      ret (-1, match m' with Some m => m | None => mail_ctx end)
    else
      update_from_offsets ;;
      (* mail_ctx may contain wrong data after rewrite, so make sure we
         don't try to access it *)
      modify_ctx (fun c =>
        set_mails [] (set_space_diff 0 (set_need_space_seq 0 c))) ;;
      ret (0, mail_ctx_zero).

Definition mbox_sync_seek_to_seq (seq0 : Z) : M W Z :=
  mb <- get_mbox ;;
  r <-
    (if seq0 =? 0 then
       r <- call_ext (RawSeek 0) ;;
       if r <? 0 then
         call_ext (SetError "Mailbox isn't a valid mbox file") ;;
         ret (Return (-1))
       else ret (Fall 1)
     else
       old_offset <- call_ext RawGetStartOffset ;;
       ' (r, _, mb') <- call_ext (MboxFileSeek mb seq0) ;;
       put_mbox mb' ;;
       if r <? 0 then ret (Return (-1))
       else if r =? 0 then
         r <- call_ext (RawSeek old_offset) ;;
         if r <? 0 then
           call_ext (SetCritical (CRIT_SEEK_BACK old_offset)) ;;
           ret (Return (-1))
         else ret (Return 0)
       else ret (Fall seq0)) ;;
  match r with
  | Return r => ret r
  | Fall seq1 =>
    u <-
      (if seq1 <=? 1 then ret (Fall 0)
       else
         ' (r, uid) <- call_ext (IndexLookupUid (u32 (seq1 - 1))) ;;
         if r <? 0 then
           call_ext SetIndexError ;;
           ret (Return (-1))
         else ret (Fall uid)) ;;
    match u with
    | Return r => ret r
    | Fall uid =>
      modify_ctx (set_prev_msg_uid uid) ;;
      (* set to -1, since it's always increased later *)
      modify_ctx (set_seq (u32 (seq1 - 1))) ;;
      (if u32 (seq1 - 1) =? 0 then
         start <- call_ext RawGetStartOffset ;;
         if negb (start =? 0) then
           (* this mbox has pseudo mail which contains the X-IMAP header *)
           modify_ctx (fun c => set_seq (u32 (seq c + 1)) c)
         else ret tt
       else ret tt) ;;
      modify_ctx (set_idx_seq seq1) ;;
      modify_ctx (fun c => set_dest_first_mail (seq c =? 0) c) ;;
      call_ext RawGetBodyOffset ;;
      ret 1
    end
  end.

Definition mbox_sync_seek_to_uid (uid : Z) : M W Z :=
  ' (r, seq1, _) <- call_ext (IndexLookupUidRange uid UINT32_MAX) ;;
  if r <? 0 then
    call_ext SetIndexError ;;
    ret (-1)
  else if seq1 =? 0 then
    (* doesn't exist anymore, seek to end of file *)
    st <- call_ext (StreamStat true) ;;
    match st with
    | None =>
      call_ext (SetSyscallError "i_stream_stat()") ;;
      ret (-1)
    | Some (st_size, _) =>
      r <- call_ext (RawSeek st_size) ;;
      if r <? 0 then
        call_ext (SetCritical CRIT_SEEK_END) ;;
        ret (-1)
      else
        n <- call_ext ViewGetMessagesCount ;;
        modify_ctx (set_idx_seq (u32 (n + 1))) ;;
        ret 1
    end
  else mbox_sync_seek_to_seq seq1.

(** The result is the return value with [*partial] and [*skipped_mails]. *)
Definition mbox_sync_partial_seek_next (next_uid0 : Z)
    (partial skipped_mails : bool) : M W (Z * bool * bool) :=
  (* delete sync records up to next message. so if there's still
     something left in array, it means the next message needs modifying *)
  mbox_sync_array_delete_to next_uid0 ;;
  c <- get_ctx ;;
  mb <- get_mbox ;;
  if negb (List.length (syncs c) =? 0)%nat then ret (1, partial, skipped_mails)
  else
    let finish '(r, partial, skipped_mails) :=
      if r =? 0 then
        (* seek failed because the offset is dirty. just ignore and
           continue from where we are now. *)
        ret (1, false, skipped_mails)
      else ret (r, partial, skipped_mails) in
    if negb (sr_uid1 (sync_rec c) =? 0) then
      (* we can skip forward to next record which needs updating. *)
      let skip := negb (sr_uid1 (sync_rec c) =? next_uid0) in
      let target := if skip then sr_uid1 (sync_rec c) else next_uid0 in
      r <- mbox_sync_seek_to_uid target ;;
      finish (r, partial, if skip then true else skipped_mails)
    else
      (* if there's no sync records left, we can stop. except if
         this is a dirty sync, check if there are new messages. *)
      if negb (mbox_sync_dirty mb) then ret (0, partial, skipped_mails)
      else
        messages_count <- call_ext ViewGetMessagesCount ;;
        if negb (u32 (seq c + 1) =? messages_count) then
          r <- mbox_sync_seek_to_seq messages_count ;;
          finish (r, false, true)
        else finish (1, false, skipped_mails).

(** [while (idx_seq <= messages_count) mail_index_expunge(t, idx_seq++)] *)
Fixpoint expunge_rest (fuel : nat) (messages_count : Z) : M W unit :=
  match fuel with
  | O => out_of_fuel
  | S fuel' =>
    c <- get_ctx ;;
    if idx_seq c <=? messages_count then
      call_ext (IndexExpunge (idx_seq c)) ;;
      modify_ctx (set_idx_seq (u32 (idx_seq c + 1))) ;;
      expunge_rest fuel' messages_count
    else ret tt
  end.

(** The start of [mbox_sync_loop]: always start from first message so we
    can read X-IMAP or X-IMAPbase header.  [Fall] carries
    [messages_count]. *)
Definition mbox_sync_loop_begin (fuel : nat) : M W (flow Z Z) :=
  messages_count <- call_ext ViewGetMessagesCount ;;
  r <- mbox_sync_seek_to_seq 0 ;;
  if r <=? 0 then ret (Return r)
  else
    c <- get_ctx ;;
    (if renumber_uids c then
       (* expunge everything *)
       expunge_rest fuel messages_count
     else ret tt) ;;
    ret (Fall messages_count).

(** The end of [mbox_sync_loop], after the [while]. *)
Definition mbox_sync_loop_end (fuel : nat) (messages_count : Z)
    (skipped_mails uids_broken : bool) : M W Z :=
  eof <- call_ext RawIsEof ;;
  (if eof then
     (* rest of the messages in index don't exist -> expunge them *)
     expunge_rest fuel messages_count
   else ret tt) ;;
  (if negb skipped_mails then modify_mbox (set_mbox_sync_dirty false)
   else ret tt) ;;
  c <- get_ctx ;;
  (if uids_broken && delay_writes c then
     (* once we get around to writing the changes, we'll need to do
        a full sync to avoid the "UIDs broken in partial sync" error *)
     modify_mbox (set_mbox_sync_dirty true)
   else ret tt) ;;
  ret 1.

(** What one turn of the [while] of [mbox_sync_loop] decides. *)
Inductive turn :=
| TurnReturn (r : Z)                       (* return r *)
| TurnBreak                                (* break *)
| TurnNext.                                (* next iteration *)

(** The locals of [mbox_sync_loop] that live across iterations. *)
Record loop_vars := {
  lv_mail_ctx : mbox_sync_mail_context;
  lv_partial : bool;
  lv_skipped_mails : bool;
  lv_uids_broken : bool
}.

(** The two guards at the top of the body of the [while]: the UIDVALIDITY
    check on the first message, and broken UIDs in a partial sync. *)
Definition mbox_sync_loop_guards (mail_ctx : mbox_sync_mail_context)
    (partial : bool) : M W turn :=
  c <- get_ctx ;;
  if (mc_seq mail_ctx =? 1) && negb (base_uid_validity c =? 0)
     && negb (h_uid_validity (hdr c) =? 0)
     && negb (base_uid_validity c =? h_uid_validity (hdr c))
  then
    call_ext (SetCritical (CRIT_UIDVALIDITY_CHANGED
                             (h_uid_validity (hdr c))
                             (base_uid_validity c))) ;;
    call_ext IndexMarkCorrupted ;;
    ret (TurnReturn (-1))
  else if m_uid_broken (mc_mail mail_ctx) && partial then
    (* UID ordering problems, resync everything to make sure we get
       everything right *)
    mb <- get_mbox ;;
    if mbox_sync_dirty mb then ret (TurnReturn 0)
    else
      call_ext (SetCritical CRIT_UIDS_BROKEN_PARTIAL) ;;
      modify_mbox (set_mbox_sync_dirty true) ;;
      ret (TurnReturn 0)
  else ret TurnNext.

(** Finding the UID of the message: the index record with this UID, or the
    record with this header MD5.  The result is a [return] of the loop, or
    the locals [uid] and [rec] with the mail. *)
Definition mbox_sync_loop_lookup (fuel : nat) (messages_count : Z)
    (mail_ctx : mbox_sync_mail_context)
  : M W (flow Z (Z * option mail_index_record * mbox_sync_mail_context)) :=
  let uid := if mc_pseudo mail_ctx then 0 else m_uid (mc_mail mail_ctx) in
  ' (r, rec) <-
    (if negb (uid =? 0) then mbox_sync_read_index_rec fuel uid
     else ret (1, None)) ;;
  if r <? 0 then ret (Return (-1))
  else if r =? 0 then
    (* UID found but it's broken *)
    ret (Fall (0, rec, mail_ctx))
  else
    c <- get_ctx ;;
    if (uid =? 0) && negb (mc_pseudo mail_ctx)
       && (delay_writes c || (idx_seq c <=? messages_count))
    then
      (* If we can't use/store X-UID header, use MD5 sum.  Also check for
         existing MD5 sums when we're actually able to write X-UIDs. *)
      modify_mbox (set_mbox_save_md5 true) ;;
      ' (r, rec) <- mbox_sync_find_index_md5 fuel (mc_hdr_md5_sum mail_ctx) ;;
      if r <? 0 then ret (Return (-1))
      else
        match rec with
        | Some rc =>
          ret (Fall (ir_uid rc, rec,
                     upd_mail (set_m_uid (ir_uid rc)) mail_ctx))
        | None => ret (Fall (uid, rec, mail_ctx))
        end
    else ret (Fall (uid, rec, mail_ctx)).

(** A message with a missing or broken X-UID gets the next UID; all the
    rest of the mails need new UIDs. *)
Definition mbox_sync_loop_assign_uid (fuel : nat) (messages_count : Z)
    (mail_ctx : mbox_sync_mail_context)
  : M W (flow Z mbox_sync_mail_context) :=
  expunge_rest fuel messages_count ;;
  c <- get_ctx ;;
  if next_uid c =? UINT32_MAX then
    (* oh no, we're out of UIDs. this shouldn't happen normally, so just
       try to get it fixed without crashing. *)
    call_ext (SetCritical CRIT_OUT_OF_UIDS) ;;
    modify_ctx (set_renumber_uids true) ;;
    ret (Return 0)
  else
    let mail_ctx := set_mc_need_rewrite true mail_ctx in
    let mail_ctx := upd_mail (set_m_uid (next_uid c)) mail_ctx in
    modify_ctx (set_next_uid (u32 (next_uid c + 1))) ;;
    modify_ctx (set_prev_msg_uid (m_uid (mc_mail mail_ctx))) ;;
    ret (Fall mail_ctx).

(** Dispatch to the header handler or to the expunge handler. *)
Definition mbox_sync_loop_dispatch (fuel : nat) (expunged : bool)
    (mail_ctx : mbox_sync_mail_context)
  : M W (Z * mbox_sync_mail_context) :=
  if negb expunged then
    ' (r, mail_ctx) <- mbox_sync_handle_header fuel mail_ctx ;;
    if r <? 0 then ret (-1, mail_ctx)
    else
      modify_ctx (set_dest_first_mail false) ;;
      ret (0, mail_ctx)
  else
    mail_ctx <- mbox_sync_handle_expunge (upd_mail (set_m_uid 0) mail_ctx) ;;
    ret (0, mail_ctx).

(** After the index was updated: skip the body, then rewrite the window,
    move the body over the expunged space, or seek to the next message of
    a partial sync. *)
Definition mbox_sync_loop_advance (uid : Z) (expunged : bool)
    (v : loop_vars) : M W (turn * loop_vars) :=
  let mail_ctx := lv_mail_ctx v in
  call_ext (RawNext (m_body_size (mc_mail mail_ctx))) ;;
  offset <- call_ext RawGetStartOffset ;;
  c <- get_ctx ;;
  if negb (need_space_seq c =? 0) then
    ' (r, mail_ctx) <- mbox_sync_handle_missing_space mail_ctx ;;
    let v := {| lv_mail_ctx := mail_ctx; lv_partial := lv_partial v;
                lv_skipped_mails := lv_skipped_mails v;
                lv_uids_broken := lv_uids_broken v |} in
    if r <? 0 then ret (TurnReturn (-1), v)
    else
      r <- mbox_sync_seek offset ;;
      if r <? 0 then ret (TurnReturn (-1), v) else ret (TurnNext, v)
  else if expunged_space c >? 0 then
    if negb expunged then
      (* move the body *)
      r <- call_ext (MboxMove
                       (u64 (mc_body_offset mail_ctx - expunged_space c))
                       (mc_body_offset mail_ctx)
                       (m_body_size (mc_mail mail_ctx))) ;;
      if r <? 0 then ret (TurnReturn (-1), v)
      else
        r <- mbox_sync_seek offset ;;
        if r <? 0 then ret (TurnReturn (-1), v) else ret (TurnNext, v)
    else ret (TurnNext, v)
  else if lv_partial v then
    ' (r, partial, skipped_mails) <-
       mbox_sync_partial_seek_next (u32 (uid + 1)) (lv_partial v)
         (lv_skipped_mails v) ;;
    let v := {| lv_mail_ctx := mail_ctx; lv_partial := partial;
                lv_skipped_mails := skipped_mails;
                lv_uids_broken := lv_uids_broken v |} in
    if r <? 0 then ret (TurnReturn (-1), v)
    else if r =? 0 then ret (TurnBreak, v)
    else ret (TurnNext, v)
  else ret (TurnNext, v).

(** The second half of the body of the [while], from the assignment of
    [idx_seq] to the end: the header or the expunge is handled, the index
    is updated and the stream moves on.  [uid], [rec] and [expunged] are
    the locals of the loop. *)
Definition mbox_sync_loop_sync_mail (fuel : nat) (uid : Z)
    (rec : option mail_index_record) (expunged : bool) (v : loop_vars)
  : M W (turn * loop_vars) :=
  let mail_ctx := lv_mail_ctx v in
  let pseudo := mc_pseudo mail_ctx in
  let mk m :=
    {| lv_mail_ctx := m; lv_partial := lv_partial v;
       lv_skipped_mails := lv_skipped_mails v;
       lv_uids_broken := lv_uids_broken v |} in
  c <- get_ctx ;;
  let mail_ctx :=
    if negb pseudo
    then upd_mail (set_m_idx_seq (idx_seq c)) mail_ctx
    else mail_ctx in
  ' (r, mail_ctx) <- mbox_sync_loop_dispatch fuel expunged mail_ctx ;;
  if r <? 0 then ret (TurnReturn (-1), mk mail_ctx)
  else
    r <-
      (if negb pseudo then
         r <- (if negb expunged
               then mbox_sync_update_index mail_ctx rec
               else ret 0) ;;
         if r <? 0 then ret (-1)
         else
           modify_ctx (fun c => set_idx_seq (u32 (idx_seq c + 1)) c) ;;
           ret 0
       else ret 0) ;;
    if r <? 0 then ret (TurnReturn (-1), mk mail_ctx)
    else mbox_sync_loop_advance uid expunged (mk mail_ctx).

(** The body of the [while] of [mbox_sync_loop] for the mail that
    [mbox_sync_read_next_mail] has just read into [lv_mail_ctx]. *)
Definition mbox_sync_loop_body (fuel : nat) (messages_count : Z)
    (v : loop_vars) : M W (turn * loop_vars) :=
  let mail_ctx := lv_mail_ctx v in
  g <- mbox_sync_loop_guards mail_ctx (lv_partial v) ;;
  match g with
  | TurnReturn r => ret (TurnReturn r, v)
  | TurnBreak => ret (TurnBreak, v)
  | TurnNext =>
    let uids_broken :=
      if m_uid_broken (mc_mail mail_ctx) then true else lv_uids_broken v in
    let pseudo := mc_pseudo mail_ctx in
    let mk m p :=
      {| lv_mail_ctx := m; lv_partial := p;
         lv_skipped_mails := lv_skipped_mails v;
         lv_uids_broken := uids_broken |} in
    f <- mbox_sync_loop_lookup fuel messages_count mail_ctx ;;
    match f with
    | Return r => ret (TurnReturn r, mk mail_ctx (lv_partial v))
    | Fall (uid, rec, mail_ctx) =>
      (* get all sync records related to this message. with pseudo
         message just get the first sync record so we can jump to
         it with partial seeking. *)
      ' (r, expunged) <-
         mbox_sync_read_index_syncs fuel (if pseudo then 1 else uid) ;;
      if r <? 0 then ret (TurnReturn (-1), mk mail_ctx (lv_partial v))
      else
        (* if it was set, it was for the next message *)
        let expunged := if pseudo then false else expunged in
        (* message wasn't found from index. we have to read everything
           from now on, no skipping *)
        let partial :=
          if negb pseudo && match rec with None => true | _ => false end
          then false else lv_partial v in
        f <- (if (uid =? 0) && negb pseudo
              then mbox_sync_loop_assign_uid fuel messages_count mail_ctx
              else ret (Fall mail_ctx)) ;;
        match f with
        | Return r => ret (TurnReturn r, mk mail_ctx partial)
        | Fall mail_ctx =>
          mbox_sync_loop_sync_mail fuel uid rec expunged (mk mail_ctx partial)
        end
    end
  end.

(** The [while ((ret = mbox_sync_read_next_mail(...)) > 0)] of
    [mbox_sync_loop]; [Fall] is the end of the loop, by [break] or because
    no mail is left. *)
Fixpoint mbox_sync_loop_while (fuel n : nat) (messages_count : Z)
    (v : loop_vars) : M W (flow Z unit * loop_vars) :=
  match n with
  | O => out_of_fuel
  | S n' =>
    ' (r, mail_ctx) <- mbox_sync_read_next_mail (lv_mail_ctx v) ;;
    let v := {| lv_mail_ctx := mail_ctx; lv_partial := lv_partial v;
                lv_skipped_mails := lv_skipped_mails v;
                lv_uids_broken := lv_uids_broken v |} in
    if r >? 0 then
      ' (tn, v) <- mbox_sync_loop_body fuel messages_count v ;;
      match tn with
      | TurnReturn r => ret (Return r, v)
      | TurnBreak => ret (Fall tt, v)
      | TurnNext => mbox_sync_loop_while fuel n' messages_count v
      end
    else ret (Fall tt, v)
  end.

Definition mbox_sync_loop (fuel : nat) (mail_ctx : mbox_sync_mail_context)
    (partial : bool) : M W (Z * mbox_sync_mail_context) :=
  b <- mbox_sync_loop_begin fuel ;;
  match b with
  | Return r => ret (r, mail_ctx)
  | Fall messages_count =>
    ' (f, v) <- mbox_sync_loop_while fuel fuel messages_count
                  {| lv_mail_ctx := mail_ctx; lv_partial := partial;
                     lv_skipped_mails := false; lv_uids_broken := false |} ;;
    match f with
    | Return r => ret (r, lv_mail_ctx v)
    | Fall _ =>
      r <- mbox_sync_loop_end fuel messages_count (lv_skipped_mails v)
             (lv_uids_broken v) ;;
      ret (r, lv_mail_ctx v)
    end
  end.

Definition PSEUDO_MESSAGE_BODY : string :=
  "This text is part of the internal format of your mail folder, and is not
a real message.  It is created automatically by the mail system software.
If deleted, important folder data will be lost, and it will be re-created
with the data reset to initial values.
".

Definition mbox_write_pseudo : M W Z :=
  c <- get_ctx ;;
  i_assert (negb (write_fd c =? -1)) ;;
  let uid_validity :=
    if negb (base_uid_validity c =? 0) then base_uid_validity c
    else h_uid_validity (hdr c) in
  i_assert (negb (uid_validity =? 0)) ;;
  now <- call_ext IoloopTime ;;
  from <- call_ext (MboxFromCreate "MAILER_DAEMON" now) ;;
  date <- call_ext (MessageDateCreate now) ;;
  host <- call_ext MyHostname ;;
  let str :=
    (from ++ "Date: " ++ date ++ LF
     ++ "From: Mail System Internal Data <MAILER-DAEMON@" ++ host ++ ">" ++ LF
     ++ "Subject: DON'T DELETE THIS MESSAGE -- FOLDER INTERNAL DATA" ++ LF
     ++ "Message-ID: <" ++ fmt_u now ++ "@" ++ host ++ ">" ++ LF
     ++ "X-IMAP: " ++ fmt_u uid_validity ++ " "
     ++ fmt_010u (u32 (next_uid c - 1)) ++ LF
     ++ "Status: RO" ++ LF
     ++ LF
     ++ PSEUDO_MESSAGE_BODY
     ++ LF)%string in
  w <- call_ext (PwriteFull (write_fd c) str 0) ;;
  let finish :=
    modify_ctx (set_base_uid_last_offset 0) ;; (* don't bother calculating *)
    modify_ctx (set_base_uid_last (u32 (next_uid c - 1))) ;;
    ret 0 in
  if w <? 0 then
    nospace <- call_ext ErrnoIsNoSpace ;;
    if negb nospace then
      call_ext (SetSyscallError "pwrite_full()") ;;
      ret (-1)
    else
      (* out of disk space, truncate to empty *)
      r <- call_ext (Ftruncate (write_fd c) 0) ;;
      (if r <? 0 then call_ext (SetSyscallError "ftruncate()")
       else ret tt) ;;
      finish
  else finish.

(** The first part of [mbox_sync_handle_eof_updates] after the trailer is
    measured: an open rewrite window at end of file grows the file. *)
Definition handle_eof_window (mail_ctx : mbox_sync_mail_context)
    (file_size : Z) : M W Z :=
  c <- get_ctx ;;
  i_assert (negb (write_fd c =? -1)) ;;
  i_assert (space_diff c <? 0) ;;
  let padding :=
    u32 (MBOX_HEADER_PADDING * u32 (u32 (seq c - need_space_seq c) + 1)) in
  modify_ctx (fun c => set_space_diff (s64 (space_diff c - padding)) c) ;;
  c <- get_ctx ;;
  i_assert (expunged_space c <=? s64 (- space_diff c)) ;;
  modify_ctx (fun c =>
    set_expunged_space 0
      (set_space_diff (s64 (space_diff c + expunged_space c)) c)) ;;
  (if mc_have_eoh mail_ctx && negb (mc_updated mail_ctx)
   then modify_ctx (fun c => set_header (header c ++ LF)%string c)
   else ret tt) ;;
  c <- get_ctx ;;
  i_assert (space_diff c <? 0) ;;
  r <- call_ext (FileSetSize (write_fd c)
                   (u64 (file_size + s64 (- space_diff c)))) ;;
  if r <? 0 then
    call_ext (SetSyscallError "file_set_size()") ;;
    r <- call_ext (Ftruncate (write_fd c) file_size) ;;
    (if r <? 0 then call_ext (SetSyscallError "ftruncate()") else ret tt) ;;
    ret (-1)
  else
    call_ext (StreamSync STREAM_INPUT) ;;
    ' (r, c', _) <-
       call_ext (Rewrite c (Some mail_ctx) file_size
                   (u64 (s64 (- space_diff c))) padding
                   (need_space_seq c) (seq c)) ;;
    put_ctx c' ;;
    if r <? 0 then ret (-1)
    else
      update_from_offsets ;;
      modify_ctx (fun c => set_mails [] (set_need_space_seq 0 c)) ;;
      ret 0.

(** The second part: expunged space left at end of file is cut off. *)
Definition handle_eof_expunged (trailer_size : Z) : M W Z :=
  c <- get_ctx ;;
  i_assert (negb (write_fd c =? -1)) ;;
  (* copy trailer, then truncate the file *)
  st <- call_ext (StreamStat true) ;;
  match st with
  | None =>
    call_ext (SetSyscallError "i_stream_stat()") ;;
    ret (-1)
  | Some (file_size, _) =>
    let trailer_size :=
      if file_size =? u64 (expunged_space c) then
        (* everything deleted, the trailer_size still contains
           the \n trailer though *)
        0
      else trailer_size in
    i_assert (file_size >=? u64 (expunged_space c + trailer_size)) ;;
    let offset := u64 (file_size - expunged_space c - trailer_size) in
    i_assert ((offset =? 0) || (offset >? 31)) ;;
    r <- call_ext (MboxMove offset (u64 (offset + expunged_space c))
                     trailer_size) ;;
    if r <? 0 then ret (-1)
    else
      r <- call_ext (Ftruncate (write_fd c) (u64 (offset + trailer_size))) ;;
      if r <? 0 then
        call_ext (SetSyscallError "ftruncate()") ;;
        ret (-1)
      else
        r <- (if offset =? 0 then mbox_write_pseudo else ret 0) ;;
        if r <? 0 then ret (-1)
        else
          modify_ctx (set_expunged_space 0) ;;
          call_ext (StreamSync STREAM_INPUT) ;;
          ret 0
  end.

Definition mbox_sync_handle_eof_updates (mail_ctx : mbox_sync_mail_context)
  : M W Z :=
  eof <- call_ext RawIsEof ;;
  c <- get_ctx ;;
  if negb eof then
    i_assert (need_space_seq c =? 0) ;;
    i_assert (expunged_space c =? 0) ;;
    ret 0
  else
    (* make sure i_stream_stat() doesn't try to use cached file size *)
    call_ext (StreamSync STREAM_FILE_INPUT) ;;
    st <- call_ext (StreamStat true) ;;
    match st with
    | None =>
      call_ext (SetSyscallError "i_stream_stat()") ;;
      ret (-1)
    | Some (file_size, _) =>
      v_offset <- call_ext (StreamVOffset STREAM_FILE_INPUT) ;;
      if file_size <? v_offset then
        call_ext (SetCritical (CRIT_FILE_SHRINKED file_size v_offset)) ;;
        ret (-1)
      else
        let trailer_size := u64 (file_size - v_offset) in
        i_assert (trailer_size <=? 2) ;;
        r <- (if negb (need_space_seq c =? 0)
              then handle_eof_window mail_ctx file_size else ret 0) ;;
        if r <? 0 then ret (-1)
        else
          c <- get_ctx ;;
          if expunged_space c >? 0
          then handle_eof_expunged trailer_size
          else ret 0
    end.

(** The busy wait of [mbox_sync_update_index_header]: sleep and touch the
    file until its mtime differs from the original one. *)
Fixpoint wait_mtime_change (fuel : nat) (st_size st_mtime : Z)
  : M W (flow Z (Z * Z)) :=
  match fuel with
  | O => out_of_fuel
  | S fuel' =>
    c <- get_ctx ;;
    mb <- get_mbox ;;
    if orig_mtime c =? st_mtime then
      call_ext (Usleep 500000) ;;
      r <- call_ext (Utime (path mb)) ;;
      if r <? 0 then
        call_ext (SetSyscallError "utime()") ;;
        ret (Return (-1))
      else
        st <- call_ext (StreamStat false) ;;
        match st with
        | None =>
          call_ext (SetSyscallError "i_stream_stat()") ;;
          ret (Return (-1))
        | Some (sz, mt) => wait_mtime_change fuel' sz mt
        end
    else ret (Fall (st_size, st_mtime))
  end.

Definition mbox_sync_update_index_header (fuel : nat) : M W Z :=
  st <- call_ext (StreamStat false) ;;
  match st with
  | None =>
    call_ext (SetSyscallError "i_stream_stat()") ;;
    ret (-1)
  | Some (st_size, st_mtime) =>
    c <- get_ctx ;;
    w <- (if moved_offsets c
             && ((u64 st_size =? h_sync_size (hdr c))
                 || (u64 st_size =? orig_size c))
          then wait_mtime_change fuel st_size st_mtime
          else ret (Fall (st_size, st_mtime))) ;;
    match w with
    | Return r => ret r
    | Fall (st_size, st_mtime) =>
      (* only reason not to have UID validity at this point is if the file
         is entirely empty. In that case just make up a new one if needed. *)
      i_assert (negb (base_uid_validity c =? 0) || (st_size =? 0)) ;;
      (if negb (base_uid_validity c =? h_uid_validity (hdr c))
          || (base_uid_validity c =? 0)
       then
         (if base_uid_validity c =? 0 then
            if negb (h_uid_validity (hdr c) =? 0)
            then modify_ctx (set_base_uid_validity (h_uid_validity (hdr c)))
            else
              now <- call_ext IoloopTime ;;
              modify_ctx (set_base_uid_validity (u32 now))
          else ret tt) ;;
         c <- get_ctx ;;
         call_ext (IndexUpdateHeader FIELD_UID_VALIDITY
                     (base_uid_validity c) true)
       else ret tt) ;;
      eof <- call_ext RawIsEof ;;
      (if eof && negb (next_uid c =? h_next_uid (hdr c)) then
         i_assert (negb (next_uid c =? 0)) ;;
         call_ext (IndexUpdateHeader FIELD_NEXT_UID (next_uid c) false)
       else ret tt) ;;
      mb <- get_mbox ;;
      (if negb (u32 st_mtime =? h_sync_stamp (hdr c))
          && negb (mbox_sync_dirty mb)
       then call_ext (IndexUpdateHeader FIELD_SYNC_STAMP (u32 st_mtime) true)
       else ret tt) ;;
      (if negb (u64 st_size =? h_sync_size (hdr c))
          && negb (mbox_sync_dirty mb)
       then call_ext (IndexUpdateHeader FIELD_SYNC_SIZE (u64 st_size) true)
       else ret tt) ;;
      modify_mbox (fun mb =>
        set_mbox_dirty_size st_size (set_mbox_dirty_stamp st_mtime mb)) ;;
      ret 0
    end
  end.

Definition mbox_sync_restart : M W unit :=
  modify_ctx (fun c =>
    set_base_uid_last_offset 0
      (set_base_uid_last 0 (set_base_uid_validity 0 c))) ;;
  modify_ctx (fun c => set_syncs [] (set_mails [] c)) ;;
  modify_ctx (set_sync_rec sync_rec_zero) ;;
  call_ext IndexSyncReset ;;
  modify_ctx (fun c =>
    set_dest_first_mail true
      (set_space_diff 0
         (set_expunged_space 0
            (set_need_space_seq 0
               (set_idx_seq 1
                  (set_seq 0
                     (set_idx_next_uid (h_next_uid (hdr c))
                        (set_next_uid (h_next_uid (hdr c))
                           (set_prev_msg_uid 0 c))))))))).

(** The [for (i = 0; i < 3; i++)] of [mbox_sync_do], entered with [n]
    iterations left.  [Return] is a [return] of [mbox_sync_do]; [Fall]
    carries the last [ret] and the final value of [i]. *)
Fixpoint mbox_sync_do_attempts (fuel n : nat) (i : Z) (partial : bool)
    (mail_ctx : mbox_sync_mail_context)
  : M W (flow Z (Z * Z) * mbox_sync_mail_context) :=
  match n with
  | O => ret (Fall (0, i), mail_ctx)
  | S n' =>
    ' (r, mail_ctx) <- mbox_sync_loop fuel mail_ctx partial ;;
    if r >? 0 then ret (Fall (r, i), mail_ctx)
    else if r <? 0 then ret (Return (-1), mail_ctx)
    else
      (* partial syncing didn't work, do it again. we get here
         also if we ran out of UIDs. *)
      mb <- get_mbox ;;
      i_assert (mbox_sync_dirty mb) ;;
      mbox_sync_restart ;;
      call_ext TransactionRollback ;;
      call_ext TransactionBegin ;;
      modify_ctx (set_t true) ;;
      mbox_sync_do_attempts fuel n' (i + 1) false mail_ctx
  end.

Definition mbox_sync_do (fuel : nat) (fl : mbox_sync_flags) : M W Z :=
  st <- call_ext (StreamStat false) ;;
  match st with
  | None =>
    call_ext (SetSyscallError "i_stream_stat()") ;;
    ret (-1)
  | Some (st_size, st_mtime) =>
    modify_ctx (fun c => set_orig_mtime st_mtime (set_orig_size st_size c)) ;;
    c <- get_ctx ;;
    let '(partial, dirty) :=
      if MBOX_SYNC_FORCE_SYNC fl then
        (* forcing a full sync. assume file has changed. *)
        (false, true)
      else if (u32 st_mtime =? h_sync_stamp (hdr c))
              && (u64 st_size =? h_sync_size (hdr c)) then
        (* file is fully synced *)
        (true, false)
      else if MBOX_SYNC_UNDIRTY fl || (u64 st_size =? h_sync_size (hdr c))
      then
        (* we want to do full syncing. *)
        (false, true)
      else
        (* see if we can delay syncing the whole file. *)
        (true, true) in
    modify_mbox (set_mbox_sync_dirty dirty) ;;
    mbox_sync_restart ;;
    ' (f, mail_ctx) <- mbox_sync_do_attempts fuel 3 0 partial mail_ctx_zero ;;
    match f with
    | Return r => ret r
    | Fall _ =>
      r <- mbox_sync_handle_eof_updates mail_ctx ;;
      if r <? 0 then ret (-1)
      else
        (* only syncs left should be just appends (and their updates)
           which weren't synced yet for some reason (crash). we'll just
           ignore them, as we've overwritten them above. *)
        modify_ctx (fun c => set_sync_rec sync_rec_zero (set_syncs [] c)) ;;
        r <- mbox_sync_update_index_header fuel ;;
        if r <? 0 then ret (-1) else ret 0
    end
  end.

Definition mbox_sync_has_changed (leave_dirty : bool) : M W Z :=
  mb <- get_mbox ;;
  st <-
    (if mbox_has_file_stream mb && (mbox_fd mb =? -1) then
       (* read-only stream *)
       st <- call_ext (StreamStat false) ;;
       match st with
       | None => call_ext (SetSyscallError "i_stream_stat()") ;; ret None
       | Some x => ret (Some x)
       end
     else
       st <- call_ext (Stat (path mb)) ;;
       match st with
       | None => call_ext (SetSyscallError "stat()") ;; ret None
       | Some x => ret (Some x)
       end) ;;
  match st with
  | None => ret (-1)
  | Some (st_size, st_mtime) =>
    h <- call_ext IndexGetHeader ;;
    if (u32 st_mtime =? h_sync_stamp h) && (u64 st_size =? h_sync_size h)
    then
      (* fully synced *)
      modify_mbox (set_mbox_sync_dirty false) ;;
      ret 0
    else if negb (mbox_sync_dirty mb) || negb leave_dirty then
      modify_mbox (set_mbox_sync_dirty true) ;;
      ret 1
    else
      ret (if negb (st_mtime =? mbox_dirty_stamp mb)
              || negb (st_size =? mbox_dirty_size mb)
           then 1 else 0)
  end.

(** The two rollbacks are given the address of the handle; what they leave
    in it is their answer. *)
Definition mbox_sync_context_free : M W unit :=
  c <- get_ctx ;;
  (if t c then
     t' <- call_ext TransactionRollback ;;
     modify_ctx (set_t t')
   else ret tt) ;;
  c <- get_ctx ;;
  (if index_sync_ctx c then
     i' <- call_ext IndexSyncRollback ;;
     modify_ctx (set_index_sync_ctx i')
   else ret tt) ;;
  call_ext (PoolUnref MAIL_KEYWORD_POOL) ;;
  call_ext (PoolUnref SAVED_KEYWORDS_POOL) ;;
  call_ext (StrFree STR_HEADER) ;;
  call_ext (StrFree STR_FROM_LINE) ;;
  call_ext (ArrayFree ARRAY_MAILS) ;;
  call_ext (ArrayFree ARRAY_SYNCS).

Definition mbox_unlock (lock_id : Z) : M W Z :=
  mb <- get_mbox ;;
  ' (r, mb') <- call_ext (MboxUnlock mb lock_id) ;;
  put_mbox mb' ;;
  ret r.

(** The result is the return value and [*lock_id]. *)
Definition mbox_lock (ty : lock_type) (lock_id : Z) : M W (Z * Z) :=
  mb <- get_mbox ;;
  ' (r, id, mb') <- call_ext (MboxLock mb ty lock_id) ;;
  put_mbox mb' ;;
  ret (r, id).

(** The label [__nothing_to_do] of [mbox_sync]. *)
Definition mbox_sync_nothing_to_do (lock_id : Z) : M W Z :=
  (if negb (lock_id =? 0) then mbox_unlock lock_id ;; ret tt else ret tt) ;;
  (* index may need to do internal syncing though, so commit
     instead of rollbacking. *)
  r <- call_ext IndexSyncCommit ;;
  if r <? 0 then
    call_ext SetIndexError ;;
    ret (-1)
  else ret 0.

(** [mbox_sync] after the mbox file is open: the sync itself, the commit or
    rollback, the uid-last rewrite and the locks. *)
Definition mbox_sync_finish (fuel : nat) (fl : mbox_sync_flags)
    (lock_id : Z) : M W Z :=
  mb <- get_mbox ;;
  modify_ctx (set_write_fd (if lock_type_eqb (mbox_lock_type mb) F_WRLCK
                            then mbox_fd mb else -1)) ;;
  r <- mbox_sync_do fuel fl ;;
  r <-
    (if r <? 0 then
       call_ext TransactionRollback ;;
       ret r
     else
       ' (rc, _, _) <- call_ext TransactionCommit ;;
       if rc <? 0 then
         call_ext SetIndexError ;;
         ret (-1)
       else
         modify_mbox (fun mb =>
           set_commit_log_file_offset 0 (set_commit_log_file_seq 0 mb)) ;;
         ret r) ;;
  modify_ctx (set_t false) ;;
  r <-
    (if r <? 0 then
       call_ext IndexSyncRollback ;;
       ret r
     else
       rc <- call_ext IndexSyncCommit ;;
       if rc <? 0 then
         call_ext SetIndexError ;;
         ret (-1)
       else ret r) ;;
  modify_ctx (set_index_sync_ctx false) ;;
  c <- get_ctx ;;
  r <-
    (if negb (base_uid_last c =? u32 (next_uid c - 1))
        && (r =? 0) && negb (delay_writes c)
        && negb (base_uid_last_offset c =? 0)
     then
       (* Rewrite uid_last in X-IMAPbase header if we've seen it
          (ie. the file isn't empty) *)
       mbox_rewrite_base_uid_last
     else ret r) ;;
  i_assert (negb (lock_id =? 0)) ;;
  mb <- get_mbox ;;
  ' (r, lock_id) <-
    (if negb (lock_type_eqb (mbox_lock_type mb) F_RDLCK) then
       (* drop to read lock *)
       ' (rl, read_lock_id) <- mbox_lock F_RDLCK 0 ;;
       if rl <=? 0 then ret (-1, lock_id)
       else
         ru <- mbox_unlock lock_id ;;
         ret (if ru <? 0 then -1 else r, read_lock_id)
     else ret (r, lock_id)) ;;
  r <-
    (if negb (MBOX_SYNC_LOCK_READING fl) then
       ru <- mbox_unlock lock_id ;;
       ret (if ru <? 0 then -1 else r)
     else ret r) ;;
  mbox_sync_context_free ;;
  ret r.

(** [mbox_sync] from the label [__again]; [n] bounds the jumps back to
    it. *)
Fixpoint mbox_sync_again (fuel n : nat) (fl : mbox_sync_flags)
    (delay_writes0 : bool) (changed lock_id : Z) : M W Z :=
  match n with
  | O => out_of_fuel
  | S n' =>
    mb <- get_mbox ;;
    l <-
      (if negb (changed =? 0) then
         (* we're most likely modifying the mbox while syncing, just
            lock it for writing immediately. *)
         let ty := if mbox_readonly mb then F_RDLCK else F_WRLCK in
         ' (r, id) <- mbox_lock ty lock_id ;;
         if r <=? 0 then ret (Return (-1)) else ret (Fall id)
       else ret (Fall lock_id)) ;;
    match l with
    | Return r => ret r
    | Fall lock_id =>
      mb <- get_mbox ;;
      let '(seq0, offset) :=
        if MBOX_SYNC_LAST_COMMIT fl
        then (commit_log_file_seq mb, commit_log_file_offset mb)
        else (UINT32_MAX, 2 ^ 64 - 1) in
      r <- call_ext (IndexSyncBegin seq0 offset (negb (keep_recent mb))
                       (MBOX_SYNC_REWRITE fl)) ;;
      if r <=? 0 then
        (if r <? 0 then call_ext SetIndexError else ret tt) ;;
        (if negb (lock_id =? 0) then mbox_unlock lock_id ;; ret tt
         else ret tt) ;;
        ret r
      else
        more <- (if changed =? 0 then call_ext IndexSyncHaveMore
                 else ret true) ;;
        if (changed =? 0) && negb more then
          (* nothing to do *)
          mbox_sync_nothing_to_do lock_id
        else
          h <- call_ext IndexGetHeader ;;
          call_ext TransactionBegin ;;
          (* make sure we've read the latest keywords in index *)
          call_ext IndexGetKeywords ;;
          put_ctx (sync_ctx_init h fl (delay_writes0 || mbox_readonly mb)) ;;
          e <-
            (if (changed =? 0) && delay_writes0 then
               (* if we have only flag changes, we don't need to open the
                  mbox file *)
               ' (r, _) <- mbox_sync_read_index_syncs fuel 1 ;;
               if r <? 0 then ret (Return (-1))
               else
                 c <- get_ctx ;;
                 if sr_uid1 (sync_rec c) =? 0 then
                   (* the commit clears the handle, also when it fails *)
                   ' (rc, _, _) <- call_ext TransactionCommit ;;
                   modify_ctx (set_t false) ;;
                   if rc <? 0 then
                     call_ext SetIndexError ;;
                     mbox_sync_context_free ;;
                     (if negb (lock_id =? 0)
                      then mbox_unlock lock_id ;; ret tt else ret tt) ;;
                     ret (Return (-1))
                   else
                     modify_ctx (set_index_sync_ctx false) ;;
                     mbox_sync_context_free ;;
                     r <- mbox_sync_nothing_to_do lock_id ;;
                     ret (Return r)
                 else ret (Fall tt)
             else ret (Fall tt)) ;;
          match e with
          | Return r => ret r
          | Fall _ =>
            if lock_id =? 0 then
              (* ok, we have something to do but no locks. we'll have to
                 restart syncing to avoid deadlocking. *)
              mbox_sync_context_free ;;
              mbox_sync_again fuel n' fl delay_writes0 1 lock_id
            else
              mb <- get_mbox ;;
              ' (r, mb') <- call_ext (MboxFileOpenStream mb) ;;
              put_mbox mb' ;;
              if r <? 0 then
                mbox_sync_context_free ;;
                mbox_unlock lock_id ;;
                ret (-1)
              else mbox_sync_finish fuel fl lock_id
          end
    end
  end.

Definition mbox_sync (fuel : nat) (fl : mbox_sync_flags) : M W Z :=
  mb <- get_mbox ;;
  delay_writes0 <-
    (if mbox_readonly mb then ret true
     else if negb (MBOX_SYNC_REWRITE fl)
     then call_ext (Getenv "MBOX_LAZY_WRITES")
     else ret false) ;;
  now <- call_ext IoloopTime ;;
  modify_mbox (set_sync_last_check now) ;;
  let fl := if negb (mbox_do_dirty_syncs mb)
            then set_MBOX_SYNC_UNDIRTY true fl else fl in
  l <-
    (if MBOX_SYNC_LOCK_READING fl then
       ' (r, id) <- mbox_lock F_RDLCK 0 ;;
       if r <=? 0 then ret (Return (-1)) else ret (Fall id)
     else ret (Fall 0)) ;;
  match l with
  | Return r => ret r
  | Fall lock_id =>
    ch <-
      (if MBOX_SYNC_HEADER fl || MBOX_SYNC_FORCE_SYNC fl then ret (Fall 1)
       else
         let leave_dirty := negb (MBOX_SYNC_UNDIRTY fl) in
         changed <- mbox_sync_has_changed leave_dirty ;;
         if changed <? 0 then
           (if MBOX_SYNC_LOCK_READING fl
            then mbox_unlock lock_id ;; ret tt else ret tt) ;;
           ret (Return (-1))
         else ret (Fall changed)) ;;
    match ch with
    | Return r => ret r
    | Fall changed =>
      if MBOX_SYNC_LOCK_READING fl && (changed =? 0) then
        (* we just want to lock it for reading. if mbox hasn't been
           modified don't do any syncing. *)
        ret 0
      else
        (if MBOX_SYNC_LOCK_READING fl then
           (* have to sync to make sure offsets have stayed the same *)
           mbox_unlock lock_id ;; ret tt
         else ret tt) ;;
        let lock_id := if MBOX_SYNC_LOCK_READING fl then 0 else lock_id in
        (* reopen input stream to make sure it has nothing buffered *)
        mb <- get_mbox ;;
        mb' <- call_ext (MboxFileCloseStream mb) ;;
        put_mbox mb' ;;
        mbox_sync_again fuel 2 fl delay_writes0 changed lock_id
    end
  end.

End Engine.

(** ** Notions used in the statements *)

Unset Implicit Arguments.

Definition is_digit (b : Z) : bool := (48 <=? b) && (b <=? 57).

Fixpoint all_digits (buf : string) (i n : nat) : bool :=
  match n with
  | O => true
  | S n' => is_digit (buf_byte buf i) && all_digits buf (S i) n'
  end.

Fixpoint decimal_value (buf : string) (i n : nat) (acc : Z) : Z :=
  match n with
  | O => acc
  | S n' => decimal_value buf (S i) n' (acc * 10 + (buf_byte buf i - 48))
  end.

Definition uid_last_matches (buf : string) (base : Z) : bool :=
  all_digits buf 0 10 && (decimal_value buf 0 10 0 =? base).

(** What the read-back of [mbox_rewrite_base_uid_last] accepts: ten digits
    whose value modulo 2^32 is [base], or, when [base] is 2^32 - 1, bytes
    that are not ten digits. *)
Definition uid_last_accepted (buf : string) (base : Z) : bool :=
  if all_digits buf 0 10 then u32 (decimal_value buf 0 10 0) =? base
  else UINT32_MAX =? base.

Definition events_since {W} (s s' : st W) : list call :=
  skipn (List.length (trace s)) (trace s').


(** A positional write that was answered with an error. *)
Definition pwrite_failed (c : call) : bool :=
  match c with
  | Call (PwriteFull _ _ _) r => r <? 0
  | Call _ _ => false
  end.

(** [ENOSPACE(errno)] was read and held. *)
Definition errno_was_nospace (c : call) : bool :=
  match c with
  | Call ErrnoIsNoSpace b => b
  | Call _ _ => false
  end.

Definition is_ftruncate (fd size : Z) (c : call) : bool :=
  match c with
  | Call (Ftruncate fd' size') _ => (fd' =? fd) && (size' =? size)
  | Call _ _ => false
  end.

Definition is_syscall_error (c : call) : bool :=
  match c with
  | Call (SetSyscallError _) _ => true
  | Call _ _ => false
  end.

(** [appends P m]: running [m] only adds calls to the trace, and every
    call it adds satisfies [P]. *)
Definition appends {W A} (P : call -> Prop) (m : M W A) : Prop :=
  forall s, exists l, trace (snd (m s)) = trace s ++ l /\ Forall P l.

(** A call that leaves the mbox file as it is. *)
Definition no_write (c : call) : Prop := is_mbox_write c = false.

Definition any_call (c : call) : Prop := True.

(** Between [s] and [s'] the mailbox is the same and the buffer of sync
    records only got records that are not expunges. *)
Definition syncs_grow_without_expunge {W} (s s' : st W) : Prop :=
  mbox s' = mbox s
  /\ exists added,
       syncs (ctx s') = syncs (ctx s) ++ added
       /\ Forall (fun r => sr_type r <> SYNC_TYPE_EXPUNGE) added.

(** The outstanding lock ids of a trace: every successful [mbox_lock] adds
    its id, every [mbox_unlock] removes the id it is given. *)
Fixpoint remove_id (id : Z) (l : list Z) : list Z :=
  match l with
  | [] => []
  | x :: l' => if x =? id then l' else x :: remove_id id l'
  end.

Definition lock_step (held : list Z) (c : call) : list Z :=
  match c with
  | Call (MboxLock _ _ _) (r, id, _) => if r >? 0 then held ++ [id] else held
  | Call (MboxUnlock _ id) _ => remove_id id held
  | Call _ _ => held
  end.

Definition locks_held (tr : list call) : list Z := fold_left lock_step tr [].

Definition is_transaction_begin (c : call) : bool :=
  match c with
  | Call TransactionBegin _ => true
  | Call _ _ => false
  end.

Definition is_transaction_end (c : call) : bool :=
  match c with
  | Call TransactionRollback _ => true
  | Call TransactionCommit _ => true
  | Call _ _ => false
  end.

Definition is_reappeared_critical (c : call) : bool :=
  match c with
  | Call (SetCritical (CRIT_EXPUNGED_REAPPEARED _ _ _ _)) _ => true
  | Call _ _ => false
  end.

(** The locals of the loop once [mail_ctx] has been read. *)
Definition with_mail (mail_ctx : mbox_sync_mail_context) (v : loop_vars)
  : loop_vars :=
  {| lv_mail_ctx := mail_ctx; lv_partial := lv_partial v;
     lv_skipped_mails := lv_skipped_mails v;
     lv_uids_broken := lv_uids_broken v |}.

(** The locals of [mbox_sync_loop] before the first iteration. *)
Definition first_turn (mail_ctx : mbox_sync_mail_context) (partial : bool)
  : loop_vars :=
  {| lv_mail_ctx := mail_ctx; lv_partial := partial;
     lv_skipped_mails := false; lv_uids_broken := false |}.

(** *** The attempts of a pass

    One run of [mbox_sync_loop] inside [mbox_sync_do]: the arguments and
    the state it starts from, its outcome and the state it ends in. *)
Record attempt (W : Type) : Type := {
  a_partial : bool;
  a_mail : mbox_sync_mail_context;
  a_start : st W;
  a_result : outcome (Z * mbox_sync_mail_context);
  a_end : st W
}.

Arguments Build_attempt {W} _ _ _ _ _.
Arguments a_partial {W} _.
Arguments a_mail {W} _.
Arguments a_start {W} _.
Arguments a_result {W} _.
Arguments a_end {W} _.

Definition is_attempt {W} (E : env W) (fuel : nat) (a : attempt W) : Prop :=
  mbox_sync_loop E fuel (a_mail a) (a_partial a) (a_start a)
  = (a_result a, a_end a).

(** A sync context that was reset: nothing is known of the mbox any more
    and the pass starts again before the first message. *)
Definition reset_context (c : mbox_sync_context) : Prop :=
  base_uid_validity c = 0 /\ base_uid_last c = 0
  /\ base_uid_last_offset c = 0
  /\ mails c = [] /\ syncs c = [] /\ sync_rec c = sync_rec_zero
  /\ prev_msg_uid c = 0
  /\ next_uid c = h_next_uid (hdr c)
  /\ idx_next_uid c = h_next_uid (hdr c)
  /\ seq c = 0 /\ idx_seq c = 1
  /\ need_space_seq c = 0 /\ expunged_space c = 0 /\ space_diff c = 0
  /\ dest_first_mail c = true.

(** The fields that a reset leaves as they are in [c]; the transaction
    handle is the one field that is in neither list. *)
Definition kept_by_reset (c c' : mbox_sync_context) : Prop :=
  flags c' = flags c /\ write_fd c' = write_fd c
  /\ index_sync_ctx c' = index_sync_ctx c /\ hdr c' = hdr c
  /\ header c' = header c /\ from_line c' = from_line c
  /\ orig_mtime c' = orig_mtime c /\ orig_size c' = orig_size c
  /\ first_mail_crlf_expunged c' = first_mail_crlf_expunged c
  /\ delay_writes c' = delay_writes c
  /\ renumber_uids c' = renumber_uids c
  /\ moved_offsets c' = moved_offsets c.

(** The attempt [b] is the restart after the attempt [a]: [a] returned 0
    on a mailbox marked dirty, the index sync was reset and the
    transaction renewed, and [b] runs in full mode on the context of [a]
    reset. *)
Definition restarts {W} (E : env W) (a b : attempt W) : Prop :=
  exists m h,
    a_result a = Ok (0, m)
    /\ mbox_sync_dirty (mbox (a_end a)) = true
    /\ a_partial b = false
    /\ a_mail b = m
    /\ reset_context (ctx (a_start b))
    /\ kept_by_reset (ctx (a_end a)) (ctx (a_start b))
    /\ t (ctx (a_start b)) = true
    /\ mbox (a_start b) = mbox (a_end a)
    /\ trace (a_start b)
       = trace (a_end a)
         ++ [Call IndexSyncReset tt; Call TransactionRollback h;
             Call TransactionBegin tt]
    /\ ext (a_start b)
       = snd (env_handle E TransactionBegin
                (snd (env_handle E TransactionRollback
                        (snd (env_handle E IndexSyncReset
                                (ext (a_end a))))))).

(** The attempts [a :: l], each the restart after the one before. *)
Fixpoint chained {W} (E : env W) (a : attempt W) (l : list (attempt W))
  : Prop :=
  match l with
  | [] => True
  | b :: l' => restarts E a b /\ chained E b l'
  end.

(** ** Claims as the specification states them

    Each is the sentence of the specification about one run; the code
    refutes it at the input of the counterexample below. *)

(** "If the ten bytes are not all ASCII digits whose decimal value equals
    base_uid_last, it reports a critical error and returns failure without
    the positional write." *)
Definition uid_last_claim_as_stated {W} (E : env W) (s : st W) : Prop :=
  let c := ctx s in
  let answer := fst (env_handle E (PreadFull (write_fd c) 10
                                     (base_uid_last_offset c)) (ext s)) in
  let run := mbox_rewrite_base_uid_last E s in
  0 < fst answer ->
  uid_last_matches (snd answer) (base_uid_last c) = false ->
  fst run = Ok (-1)
  /\ mbox_writes (trace (snd run)) = mbox_writes (trace s).

(** "If the reader reports uid_broken in partial mode, the loop marks the
    mailbox sync-dirty and returns 0." *)
Definition broken_uids_claim_as_stated {W} (E : env W) (n : nat)
    (mail_ctx0 : mbox_sync_mail_context) (s0 : st W) : Prop :=
  forall messages_count s mail_ctx s1,
    mbox_sync_loop_begin E (S n) s0 = (Ok (Fall messages_count), s) ->
    mbox_sync_read_next_mail E mail_ctx0 s = (Ok (1, mail_ctx), s1) ->
    m_uid_broken (mc_mail mail_ctx) = true ->
    exists s2,
      mbox_sync_loop E (S n) mail_ctx0 true s0 = (Ok (0, mail_ctx), s2)
      /\ mbox_sync_dirty (mbox s2) = true.

(** "If an expunged UID has reappeared, the engine logs a critical error
    and the sync returns failure." *)
Definition reappeared_uid_claim_as_stated {W} (E : env W) (fuel : nat)
    (fl : mbox_sync_flags) (s : st W) : Prop :=
  let run := mbox_sync E fuel fl s in
  existsb is_reappeared_critical (events_since s (snd run)) = true ->
  fst run = Ok (-1).

(** "If writing the pseudo message fails with an out-of-disk-space error,
    the file is truncated to zero length and the caller observes an error
    result." *)
Definition disk_full_claim_as_stated {W} (E : env W) (s : st W) : Prop :=
  let run := mbox_write_pseudo E s in
  let evs := events_since s (snd run) in
  existsb pwrite_failed evs = true ->
  existsb errno_was_nospace evs = true ->
  existsb (is_ftruncate (write_fd (ctx s)) 0) evs = true
  /\ fst run <> Ok 0.

(** "Every assignment to next_uid only keeps it equal or makes it larger",
    for the assignments of one call of [mbox_sync_read_index_syncs]. *)
Definition next_uid_claim_as_stated {W} (E : env W) (fuel : nat) (uid : Z)
    (s : st W) : Prop :=
  next_uid (ctx s)
  <= next_uid (ctx (snd (mbox_sync_read_index_syncs E fuel uid s))).

(** "On every failing path the index transaction is rolled back and -1 is
    returned, and every lock is released", for one run of [mbox_sync]. *)
Definition cleanup_claim_as_stated {W} (E : env W) (fuel : nat)
    (fl : mbox_sync_flags) (s : st W) : Prop :=
  let run := mbox_sync E fuel fl s in
  let evs := events_since s (snd run) in
  fst run = Ok (-1) ->
  locks_held evs = []
  /\ (existsb is_transaction_begin evs = true ->
      existsb is_transaction_end evs = true).

(** ** Inputs of the examples *)

Definition expunged_mail : mbox_sync_mail_context :=
  set_mc_body_offset 150
    (set_mc_seq 1
       (upd_mail (fun m => set_m_body_size 200 (set_m_from_offset 100 m))
          mail_ctx_zero)).

Definition first_message_state : st sim :=
  sim_st sim_world sim_mbox (set_seq 1 sim_ctx).

Definition uid_last_state (buf : string) (base next : Z) : st sim :=
  sim_st (set_sim_pread (1, buf) sim_world) sim_mbox
    (set_next_uid next
       (set_base_uid_last base (set_base_uid_last_offset 40 sim_ctx))).

Definition disk_full_state : st sim :=
  sim_st (set_sim_nospace true (set_sim_pwrite (-1) sim_world)) sim_mbox
    (set_next_uid 11 (set_base_uid_validity 5 sim_ctx)).

Definition eof_window_state : st sim :=
  sim_st (set_sim_stat (1000, 5) sim_world) sim_mbox
    (set_space_diff (-80) (set_need_space_seq 1 (set_seq 1 sim_ctx))).

Definition index_header (uid_validity next : Z) : mail_index_header :=
  {| h_uid_validity := uid_validity; h_next_uid := next;
     h_sync_stamp := 0; h_sync_size := 0 |}.

(** An mbox of one mail whose X-IMAPbase says uid-validity 5, uid-last 9,
    synced against an index with the given header. *)
Definition one_mail_state
    (mail : mbox_sync_mail_context -> mbox_sync_mail_context)
    (h : mail_index_header) : st sim :=
  sim_st (set_sim_stat (100, 1)
            (set_sim_pread (1, "0000000009")
               (set_sim_hdr h
                  (set_sim_base (Some (5, 9, 40))
                     (set_sim_mails [mail] sim_world)))))
    sim_mbox
    (set_idx_seq 1
       (set_idx_next_uid (h_next_uid h)
          (set_next_uid (h_next_uid h)
             (set_write_fd 3 (sync_ctx_init h no_flags false))))).

Definition broken_uid_mail (m : mbox_sync_mail_context)
  : mbox_sync_mail_context :=
  upd_mail (fun x => set_m_uid_broken true (set_m_uid 3 x)) m.

Definition uid3_mail (m : mbox_sync_mail_context) : mbox_sync_mail_context :=
  upd_mail (set_m_uid 3) m.

Definition sync_record (ty : mail_index_sync_type) (uid1 uid2 : Z)
  : mail_index_sync_rec :=
  {| sr_uid1 := uid1; sr_uid2 := uid2; sr_type := ty; sr_add_flags := 0;
     sr_remove_flags := 0; sr_keyword_idx := 0 |}.

Definition readonly_expunge_state : st sim :=
  sim_st (set_sim_syncs [sync_record SYNC_TYPE_EXPUNGE 1 5] sim_world)
    (set_mbox_readonly true sim_mbox)
    (set_sync_rec (sync_record SYNC_TYPE_EXPUNGE 1 5) sim_ctx).

Definition append_last_uid_state : st sim :=
  sim_st (set_sim_syncs [sync_record SYNC_TYPE_APPEND 7 UINT32_MAX] sim_world)
    sim_mbox (set_next_uid 5 sim_ctx).

Definition read_error_state : st sim :=
  sim_st (set_sim_sync_next_fails true sim_world)
    (set_mbox_readonly true sim_mbox) sim_ctx.

Definition lock_reading : mbox_sync_flags :=
  {| MBOX_SYNC_LAST_COMMIT := false; MBOX_SYNC_HEADER := false;
     MBOX_SYNC_LOCK_READING := true; MBOX_SYNC_UNDIRTY := false;
     MBOX_SYNC_REWRITE := false; MBOX_SYNC_FORCE_SYNC := false |}.

Definition failing_sync_state : st sim :=
  sim_st (set_sim_sync_next_fails true
            (set_sim_stat (100, 1)
               (set_sim_mails [uid3_mail] sim_world)))
    sim_mbox sim_ctx.

(** ** Notions used in the further properties *)

(** The UID range of a sync record contains [uid]. *)
Definition covers (uid : Z) (r : mail_index_sync_rec) : Prop :=
  sr_uid1 r <= uid <= sr_uid2 r.

(** The mails of the rewrite window whose from-offset goes to the index:
    those that have an index record and are not expunged. *)
Definition offset_update_due (expunged_flag : Z) (m : mbox_sync_mail) : bool :=
  negb ((m_idx_seq m =? 0) || negb (Z.land (m_flags m) expunged_flag =? 0)).

Definition offset_update (m : mbox_sync_mail) : call :=
  Call (IndexUpdateExtOffset (m_idx_seq m) (m_from_offset m)) tt.

Definition is_file_shrinked_critical (c : call) : bool :=
  match c with
  | Call (SetCritical (CRIT_FILE_SHRINKED _ _)) _ => true
  | Call _ _ => false
  end.

Definition is_pwrite (c : call) : bool :=
  match c with
  | Call (PwriteFull _ _ _) _ => true
  | Call _ _ => false
  end.

Definition is_any_ftruncate (c : call) : bool :=
  match c with
  | Call (Ftruncate _ _) _ => true
  | Call _ _ => false
  end.

(** The updates of the index header that record the state of the file of
    the last sync. *)
Definition is_sync_stamp_update (c : call) : bool :=
  match c with
  | Call (IndexUpdateHeader FIELD_SYNC_STAMP _ _) _
  | Call (IndexUpdateHeader FIELD_SYNC_SIZE _ _) _ => true
  | Call _ _ => false
  end.

(** A call that neither writes to the mbox nor records a sync stamp. *)
Definition no_stamp (c : call) : Prop :=
  is_mbox_write c = false /\ is_sync_stamp_update c = false.

(** ** Inputs of the further examples *)

Definition set_sim_index : list mail_index_record -> sim -> sim :=
  ltac:(mk_setter sim_eta sim_index).

Definition pending_flags_state : st sim :=
  sim_st sim_world sim_mbox
    (set_sync_rec (sync_record SYNC_TYPE_FLAGS 1 5) sim_ctx).

Definition indexed_uid3_state : st sim :=
  sim_st (set_sim_index [{| ir_uid := 3; ir_flags := 0 |}] sim_world)
    sim_mbox (set_idx_next_uid 10 (set_idx_seq 1 sim_ctx)).

Definition next_uid5_state : st sim :=
  sim_st sim_world sim_mbox (set_next_uid 5 (set_idx_seq 1 sim_ctx)).

Definition eof_expunged_state : st sim :=
  sim_st (set_sim_stat (1000, 5) sim_world) sim_mbox
    (set_expunged_space 100 (set_seq 1 sim_ctx)).

Definition pseudo_state : st sim :=
  sim_st sim_world sim_mbox
    (set_next_uid 11 (set_base_uid_validity 5 sim_ctx)).

(** ** What is left to the driver

    The calls that only [mbox_sync] itself makes: locking, opening and
    closing the stream, and beginning, committing and rolling back the
    index sync and committing the transaction. *)
Definition is_driver_call (c : call) : bool :=
  match c with
  | Call (MboxLock _ _ _) _
  | Call (MboxUnlock _ _) _
  | Call (MboxFileOpenStream _) _
  | Call (MboxFileCloseStream _) _
  | Call (IndexSyncBegin _ _ _ _) _
  | Call IndexSyncCommit _
  | Call IndexSyncRollback _
  | Call TransactionCommit _ => true
  | Call _ _ => false
  end.

(** A call of a sync pass. *)
Definition pass_call (c : call) : Prop := is_driver_call c = false.

Definition is_lock_call (c : call) : bool :=
  match c with
  | Call (MboxLock _ _ _) _
  | Call (MboxUnlock _ _) _ => true
  | Call _ _ => false
  end.

Definition no_lock (c : call) : Prop := is_lock_call c = false.

(** A successful [mbox_lock] hands out a lock id other than 0. *)
Definition lock_id_ok (c : call) : bool :=
  match c with
  | Call (MboxLock _ _ _) (r, id, _) => negb (r >? 0) || negb (id =? 0)
  | Call _ _ => true
  end.

(** [holds_locks m h Q]: when [m] returns [a], the calls it has added to
    the trace take the locks held from [h] to a list [h'] with [Q a h'],
    provided the lock ids they handed out are good. *)
Definition holds_locks {W A} (m : M W A) (h : list Z)
    (Q : A -> list Z -> Prop) : Prop :=
  forall (s s' : st W) (a : A),
    m s = (Ok a, s') ->
    exists l,
      trace s' = trace s ++ l
      /\ (forallb lock_id_ok l = true -> Q a (fold_left lock_step l h)).

(** ** The guards of the writes

    What keeps a sync pass from writing: writes are delayed, no expunged
    space waits to be filled, no rewrite window is open and no expunge is
    buffered. *)
Definition write_guards (c : mbox_sync_context) : Prop :=
  delay_writes c = true
  /\ expunged_space c = 0
  /\ need_space_seq c = 0
  /\ mbox_sync_buf_have_expunges (syncs c) = false.

Definition same_guards (c c' : mbox_sync_context) : Prop :=
  delay_writes c' = delay_writes c
  /\ expunged_space c' = expunged_space c
  /\ need_space_seq c' = need_space_seq c
  /\ syncs c' = syncs c.

(** The collaborators leave the guards alone: the header parser and
    [mbox_sync_update_header] do not change the four fields of the context,
    and a read-only mailbox stays read-only in the functions of the mailbox
    that hand it back. *)
Record keeps_guards {W} (E : env W) : Prop := {
  kg_parse : forall c m w,
    same_guards c (fst (fst (env_handle E (ParseNextMail c m) w)));
  kg_update_header : forall c m w,
    same_guards c (fst (fst (env_handle E (UpdateHeader c m) w)));
  kg_file_seek : forall mb seq0 w,
    mbox_readonly mb = true ->
    mbox_readonly (snd (fst (env_handle E (MboxFileSeek mb seq0) w)))
    = true;
  kg_lock : forall mb ty id w,
    mbox_readonly mb = true ->
    mbox_readonly (snd (fst (env_handle E (MboxLock mb ty id) w))) = true;
  kg_unlock : forall mb id w,
    mbox_readonly mb = true ->
    mbox_readonly (snd (fst (env_handle E (MboxUnlock mb id) w))) = true;
  kg_close_stream : forall mb w,
    mbox_readonly mb = true ->
    mbox_readonly (fst (env_handle E (MboxFileCloseStream mb) w)) = true;
  kg_open_stream : forall mb w,
    mbox_readonly mb = true ->
    mbox_readonly (snd (fst (env_handle E (MboxFileOpenStream mb) w)))
    = true
}.

(** [run_from c mb m Q]: started with context [c] and mailbox [mb], [m]
    makes no call that writes the mbox file, and when it returns [a] with
    context [c'] and mailbox [mb'], [Q a c' mb'] holds. *)
Definition run_from {W A} (c : mbox_sync_context) (mb : mbox_mailbox)
    (m : M W A) (Q : A -> mbox_sync_context -> mbox_mailbox -> Prop)
  : Prop :=
  forall s, ctx s = c -> mbox s = mb ->
    (exists l, trace (snd (m s)) = trace s ++ l /\ Forall no_write l)
    /\ (forall a s', m s = (Ok a, s') -> Q a (ctx s') (mbox s')).

(** [guarded m Q]: on a read-only mailbox with the guards up, [m] writes
    nothing, keeps the mailbox read-only and the guards up, and its result
    satisfies [Q]. *)
Definition guarded {W A} (m : M W A) (Q : A -> Prop) : Prop :=
  forall c mb,
    mbox_readonly mb = true -> write_guards c ->
    run_from c mb m
      (fun a c' mb' => mbox_readonly mb' = true /\ write_guards c' /\ Q a).

(** [ro_kept m]: on a read-only mailbox [m] writes nothing, keeps the
    mailbox read-only and leaves the context as it is. *)
Definition ro_kept {W A} (m : M W A) : Prop :=
  forall c mb,
    mbox_readonly mb = true ->
    run_from c mb m (fun _ c' mb' => mbox_readonly mb' = true /\ c' = c).

(** [unwritten m]: on a read-only mailbox [m] writes nothing. *)
Definition unwritten {W A} (m : M W A) : Prop :=
  forall c mb,
    mbox_readonly mb = true -> run_from c mb m (fun _ _ _ => True).

(** A read-only mbox of one mail without X-UID, so that a sync of a
    writable mailbox would rewrite its header. *)
Definition readonly_mail_state : st sim :=
  sim_st (ext (one_mail_state (fun m => m) (index_header 5 10)))
    (set_mbox_readonly true sim_mbox)
    (set_write_fd (-1) (sync_ctx_init (index_header 5 10) no_flags true)).

(** ** The rewrite window *)

Definition is_rewrite (c : call) : bool :=
  match c with
  | Call (Rewrite _ _ _ _ _ _ _) _ => true
  | Call _ _ => false
  end.

(** A call of [mbox_sync_rewrite] that closes the window on an expunged
    mail of [space] bytes when [needed] bytes were missing: the mail's space
    is what is moved plus what stays expunged, and what is moved is what was
    missing plus the extra space given to the headers. *)
Definition splits_space (space needed from_offset : Z) (c : call) : Prop :=
  match c with
  | Call (Rewrite c _ end_offset move_diff extra_space _ _) _ =>
      expunged_space c + move_diff = space
      /\ move_diff = needed + extra_space
      /\ 0 <= extra_space
      /\ 0 <= expunged_space c
      /\ end_offset = from_offset
  | Call _ _ => True
  end.

(** ** Dirty flags in the index *)

(** A call that replaces the flags or the keywords of an index record by
    those of the mbox. *)
Definition overwrites_index (c : call) : bool :=
  match c with
  | Call (IndexUpdateFlags _ MODIFY_REPLACE _) _ => true
  | Call (IndexUpdateKeywords _ _ _) _ => true
  | Call _ _ => false
  end.

Definition keeps_index (c : call) : Prop := overwrites_index c = false.

(** An open rewrite window that misses 80 bytes, and an expunged mail of
    500 bytes that closes it. *)
Definition window_state : st sim :=
  sim_st sim_world sim_mbox
    (set_space_diff (-80) (set_need_space_seq 1 (set_seq 2 sim_ctx))).

Definition expunged_500_mail : mbox_sync_mail_context :=
  upd_mail (fun m => set_m_space 500 (set_m_from_offset 100 m))
    mail_ctx_zero.

(** An index record with dirty flags, and a mail whose mbox flags
    differ. *)
Definition dirty_record : mail_index_record :=
  {| ir_uid := 3; ir_flags := 129 |}.

Definition flagged_mail : mbox_sync_mail_context :=
  upd_mail (set_m_flags 2) mail_ctx_zero.

(** ** Return values *)

(** [returns m Q]: whenever [m] returns, its result satisfies [Q]. *)
Definition returns {W A} (m : M W A) (Q : A -> Prop) : Prop :=
  forall s a s', m s = (Ok a, s') -> Q a.

(** [mail_index_sync_begin] answers 1, 0 or -1. *)
Definition sync_begin_in_range {W} (E : env W) : Prop :=
  forall seq0 offset sync_recent sync_dirty w,
    -1 <= fst (env_handle E
                 (IndexSyncBegin seq0 offset sync_recent sync_dirty) w).

(** The scripted collaborators with a [mail_index_sync_begin] that keeps
    to its contract: whatever the script says, it answers 1, 0 or -1. *)
Definition strict_handle (T : Type) (e : extE T) (w : sim) : T * sim :=
  match e in extE T return T * sim with
  | IndexSyncBegin _ _ _ _ => (Z.max (-1) (Z.min 1 (sim_sync_begin w)), w)
  | e' => sim_handle e' w
  end.

Definition strict_env : env sim :=
  {| env_handle := strict_handle;
     env_MBOX_HEADER_PADDING := 64;
     env_MAIL_FLAGS_MASK := 63;
     env_MAIL_RECENT := 32;
     env_MAIL_INDEX_MAIL_FLAG_DIRTY := 128;
     env_MBOX_EXPUNGED := 64 |}.

(** ** Finding a message by its MD5 sum *)

(** The index answered, for sequence [n], a stored sum equal to [sum]. *)
Definition md5_found (n : Z) (sum : list Z) (c : call) : bool :=
  match c with
  | Call (IndexLookupExtMd5 n') (_, Some d) => (n' =? n) && md5_equal d sum
  | Call _ _ => false
  end.

(** A lookup in the index that was answered with an error. *)
Definition index_read_failed (c : call) : bool :=
  match c with
  | Call (IndexLookup _) (r, _) => r <? 0
  | Call (IndexLookupExtMd5 _) (r, _) => r <? 0
  | Call _ _ => false
  end.

(** The scripted collaborators with an index that stores, for the record
    at sequence [n], the MD5 sum [[n]]. *)
Definition md5_handle (T : Type) (e : extE T) (w : sim) : T * sim :=
  match e in extE T return T * sim with
  | IndexLookupExtMd5 n => ((0, Some [n]), w)
  | e' => sim_handle e' w
  end.

Definition md5_env : env sim :=
  {| env_handle := md5_handle;
     env_MBOX_HEADER_PADDING := 64;
     env_MAIL_FLAGS_MASK := 63;
     env_MAIL_RECENT := 32;
     env_MAIL_INDEX_MAIL_FLAG_DIRTY := 128;
     env_MBOX_EXPUNGED := 64 |}.

Definition two_records_state : st sim :=
  sim_st (set_sim_index [{| ir_uid := 3; ir_flags := 0 |};
                         {| ir_uid := 4; ir_flags := 0 |}] sim_world)
    sim_mbox (set_idx_seq 1 sim_ctx).

(** ** Flags of the index that the mbox does not hold *)

(** A call that replaces the flags of an index record gives it the flags
    [idx] that it had, outside [mask], [recent] and [dirty]. *)
Definition keeps_internal_flags (mask recent dirty idx : Z) (c : call)
  : Prop :=
  match c with
  | Call (IndexUpdateFlags _ MODIFY_REPLACE v) _ =>
      Z.land v (Z.lnot (Z.lor mask (Z.lor recent dirty)))
      = Z.land idx (Z.lnot (Z.lor mask (Z.lor recent dirty)))
  | Call _ _ => True
  end.

(** An index record with a flag that the mbox does not hold (bit 6), and
    no dirty flag. *)
Definition internal_record : mail_index_record :=
  {| ir_uid := 3; ir_flags := 65 |}.

(** ** A stream that hands out its bytes in pieces *)

(** The scripted collaborators with a file stream over the bytes of
    [sim_pread]: [i_stream_get_data] gives at most eight buffered bytes,
    [i_stream_skip] drops bytes and [i_stream_read] fills the buffer. *)
Definition line_handle (T : Type) (e : extE T) (w : sim) : T * sim :=
  match e in extE T return T * sim with
  | StreamGetData => (substring 0 8 (snd (sim_pread w)), w)
  | StreamSkip n =>
    (tt, set_sim_pread
           (fst (sim_pread w),
            substring (Z.to_nat n)
              (String.length (snd (sim_pread w)) - Z.to_nat n)
              (snd (sim_pread w))) w)
  | StreamRead => (1, w)
  | e' => sim_handle e' w
  end.

Definition line_env : env sim :=
  {| env_handle := line_handle;
     env_MBOX_HEADER_PADDING := 64;
     env_MAIL_FLAGS_MASK := 63;
     env_MAIL_RECENT := 32;
     env_MAIL_INDEX_MAIL_FLAG_DIRTY := 128;
     env_MBOX_EXPUNGED := 64 |}.

(** A mail whose From-line of 38 bytes starts at offset 20. *)
Definition from_line_mail : mbox_sync_mail_context :=
  {| mc_mail := set_m_from_offset 20 mail_zero; mc_seq := 1;
     mc_hdr_offset := 58; mc_body_offset := 0; mc_hdr_md5_sum := [];
     mc_content_length := 0; mc_have_eoh := false; mc_need_rewrite := false;
     mc_pseudo := false; mc_updated := false; mc_recent := false;
     mc_dirty := false |}.

Definition from_line_state : st sim :=
  sim_st (set_sim_pread
            (1, ("From root@example.org Thu Jan  1 1970" ++ LF
                 ++ "X-UID: 1" ++ LF)%string) sim_world)
    sim_mbox sim_ctx.

Definition is_stream_read (c : call) : bool :=
  match c with
  | Call StreamRead _ => true
  | Call _ _ => false
  end.

(** ** A broken UID after a rewritten mail *)

Definition is_try_rewrite (c : call) : bool :=
  match c with
  | Call (TryRewrite _ _ _) _ => true
  | Call _ _ => false
  end.

Definition rewritten_mail (m : mbox_sync_mail_context)
  : mbox_sync_mail_context :=
  upd_mail (set_m_uid 1) m.

(** An mbox of two mails synced in partial mode: the first has UID 1 and
    a flag change waiting in the index for the UIDs 1 to 2, the second has
    a broken UID. *)
Definition two_mails_state : st sim :=
  sim_st (set_sim_stat (100, 1)
            (set_sim_hdr (index_header 5 10)
               (set_sim_base (Some (5, 9, 40))
                  (set_sim_syncs [sync_record SYNC_TYPE_FLAGS 1 2]
                     (set_sim_index [{| ir_uid := 1; ir_flags := 0 |}]
                        (set_sim_mails [rewritten_mail; broken_uid_mail]
                           sim_world))))))
    sim_mbox
    (set_idx_seq 1
       (set_idx_next_uid 10
          (set_next_uid 10
             (set_write_fd 3
                (sync_ctx_init (index_header 5 10) no_flags false))))).
(** ** Properties *)

Lemma u32_small x : 0 <= x <= UINT32_MAX -> u32 x = x.
Proof. unfold u32, UINT32_MAX; intros; apply Z.mod_small; lia. Qed.

Lemma u64_small x : 0 <= x < 2 ^ 64 -> u64 x = x.
Proof. unfold u64; intros; apply Z.mod_small; lia. Qed.

Lemma s64_small x : - 2 ^ 63 <= x < 2 ^ 63 -> s64 x = x.
Proof.
  unfold s64; intros.
  rewrite Z.mod_small by lia. lia.
Qed.

Lemma u32_range x : 0 <= u32 x <= UINT32_MAX.
Proof.
  unfold u32, UINT32_MAX.
  pose proof (Z.mod_pos_bound x (2 ^ 32) ltac:(lia)). lia.
Qed.

Lemma sync_type_eqb_eq a b : sync_type_eqb a b = true <-> a = b.
Proof. destruct a, b; simpl; split; congruence. Qed.

(** Removes the wrap-around of an expression that stays in range. *)
Ltac wrap_simpl :=
  repeat match goal with
         | |- context [s64 ?x] => rewrite (s64_small x) by lia
         | |- context [u64 ?x] => rewrite (u64_small x) by lia
         | |- context [u32 ?x] =>
             rewrite (u32_small x) by (unfold UINT32_MAX; lia)
         end.


Lemma read_uid_last_not_digits buf n :
  forall i acc,
    all_digits buf i n = false -> read_uid_last buf i n acc = UINT32_MAX.
Proof.
  induction n as [|n IH]; intros i acc H; simpl in *; [discriminate|].
  unfold is_digit in H.
  destruct (buf_byte buf i <? 48) eqn:H1; [reflexivity|].
  destruct (buf_byte buf i >? 57) eqn:H2; [reflexivity|].
  simpl. apply IH.
  apply Z.ltb_ge in H1. rewrite Z.gtb_ltb in H2. apply Z.ltb_ge in H2.
  destruct (48 <=? buf_byte buf i) eqn:H3; [|apply Z.leb_gt in H3; lia].
  destruct (buf_byte buf i <=? 57) eqn:H4; [|apply Z.leb_gt in H4; lia].
  exact H.
Qed.

Lemma read_uid_last_digits buf n :
  forall i acc,
    all_digits buf i n = true ->
    read_uid_last buf i n (u32 acc) = u32 (decimal_value buf i n acc).
Proof.
  induction n as [|n IH]; intros i acc H; simpl in *; [reflexivity|].
  apply andb_prop in H. destruct H as [Hd Hrest].
  unfold is_digit in Hd. apply andb_prop in Hd. destruct Hd as [H1 H2].
  apply Z.leb_le in H1, H2.
  destruct (buf_byte buf i <? 48) eqn:H3; [apply Z.ltb_lt in H3; lia|].
  destruct (buf_byte buf i >? 57) eqn:H4;
    [rewrite Z.gtb_ltb in H4; apply Z.ltb_lt in H4; lia|].
  simpl.
  replace (u32 (u32 acc * 10 + (buf_byte buf i - 48)))
    with (u32 (acc * 10 + (buf_byte buf i - 48))).
  - apply IH; assumption.
  - unfold u32.
    rewrite (Z.add_mod (acc mod 2 ^ 32 * 10)) by lia.
    rewrite (Z.mul_mod (acc mod 2 ^ 32)) by lia.
    rewrite Z.mod_mod by lia.
    rewrite <- Z.mul_mod by lia.
    rewrite <- Z.add_mod by lia.
    reflexivity.
Qed.

(** The read-back of the engine computes the decimal value of ten digits
    modulo 2^32, and [(uint32_t)-1] when a byte is not a digit. *)
Lemma read_uid_last_spec buf :
  read_uid_last buf 0 10 0 =
  if all_digits buf 0 10 then u32 (decimal_value buf 0 10 0) else UINT32_MAX.
Proof.
  destruct (all_digits buf 0 10) eqn:H.
  - change 0 with (u32 0) at 1. apply read_uid_last_digits; assumption.
  - apply read_uid_last_not_digits; assumption.
Qed.

Lemma events_since_app {W} (s s' : st W) l :
  trace s' = trace s ++ l -> events_since s s' = l.
Proof.
  unfold events_since; intros ->.
  rewrite skipn_app, skipn_all, Nat.sub_diag. reflexivity.
Qed.

(** *** The trace only grows *)

Lemma appends_ret {W A} (P : call -> Prop) (a : A) :
  appends P (ret (W := W) a).
Proof. intros s; exists []; rewrite app_nil_r; split; [reflexivity|constructor]. Qed.

Lemma appends_bind {W A B} (P : call -> Prop) (m : M W A) (k : A -> M W B) :
  appends P m -> (forall a, appends P (k a)) -> appends P (bind m k).
Proof.
  intros Hm Hk s. unfold bind.
  destruct (Hm s) as [l1 [Ht1 Hf1]].
  destruct (m s) as [[a| |] s1]; cbn [snd] in *.
  - destruct (Hk a s1) as [l2 [Ht2 Hf2]].
    exists (l1 ++ l2). rewrite Ht2, Ht1, app_assoc.
    split; [reflexivity|apply Forall_app; split; assumption].
  - exists l1; split; assumption.
  - exists l1; split; assumption.
Qed.

Lemma appends_state {W A} (P : call -> Prop) (m : M W A) :
  (forall s, trace (snd (m s)) = trace s) -> appends P m.
Proof.
  intros H s; exists []; rewrite app_nil_r; split; [apply H|constructor].
Qed.

Lemma appends_call {W T} (E : env W) (P : call -> Prop) (e : extE T) :
  (forall r, P (Call e r)) -> appends P (call_ext E e).
Proof.
  intros H s. exists [Call e (fst (env_handle E e (ext s)))].
  split; [reflexivity|]. constructor; [apply H|constructor].
Qed.

Lemma appends_weaken {W A} (P Q : call -> Prop) (m : M W A) :
  (forall c, P c -> Q c) -> appends P m -> appends Q m.
Proof.
  intros HPQ Hm s. destruct (Hm s) as [l [Ht Hf]].
  exists l; split; [assumption|].
  eapply Forall_impl; [exact HPQ|exact Hf].
Qed.

Lemma appends_writes {W A} (m : M W A) :
  appends no_write m ->
  forall s, mbox_writes (trace (snd (m s))) = mbox_writes (trace s).
Proof.
  intros Hm s. destruct (Hm s) as [l [Ht Hf]].
  rewrite Ht. unfold mbox_writes. rewrite filter_app.
  replace (filter is_mbox_write l) with (@nil call);
    [apply app_nil_r|].
  symmetry. clear Ht.
  induction Hf as [|c l Hc _ IH]; cbn; [reflexivity|].
  rewrite Hc. exact IH.
Qed.

Lemma appends_events_since {W A} (P : call -> Prop) (m : M W A)
    (s s1 : st W) (l1 : list call) :
  appends P m ->
  trace s1 = trace s ++ l1 ->
  exists l, events_since s (snd (m s1)) = l1 ++ l /\ Forall P l.
Proof.
  intros Hm Ht. destruct (Hm s1) as [l [Hl Hf]].
  exists l. split; [|assumption].
  apply events_since_app. rewrite Hl, Ht, app_assoc. reflexivity.
Qed.

Lemma bind_assoc {W A B C} (m : M W A) (f : A -> M W B) (g : B -> M W C) s :
  bind (bind m f) g s = bind m (fun x => bind (f x) g) s.
Proof. unfold bind. destruct (m s) as [[a| |] s1]; reflexivity. Qed.

Lemma bind_ok {W A B} (m : M W A) (k : A -> M W B) s a s' :
  m s = (Ok a, s') -> bind m k s = k a s'.
Proof. unfold bind. intros ->. reflexivity. Qed.

Lemma bind_if {W A B} (b : bool) (m1 m2 : M W A) (g : A -> M W B) s :
  bind (if b then m1 else m2) g s
  = if b then bind m1 g s else bind m2 g s.
Proof. destruct b; reflexivity. Qed.

Create HintDb appends.

(** Proves [appends P m] by following the structure of [m]; functions of
    the engine are looked up in the hint database. *)
Ltac appends_step :=
  cbv beta;
  match goal with
  | |- appends _ (bind _ _) => apply appends_bind; [|intros ?]
  | |- appends _ (ret _) => apply appends_ret
  | |- appends _ (call_ext _ _) =>
      apply appends_call; intros; first [reflexivity | exact I]
  | |- appends _ get_ctx => apply appends_state; reflexivity
  | |- appends _ get_mbox => apply appends_state; reflexivity
  | |- appends _ (put_ctx _) => apply appends_state; reflexivity
  | |- appends _ (put_mbox _) => apply appends_state; reflexivity
  | |- appends _ (modify_ctx _) => apply appends_state; reflexivity
  | |- appends _ (modify_mbox _) => apply appends_state; reflexivity
  | |- appends _ (i_assert ?b) =>
      apply appends_state; intros; destruct b; reflexivity
  | |- appends _ panic => apply appends_state; reflexivity
  | |- appends _ out_of_fuel => apply appends_state; reflexivity
  | |- appends _ (if ?b then _ else _) => destruct b
  | |- appends _ (match ?x with _ => _ end) => destruct x
  | |- appends _ _ => solve [auto with appends]
  | |- appends any_call _ =>
      apply (appends_weaken no_write); [intros; exact I|];
      solve [auto with appends]
  end.

Ltac appends_auto := repeat appends_step.

Lemma syncs_grow_refl {W} (s : st W) : syncs_grow_without_expunge s s.
Proof.
  split; [reflexivity|]. exists []. rewrite app_nil_r.
  split; [reflexivity|constructor].
Qed.

Lemma syncs_grow_same {W} (s s' : st W) :
  mbox s' = mbox s -> syncs (ctx s') = syncs (ctx s) ->
  syncs_grow_without_expunge s s'.
Proof.
  intros Hm Hs. split; [assumption|]. exists []. rewrite app_nil_r.
  split; [assumption|constructor].
Qed.

Lemma syncs_grow_one {W} (s s' : st W) (r : mail_index_sync_rec) :
  mbox s' = mbox s -> syncs (ctx s') = syncs (ctx s) ++ [r] ->
  sync_type_eqb (sr_type r) SYNC_TYPE_EXPUNGE = false ->
  syncs_grow_without_expunge s s'.
Proof.
  intros Hm Hs Hr. split; [assumption|]. exists [r].
  split; [assumption|]. constructor; [|constructor].
  intros Heq. rewrite Heq in Hr. discriminate Hr.
Qed.

Lemma syncs_grow_trans {W} (s1 s2 s3 : st W) :
  syncs_grow_without_expunge s1 s2 ->
  syncs_grow_without_expunge s2 s3 ->
  syncs_grow_without_expunge s1 s3.
Proof.
  intros [Hm1 [a1 [Hs1 Hf1]]] [Hm2 [a2 [Hs2 Hf2]]].
  split; [congruence|].
  exists (a1 ++ a2). rewrite Hs2, Hs1, app_assoc.
  split; [reflexivity|apply Forall_app; split; assumption].
Qed.

Lemma have_expunges_app l added :
  Forall (fun r => sr_type r <> SYNC_TYPE_EXPUNGE) added ->
  mbox_sync_buf_have_expunges (l ++ added) = mbox_sync_buf_have_expunges l.
Proof.
  intros Hf. unfold mbox_sync_buf_have_expunges. rewrite existsb_app.
  replace (existsb _ added) with false; [apply orb_false_r|].
  symmetry. induction Hf as [|r added Hr _ IH]; cbn; [reflexivity|].
  rewrite IH, orb_false_r.
  destruct (sync_type_eqb (sr_type r) SYNC_TYPE_EXPUNGE) eqn:Heq;
    [|reflexivity].
  apply sync_type_eqb_eq in Heq. contradiction.
Qed.

Lemma have_expunges_filter f l :
  mbox_sync_buf_have_expunges (filter f l) = true ->
  mbox_sync_buf_have_expunges l = true.
Proof.
  unfold mbox_sync_buf_have_expunges. rewrite !existsb_exists.
  intros [x [Hin Hx]]. apply filter_In in Hin. exists x. tauto.
Qed.

Section Properties.
Context {W : Type}.
Variable E : env W.

Lemma update_from_offsets_loop_quiet l :
  appends no_write (update_from_offsets_loop E l).
Proof.
  induction l as [|mail l IH]; cbn [update_from_offsets_loop].
  - appends_auto.
  - appends_auto; exact IH.
Qed.

Lemma update_from_offsets_quiet :
  appends no_write (update_from_offsets E).
Proof.
  unfold update_from_offsets. appends_auto.
  apply update_from_offsets_loop_quiet.
Qed.

Lemma mbox_write_pseudo_appends :
  appends any_call (mbox_write_pseudo E).
Proof. unfold mbox_write_pseudo. appends_auto. Qed.

Hint Resolve update_from_offsets_quiet mbox_write_pseudo_appends : appends.

Lemma handle_eof_expunged_appends trailer_size :
  appends any_call (handle_eof_expunged E trailer_size).
Proof. unfold handle_eof_expunged. appends_auto. Qed.

Hint Resolve handle_eof_expunged_appends : appends.

Lemma mbox_sync_seek_to_seq_quiet seq0 :
  appends no_write (mbox_sync_seek_to_seq E seq0).
Proof. unfold mbox_sync_seek_to_seq. appends_auto. Qed.

Lemma expunge_rest_quiet fuel messages_count :
  appends no_write (expunge_rest E fuel messages_count).
Proof.
  induction fuel as [|fuel IH]; cbn [expunge_rest]; appends_auto.
Qed.

Hint Resolve mbox_sync_seek_to_seq_quiet expunge_rest_quiet : appends.

Lemma mbox_sync_loop_begin_quiet fuel :
  appends no_write (mbox_sync_loop_begin E fuel).
Proof. unfold mbox_sync_loop_begin. appends_auto. Qed.

Lemma mbox_sync_read_next_mail_quiet mail_ctx :
  appends no_write (mbox_sync_read_next_mail E mail_ctx).
Proof. unfold mbox_sync_read_next_mail. appends_auto. Qed.

Lemma mbox_sync_restart_quiet :
  appends no_write (mbox_sync_restart E).
Proof. unfold mbox_sync_restart. appends_auto. Qed.

Hint Resolve mbox_sync_loop_begin_quiet mbox_sync_read_next_mail_quiet
  mbox_sync_restart_quiet : appends.

(** C7: [mbox_sync_handle_expunge] sets the offset of the record to its
    [from_offset] and its space to the span
    [body_offset - from_offset + body_size]; for the first message
    ([seq = 1]) the space counts one more byte, two with a CRLF ending, and
    [base_uid_last_offset] becomes 0, otherwise it is kept; the space is
    added to [expunged_space].  The hypotheses say that the offsets are
    positions of a file and that the sum fits an [off_t]. *)
Theorem handle_expunge_accounts_full_span :
  forall (mail_ctx : mbox_sync_mail_context) (s : st W),
    let mail := mc_mail mail_ctx in
    let span := mc_body_offset mail_ctx - m_from_offset mail + m_body_size mail in
    let crlf := fst (env_handle E RawHasCrlfEnding (ext s)) in
    let extra := if seq (ctx s) =? 1 then (if crlf then 2 else 1) else 0 in
    0 <= m_from_offset mail <= mc_body_offset mail_ctx ->
    0 <= m_body_size mail ->
    0 <= expunged_space (ctx s) ->
    expunged_space (ctx s) + span + extra <= OFF_T_MAX ->
    exists mail_ctx' s',
      mbox_sync_handle_expunge E mail_ctx s = (Ok mail_ctx', s')
      /\ m_offset (mc_mail mail_ctx') = m_from_offset mail
      /\ m_space (mc_mail mail_ctx') = span + extra
      /\ expunged_space (ctx s') = expunged_space (ctx s) + (span + extra)
      /\ (seq (ctx s) = 1 -> base_uid_last_offset (ctx s') = 0)
      /\ (seq (ctx s) <> 1 ->
          base_uid_last_offset (ctx s') = base_uid_last_offset (ctx s)).
Proof.
  intros mail_ctx s mail span crlf extra Hoff Hbody Hexp Hmax.
  unfold OFF_T_MAX in Hmax.
  unfold mbox_sync_handle_expunge, bind, get_ctx, ret, modify_ctx, call_ext.
  cbn.
  subst extra crlf span mail.
  destruct (seq (ctx s) =? 1) eqn:Hseq;
    [ destruct (fst (env_handle E RawHasCrlfEnding (ext s))) | ];
    cbn; eexists; eexists; (split; [reflexivity|]); cbn;
    wrap_simpl;
    repeat split; try lia;
    intros; try reflexivity;
    apply Z.eqb_neq in Hseq || apply Z.eqb_eq in Hseq; lia.
Qed.

(** The read-back of [mbox_rewrite_base_uid_last], on every input with a
    successful read: when the ten bytes are not accepted it reports the
    critical error and returns -1, and the read is its only call on the
    file; when they are accepted it writes the ten digits of
    [next_uid - 1] at [base_uid_last_offset]. *)
Lemma rewrite_base_uid_last_check :
  forall s : st W,
    let c := ctx s in
    let rd := env_handle E (PreadFull (write_fd c) 10 (base_uid_last_offset c))
                (ext s) in
    let r := fst (fst rd) in
    let buf := snd (fst rd) in
    let str := fmt_010u (u32 (next_uid c - 1)) in
    let wr := env_handle E (PwriteFull (write_fd c) str (base_uid_last_offset c))
                (snd rd) in
    base_uid_last_offset c <> 0 ->
    0 < r ->
    (uid_last_accepted buf (base_uid_last c) = false ->
     exists s',
       mbox_rewrite_base_uid_last E s = (Ok (-1), s')
       /\ events_since s s' =
          [Call (PreadFull (write_fd c) 10 (base_uid_last_offset c)) (r, buf);
           Call (SetCritical CRIT_UID_LAST_LOST) tt]
       /\ ctx s' = c)
    /\ (uid_last_accepted buf (base_uid_last c) = true ->
        exists s',
          mbox_rewrite_base_uid_last E s
          = (Ok (if fst wr <? 0 then -1 else 0), s')
          /\ firstn 2 (events_since s s') =
             [Call (PreadFull (write_fd c) 10 (base_uid_last_offset c))
                (r, buf);
              Call (PwriteFull (write_fd c) str (base_uid_last_offset c))
                (fst wr)]
          /\ (0 <= fst wr -> base_uid_last (ctx s') = u32 (next_uid c - 1))).
Proof.
  intros s c rd r buf str wr Hoff Hr.
  assert (Hread : (read_uid_last buf 0 10 0 =? base_uid_last c)
                  = uid_last_accepted buf (base_uid_last c)).
  { rewrite read_uid_last_spec. unfold uid_last_accepted.
    destruct (all_digits buf 0 10); reflexivity. }
  unfold mbox_rewrite_base_uid_last, bind, get_ctx, i_assert, ret, call_ext,
    modify_ctx.
  fold c.
  apply Z.eqb_neq in Hoff. rewrite Hoff. cbn [negb].
  fold rd. 
  destruct (fst rd) as [r0 buf0] eqn:Hrd. cbn [fst snd] in *.
  subst r buf.
  assert (Hr1 : (r0 <? 0) = false) by (apply Z.ltb_ge; lia).
  assert (Hr2 : (r0 =? 0) = false) by (apply Z.eqb_neq; lia).
  cbn -[read_uid_last Z.ltb Z.eqb fmt_010u]. rewrite Hr1, Hr2, Hread.
  split; intros Hm; rewrite Hm; cbn -[fmt_010u Z.ltb].
  - eexists; split; [reflexivity|]. split; [|reflexivity].
    apply events_since_app. cbn. rewrite <- app_assoc.
    destruct (fst (env_handle E (SetCritical CRIT_UID_LAST_LOST) (snd rd))).
    reflexivity.
  - fold str. fold wr. destruct (fst wr <? 0) eqn:Hw; cbn.
    + eexists; split; [reflexivity|]. split.
      * erewrite events_since_app; [|cbn; rewrite <- !app_assoc; reflexivity].
        reflexivity.
      * intros; apply Z.ltb_lt in Hw; lia.
    + eexists; split; [reflexivity|]. split.
      * erewrite events_since_app; [|cbn; rewrite <- !app_assoc; reflexivity].
        reflexivity.
      * reflexivity.
Qed.


(** Names the answer of the innermost pending collaborator call. *)
Ltac name_call :=
  match goal with
  | |- context [env_handle ?E' ?e (ext ?s)] =>
      is_var s;
      let a := fresh "a" in let w := fresh "w" in
      destruct (env_handle E' e (ext s)) as [a w] eqn:?;
      cbn [fst snd] in *
  | |- context [env_handle ?E' ?e ?w0] =>
      is_var w0;
      let a := fresh "a" in let w := fresh "w" in
      destruct (env_handle E' e w0) as [a w] eqn:?;
      cbn [fst snd] in *
  end.

(** Runs the monadic code as far as it is determined, leaving machine
    arithmetic, strings and traces as they are. *)
Ltac msimpl :=
  cbn -[Z.ltb Z.leb Z.eqb Z.gtb Z.geb Z.add Z.sub Z.mul Z.opp Z.land Z.lor
        Z.lnot Z.lxor Z.pow Z.modulo Z.div u32 u64 s64 u8 fmt_010u fmt_u
        read_uid_last String.append substring app filter forallb existsb
        skipn firstn List.length].

(** Unfolds the monad everywhere, also under a branch that is not yet
    decided. *)
Ltac mrun :=
  cbv beta iota zeta delta
    [bind ret get_ctx get_mbox put_ctx put_mbox modify_ctx modify_mbox
     i_assert panic out_of_fuel call_ext];
  msimpl.

(** Decides a comparison of the goal by linear arithmetic, after removing
    the wrap-around of expressions that stay in range. *)
Ltac cond_lia :=
  match goal with
  | |- context [Z.ltb ?x ?y] =>
      first [ rewrite (proj2 (Z.ltb_lt x y)) by (wrap_simpl; lia)
            | rewrite (proj2 (Z.ltb_ge x y)) by (wrap_simpl; lia) ]
  | |- context [Z.leb ?x ?y] =>
      first [ rewrite (proj2 (Z.leb_le x y)) by (wrap_simpl; lia)
            | rewrite (proj2 (Z.leb_gt x y)) by (wrap_simpl; lia) ]
  | |- context [Z.eqb ?x ?y] =>
      first [ rewrite (proj2 (Z.eqb_eq x y)) by (wrap_simpl; lia)
            | rewrite (proj2 (Z.eqb_neq x y)) by (wrap_simpl; lia) ]
  | |- context [Z.gtb ?x ?y] =>
      rewrite (Z.gtb_ltb x y)
  | |- context [Z.geb ?x ?y] =>
      rewrite (Z.geb_leb x y)
  end.

(** The answer of a call that returns nothing is [tt]. *)
Ltac unit_answers :=
  repeat match goal with
         | |- context [Call ?e ?r] =>
             match type of r with
             | unit => lazymatch r with
                       | tt => fail
                       | _ => destruct r
                       end
             end
         end.

(** Computes the calls made since [s] when the trace is an explicit
    extension of the trace of [s]. *)
Ltac events_norm :=
  repeat match goal with
         | |- context [events_since ?s ?s'] =>
             erewrite (events_since_app s s')
               by (cbn [trace]; rewrite <- ?app_assoc; cbn [app];
                   reflexivity)
         | H : context [events_since ?s ?s'] |- _ =>
             erewrite (events_since_app s s') in H
               by (cbn [trace]; rewrite <- ?app_assoc; cbn [app];
                   reflexivity)
         end.

(** C6, as amended: when the write of the pseudo message fails and
    [errno] says that the disk is full, [mbox_write_pseudo] calls
    [ftruncate] with length zero, reports a syscall error when that call
    fails, and returns 0 either way, with [base_uid_last_offset] reset and
    [base_uid_last] set to [next_uid - 1]; these are its last calls.  It
    returns -1 exactly when the write fails and [errno] is not
    out-of-space, and otherwise 0. *)
Theorem write_pseudo_out_of_space :
  forall s : st W,
    let c := ctx s in
    let run := mbox_write_pseudo E s in
    let evs := events_since s (snd run) in
    write_fd c <> -1 ->
    (if negb (base_uid_validity c =? 0) then base_uid_validity c
     else h_uid_validity (hdr c)) <> 0 ->
    (existsb pwrite_failed evs = true ->
     existsb errno_was_nospace evs = true ->
     fst run = Ok 0
     /\ (exists pre str w r,
           evs = pre
                 ++ [Call (PwriteFull (write_fd c) str 0) w;
                     Call ErrnoIsNoSpace true;
                     Call (Ftruncate (write_fd c) 0) r]
                 ++ (if r <? 0
                     then [Call (SetSyscallError "ftruncate()") tt]
                     else []))
     /\ base_uid_last_offset (ctx (snd run)) = 0
     /\ base_uid_last (ctx (snd run)) = u32 (next_uid c - 1))
    /\ (fst run = Ok (-1)
        <-> existsb pwrite_failed evs = true
            /\ existsb errno_was_nospace evs = false)
    /\ (fst run = Ok 0 \/ fst run = Ok (-1)).
Proof.
  intros s c run evs Hfd Hval.
  subst evs run.
  unfold mbox_write_pseudo. msimpl. fold c.
  apply Z.eqb_neq in Hfd, Hval. rewrite Hfd. msimpl.
  rewrite Hval. msimpl.
  repeat name_call.
  destruct (a3 <? 0) eqn:Hw; msimpl; repeat name_call.
  - destruct a4; msimpl; repeat name_call.
    + destruct (a4 <? 0) eqn:Ht; msimpl; repeat name_call; unit_answers;
        events_norm;
        cbn [existsb pwrite_failed errno_was_nospace orb];
        rewrite ?Hw, ?orb_true_r; cbn [andb orb];
        (split; [intros _ _; split; [reflexivity|]; split;
                 [eexists [_; _; _; _], _, _, _; rewrite Ht; reflexivity
                 |split; reflexivity]|]);
        (split; [split; [discriminate|intros [_ H]; discriminate H]|]);
        left; reflexivity.
    + unit_answers. events_norm.
      cbn [existsb pwrite_failed errno_was_nospace orb].
      rewrite ?Hw, ?orb_true_r; cbn [andb orb].
      split; [intros _ H; discriminate H|].
      split; [split; [intros _; split; reflexivity|reflexivity]|].
      right; reflexivity.
  - events_norm.
    cbn [existsb pwrite_failed errno_was_nospace orb].
    rewrite Hw. cbn [orb].
    split; [intros H; discriminate H|].
    split; [split; [discriminate|intros [H _]; discriminate H]|].
    left; reflexivity.
Qed.



Local Abbreviation MBOX_HEADER_PADDING := (env_MBOX_HEADER_PADDING E).

(** C3: at end of file with an open rewrite window, the padding is
    [MBOX_HEADER_PADDING * (seq - need_space_seq + 1)] and
    [mbox_sync_handle_eof_updates] calls [file_set_size] with the file size
    plus [- space_diff - expunged_space + padding]; when that succeeds the
    rewriter is called with the old file size, that growth and that
    padding.  The hypotheses say that the values are in the range of their
    C types and that the assertions of the function hold. *)
Theorem eof_window_grows_file :
  forall (mail_ctx : mbox_sync_mail_context) (s : st W)
         (file_size mtime v_offset : Z) (w1 w2 w3 w4 : W),
    let c := ctx s in
    let padding := MBOX_HEADER_PADDING * (seq c - need_space_seq c + 1) in
    let growth := (- space_diff c - expunged_space c) + padding in
    let set_size := FileSetSize (write_fd c) (file_size + growth) in
    env_handle E RawIsEof (ext s) = (true, w1) ->
    env_handle E (StreamSync STREAM_FILE_INPUT) w1 = (tt, w2) ->
    env_handle E (StreamStat true) w2 = (Some (file_size, mtime), w3) ->
    env_handle E (StreamVOffset STREAM_FILE_INPUT) w3 = (v_offset, w4) ->
    0 <= v_offset <= file_size ->
    file_size <= v_offset + 2 ->
    write_fd c <> -1 ->
    0 < need_space_seq c <= seq c ->
    seq c <= UINT32_MAX ->
    0 <= MBOX_HEADER_PADDING ->
    padding <= UINT32_MAX ->
    space_diff c < 0 ->
    0 <= expunged_space c < - space_diff c + padding ->
    - 2 ^ 63 < space_diff c - padding ->
    file_size + growth < 2 ^ 64 ->
    let run := mbox_sync_handle_eof_updates E mail_ctx s in
    exists rest,
      events_since s (snd run) =
        [Call RawIsEof true;
         Call (StreamSync STREAM_FILE_INPUT) tt;
         Call (StreamStat true) (Some (file_size, mtime));
         Call (StreamVOffset STREAM_FILE_INPUT) v_offset;
         Call set_size (fst (env_handle E set_size w4))] ++ rest
      /\ (0 <= fst (env_handle E set_size w4) ->
          exists c' answer rest',
            rest =
              Call (StreamSync STREAM_INPUT) tt
              :: Call (Rewrite c' (Some mail_ctx) file_size growth padding
                         (need_space_seq c) (seq c)) answer
              :: rest').
Proof.
  intros mail_ctx s file_size mtime v_offset w1 w2 w3 w4 c padding growth
    set_size H1 H2 H3 H4 Hv Htr Hfd Hneed Hseq Hpad0 Hpad Hdiff Hexp Hlow
    Hhigh run.
  subst run.
  unfold mbox_sync_handle_eof_updates, handle_eof_window. msimpl.
  rewrite H1. msimpl. rewrite H2. msimpl. rewrite H3. msimpl.
  rewrite H4. msimpl. fold c.
  assert (Hp0 : 0 <= padding)
    by (apply Z.mul_nonneg_nonneg; lia).
  unfold UINT32_MAX in *.
  unfold growth, padding in *.
  repeat (first [rewrite bind_assoc | cond_lia]; msimpl).
  destruct (mc_have_eoh mail_ctx && negb (mc_updated mail_ctx)); msimpl;
    repeat (first [rewrite bind_assoc | cond_lia]; msimpl);
    wrap_simpl.
  all: match goal with
       | |- context [FileSetSize _ ?x] =>
           replace x with
             (file_size +
              (- space_diff c - expunged_space c +
               MBOX_HEADER_PADDING * (seq c - need_space_seq c + 1)))
             by lia
       end.
  all: match goal with
       | |- context [Rewrite _ _ _ ?x _ _ _] =>
           replace x with
             (- space_diff c - expunged_space c +
              MBOX_HEADER_PADDING * (seq c - need_space_seq c + 1))
             by lia
       end.
  all: fold set_size.
  all: destruct (fst (env_handle E set_size w4) <? 0) eqn:Hw; msimpl.
  all: try (match goal with
       | |- context [snd (?T ?st)] =>
           destruct (appends_events_since any_call T s st
                       [Call RawIsEof true;
                        Call (StreamSync STREAM_FILE_INPUT) tt;
                        Call (StreamStat true) (Some (file_size, mtime));
                        Call (StreamVOffset STREAM_FILE_INPUT) v_offset;
                        Call set_size (fst (env_handle E set_size w4))])
             as [l [Hl _]];
           [ appends_auto
           | cbn [trace]; rewrite <- ?app_assoc; reflexivity
           | exists l; split; [exact Hl|];
             intros; apply Z.ltb_lt in Hw; lia ]
       end).
  all: repeat (rewrite bind_assoc; msimpl).
  all: match goal with
       | |- context [env_handle E (Rewrite ?a1 ?a2 ?a3 ?a4 ?a5 ?a6 ?a7) ?w] =>
           destruct (env_handle E (Rewrite a1 a2 a3 a4 a5 a6 a7) w)
             as [[[r0 c'] mo] w'] eqn:Hrw
       end; msimpl.
  all: unit_answers.
  all: match goal with
       | |- context [snd (?T ?st)] =>
           match type of Hrw with
           | env_handle E ?rw _ = _ =>
               destruct (appends_events_since any_call T s st
                 [Call RawIsEof true;
                  Call (StreamSync STREAM_FILE_INPUT) tt;
                  Call (StreamStat true) (Some (file_size, mtime));
                  Call (StreamVOffset STREAM_FILE_INPUT) v_offset;
                  Call set_size (fst (env_handle E set_size w4));
                  Call (StreamSync STREAM_INPUT) tt;
                  Call rw (r0, c', mo)])
                 as [l [Hl _]];
               [ appends_auto
               | cbn [trace]; rewrite <- ?app_assoc; reflexivity
               | exists ([Call (StreamSync STREAM_INPUT) tt;
                          Call rw (r0, c', mo)] ++ l);
                 split; [exact Hl|];
                 intros _; eexists; eexists; eexists; reflexivity ]
           end
       end.
Qed.





(** In a read-only mailbox the loop over the sync records appends no
    expunge record to the buffer and never sets the expunge flag. *)
Lemma read_index_syncs_loop_readonly (fuel : nat) :
  forall (uid : Z) (e : bool) (s : st W),
    mbox_readonly (mbox s) = true ->
    let run := read_index_syncs_loop E fuel uid e s in
    syncs_grow_without_expunge s (snd run)
    /\ (forall rc e', fst run = Ok (rc, e') -> e' = e).
Proof.
  induction fuel as [|fuel IH]; intros uid e s Hro run; subst run;
    cbn [read_index_syncs_loop].
  - msimpl. split; [apply syncs_grow_refl|discriminate].
  - msimpl. rewrite Hro. cbn [negb]. rewrite orb_false_r.
    destruct (uid >=? sr_uid1 (sync_rec (ctx s))); msimpl;
      [|split; [apply syncs_grow_refl|congruence]].
    assert (Hleaf : forall (st1 : st W) (e1 : bool),
              syncs_grow_without_expunge s st1 -> e1 = e ->
              syncs_grow_without_expunge s
                (snd (read_index_syncs_loop E fuel uid e1 st1))
              /\ (forall rc e',
                    fst (read_index_syncs_loop E fuel uid e1 st1)
                    = Ok (rc, e') -> e' = e)).
    { intros st1 e1 Hg ->. 
      destruct (IH uid e st1) as [Hg1 He1].
      - destruct Hg as [Hm _]. rewrite Hm. exact Hro.
      - split; [eapply syncs_grow_trans; eassumption|exact He1]. }
    destruct (sync_type_eqb (sr_type (sync_rec (ctx s))) SYNC_TYPE_EXPUNGE)
      eqn:Hexp; cbn [negb]; rewrite ?andb_false_r; cbn [andb];
      [| destruct ((uid <=? sr_uid2 (sync_rec (ctx s)))
                   && negb (sync_type_eqb (sr_type (sync_rec (ctx s)))
                              SYNC_TYPE_APPEND)) ];
      cbn [andb]; msimpl;
      destruct (env_handle E IndexSyncNext (ext s)) as [[r next] w] eqn:Hn;
      msimpl;
      (destruct (r <? 0); msimpl;
       [|destruct (r =? 0); msimpl;
         [|destruct (sr_type next); msimpl;
           try (destruct (delay_writes (ctx s)); msimpl;
                [match goal with
                 | |- context [env_handle E (IndexLookupUidRange ?a ?b) ?w0] =>
                     destruct (env_handle E (IndexLookupUidRange a b) w0)
                       as [[[rl seq1] seq2] wl]
                 end; msimpl;
                 destruct (rl <? 0); msimpl;
                 [|destruct (seq1 >? 0); msimpl]
                |])]]).
    all: try match goal with
             | |- context [if ?b then set_next_uid _ _ else _] => destruct b
             end.
    all: first
      [ apply Hleaf; [|reflexivity];
        first [ apply syncs_grow_same; reflexivity
              | eapply syncs_grow_one; [reflexivity|reflexivity|exact Hexp] ]
      | split;
        [ first [ apply syncs_grow_same; reflexivity
                | eapply syncs_grow_one; [reflexivity|reflexivity|exact Hexp] ]
        | intros rc e' Heq; inversion Heq; reflexivity ] ].
Qed.



(** C10: in a read-only mailbox [mbox_sync_read_index_syncs] adds no
    expunge record to the buffer of pending sync records: every expunge
    record in the buffer afterwards was there before, the expunge flag it
    returns is set only when the buffer already held one, and a buffer
    without expunges stays so. *)
Theorem readonly_never_buffers_expunge :
  forall (fuel : nat) (uid : Z) (s : st W),
    mbox_readonly (mbox s) = true ->
    let run := mbox_sync_read_index_syncs E fuel uid s in
    (forall x, In x (syncs (ctx (snd run))) ->
               sr_type x = SYNC_TYPE_EXPUNGE -> In x (syncs (ctx s)))
    /\ (forall rc expunged,
          fst run = Ok (rc, expunged) -> expunged = true ->
          mbox_sync_buf_have_expunges (syncs (ctx s)) = true)
    /\ (mbox_sync_buf_have_expunges (syncs (ctx s)) = false ->
        mbox_sync_buf_have_expunges (syncs (ctx (snd run))) = false).
Proof.
  intros fuel uid s Hro run. subst run.
  unfold mbox_sync_read_index_syncs, mbox_sync_array_delete_to. msimpl.
  destruct (index_sync_ctx (ctx s)); msimpl;
    [|repeat split; [tauto|intros ? ? H; inversion H; discriminate|tauto]].
  set (uid' := if uid =? 0 then UINT32_MAX else uid).
  repeat (rewrite bind_assoc; msimpl).
  destruct (forallb _ (syncs (ctx s))); msimpl;
    [|repeat split; [tauto|discriminate|tauto]].
  match goal with
  | |- context [bind _ _ ?st] => set (s1 := st)
  end.
  destruct (read_index_syncs_loop_readonly fuel uid' false s1 Hro)
    as [[Hm [added [Hs Hf]]] He].
  unfold bind.
  destruct (read_index_syncs_loop E fuel uid' false s1)
    as [[[rc e]| |] s2]; cbn [fst snd] in *; msimpl.
  1: specialize (He rc e eq_refl); subst e;
     destruct (rc <? 0); msimpl.
  all: assert (Hin : forall x, In x (syncs (ctx s2)) ->
                      sr_type x = SYNC_TYPE_EXPUNGE -> In x (syncs (ctx s)))
         by (intros x Hx Hty; rewrite Hs in Hx; apply in_app_or in Hx;
             destruct Hx as [Hx|Hx];
             [ apply filter_In in Hx; tauto
             | rewrite Forall_forall in Hf; apply Hf in Hx; contradiction ]).
  all: assert (Hbuf : mbox_sync_buf_have_expunges (syncs (ctx s2)) = true ->
                      mbox_sync_buf_have_expunges (syncs (ctx s)) = true)
         by (rewrite Hs, have_expunges_app by assumption;
             apply have_expunges_filter).
  all: repeat split; try assumption.
  all: try (intros ? ? Heq; inversion Heq; subst; first [discriminate | assumption]).
  all: try discriminate.
  all: intros Hno; destruct (mbox_sync_buf_have_expunges (syncs (ctx s2)));
    [rewrite Hbuf in Hno by reflexivity; discriminate|reflexivity].
Qed.



(** C2: when the first message of a pass is read with a non-zero
    [base_uid_validity], the index header has a non-zero [uid_validity] and
    the two differ, [mbox_sync_loop] reports the critical error, marks the
    index corrupted and returns -1; these are its only calls after the
    read, and the pass has written nothing to the mbox. *)
Theorem uidvalidity_change_aborts_pass :
  forall (n : nat) (partial : bool) (mail_ctx0 mail_ctx : mbox_sync_mail_context)
         (s0 s s1 : st W) (messages_count : Z),
    mbox_sync_loop_begin E (S n) s0 = (Ok (Fall messages_count), s) ->
    mbox_sync_read_next_mail E mail_ctx0 s = (Ok (1, mail_ctx), s1) ->
    mc_seq mail_ctx = 1 ->
    base_uid_validity (ctx s1) <> 0 ->
    h_uid_validity (hdr (ctx s1)) <> 0 ->
    base_uid_validity (ctx s1) <> h_uid_validity (hdr (ctx s1)) ->
    exists s2,
      mbox_sync_loop E (S n) mail_ctx0 partial s0 = (Ok (-1, mail_ctx), s2)
      /\ trace s2 =
         trace s1 ++
         [Call (SetCritical (CRIT_UIDVALIDITY_CHANGED
                               (h_uid_validity (hdr (ctx s1)))
                               (base_uid_validity (ctx s1)))) tt;
          Call IndexMarkCorrupted tt]
      /\ ctx s2 = ctx s1
      /\ mbox s2 = mbox s1
      /\ mbox_writes (trace s2) = mbox_writes (trace s0).
Proof.
  intros n partial mail_ctx0 mail_ctx s0 s s1 messages_count Hbegin Hread
    Hseq Hbase Hhdr Hneq.
  pose proof (appends_writes _ (mbox_sync_loop_begin_quiet (S n)) s0) as Hq0.
  rewrite Hbegin in Hq0. cbn [snd] in Hq0.
  pose proof (appends_writes _ (mbox_sync_read_next_mail_quiet mail_ctx0) s)
    as Hq1.
  rewrite Hread in Hq1. cbn [snd] in Hq1.
  eexists. split.
  { unfold mbox_sync_loop.
    rewrite (bind_ok _ _ _ _ _ Hbegin).
    cbn [mbox_sync_loop_while]. rewrite !bind_assoc. cbn [lv_mail_ctx].
    rewrite (bind_ok _ _ _ _ _ Hread).
    cbn [lv_mail_ctx lv_partial lv_skipped_mails lv_uids_broken].
    change (1 >? 0) with true. cbv iota.
    unfold mbox_sync_loop_body, mbox_sync_loop_guards.
    cbn [lv_mail_ctx lv_partial lv_skipped_mails lv_uids_broken].
    repeat (rewrite bind_assoc; msimpl).
    rewrite Hseq.
    repeat (cond_lia; msimpl).
    unit_answers.
    reflexivity. }
  cbn [trace ctx mbox]. rewrite <- app_assoc. cbn [app].
  repeat split.
  rewrite <- Hq0, <- Hq1. unfold mbox_writes.
  rewrite filter_app. cbn. apply app_nil_r.
Qed.




(** *** The uid-last field: what is written is what is read back *)

Lemma digit_char_byte d :
  0 <= d < 10 -> Z.of_nat (nat_of_ascii (digit_char d)) = 48 + d.
Proof.
  intros H. unfold digit_char.
  rewrite nat_ascii_embedding by lia. lia.
Qed.

Lemma fmt_010u_byte n (k : nat) :
  (k < 10)%nat ->
  buf_byte (fmt_010u n) k = 48 + (n / 10 ^ (9 - Z.of_nat k)) mod 10.
Proof.
  intros Hk. unfold fmt_010u, buf_byte.
  do 10 (destruct k as [|k];
         [cbn [map string_of_list_ascii String.get];
          rewrite digit_char_byte by (apply Z.mod_pos_bound; lia);
          reflexivity|]).
  lia.
Qed.

Lemma fmt_010u_all_digits n : all_digits (fmt_010u n) 0 10 = true.
Proof.
  cbn [all_digits]. unfold is_digit.
  rewrite !fmt_010u_byte by lia.
  repeat match goal with
         | |- context [(?a / ?b) mod 10] =>
             let H := fresh in
             pose proof (Z.mod_pos_bound (a / b) 10 ltac:(lia)) as H;
             generalize dependent ((a / b) mod 10); intros
         end.
  repeat (apply andb_true_intro; split);
    try reflexivity; first [apply Z.leb_le | idtac]; lia.
Qed.

(** Evaluates the powers of ten of the digits of [fmt_010u]. *)
Ltac digit_powers :=
  repeat match goal with
         | |- context [10 ^ (9 - Z.of_nat ?k)] =>
             let v := eval compute in (10 ^ (9 - Z.of_nat k)) in
             change (10 ^ (9 - Z.of_nat k)) with v
         end.

Lemma fmt_010u_decimal_value n :
  0 <= n < 10 ^ 10 -> decimal_value (fmt_010u n) 0 10 0 = n.
Proof.
  intros Hn. cbn [decimal_value].
  rewrite !fmt_010u_byte by lia.
  digit_powers.
  rewrite Z.div_1_r.
  assert (H10 : n / 10000000000 = 0) by (apply Z.div_small; lia).
  assert (Hstep : forall p q, 0 < p -> q = p * 10 ->
            n / p = 10 * (n / q) + (n / p) mod 10).
  { intros p q Hp ->. rewrite <- Z.div_div by lia. apply Z.div_mod. lia. }
  pose proof (Hstep 1 10 ltac:(lia) eq_refl) as H0.
  pose proof (Hstep 10 100 ltac:(lia) eq_refl) as H1.
  pose proof (Hstep 100 1000 ltac:(lia) eq_refl) as H2.
  pose proof (Hstep 1000 10000 ltac:(lia) eq_refl) as H3.
  pose proof (Hstep 10000 100000 ltac:(lia) eq_refl) as H4.
  pose proof (Hstep 100000 1000000 ltac:(lia) eq_refl) as H5.
  pose proof (Hstep 1000000 10000000 ltac:(lia) eq_refl) as H6.
  pose proof (Hstep 10000000 100000000 ltac:(lia) eq_refl) as H7.
  pose proof (Hstep 100000000 1000000000 ltac:(lia) eq_refl) as H8.
  pose proof (Hstep 1000000000 10000000000 ltac:(lia) eq_refl) as H9.
  rewrite Z.div_1_r in H0.
  rewrite H10 in H9.
  generalize dependent (n mod 10).
  generalize dependent ((n / 10) mod 10).
  generalize dependent ((n / 100) mod 10).
  generalize dependent ((n / 1000) mod 10).
  generalize dependent ((n / 10000) mod 10).
  generalize dependent ((n / 100000) mod 10).
  generalize dependent ((n / 1000000) mod 10).
  generalize dependent ((n / 10000000) mod 10).
  generalize dependent ((n / 100000000) mod 10).
  generalize dependent ((n / 1000000000) mod 10).
  generalize dependent (n / 10).
  generalize dependent (n / 100).
  generalize dependent (n / 1000).
  generalize dependent (n / 10000).
  generalize dependent (n / 100000).
  generalize dependent (n / 1000000).
  generalize dependent (n / 10000000).
  generalize dependent (n / 100000000).
  generalize dependent (n / 1000000000).
  intros. lia.
Qed.

(** The ten bytes that [mbox_rewrite_base_uid_last] writes for a value are
    read back as that value by its own check. *)
Theorem fmt_010u_read_back :
  forall n : Z,
    0 <= n <= UINT32_MAX ->
    read_uid_last (fmt_010u n) 0 10 0 = n
    /\ uid_last_matches (fmt_010u n) n = true.
Proof.
  intros n Hn. unfold UINT32_MAX in Hn.
  assert (Hv : decimal_value (fmt_010u n) 0 10 0 = n)
    by (apply fmt_010u_decimal_value; lia).
  split.
  - rewrite read_uid_last_spec, fmt_010u_all_digits, Hv.
    apply u32_small. unfold UINT32_MAX. lia.
  - unfold uid_last_matches.
    rewrite fmt_010u_all_digits, Hv, Z.eqb_refl. reflexivity.
Qed.

(** *** [mbox_rewrite_base_uid_last]: every path *)

(** Whatever the read-back and the write answer, the function writes at
    most once, and only the ten digits of [next_uid - 1] at
    [base_uid_last_offset]; it returns 0 only after that write, with
    [base_uid_last] brought up to date, and otherwise -1 with the context
    as it was. *)
Theorem rewrite_base_uid_last_writes_once :
  forall s : st W,
    let c := ctx s in
    let run := mbox_rewrite_base_uid_last E s in
    let evs := events_since s (snd run) in
    base_uid_last_offset c <> 0 ->
    mbox (snd run) = mbox s
    /\ (fst run = Ok 0 \/ fst run = Ok (-1))
    /\ (mbox_writes evs = []
        \/ exists w,
             mbox_writes evs =
             [Call (PwriteFull (write_fd c) (fmt_010u (u32 (next_uid c - 1)))
                      (base_uid_last_offset c)) w]
             /\ (fst run = Ok 0 <-> 0 <= w))
    /\ (fst run = Ok 0 ->
        mbox_writes evs <> []
        /\ ctx (snd run) = set_base_uid_last (u32 (next_uid c - 1)) c)
    /\ (fst run = Ok (-1) -> ctx (snd run) = c).
Proof.
  intros s c run evs Hoff. subst run evs c.
  apply Z.eqb_neq in Hoff.
  unfold mbox_rewrite_base_uid_last. msimpl. rewrite Hoff. msimpl.
  name_call. destruct a as [r buf]. msimpl.
  destruct (r <? 0); msimpl;
    [|destruct (r =? 0); msimpl;
      [|destruct (read_uid_last buf 0 10 0 =? base_uid_last (ctx s));
        msimpl; [name_call; destruct (a <? 0) eqn:Hw; msimpl|]]];
    unit_answers; events_norm; cbn [mbox_writes filter is_mbox_write].
  all: refine (conj eq_refl (conj _ (conj _ (conj _ _))));
    try (right; reflexivity); try (left; reflexivity);
    try (intros Hr; discriminate Hr); try (intros _; reflexivity).
  - right. eexists. split; [reflexivity|].
    apply Z.ltb_lt in Hw. split; [discriminate|lia].
  - right. eexists. split; [reflexivity|].
    apply Z.ltb_ge in Hw. split; [intros _; exact Hw|reflexivity].
  - intros _. split; [discriminate|reflexivity].
Qed.

(** *** The buffer of pending sync records *)

(** The loop of [mbox_sync_read_index_syncs] only appends to the buffer,
    and only records that cover [uid] and are not appends. *)
Lemma read_index_syncs_loop_adds (fuel : nat) :
  forall (uid : Z) (e : bool) (s : st W),
    exists added,
      syncs (ctx (snd (read_index_syncs_loop E fuel uid e s)))
      = syncs (ctx s) ++ added
      /\ Forall (fun r => covers uid r /\ sr_type r <> SYNC_TYPE_APPEND)
           added.
Proof.
  induction fuel as [|fuel IH]; intros uid e s;
    cbn [read_index_syncs_loop].
  - msimpl. exists []. rewrite app_nil_r. split; [reflexivity|constructor].
  - msimpl.
    destruct (uid >=? sr_uid1 (sync_rec (ctx s))) eqn:Hge; msimpl;
      [|exists []; rewrite app_nil_r; split; [reflexivity|constructor]].
    rewrite Z.geb_leb in Hge. apply Z.leb_le in Hge.
    assert (Hleaf : forall (st1 : st W) (e1 : bool) added1,
              syncs (ctx st1) = syncs (ctx s) ++ added1 ->
              Forall (fun r => covers uid r /\ sr_type r <> SYNC_TYPE_APPEND)
                added1 ->
              exists added,
                syncs (ctx (snd (read_index_syncs_loop E fuel uid e1 st1)))
                = syncs (ctx s) ++ added
                /\ Forall (fun r => covers uid r
                                    /\ sr_type r <> SYNC_TYPE_APPEND) added).
    { intros st1 e1 added1 Hs Hf.
      destruct (IH uid e1 st1) as [added2 [Hs2 Hf2]].
      exists (added1 ++ added2). split.
      - rewrite Hs2, Hs, app_assoc. reflexivity.
      - apply Forall_app. split; assumption. }
    set (take := (uid <=? sr_uid2 (sync_rec (ctx s)))
                 && negb (sync_type_eqb (sr_type (sync_rec (ctx s)))
                            SYNC_TYPE_APPEND)
                 && (negb (sync_type_eqb (sr_type (sync_rec (ctx s)))
                             SYNC_TYPE_EXPUNGE)
                     || negb (mbox_readonly (mbox s)))).
    assert (Htake : take = true ->
                    Forall (fun r => covers uid r
                                     /\ sr_type r <> SYNC_TYPE_APPEND)
                      [sync_rec (ctx s)]).
    { subst take. intros Ht.
      apply andb_prop in Ht. destruct Ht as [Ht _].
      apply andb_prop in Ht. destruct Ht as [Hle Hty].
      apply Z.leb_le in Hle.
      constructor; [|constructor]. split; [split; assumption|].
      intros Heq. rewrite Heq in Hty. discriminate. }
    destruct take; msimpl;
      destruct (env_handle E IndexSyncNext (ext s)) as [[r next] w] eqn:Hn;
      msimpl;
      (destruct (r <? 0); msimpl;
       [|destruct (r =? 0); msimpl;
         [|destruct (sr_type next); msimpl;
           try (destruct (delay_writes (ctx s)); msimpl;
                [match goal with
                 | |- context [env_handle E (IndexLookupUidRange ?a ?b) ?w0] =>
                     destruct (env_handle E (IndexLookupUidRange a b) w0)
                       as [[[rl seq1] seq2] wl]
                 end; msimpl;
                 destruct (rl <? 0); msimpl;
                 [|destruct (seq1 >? 0); msimpl]
                |])]]).
    all: try match goal with
             | |- context [if ?b then set_next_uid _ _ else _] => destruct b
             end.
    all: first
      [ eapply Hleaf; [reflexivity|exact (Htake eq_refl)]
      | eapply Hleaf; [symmetry; apply app_nil_r|constructor]
      | eexists; split; [reflexivity|exact (Htake eq_refl)]
      | exists []; split; [symmetry; apply app_nil_r|constructor] ].
Qed.

(** After [mbox_sync_read_index_syncs] has returned, every record in the
    buffer covers the UID it was called for (the last UID when called with
    0), and every record it added is not an append. *)
Theorem read_index_syncs_buffer_covers_uid :
  forall (fuel : nat) (uid : Z) (s s' : st W) (rc : Z) (expunged : bool),
    index_sync_ctx (ctx s) = true ->
    mbox_sync_read_index_syncs E fuel uid s = (Ok (rc, expunged), s') ->
    let uid' := if uid =? 0 then UINT32_MAX else uid in
    Forall (covers uid') (syncs (ctx s'))
    /\ (forall x, In x (syncs (ctx s')) ->
                  In x (syncs (ctx s)) \/ sr_type x <> SYNC_TYPE_APPEND).
Proof.
  intros fuel uid s s' rc expunged Hidx Hrun uid'.
  unfold mbox_sync_read_index_syncs, mbox_sync_array_delete_to in Hrun.
  revert Hrun. msimpl. rewrite Hidx. msimpl. fold uid'.
  repeat (rewrite bind_assoc; msimpl).
  destruct (forallb _ (syncs (ctx s))) eqn:Hall; msimpl; [|discriminate].
  match goal with
  | |- context [bind _ _ ?st] => set (s1 := st)
  end.
  destruct (read_index_syncs_loop_adds fuel uid' false s1)
    as [added [Hs Hf]].
  unfold bind.
  destruct (read_index_syncs_loop E fuel uid' false s1)
    as [[[r e]| |] s2]; cbn [fst snd] in *; try discriminate.
  assert (Hkept : Forall (covers uid')
                    (filter (fun r => uid' <=? sr_uid2 r) (syncs (ctx s)))).
  { apply Forall_forall. intros x Hx. apply filter_In in Hx.
    destruct Hx as [Hin Hle]. apply Z.leb_le in Hle.
    rewrite forallb_forall in Hall. specialize (Hall x Hin).
    apply Z.leb_le in Hall. split; assumption. }
  assert (Hgoal : Forall (covers uid') (syncs (ctx s2))
                  /\ (forall x, In x (syncs (ctx s2)) ->
                                In x (syncs (ctx s))
                                \/ sr_type x <> SYNC_TYPE_APPEND)).
  { rewrite Hs. subst s1. cbn [ctx syncs]. msimpl. split.
    - apply Forall_app. split; [exact Hkept|].
      eapply Forall_impl; [|exact Hf]. intros a [Ha _]. exact Ha.
    - intros x Hx. apply in_app_or in Hx. destruct Hx as [Hx|Hx].
      + left. apply filter_In in Hx. tauto.
      + right. rewrite Forall_forall in Hf. apply (Hf x Hx). }
  destruct (r <? 0); msimpl; intros Hrun; inversion Hrun; subst;
    exact Hgoal.
Qed.

(** *** Looking up the index record of a message *)

Lemma read_index_rec_loop_quiet fuel uid messages_count rec :
  appends no_write (read_index_rec_loop E fuel uid messages_count rec).
Proof.
  revert rec. induction fuel as [|fuel IH]; intros rec;
    cbn [read_index_rec_loop]; appends_auto.
Qed.

(** The scan changes nothing but [idx_seq]; it stops with -1, or with an
    index record whose UID is not below [uid], or with no record. *)
Lemma read_index_rec_loop_result (fuel : nat) :
  forall (uid messages_count : Z) (s s' : st W)
         (f : flow Z (option mail_index_record)),
    read_index_rec_loop E fuel uid messages_count None s = (Ok f, s') ->
    set_idx_seq 0 (ctx s') = set_idx_seq 0 (ctx s)
    /\ mbox s' = mbox s
    /\ match f with
       | Return r => r = -1
       | Fall (Some rc) => uid <= ir_uid rc
       | Fall None => True
       end.
Proof.
  induction fuel as [|fuel IH]; intros uid messages_count s s' f;
    cbn [read_index_rec_loop]; msimpl; [discriminate|].
  destruct (idx_seq (ctx s) <=? messages_count); msimpl;
    [|intros H; inversion H; subst; repeat split].
  name_call. destruct a as [r rec]. msimpl.
  destruct (r <? 0); msimpl;
    [intros H; inversion H; subst; repeat split|].
  destruct (r =? 0); msimpl; [discriminate|].
  destruct rec as [rc|]; msimpl; [|discriminate].
  destruct (uid <=? ir_uid rc) eqn:Hle; msimpl.
  - intros H; inversion H; subst. apply Z.leb_le in Hle. repeat split.
    exact Hle.
  - intros H. apply IH in H. cbn [ctx mbox] in H.
    destruct H as [Hc [Hm Hf]]. repeat split; assumption.
Qed.

Lemma no_write_writes (l : list call) :
  Forall no_write l -> mbox_writes l = [].
Proof.
  unfold mbox_writes.
  induction 1 as [|x l Hx _ IH]; [reflexivity|].
  cbn [filter]. unfold no_write in Hx. rewrite Hx. exact IH.
Qed.

Lemma mbox_writes_app (l1 l2 : list call) :
  mbox_writes (l1 ++ l2) = mbox_writes l1 ++ mbox_writes l2.
Proof. apply filter_app. Qed.

(** [mbox_sync_read_index_rec] answers 1 with the index record of exactly
    this UID, or 1 with no record for a UID the index has not seen yet; it
    answers 0, after a critical error, for a UID that the index had and
    lost or that would sit between two records, and -1 when the index
    cannot be read.  It changes nothing but [idx_seq] and writes nothing
    to the mbox. *)
Theorem read_index_rec_result :
  forall (fuel : nat) (uid : Z) (s s' : st W) (r : Z)
         (rec : option mail_index_record),
    mbox_sync_read_index_rec E fuel uid s = (Ok (r, rec), s') ->
    set_idx_seq 0 (ctx s') = set_idx_seq 0 (ctx s)
    /\ mbox s' = mbox s
    /\ mbox_writes (events_since s s') = []
    /\ ((r = -1 /\ rec = None)
        \/ (r = 0 /\ rec = None
            /\ existsb is_critical (events_since s s') = true)
        \/ (r = 1 /\ rec = None /\ idx_next_uid (ctx s) <= uid)
        \/ (r = 1 /\ exists rc, rec = Some rc /\ ir_uid rc = uid)).
Proof.
  intros fuel uid s s' r rec.
  unfold mbox_sync_read_index_rec. msimpl. name_call.
  match goal with
  | |- context [bind _ _ ?st] => set (s1 := st)
  end.
  destruct (read_index_rec_loop_quiet fuel uid a None s1) as [l [Htr Hq]].
  pose proof (read_index_rec_loop_result fuel uid a s1) as Hres.
  unfold bind at 1.
  destruct (read_index_rec_loop E fuel uid a None s1)
    as [[f| |] s2] eqn:Hloop; try discriminate.
  specialize (Hres s2 f eq_refl). cbn [snd] in Htr.
  destruct Hres as [Hc [Hm Hf]]. subst s1.
  cbn [ctx mbox trace] in Hc, Hm, Htr. rewrite <- app_assoc in Htr.
  apply no_write_writes in Hq.
  assert (Hidx : idx_next_uid (ctx s2) = idx_next_uid (ctx s))
    by (change (idx_next_uid (set_idx_seq 0 (ctx s2))
                = idx_next_uid (set_idx_seq 0 (ctx s)));
        rewrite Hc; reflexivity).
  assert (Hcrit : forall msg w',
            set_idx_seq 0 (ctx s2) = set_idx_seq 0 (ctx s)
            /\ mbox s2 = mbox s
            /\ mbox_writes
                 (events_since s
                    {| ext := w';
                       trace := trace s2 ++ [Call (SetCritical msg) tt];
                       mbox := mbox s2; ctx := ctx s2 |}) = []
            /\ existsb is_critical
                 (events_since s
                    {| ext := w';
                       trace := trace s2 ++ [Call (SetCritical msg) tt];
                       mbox := mbox s2; ctx := ctx s2 |}) = true).
  { intros msg w'. refine (conj Hc (conj Hm _)).
    erewrite events_since_app
      by (cbn [trace]; rewrite Htr, <- app_assoc; reflexivity).
    split.
    - rewrite !mbox_writes_app, Hq. reflexivity.
    - rewrite !existsb_app. cbn. rewrite !orb_true_r. reflexivity. }
  assert (Hquiet : mbox_writes (events_since s s2) = []).
  { erewrite events_since_app by exact Htr.
    rewrite mbox_writes_app, Hq. reflexivity. }
  destruct f as [r0|[rc|]]; msimpl.
  - intros H; inversion H; subst.
    refine (conj Hc (conj Hm (conj Hquiet _))). left. split; reflexivity.
  - destruct (ir_uid rc =? uid) eqn:Hu; msimpl.
    + intros H; inversion H; subst.
      refine (conj Hc (conj Hm (conj Hquiet _))).
      right. right. right. split; [reflexivity|].
      exists rc. apply Z.eqb_eq in Hu. split; [reflexivity|exact Hu].
    + unit_answers. intros H; inversion H; subst. cbn [ctx mbox].
      destruct (Hcrit (CRIT_UID_INSERTED (ir_uid rc) uid (seq (ctx s2)) a)
                  (snd (env_handle E
                          (SetCritical (CRIT_UID_INSERTED (ir_uid rc) uid
                                          (seq (ctx s2)) a)) (ext s2))))
        as [H1 [H2 [H3 H4]]].
      refine (conj H1 (conj H2 (conj H3 _))).
      right. left. repeat split. exact H4.
  - rewrite Hidx.
    destruct (uid <? idx_next_uid (ctx s)) eqn:Hu; msimpl.
    + unit_answers. intros H; inversion H; subst. cbn [ctx mbox].
      destruct (Hcrit (CRIT_EXPUNGED_REAPPEARED uid (idx_next_uid (ctx s))
                         (seq (ctx s2)) a)
                  (snd (env_handle E
                          (SetCritical
                             (CRIT_EXPUNGED_REAPPEARED uid
                                (idx_next_uid (ctx s)) (seq (ctx s2)) a))
                          (ext s2))))
        as [H1 [H2 [H3 H4]]].
      refine (conj H1 (conj H2 (conj H3 _))).
      right. left. repeat split. exact H4.
    + intros H; inversion H; subst.
      refine (conj Hc (conj Hm (conj Hquiet _))).
      right. right. left. apply Z.ltb_ge in Hu. repeat split. exact Hu.
Qed.

(** *** Reading the From-line *)

Lemma string_length_append (a b : string) :
  String.length (a ++ b)%string = (String.length a + String.length b)%nat.
Proof. induction a as [|ch a IH]; cbn; [reflexivity|rewrite IH; reflexivity]. Qed.

Lemma string_length_substring (n : nat) (a : string) :
  (n <= String.length a)%nat -> String.length (substring 0 n a) = n.
Proof.
  revert a. induction n as [|n IH]; intros a Hn.
  - destruct a; reflexivity.
  - destruct a as [|ch a]; cbn in Hn; [lia|].
    cbn. rewrite IH by lia. reflexivity.
Qed.

(** The loop of [mbox_read_from_line] stops with 0 exactly when it has
    appended [from_line_size] bytes; nothing else of the context changes. *)
Lemma read_from_line_loop_length (fuel : nat) :
  forall (from_line_size : Z) (s s' : st W) (r : Z),
    0 <= from_line_size < 2 ^ 64 ->
    read_from_line_loop E fuel from_line_size s = (Ok r, s') ->
    set_from_line "" (ctx s') = set_from_line "" (ctx s)
    /\ mbox s' = mbox s
    /\ (r = 0 \/ r = -1)
    /\ (r = 0 ->
        string_len (from_line (ctx s'))
        = string_len (from_line (ctx s)) + from_line_size).
Proof.
  induction fuel as [|fuel IH]; intros rs s s' r Hrs;
    cbn [read_from_line_loop]; msimpl; [discriminate|].
  name_call. rename a into data.
  set (size := if string_len data >=? rs then rs else string_len data).
  assert (Hsize : 0 <= size <= rs /\ size <= string_len data).
  { subst size. unfold string_len.
    destruct (Z.of_nat (String.length data) >=? rs) eqn:Hc;
      rewrite Z.geb_leb in Hc;
      [apply Z.leb_le in Hc|apply Z.leb_gt in Hc]; lia. }
  assert (Hlen : string_len (from_line (ctx s)
                             ++ substring 0 (Z.to_nat size) data)%string
                 = string_len (from_line (ctx s)) + size).
  { unfold string_len in *. rewrite string_length_append.
    rewrite string_length_substring by lia. lia. }
  rewrite (u64_small (rs - size)) by lia.
  name_call. destruct a.
  destruct (rs - size =? 0) eqn:Hz; msimpl.
  - intros H; inversion H; subst. cbn [ctx mbox].
    refine (conj eq_refl (conj eq_refl (conj (or_introl eq_refl) _))).
    intros _. msimpl. rewrite Hlen. apply Z.eqb_eq in Hz. lia.
  - name_call. destruct (a <? 0); msimpl.
    + intros H; inversion H; subst. cbn [ctx mbox].
      refine (conj eq_refl (conj eq_refl (conj (or_intror eq_refl) _))).
      discriminate.
    + intros H. apply IH in H; [|lia]. cbn [ctx mbox] in H.
      destruct H as [Hc [Hm [Hr Hl]]].
      refine (conj Hc (conj Hm (conj Hr _))).
      intros H0. rewrite (Hl H0). revert Hlen. msimpl. intros Hlen.
      rewrite Hlen. lia.
Qed.

(** When [mbox_read_from_line] returns 0, [from_line] holds exactly the
    [hdr_offset - from_offset] bytes of the From-line; it returns -1 only
    for a failed read, and touches nothing else of the context. *)
Theorem read_from_line_reads_whole_line :
  forall (fuel : nat) (m : mbox_sync_mail_context) (s s' : st W) (r : Z),
    mbox_read_from_line E fuel m s = (Ok r, s') ->
    set_from_line "" (ctx s') = set_from_line "" (ctx s)
    /\ mbox s' = mbox s
    /\ (r = 0 \/ r = -1)
    /\ (r = 0 ->
        string_len (from_line (ctx s'))
        = u64 (mc_hdr_offset m - m_from_offset (mc_mail m))).
Proof.
  intros fuel m s s' r. unfold mbox_read_from_line. msimpl.
  intros H. apply read_from_line_loop_length in H.
  - cbn [ctx mbox] in H. destruct H as [Hc [Hm [Hr Hl]]].
    refine (conj Hc (conj Hm (conj Hr _))).
    intros H0. rewrite (Hl H0). reflexivity.
  - unfold u64. apply Z.mod_pos_bound. lia.
Qed.

(** *** The from-offsets of the mails of a rewrite window *)

Lemma update_from_offsets_loop_calls (l : list mbox_sync_mail) :
  forall s : st W,
    let run := update_from_offsets_loop E l s in
    let due := filter (offset_update_due (env_MBOX_EXPUNGED E)) l in
    fst run = Ok tt
    /\ trace (snd run) = trace s ++ map offset_update due
    /\ mbox (snd run) = mbox s
    /\ ctx (snd run)
       = match due with
         | [] => ctx s
         | _ :: _ => set_moved_offsets true (ctx s)
         end.
Proof.
  induction l as [|m l IH]; intros s; cbn [update_from_offsets_loop].
  - msimpl. rewrite app_nil_r. repeat split.
  - cbn [filter]. unfold offset_update_due at 1 3 4.
    rewrite bind_if.
    destruct ((m_idx_seq m =? 0)
              || negb (Z.land (m_flags m) (env_MBOX_EXPUNGED E) =? 0));
      msimpl.
    + apply IH.
    + repeat (rewrite bind_assoc; msimpl).
      match goal with
      | |- context [update_from_offsets_loop E l ?st] =>
          destruct (IH st) as [H1 [H2 [H3 H4]]]
      end.
      refine (conj H1 (conj _ (conj H3 _))).
      * rewrite H2. cbn [trace map]. rewrite <- app_assoc. cbn [app].
        unfold offset_update at 2.
        match goal with
        | |- context [Call ?e ?r :: _] =>
            match type of r with unit => destruct r end
        end.
        reflexivity.
      * rewrite H4. cbn [ctx].
        destruct (filter _ l); reflexivity.
Qed.

(** [update_from_offsets] sends to the index the from-offset of every mail
    of the window that has an index record and is not expunged, in the
    order of the window, and nothing else; [moved_offsets] is set when
    there is at least one. *)
Theorem update_from_offsets_calls :
  forall s : st W,
    let run := update_from_offsets E s in
    let due := filter (offset_update_due (env_MBOX_EXPUNGED E))
                 (mails (ctx s)) in
    fst run = Ok tt
    /\ events_since s (snd run) = map offset_update due
    /\ mbox (snd run) = mbox s
    /\ ctx (snd run)
       = match due with
         | [] => ctx s
         | _ :: _ => set_moved_offsets true (ctx s)
         end.
Proof.
  intros s. unfold update_from_offsets. msimpl.
  destruct (update_from_offsets_loop_calls (mails (ctx s)) s)
    as [H1 [H2 [H3 H4]]].
  refine (conj H1 (conj _ (conj H3 H4))).
  apply events_since_app. exact H2.
Qed.

(** *** New UIDs *)

Lemma expunge_rest_result (fuel : nat) :
  forall (messages_count : Z) (s s' : st W) (u : unit),
    expunge_rest E fuel messages_count s = (Ok u, s') ->
    set_idx_seq 0 (ctx s') = set_idx_seq 0 (ctx s) /\ mbox s' = mbox s.
Proof.
  induction fuel as [|fuel IH]; intros messages_count s s' u;
    cbn [expunge_rest]; msimpl; [discriminate|].
  destruct (idx_seq (ctx s) <=? messages_count); msimpl.
  - intros H. apply IH in H. exact H.
  - intros H; inversion H; subst. split; reflexivity.
Qed.

(** A message without a usable X-UID gets [next_uid] and [next_uid] grows
    by one, never past 2^32 - 1: when no UID is left the function assigns
    nothing, logs the critical error, asks for the UIDs to be renumbered
    and makes the loop return 0.  Nothing is written to the mbox. *)
Theorem assign_uid_never_wraps :
  forall (fuel : nat) (messages_count : Z)
         (mail_ctx : mbox_sync_mail_context) (s s' : st W)
         (f : flow Z mbox_sync_mail_context),
    0 <= next_uid (ctx s) <= UINT32_MAX ->
    mbox_sync_loop_assign_uid E fuel messages_count mail_ctx s = (Ok f, s') ->
    next_uid (ctx s) <= next_uid (ctx s') <= UINT32_MAX
    /\ mbox s' = mbox s
    /\ mbox_writes (events_since s s') = []
    /\ match f with
       | Return r =>
         r = 0
         /\ next_uid (ctx s) = UINT32_MAX
         /\ next_uid (ctx s') = next_uid (ctx s)
         /\ renumber_uids (ctx s') = true
         /\ existsb is_critical (events_since s s') = true
       | Fall mail_ctx' =>
         mail_ctx' = upd_mail (set_m_uid (next_uid (ctx s)))
                       (set_mc_need_rewrite true mail_ctx)
         /\ next_uid (ctx s') = next_uid (ctx s) + 1
         /\ prev_msg_uid (ctx s') = next_uid (ctx s)
       end.
Proof.
  intros fuel messages_count mail_ctx s s' f Hn.
  unfold mbox_sync_loop_assign_uid.
  destruct (expunge_rest_quiet fuel messages_count s) as [l [Htr Hq]].
  pose proof (expunge_rest_result fuel messages_count s) as Hres.
  unfold bind at 1.
  destruct (expunge_rest E fuel messages_count s) as [[u| |] s1];
    try discriminate.
  destruct (Hres s1 u eq_refl) as [Hc Hm]. cbn [snd] in Htr.
  apply no_write_writes in Hq.
  assert (Hnext : next_uid (ctx s1) = next_uid (ctx s))
    by (change (next_uid (set_idx_seq 0 (ctx s1))
                = next_uid (set_idx_seq 0 (ctx s)));
        rewrite Hc; reflexivity).
  msimpl. rewrite Hnext.
  destruct (next_uid (ctx s) =? UINT32_MAX) eqn:Hmax; msimpl.
  - unit_answers. intros H; inversion H; subst. cbn [ctx mbox].
    apply Z.eqb_eq in Hmax. msimpl. rewrite Hnext.
    erewrite events_since_app
      by (cbn [trace]; rewrite Htr, <- app_assoc; reflexivity).
    rewrite mbox_writes_app, Hq, existsb_app. cbn.
    rewrite orb_true_r. repeat split; first [lia|assumption].
  - intros H; inversion H; subst. cbn [ctx mbox].
    apply Z.eqb_neq in Hmax. msimpl.
    erewrite events_since_app by (cbn [trace]; exact Htr).
    rewrite (u32_small (next_uid (ctx s) + 1)) by lia.
    repeat split; first [lia|assumption].
Qed.

(** *** Has the mbox changed? *)

(** [mbox_sync_has_changed] stats the file and reads the index header.  It
    answers -1 when the stat fails, 0 with the dirty flag cleared when
    mtime and size are those of the last sync, 1 with the dirty flag set
    when they are not and the mailbox was not dirty or may not stay so, and
    otherwise whether the file differs from the recorded dirty stamp and
    size.  It writes nothing and leaves the sync context alone. *)
Theorem has_changed_result :
  forall (leave_dirty : bool) (s s' : st W) (r : Z),
    mbox_sync_has_changed E leave_dirty s = (Ok r, s') ->
    let evs := events_since s s' in
    let mb := mbox s in
    ctx s' = ctx s
    /\ mbox_writes evs = []
    /\ ((r = -1 /\ mbox s' = mb /\ existsb is_syscall_error evs = true)
        \/ exists st_size st_mtime h,
             (In (Call (StreamStat false) (Some (st_size, st_mtime))) evs
              \/ In (Call (Stat (path mb)) (Some (st_size, st_mtime))) evs)
             /\ In (Call IndexGetHeader h) evs
             /\ let synced := (u32 st_mtime =? h_sync_stamp h)
                              && (u64 st_size =? h_sync_size h) in
                let differs := negb (st_mtime =? mbox_dirty_stamp mb)
                               || negb (st_size =? mbox_dirty_size mb) in
                (synced = true /\ r = 0
                 /\ mbox s' = set_mbox_sync_dirty false mb)
                \/ (synced = false
                    /\ negb (mbox_sync_dirty mb) || negb leave_dirty = true
                    /\ r = 1 /\ mbox s' = set_mbox_sync_dirty true mb)
                \/ (synced = false
                    /\ mbox_sync_dirty mb = true /\ leave_dirty = true
                    /\ r = (if differs then 1 else 0) /\ mbox s' = mb)).
Proof.
  intros leave_dirty s s' r. unfold mbox_sync_has_changed. msimpl.
  rewrite bind_if.
  destruct (mbox_has_file_stream (mbox s) && (mbox_fd (mbox s) =? -1));
    repeat (rewrite bind_assoc; msimpl); name_call;
    (destruct a as [[st_size st_mtime]|]; msimpl;
     [ name_call; rename a into h;
       destruct ((u32 st_mtime =? h_sync_stamp h)
                 && (u64 st_size =? h_sync_size h)) eqn:Hsync; msimpl;
       [|destruct (negb (mbox_sync_dirty (mbox s)) || negb leave_dirty)
           eqn:Hd; msimpl]
     | unit_answers ]);
    intros H; inversion H; subst; clear H; cbv zeta; cbn [ctx mbox];
    events_norm; (split; [reflexivity|]); (split; [reflexivity|]).
  all: try (left; repeat split; reflexivity).
  all: right; exists st_size, st_mtime, h;
    (split; [first [left; cbn; tauto | right; cbn; tauto]|]);
    (split; [cbn; tauto|]); rewrite Hsync.
  all: try (left; repeat split; reflexivity).
  all: try (right; left; repeat split; first [reflexivity|assumption]).
  all: right; right;
    apply orb_false_elim in Hd; destruct Hd as [Hd1 Hd2];
    apply negb_false_iff in Hd1, Hd2; repeat split; assumption.
Qed.

(** *** The end of the file: the exits before any change *)

(** Away from the end of the file [mbox_sync_handle_eof_updates] does
    nothing, provided no rewrite window is open and no expunged space is
    left (its assertions fail otherwise).  At the end of the file, a failed
    stat and a file that is shorter than the position of the reader both
    give -1 before anything is written. *)
Theorem eof_updates_exits_before_writing :
  forall (mail_ctx : mbox_sync_mail_context) (s : st W),
    let run := mbox_sync_handle_eof_updates E mail_ctx s in
    let evs := events_since s (snd run) in
    let eof := env_handle E RawIsEof (ext s) in
    let sy := env_handle E (StreamSync STREAM_FILE_INPUT) (snd eof) in
    let stat := env_handle E (StreamStat true) (snd sy) in
    let vo := env_handle E (StreamVOffset STREAM_FILE_INPUT) (snd stat) in
    (fst eof = false ->
     if (need_space_seq (ctx s) =? 0) && (expunged_space (ctx s) =? 0)
     then fst run = Ok 0 /\ evs = [Call RawIsEof false]
          /\ ctx (snd run) = ctx s /\ mbox (snd run) = mbox s
     else fst run = Panic)
    /\ (fst eof = true -> fst stat = None ->
        fst run = Ok (-1) /\ mbox_writes evs = []
        /\ existsb is_syscall_error evs = true
        /\ ctx (snd run) = ctx s /\ mbox (snd run) = mbox s)
    /\ (fst eof = true ->
        forall file_size mtime,
          fst stat = Some (file_size, mtime) ->
          file_size < fst vo ->
          fst run = Ok (-1) /\ mbox_writes evs = []
          /\ existsb is_file_shrinked_critical evs = true
          /\ ctx (snd run) = ctx s /\ mbox (snd run) = mbox s).
Proof.
  intros mail_ctx s run evs eof sy stat vo. subst run evs eof sy stat vo.
  unfold mbox_sync_handle_eof_updates. msimpl.
  refine (conj _ (conj _ _)).
  - intros Heof. rewrite Heof. msimpl.
    destruct (need_space_seq (ctx s) =? 0); msimpl; [|reflexivity].
    destruct (expunged_space (ctx s) =? 0); msimpl; [|reflexivity].
    events_norm. repeat split.
  - intros Heof Hstat. rewrite Heof. msimpl. rewrite Hstat. msimpl.
    events_norm. repeat split.
  - intros Heof file_size mtime Hstat Hlt. rewrite Heof. msimpl.
    rewrite Hstat. msimpl.
    apply Z.ltb_lt in Hlt. rewrite Hlt. msimpl.
    events_norm. repeat split.
Qed.

(** *** The end of the file: cutting off expunged space *)

(** At the end of the file with expunged space left and no rewrite window
    open, the trailer is moved down over the expunged space and the file
    is truncated to its size minus the expunged space; when the expunged
    space is the whole file, nothing is moved and the file is truncated to
    nothing. *)
Theorem eof_expunged_space_is_cut_off :
  forall (mail_ctx : mbox_sync_mail_context) (s : st W)
         (file_size mtime v_offset file_size2 mtime2 : Z)
         (w1 w2 w3 w4 w5 : W),
    let c := ctx s in
    let expunged := expunged_space c in
    let trailer := if file_size2 =? expunged then 0
                   else file_size - v_offset in
    let offset := file_size2 - expunged - trailer in
    let move := MboxMove offset (offset + expunged) trailer in
    env_handle E RawIsEof (ext s) = (true, w1) ->
    env_handle E (StreamSync STREAM_FILE_INPUT) w1 = (tt, w2) ->
    env_handle E (StreamStat true) w2 = (Some (file_size, mtime), w3) ->
    env_handle E (StreamVOffset STREAM_FILE_INPUT) w3 = (v_offset, w4) ->
    env_handle E (StreamStat true) w4 = (Some (file_size2, mtime2), w5) ->
    0 <= v_offset <= file_size ->
    file_size <= v_offset + 2 ->
    need_space_seq c = 0 ->
    write_fd c <> -1 ->
    0 < expunged ->
    expunged + trailer <= file_size2 < 2 ^ 64 ->
    offset = 0 \/ 31 < offset ->
    let run := mbox_sync_handle_eof_updates E mail_ctx s in
    exists rest,
      events_since s (snd run) =
        [Call RawIsEof true;
         Call (StreamSync STREAM_FILE_INPUT) tt;
         Call (StreamStat true) (Some (file_size, mtime));
         Call (StreamVOffset STREAM_FILE_INPUT) v_offset;
         Call (StreamStat true) (Some (file_size2, mtime2));
         Call move (fst (env_handle E move w5))] ++ rest
      /\ (fst (env_handle E move w5) < 0 ->
          rest = [] /\ fst run = Ok (-1))
      /\ (0 <= fst (env_handle E move w5) ->
          exists answer rest',
            rest = Call (Ftruncate (write_fd c) (file_size2 - expunged))
                     answer :: rest').
Proof.
  intros mail_ctx s file_size mtime v_offset file_size2 mtime2
    w1 w2 w3 w4 w5 c expunged trailer offset move
    H1 H2 H3 H4 H5 Hv Htr Hneed Hfd Hexp Hsize Hoff run.
  subst run move offset trailer.
  unfold mbox_sync_handle_eof_updates, handle_eof_expunged. msimpl.
  rewrite H1. msimpl. rewrite H2. msimpl. rewrite H3. msimpl.
  rewrite H4. msimpl. fold c. rewrite Hneed.
  repeat (first [rewrite bind_assoc | cond_lia]; msimpl).
  fold c. fold expunged. rewrite H5. msimpl.
  assert (Hx : 0 <= expunged < 2 ^ 64)
    by (destruct (file_size2 =? expunged); lia).
  rewrite !(u64_small expunged) by lia.
  rewrite !(u64_small (file_size - v_offset)) by lia.
  destruct (file_size2 =? expunged) eqn:Heq;
    [apply Z.eqb_eq in Heq|apply Z.eqb_neq in Heq];
    destruct Hoff as [Hoff|Hoff];
    repeat (first [rewrite bind_assoc | cond_lia | wrap_simpl]; msimpl).
  all: match goal with
       | |- context [env_handle E (MboxMove ?a ?b ?d) ?w] =>
           destruct (env_handle E (MboxMove a b d) w) as [r w6]
       end; cbn [fst snd].
  all: destruct (r <? 0) eqn:Hr; msimpl;
    [apply Z.ltb_lt in Hr | apply Z.ltb_ge in Hr].
  all: try (events_norm; exists []; rewrite app_nil_r;
            refine (conj eq_refl (conj _ _));
            [intros _; split; reflexivity|intros; lia]).
  all: match goal with
       | |- context [Ftruncate _ ?x] =>
           replace x with (file_size2 - expunged) by lia
       end.
  all: match goal with
       | |- context [env_handle E (Ftruncate ?a ?b) ?w] =>
           destruct (env_handle E (Ftruncate a b) w) as [rt w7]
       end; cbn [fst snd].
  all: match goal with
       | |- context [snd (?T ?st)] =>
           match goal with
           | |- context [Call (MboxMove ?a ?b ?d) ?r0] =>
               destruct (appends_events_since any_call T s st
                 [Call RawIsEof true;
                  Call (StreamSync STREAM_FILE_INPUT) tt;
                  Call (StreamStat true) (Some (file_size, mtime));
                  Call (StreamVOffset STREAM_FILE_INPUT) v_offset;
                  Call (StreamStat true) (Some (file_size2, mtime2));
                  Call (MboxMove a b d) r0;
                  Call (Ftruncate (write_fd c) (file_size2 - expunged)) rt])
                 as [l [Hl _]];
               [ appends_auto
               | cbn [trace]; rewrite <- ?app_assoc; reflexivity
               | exists (Call (Ftruncate (write_fd c) (file_size2 - expunged))
                           rt :: l);
                 split; [exact Hl|];
                 split; [intros; lia|];
                 intros _; eexists; eexists; reflexivity ]
           end
       end.
Qed.

(** *** Writing the pseudo message *)

Lemma string_append_assoc (a b c : string) :
  ((a ++ b) ++ c = a ++ (b ++ c))%string.
Proof. induction a as [|ch a IH]; cbn; [reflexivity|rewrite IH; reflexivity]. Qed.

(** [mbox_write_pseudo] writes one message at offset 0 whose X-IMAP line
    carries the UID validity and the ten digits of [next_uid - 1].  When
    the write succeeds, and when it fails for lack of disk space, the
    function returns 0 and records [next_uid - 1] as uid-last; when it
    fails for another reason it returns -1 after the syscall error, without
    truncating the file and with the context as it was. *)
Theorem write_pseudo_result :
  forall s : st W,
    let c := ctx s in
    let validity := if negb (base_uid_validity c =? 0)
                    then base_uid_validity c else h_uid_validity (hdr c) in
    let run := mbox_write_pseudo E s in
    let evs := events_since s (snd run) in
    write_fd c <> -1 ->
    validity <> 0 ->
    mbox (snd run) = mbox s
    /\ exists prefix suffix w,
         filter is_pwrite evs =
         [Call (PwriteFull (write_fd c)
                  (prefix ++ "X-IMAP: " ++ fmt_u validity ++ " "
                   ++ fmt_010u (u32 (next_uid c - 1)) ++ suffix)%string 0) w]
         /\ (0 <= w \/ existsb errno_was_nospace evs = true ->
             fst run = Ok 0
             /\ ctx (snd run)
                = set_base_uid_last (u32 (next_uid c - 1))
                    (set_base_uid_last_offset 0 c))
         /\ (w < 0 -> existsb errno_was_nospace evs = false ->
             fst run = Ok (-1)
             /\ ctx (snd run) = c
             /\ filter is_any_ftruncate evs = []
             /\ existsb is_syscall_error evs = true).
Proof.
  intros s c validity run evs Hfd Hval.
  subst evs run validity.
  unfold mbox_write_pseudo. msimpl. fold c.
  apply Z.eqb_neq in Hfd, Hval. rewrite Hfd. msimpl.
  rewrite Hval. msimpl.
  repeat name_call.
  rename a into now, a0 into from, a1 into date, a2 into host, a3 into wr.
  match goal with
  | |- context [PwriteFull _ ?str 0] =>
      replace str with
        ((from ++ "Date: " ++ date ++ LF
          ++ "From: Mail System Internal Data <MAILER-DAEMON@" ++ host ++ ">"
          ++ LF
          ++ "Subject: DON'T DELETE THIS MESSAGE -- FOLDER INTERNAL DATA"
          ++ LF ++ "Message-ID: <" ++ fmt_u now ++ "@" ++ host ++ ">" ++ LF)
         ++ "X-IMAP: "
         ++ fmt_u (if negb (base_uid_validity c =? 0)%Z
                   then base_uid_validity c else h_uid_validity (hdr c))
         ++ " " ++ fmt_010u (u32 (next_uid c - 1)%Z)
         ++ (LF ++ "Status: RO" ++ LF ++ LF ++ PSEUDO_MESSAGE_BODY ++ LF))%string
        by (rewrite !string_append_assoc; reflexivity)
  end.
  split; [destruct (wr <? 0); msimpl; repeat name_call;
          [destruct a; msimpl; repeat name_call;
           [destruct (a <? 0); msimpl; repeat name_call|]|]; reflexivity|].
  eexists; eexists; exists wr.
  destruct (wr <? 0) eqn:Hw; msimpl; repeat name_call;
    [apply Z.ltb_lt in Hw|apply Z.ltb_ge in Hw].
  - destruct a; msimpl; repeat name_call.
    + destruct (a <? 0); msimpl; repeat name_call; events_norm;
        cbn [filter is_pwrite existsb errno_was_nospace orb app];
        (split; [reflexivity|]);
        (split; [intros _; split; reflexivity|]);
        intros _ H; discriminate H.
    + events_norm.
      cbn [filter is_pwrite is_any_ftruncate existsb errno_was_nospace
           is_syscall_error orb app].
      split; [reflexivity|].
      split; [intros [H|H]; [lia|discriminate H]|].
      intros _ _. repeat split.
  - events_norm.
    cbn [filter is_pwrite existsb errno_was_nospace orb app].
    split; [reflexivity|].
    split; [intros _; split; reflexivity|].
    intros H; lia.
Qed.

(** *** Updating the index header *)

Lemma wait_mtime_change_result (fuel : nat) :
  forall (st_size st_mtime : Z) (s s' : st W) (f : flow Z (Z * Z)),
    wait_mtime_change E fuel st_size st_mtime s = (Ok f, s') ->
    ctx s' = ctx s /\ mbox s' = mbox s
    /\ exists l,
         trace s' = trace s ++ l
         /\ Forall no_stamp l
         /\ match f with
            | Return r => r = -1 /\ existsb is_syscall_error l = true
            | Fall p =>
              p = (st_size, st_mtime)
              \/ In (Call (StreamStat false) (Some p)) l
            end.
Proof.
  induction fuel as [|fuel IH]; intros st_size st_mtime s s' f;
    cbn [wait_mtime_change]; msimpl; [discriminate|].
  destruct (orig_mtime (ctx s) =? st_mtime); msimpl.
  - repeat name_call. destruct (a0 <? 0); msimpl.
    + repeat name_call. intros H; inversion H; subst. cbn [ctx mbox trace].
      refine (conj eq_refl (conj eq_refl _)).
      eexists. rewrite <- !app_assoc. split; [reflexivity|].
      split; [repeat constructor|]. split; reflexivity.
    + repeat name_call. destruct a1 as [[sz mt]|]; msimpl.
      * intros H. apply IH in H. cbn [ctx mbox trace] in H.
        destruct H as [Hc [Hm [l [Hl [Hf Hres]]]]].
        refine (conj Hc (conj Hm _)).
        eexists. rewrite Hl, <- !app_assoc. split; [reflexivity|].
        split; [repeat (constructor; [split; reflexivity|]); exact Hf|].
        destruct f as [r|p].
        -- destruct Hres as [Hr He]. split; [exact Hr|].
           cbn [app existsb is_syscall_error orb]. exact He.
        -- right. cbn [app In].
           destruct Hres as [Hp|Hin]; [subst p; tauto|tauto].
      * repeat name_call. intros H; inversion H; subst. cbn [ctx mbox trace].
        refine (conj eq_refl (conj eq_refl _)).
        eexists. rewrite <- !app_assoc. split; [reflexivity|].
        split; [repeat constructor|]. split; reflexivity.
  - intros H; inversion H; subst.
    refine (conj eq_refl (conj eq_refl _)).
    exists []. rewrite app_nil_r. split; [reflexivity|].
    split; [constructor|]. left. reflexivity.
Qed.

(** [mbox_sync_update_index_header] answers 0 or -1, writes nothing to the
    mbox and changes nothing of the context but [base_uid_validity].  While
    the mailbox is sync-dirty it leaves the sync stamp and the sync size of
    the index header alone, so that the next check finds the file changed.
    On success it records the mtime and the size of its last stat as the
    dirty stamp and size; on failure the mailbox is as it was. *)
Theorem update_index_header_result :
  forall (fuel : nat) (s s' : st W) (r : Z),
    mbox_sync_update_index_header E fuel s = (Ok r, s') ->
    let evs := events_since s s' in
    set_base_uid_validity 0 (ctx s') = set_base_uid_validity 0 (ctx s)
    /\ mbox_writes evs = []
    /\ (mbox_sync_dirty (mbox s) = true ->
        filter is_sync_stamp_update evs = [])
    /\ ((r = -1 /\ mbox s' = mbox s
         /\ existsb is_syscall_error evs = true)
        \/ (r = 0
            /\ exists st_size st_mtime,
                 In (Call (StreamStat false) (Some (st_size, st_mtime))) evs
                 /\ mbox s'
                    = set_mbox_dirty_size st_size
                        (set_mbox_dirty_stamp st_mtime (mbox s)))).
Proof.
  intros fuel s s' r. unfold mbox_sync_update_index_header. msimpl.
  name_call. destruct a as [[st_size st_mtime]|]; msimpl.
  2:{ name_call. intros H; inversion H; subst. cbv zeta. events_norm.
      cbn [ctx mbox]. repeat split. left. repeat split. }
  set (s1 := {| ext := w; trace := _; mbox := mbox s; ctx := ctx s |}).
  assert (Hwait : forall (f : flow Z (Z * Z)) (s2 : st W),
            (if moved_offsets (ctx s)
                && ((u64 st_size =? h_sync_size (hdr (ctx s)))
                    || (u64 st_size =? orig_size (ctx s)))
             then wait_mtime_change E fuel st_size st_mtime
             else ret (Fall (st_size, st_mtime))) s1 = (Ok f, s2) ->
            ctx s2 = ctx s /\ mbox s2 = mbox s
            /\ exists l,
                 trace s2 = trace s
                            ++ Call (StreamStat false)
                                 (Some (st_size, st_mtime)) :: l
                 /\ Forall no_stamp l
                 /\ match f with
                    | Return r => r = -1 /\ existsb is_syscall_error l = true
                    | Fall p =>
                      In (Call (StreamStat false) (Some p))
                        (Call (StreamStat false) (Some (st_size, st_mtime))
                         :: l)
                    end).
  { intros f s2.
    destruct (moved_offsets (ctx s)
              && ((u64 st_size =? h_sync_size (hdr (ctx s)))
                  || (u64 st_size =? orig_size (ctx s)))).
    - intros H. apply wait_mtime_change_result in H.
      destruct H as [Hc [Hm [l [Hl [Hf Hres]]]]].
      refine (conj Hc (conj Hm _)). exists l.
      split; [rewrite Hl; subst s1; cbn [trace]; rewrite <- app_assoc;
              reflexivity|].
      split; [exact Hf|].
      destruct f as [r0|p]; [exact Hres|].
      destruct Hres as [Hp|Hin]; [subst p; left; reflexivity|right; exact Hin].
    - intros H; inversion H; subst.
      refine (conj eq_refl (conj eq_refl _)). exists [].
      split; [reflexivity|]. split; [constructor|]. left. reflexivity. }
  unfold bind at 1.
  match goal with
  | |- context [(if ?b then wait_mtime_change E fuel st_size st_mtime
                 else ret (Fall (st_size, st_mtime))) s1] =>
      destruct ((if b then wait_mtime_change E fuel st_size st_mtime
                 else ret (Fall (st_size, st_mtime))) s1)
        as [[f| |] s2] eqn:Hw; try discriminate
  end.
  destruct (Hwait f s2 eq_refl) as [Hc [Hm [l [Hl [Hf Hres]]]]].
  clear Hwait Hw.
  assert (Hq : mbox_writes l = [] /\ filter is_sync_stamp_update l = []).
  { clear - Hf. induction Hf as [|x l [Hx1 Hx2] _ [IH1 IH2]];
      [split; reflexivity|].
    unfold mbox_writes in *. cbn [filter]. rewrite Hx1, Hx2.
    split; assumption. }
  destruct Hq as [Hq1 Hq2].
  destruct f as [r0|[sz mt]]; msimpl.
  { destruct Hres as [Hr He]. intros H; inversion H; subst. cbv zeta.
    erewrite events_since_app by exact Hl.
    rewrite Hc, Hm. unfold mbox_writes in *. cbn [filter is_mbox_write
      is_sync_stamp_update existsb is_syscall_error orb].
    rewrite Hq1, Hq2, He. repeat split. left. repeat split. }
  destruct s2 as [e2 tr2 mb2 c2]. cbn [ctx mbox trace] in Hc, Hm, Hl.
  subst c2 mb2 tr2.
  destruct (negb (base_uid_validity (ctx s) =? 0) || (sz =? 0)); msimpl;
    [|discriminate].
  repeat (rewrite bind_assoc; msimpl).
  repeat match goal with
         | |- context [if ?b then _ else _] =>
             lazymatch b with
             | context [if _ then _ else _] => fail
             | _ => destruct b eqn:?; msimpl;
                    repeat (rewrite bind_assoc; msimpl)
             end
         | |- context [i_assert ?b] =>
             destruct b eqn:?; msimpl; repeat (rewrite bind_assoc; msimpl)
         | |- _ = (Ok _, _) -> _ =>
             unfold ret, panic; intros H;
             first [discriminate H | inversion H; subst; clear H]
         end.
  all: cbv zeta; cbn [ctx mbox];
    erewrite events_since_app
      by (cbn [trace]; rewrite <- ?app_assoc; cbn [app]; reflexivity);
    unfold mbox_writes in *;
    cbn [filter is_mbox_write is_sync_stamp_update];
    rewrite ?filter_app; cbn [filter is_mbox_write is_sync_stamp_update];
    rewrite ?Hq1, ?Hq2; cbn [app].
  all: refine (conj eq_refl (conj eq_refl (conj _ _)));
    [ first [ intros _; reflexivity
            | intros Hd;
              match goal with
              | H : _ && negb (mbox_sync_dirty _) = true |- _ =>
                  rewrite Hd, andb_false_r in H; discriminate H
              end ]
    | right; split; [reflexivity|];
      exists sz, mt; split; [|reflexivity];
      cbn [In] in Hres |- *; rewrite ?in_app_iff; cbn [In];
      destruct Hres as [Hres|Hres]; tauto ].
Qed.

(** *** Seeking to the next message of a partial sync *)

Lemma events_since_nil (s s' : st W) :
  trace s' = trace s -> events_since s s' = [].
Proof.
  intros H. apply events_since_app. rewrite H, app_nil_r. reflexivity.
Qed.

Lemma mbox_sync_seek_to_uid_quiet uid :
  appends no_write (mbox_sync_seek_to_uid E uid).
Proof. unfold mbox_sync_seek_to_uid. appends_auto. Qed.

Hint Resolve mbox_sync_seek_to_uid_quiet : appends.

Lemma mbox_sync_partial_seek_next_quiet next_uid0 partial skipped :
  appends no_write
    (mbox_sync_partial_seek_next E next_uid0 partial skipped).
Proof.
  unfold mbox_sync_partial_seek_next, mbox_sync_array_delete_to.
  appends_auto.
Qed.

(** [mbox_sync_partial_seek_next] tells the loop to stop (0) only when no
    buffered sync record is left for the next UID, no further record is
    pending and the mailbox is not dirty; it then has called nothing.  When
    a buffered record is left it answers 1 at once.  A seek that fails
    because the offset is dirty is turned into 1 with the partial mode
    switched off, so the answer is never 0 after a seek.  [partial] is only
    ever switched off and [skipped_mails] only ever switched on, and
    nothing is written to the mbox. *)
Theorem partial_seek_next_result :
  forall (next_uid0 : Z) (partial skipped : bool) (s s' : st W)
         (r : Z) (partial' skipped' : bool),
    mbox_sync_partial_seek_next E next_uid0 partial skipped s
    = (Ok (r, partial', skipped'), s') ->
    let kept := filter (fun x => next_uid0 <=? sr_uid2 x) (syncs (ctx s)) in
    let evs := events_since s s' in
    mbox_writes evs = []
    /\ (partial' = partial \/ partial' = false)
    /\ (skipped' = skipped \/ skipped' = true)
    /\ (kept <> [] ->
        r = 1 /\ partial' = partial /\ skipped' = skipped /\ evs = []
        /\ ctx s' = set_syncs kept (ctx s))
    /\ (r = 0 ->
        kept = [] /\ sr_uid1 (sync_rec (ctx s)) = 0
        /\ mbox_sync_dirty (mbox s) = false
        /\ partial' = partial /\ skipped' = skipped /\ evs = []).
Proof.
  intros next_uid0 partial skipped s s' r partial' skipped' Hrun kept evs.
  assert (Hq : mbox_writes evs = []).
  { destruct (mbox_sync_partial_seek_next_quiet next_uid0 partial skipped s)
      as [l [Hl Hf]].
    rewrite Hrun in Hl. cbn [snd] in Hl. subst evs.
    erewrite events_since_app by exact Hl. apply no_write_writes. exact Hf. }
  refine (conj Hq _). clear Hq. subst evs. revert Hrun.
  unfold mbox_sync_partial_seek_next, mbox_sync_array_delete_to. msimpl.
  repeat (rewrite bind_assoc; msimpl).
  destruct (forallb _ (syncs (ctx s))); msimpl; [|discriminate].
  fold kept.
  destruct kept as [|k kept'] eqn:Hk; cbn [List.length Nat.eqb negb].
  2:{ intros H; inversion H; subst.
      rewrite events_since_nil by reflexivity. cbn [ctx].
      repeat split; try (left; reflexivity); try discriminate. }
  assert (Hfin : forall (r0 : Z) (p0 sk0 : bool) (st0 : st W),
            (if r0 =? 0 then ret (1, false, sk0) else ret (r0, p0, sk0)) st0
            = (Ok (r, partial', skipped'), s') ->
            r <> 0 /\ (partial' = p0 \/ partial' = false) /\ skipped' = sk0).
  { intros r0 p0 sk0 st0. destruct (r0 =? 0) eqn:Hr0; unfold ret;
      intros H; inversion H; subst.
    - repeat split; [discriminate|right; reflexivity].
    - apply Z.eqb_neq in Hr0. repeat split; [exact Hr0|left; reflexivity]. }
  destruct (sr_uid1 (sync_rec (ctx s)) =? 0) eqn:Hu1; cbn [negb]; msimpl.
  - destruct (mbox_sync_dirty (mbox s)) eqn:Hd; cbn [negb]; msimpl.
    + name_call.
      destruct (u32 (seq (ctx s) + 1) =? a); cbn [negb]; msimpl.
      * intros H. apply Hfin in H. destruct H as [Hr [Hp Hs]].
        repeat split; try discriminate; try tauto;
          try (destruct Hp; tauto).
      * unfold bind at 1.
        match goal with
        | |- context [mbox_sync_seek_to_seq E ?a ?st] =>
            destruct (mbox_sync_seek_to_seq E a st) as [[r0| |] s2];
              try discriminate
        end.
        intros H. apply Hfin in H. destruct H as [Hr [Hp Hs]].
        repeat split; try discriminate; try tauto;
          try (destruct Hp; tauto).
    + intros H; inversion H; subst.
      rewrite events_since_nil by reflexivity.
      apply Z.eqb_eq in Hu1.
      refine (conj (or_introl eq_refl) (conj (or_introl eq_refl)
                (conj _ _))).
      * intros Hne. exfalso. apply Hne. reflexivity.
      * intros _. repeat split; assumption.
  - unfold bind at 1.
    match goal with
    | |- context [mbox_sync_seek_to_uid E ?a ?st] =>
        destruct (mbox_sync_seek_to_uid E a st) as [[r0| |] s2];
          try discriminate
    end.
    intros H. apply Hfin in H. destruct H as [Hr [Hp Hs]].
    repeat split; try discriminate; try tauto;
      try (destruct (negb (sr_uid1 (sync_rec (ctx s)) =? next_uid0));
           tauto).
Qed.

(** *** Seeking to the start of the mbox *)

(** [mbox_sync_seek_to_seq] with sequence 0 rewinds the mbox.  When the
    file is no mbox it reports the error and answers -1 with the context
    untouched.  Otherwise it answers 1 with [idx_seq] 1 and no previous
    UID; [seq] is 1 when the stream starts past offset 0, which means that
    a pseudo message comes first, and 0 otherwise, and [dest_first_mail]
    holds exactly when [seq] is 0. *)
Theorem seek_to_start_result :
  forall (s s' : st W) (r : Z),
    mbox_sync_seek_to_seq E 0 s = (Ok r, s') ->
    let evs := events_since s s' in
    mbox s' = mbox s
    /\ mbox_writes evs = []
    /\ ((r = -1 /\ ctx s' = ctx s
         /\ exists a, a < 0
              /\ evs = [Call (RawSeek 0) a;
                        Call (SetError "Mailbox isn't a valid mbox file") tt])
        \/ (r = 1
            /\ exists start,
                 In (Call RawGetStartOffset start) evs
                 /\ ctx s'
                    = set_dest_first_mail (start =? 0)
                        (set_idx_seq 1
                           (set_seq (if start =? 0 then 0 else 1)
                              (set_prev_msg_uid 0 (ctx s)))))).
Proof.
  intros s s' r. unfold mbox_sync_seek_to_seq.
  change (0 =? 0) with true. msimpl.
  repeat (rewrite bind_assoc; msimpl). name_call.
  destruct (a <? 0) eqn:Ha; msimpl; repeat (rewrite bind_assoc; msimpl).
  - name_call. destruct a0. intros H; inversion H; subst. cbv zeta.
    events_norm. cbn [mbox ctx]. repeat split. left. repeat split.
    exists a. apply Z.ltb_lt in Ha. split; [exact Ha|reflexivity].
  - change (1 <=? 1) with true. msimpl.
    repeat (rewrite bind_assoc; msimpl).
    change (u32 (1 - 1)) with 0. change (0 =? 0) with true. msimpl.
    repeat (rewrite bind_assoc; msimpl).
    name_call. rename a0 into start.
    destruct (start =? 0) eqn:Hs; cbn [negb]; msimpl;
      repeat (rewrite bind_assoc; msimpl); name_call;
      intros H; inversion H; subst; cbv zeta; events_norm;
      cbn [mbox ctx]; repeat split; right; (split; [reflexivity|]);
      exists start; (split; [cbn; tauto|]); rewrite ?Hs; reflexivity.
Qed.

(** *** What a sync pass leaves to the driver

    Every function that [mbox_sync_do] reaches makes calls of a pass only:
    one lemma for each, by the structure of its code. *)

Lemma mbox_sync_seek_pass from_offset :
  appends pass_call (mbox_sync_seek E from_offset).
Proof. unfold mbox_sync_seek. appends_auto. Qed.

Hint Resolve mbox_sync_seek_pass : appends.

Lemma mbox_sync_array_delete_to_pass last_uid :
  appends pass_call (mbox_sync_array_delete_to (W:=W) last_uid).
Proof. unfold mbox_sync_array_delete_to. appends_auto. Qed.

Hint Resolve mbox_sync_array_delete_to_pass : appends.

Lemma mbox_sync_read_next_mail_pass mail_ctx :
  appends pass_call (mbox_sync_read_next_mail E mail_ctx).
Proof. unfold mbox_sync_read_next_mail. appends_auto. Qed.

Hint Resolve mbox_sync_read_next_mail_pass : appends.

Lemma read_index_syncs_loop_pass fuel uid e :
  appends pass_call (read_index_syncs_loop E fuel uid e).
Proof.
  revert uid e. induction fuel as [|fuel' IH]; intros uid e; cbn [read_index_syncs_loop]; appends_auto.
Qed.

Hint Resolve read_index_syncs_loop_pass : appends.

Lemma mbox_sync_read_index_syncs_pass fuel uid :
  appends pass_call (mbox_sync_read_index_syncs E fuel uid).
Proof. unfold mbox_sync_read_index_syncs. appends_auto. Qed.

Hint Resolve mbox_sync_read_index_syncs_pass : appends.

Lemma apply_index_syncs_loop_pass l mail kc :
  appends pass_call (apply_index_syncs_loop E l mail kc).
Proof.
  revert mail kc. induction l as [|x l' IH]; intros mail kc; cbn [apply_index_syncs_loop]; appends_auto.
Qed.

Hint Resolve apply_index_syncs_loop_pass : appends.

Lemma mbox_sync_apply_index_syncs_pass mail :
  appends pass_call (mbox_sync_apply_index_syncs E mail).
Proof. unfold mbox_sync_apply_index_syncs. appends_auto. Qed.

Hint Resolve mbox_sync_apply_index_syncs_pass : appends.

Lemma read_index_rec_loop_pass fuel uid mc rec :
  appends pass_call (read_index_rec_loop E fuel uid mc rec).
Proof.
  revert uid mc rec. induction fuel as [|fuel' IH]; intros uid mc rec; cbn [read_index_rec_loop]; appends_auto.
Qed.

Hint Resolve read_index_rec_loop_pass : appends.

Lemma mbox_sync_read_index_rec_pass fuel uid :
  appends pass_call (mbox_sync_read_index_rec E fuel uid).
Proof. unfold mbox_sync_read_index_rec. appends_auto. Qed.

Hint Resolve mbox_sync_read_index_rec_pass : appends.

Lemma find_index_md5_loop_pass fuel md5 mc rec :
  appends pass_call (find_index_md5_loop E fuel md5 mc rec).
Proof.
  revert md5 mc rec. induction fuel as [|fuel' IH]; intros md5 mc rec; cbn [find_index_md5_loop]; appends_auto.
Qed.

Hint Resolve find_index_md5_loop_pass : appends.

Lemma mbox_sync_find_index_md5_pass fuel md5 :
  appends pass_call (mbox_sync_find_index_md5 E fuel md5).
Proof. unfold mbox_sync_find_index_md5. appends_auto. Qed.

Hint Resolve mbox_sync_find_index_md5_pass : appends.

Lemma mbox_sync_update_from_offset_pass mail nocheck :
  appends pass_call (mbox_sync_update_from_offset E mail nocheck).
Proof. unfold mbox_sync_update_from_offset. appends_auto. Qed.

Hint Resolve mbox_sync_update_from_offset_pass : appends.

Lemma mbox_sync_update_index_keywords_pass mail_ctx :
  appends pass_call (mbox_sync_update_index_keywords E mail_ctx).
Proof. unfold mbox_sync_update_index_keywords. appends_auto. Qed.

Hint Resolve mbox_sync_update_index_keywords_pass : appends.

Lemma mbox_sync_update_md5_if_changed_pass mail_ctx :
  appends pass_call (mbox_sync_update_md5_if_changed E mail_ctx).
Proof. unfold mbox_sync_update_md5_if_changed. appends_auto. Qed.

Hint Resolve mbox_sync_update_md5_if_changed_pass : appends.

Lemma mbox_sync_update_index_pass mail_ctx rec :
  appends pass_call (mbox_sync_update_index E mail_ctx rec).
Proof. unfold mbox_sync_update_index. appends_auto. Qed.

Hint Resolve mbox_sync_update_index_pass : appends.

Lemma read_from_line_loop_pass fuel size :
  appends pass_call (read_from_line_loop E fuel size).
Proof.
  revert size. induction fuel as [|fuel' IH]; intros size; cbn [read_from_line_loop]; appends_auto.
Qed.

Hint Resolve read_from_line_loop_pass : appends.

Lemma mbox_read_from_line_pass fuel m :
  appends pass_call (mbox_read_from_line E fuel m).
Proof. unfold mbox_read_from_line. appends_auto. Qed.

Hint Resolve mbox_read_from_line_pass : appends.

Lemma mbox_write_from_line_pass m :
  appends pass_call (mbox_write_from_line E m).
Proof. unfold mbox_write_from_line. appends_auto. Qed.

Hint Resolve mbox_write_from_line_pass : appends.

Lemma update_from_offsets_loop_pass l :
  appends pass_call (update_from_offsets_loop E l).
Proof.
  induction l as [|x l' IH]; cbn [update_from_offsets_loop]; appends_auto.
Qed.

Hint Resolve update_from_offsets_loop_pass : appends.

Lemma update_from_offsets_pass :
  appends pass_call (update_from_offsets E).
Proof. unfold update_from_offsets. appends_auto. Qed.

Hint Resolve update_from_offsets_pass : appends.

Lemma mbox_sync_handle_expunge_pass mail_ctx :
  appends pass_call (mbox_sync_handle_expunge E mail_ctx).
Proof. unfold mbox_sync_handle_expunge. appends_auto. Qed.

Hint Resolve mbox_sync_handle_expunge_pass : appends.

Lemma handle_header_no_space_pass r mail_ctx :
  appends pass_call (handle_header_no_space E r mail_ctx).
Proof. unfold handle_header_no_space. appends_auto. Qed.

Hint Resolve handle_header_no_space_pass : appends.

Lemma mbox_sync_handle_header_pass fuel mail_ctx :
  appends pass_call (mbox_sync_handle_header E fuel mail_ctx).
Proof. unfold mbox_sync_handle_header. appends_auto. Qed.

Hint Resolve mbox_sync_handle_header_pass : appends.

Lemma mbox_sync_handle_missing_space_pass mail_ctx :
  appends pass_call (mbox_sync_handle_missing_space E mail_ctx).
Proof. unfold mbox_sync_handle_missing_space. appends_auto. Qed.

Hint Resolve mbox_sync_handle_missing_space_pass : appends.

Lemma mbox_sync_seek_to_seq_pass seq0 :
  appends pass_call (mbox_sync_seek_to_seq E seq0).
Proof. unfold mbox_sync_seek_to_seq. appends_auto. Qed.

Hint Resolve mbox_sync_seek_to_seq_pass : appends.

Lemma mbox_sync_seek_to_uid_pass uid :
  appends pass_call (mbox_sync_seek_to_uid E uid).
Proof. unfold mbox_sync_seek_to_uid. appends_auto. Qed.

Hint Resolve mbox_sync_seek_to_uid_pass : appends.

Lemma mbox_sync_partial_seek_next_pass n p sk :
  appends pass_call (mbox_sync_partial_seek_next E n p sk).
Proof. unfold mbox_sync_partial_seek_next. appends_auto. Qed.

Hint Resolve mbox_sync_partial_seek_next_pass : appends.

Lemma expunge_rest_pass fuel mc :
  appends pass_call (expunge_rest E fuel mc).
Proof.
  revert mc. induction fuel as [|fuel' IH]; intros mc; cbn [expunge_rest]; appends_auto.
Qed.

Hint Resolve expunge_rest_pass : appends.

Lemma mbox_sync_loop_begin_pass fuel :
  appends pass_call (mbox_sync_loop_begin E fuel).
Proof. unfold mbox_sync_loop_begin. appends_auto. Qed.

Hint Resolve mbox_sync_loop_begin_pass : appends.

Lemma mbox_sync_loop_end_pass fuel mc sk ub :
  appends pass_call (mbox_sync_loop_end E fuel mc sk ub).
Proof. unfold mbox_sync_loop_end. appends_auto. Qed.

Hint Resolve mbox_sync_loop_end_pass : appends.

Lemma mbox_sync_loop_guards_pass mail_ctx partial :
  appends pass_call (mbox_sync_loop_guards E mail_ctx partial).
Proof. unfold mbox_sync_loop_guards. appends_auto. Qed.

Hint Resolve mbox_sync_loop_guards_pass : appends.

Lemma mbox_sync_loop_lookup_pass fuel mc mail_ctx :
  appends pass_call (mbox_sync_loop_lookup E fuel mc mail_ctx).
Proof. unfold mbox_sync_loop_lookup. appends_auto. Qed.

Hint Resolve mbox_sync_loop_lookup_pass : appends.

Lemma mbox_sync_loop_assign_uid_pass fuel mc mail_ctx :
  appends pass_call (mbox_sync_loop_assign_uid E fuel mc mail_ctx).
Proof. unfold mbox_sync_loop_assign_uid. appends_auto. Qed.

Hint Resolve mbox_sync_loop_assign_uid_pass : appends.

Lemma mbox_sync_loop_dispatch_pass fuel expunged mail_ctx :
  appends pass_call (mbox_sync_loop_dispatch E fuel expunged mail_ctx).
Proof. unfold mbox_sync_loop_dispatch. appends_auto. Qed.

Hint Resolve mbox_sync_loop_dispatch_pass : appends.

Lemma mbox_sync_loop_advance_pass uid expunged v :
  appends pass_call (mbox_sync_loop_advance E uid expunged v).
Proof. unfold mbox_sync_loop_advance. appends_auto. Qed.

Hint Resolve mbox_sync_loop_advance_pass : appends.

Lemma mbox_sync_loop_body_pass fuel mc v :
  appends pass_call (mbox_sync_loop_body E fuel mc v).
Proof. unfold mbox_sync_loop_body, mbox_sync_loop_sync_mail. appends_auto. Qed.

Hint Resolve mbox_sync_loop_body_pass : appends.

Lemma mbox_sync_loop_while_pass fuel n mc v :
  appends pass_call (mbox_sync_loop_while E fuel n mc v).
Proof.
  revert mc v. induction n as [|n' IH]; intros mc v; cbn [mbox_sync_loop_while]; appends_auto.
Qed.

Hint Resolve mbox_sync_loop_while_pass : appends.

Lemma mbox_sync_loop_pass fuel mail_ctx partial :
  appends pass_call (mbox_sync_loop E fuel mail_ctx partial).
Proof. unfold mbox_sync_loop. appends_auto. Qed.

Hint Resolve mbox_sync_loop_pass : appends.

Lemma mbox_write_pseudo_pass :
  appends pass_call (mbox_write_pseudo E).
Proof. unfold mbox_write_pseudo. appends_auto. Qed.

Hint Resolve mbox_write_pseudo_pass : appends.

Lemma handle_eof_window_pass mail_ctx file_size :
  appends pass_call (handle_eof_window E mail_ctx file_size).
Proof. unfold handle_eof_window. appends_auto. Qed.

Hint Resolve handle_eof_window_pass : appends.

Lemma handle_eof_expunged_pass trailer_size :
  appends pass_call (handle_eof_expunged E trailer_size).
Proof. unfold handle_eof_expunged. appends_auto. Qed.

Hint Resolve handle_eof_expunged_pass : appends.

Lemma mbox_sync_handle_eof_updates_pass mail_ctx :
  appends pass_call (mbox_sync_handle_eof_updates E mail_ctx).
Proof. unfold mbox_sync_handle_eof_updates. appends_auto. Qed.

Hint Resolve mbox_sync_handle_eof_updates_pass : appends.

Lemma wait_mtime_change_pass fuel sz mt :
  appends pass_call (wait_mtime_change E fuel sz mt).
Proof.
  revert sz mt. induction fuel as [|fuel' IH]; intros sz mt; cbn [wait_mtime_change]; appends_auto.
Qed.

Hint Resolve wait_mtime_change_pass : appends.

Lemma mbox_sync_update_index_header_pass fuel :
  appends pass_call (mbox_sync_update_index_header E fuel).
Proof. unfold mbox_sync_update_index_header. appends_auto. Qed.

Hint Resolve mbox_sync_update_index_header_pass : appends.

Lemma mbox_sync_restart_pass :
  appends pass_call (mbox_sync_restart E).
Proof. unfold mbox_sync_restart. appends_auto. Qed.

Hint Resolve mbox_sync_restart_pass : appends.

Lemma mbox_sync_do_attempts_pass fuel n i partial mail_ctx :
  appends pass_call (mbox_sync_do_attempts E fuel n i partial mail_ctx).
Proof.
  revert i partial mail_ctx. induction n as [|n' IH]; intros i partial mail_ctx; cbn [mbox_sync_do_attempts]; appends_auto.
Qed.

Hint Resolve mbox_sync_do_attempts_pass : appends.

Lemma mbox_sync_do_pass fuel fl :
  appends pass_call (mbox_sync_do E fuel fl).
Proof. unfold mbox_sync_do. appends_auto. Qed.

Hint Resolve mbox_sync_do_pass : appends.

(** The calls of [mbox_sync_do] are calls of a pass: it takes and releases
    no lock, opens and closes no stream, and leaves the commit of the
    transaction and the begin, commit and rollback of the index sync to
    [mbox_sync]. *)
Theorem sync_do_leaves_driver_calls :
  forall (fuel : nat) (fl : mbox_sync_flags) (s : st W),
    Forall pass_call (events_since s (snd (mbox_sync_do E fuel fl s))).
Proof.
  intros fuel fl s.
  destruct (mbox_sync_do_pass fuel fl s) as [l [Hl Hf]].
  erewrite events_since_app by exact Hl. exact Hf.
Qed.

(** *** The locks of [mbox_sync] *)

Lemma pass_no_lock (c : call) : pass_call c -> no_lock c.
Proof.
  unfold pass_call, no_lock. destruct c as [T e a].
  destruct e; cbn; congruence.
Qed.

Lemma mbox_sync_do_no_lock fuel fl :
  appends no_lock (mbox_sync_do E fuel fl).
Proof.
  apply (appends_weaken pass_call); [exact pass_no_lock|].
  apply mbox_sync_do_pass.
Qed.

Lemma mbox_sync_read_index_syncs_no_lock fuel uid :
  appends no_lock (mbox_sync_read_index_syncs E fuel uid).
Proof.
  apply (appends_weaken pass_call); [exact pass_no_lock|].
  apply mbox_sync_read_index_syncs_pass.
Qed.

Lemma mbox_sync_has_changed_no_lock leave_dirty :
  appends no_lock (mbox_sync_has_changed E leave_dirty).
Proof. unfold mbox_sync_has_changed. appends_auto. Qed.

Lemma mbox_sync_context_free_no_lock :
  appends no_lock (mbox_sync_context_free E).
Proof. unfold mbox_sync_context_free. appends_auto. Qed.

Lemma mbox_rewrite_base_uid_last_no_lock :
  appends no_lock (mbox_rewrite_base_uid_last E).
Proof. unfold mbox_rewrite_base_uid_last. appends_auto. Qed.

Hint Resolve mbox_sync_do_no_lock mbox_sync_read_index_syncs_no_lock
  mbox_sync_has_changed_no_lock mbox_sync_context_free_no_lock
  mbox_rewrite_base_uid_last_no_lock : appends.

Lemma fold_no_lock (l : list call) (h : list Z) :
  Forall no_lock l -> fold_left lock_step l h = h.
Proof.
  intros Hf. revert h. induction Hf as [|c l Hc _ IH]; intros h;
    [reflexivity|].
  cbn [fold_left]. rewrite <- (IH h) at 2. f_equal.
  unfold no_lock in Hc. destruct c as [T e a].
  destruct e; cbn in Hc |- *; first [reflexivity|discriminate].
Qed.

Lemma holds_ret {A} (a : A) (h : list Z) (Q : A -> list Z -> Prop) :
  Q a h -> holds_locks (W:=W) (ret a) h Q.
Proof.
  intros HQ s s' a' H. inversion H; subst.
  exists []. rewrite app_nil_r. split; [reflexivity|intros _; exact HQ].
Qed.

Lemma holds_bind {A B} (m : M W A) (k : A -> M W B) (h : list Z)
    (Q1 : A -> list Z -> Prop) (Q : B -> list Z -> Prop) :
  holds_locks m h Q1 ->
  (forall a h1, holds_locks (k a) h1 (fun b h' => Q1 a h1 -> Q b h')) ->
  holds_locks (bind m k) h Q.
Proof.
  unfold holds_locks, bind. intros Hm Hk s s' b H.
  destruct (m s) as [[a| |] s1] eqn:Hs; try discriminate.
  destruct (Hm _ _ _ Hs) as [l1 [Hl1 HQ1]].
  destruct (Hk a (fold_left lock_step l1 h) _ _ _ H) as [l2 [Hl2 HQ]].
  exists (l1 ++ l2). split.
  - rewrite Hl2, Hl1, app_assoc. reflexivity.
  - rewrite forallb_app, fold_left_app. intros Hok.
    apply andb_prop in Hok. destruct Hok as [Hok1 Hok2].
    apply HQ; [exact Hok2|]. apply HQ1. exact Hok1.
Qed.

Lemma holds_assoc {A B C} (m : M W A) (f : A -> M W B) (g : B -> M W C)
    (h : list Z) (Q : C -> list Z -> Prop) :
  holds_locks (bind m (fun x => bind (f x) g)) h Q ->
  holds_locks (bind (bind m f) g) h Q.
Proof.
  unfold holds_locks. intros H s s' c Hrun.
  rewrite bind_assoc in Hrun. exact (H _ _ _ Hrun).
Qed.

Lemma holds_weaken {A} (m : M W A) (h : list Z)
    (Q Q' : A -> list Z -> Prop) :
  holds_locks m h Q -> (forall a h', Q a h' -> Q' a h') ->
  holds_locks m h Q'.
Proof.
  unfold holds_locks. intros H HQ s s' a Hrun.
  destruct (H _ _ _ Hrun) as [l [Hl Hq]].
  exists l. split; [exact Hl|]. intros Hok. apply HQ, Hq, Hok.
Qed.

Lemma holds_quiet {A} (m : M W A) (h : list Z) :
  appends no_lock m -> holds_locks m h (fun _ h' => h' = h).
Proof.
  intros Hm s s' a Hrun. destruct (Hm s) as [l [Hl Hf]].
  rewrite Hrun in Hl. cbn [snd] in Hl.
  exists l. split; [exact Hl|]. intros _. apply fold_no_lock. exact Hf.
Qed.

Lemma holds_mbox_lock (ty : lock_type) (id0 : Z) (h : list Z) :
  holds_locks (mbox_lock E ty id0) h
    (fun p h' => if fst p >? 0 then snd p <> 0 /\ h' = h ++ [snd p]
                 else h' = h).
Proof.
  intros s s' p. unfold mbox_lock. msimpl.
  destruct (env_handle E (MboxLock (mbox s) ty id0) (ext s))
    as [[[r id] mb'] w] eqn:He.
  msimpl. intros H; inversion H; subst. cbn [trace].
  eexists. split; [reflexivity|].
  cbn [forallb lock_id_ok fold_left lock_step fst snd andb].
  rewrite andb_true_r.
  destruct (r >? 0); cbn [negb orb]; [|reflexivity].
  intros Hid. apply negb_true_iff, Z.eqb_neq in Hid.
  split; [exact Hid|reflexivity].
Qed.

Lemma holds_mbox_unlock (id : Z) (h : list Z) :
  holds_locks (mbox_unlock E id) h (fun _ h' => h' = remove_id id h).
Proof.
  intros s s' r. unfold mbox_unlock. msimpl.
  destruct (env_handle E (MboxUnlock (mbox s) id) (ext s))
    as [[r0 mb'] w] eqn:He.
  msimpl. intros H; inversion H; subst. cbn [trace].
  eexists. split; [reflexivity|].
  intros _. reflexivity.
Qed.

Lemma holds_ret_bind {A B} (a : A) (k : A -> M W B) (h : list Z)
    (Q : B -> list Z -> Prop) :
  holds_locks (k a) h Q -> holds_locks (bind (ret a) k) h Q.
Proof. intros H s s' b Hrun. exact (H _ _ _ Hrun). Qed.

(** Follows the code of the driver, keeping the account of the locks. *)
Ltac locks_step :=
  cbv beta;
  match goal with
  | |- holds_locks (bind (bind _ _) _) _ _ => apply holds_assoc
  | |- holds_locks (bind (ret _) _) _ _ => apply holds_ret_bind
  | |- holds_locks (bind (if ?b then _ else _) _) _ _ => destruct b eqn:?
  | |- holds_locks (bind (match ?x with _ => _ end) _) _ _ =>
      destruct x eqn:?
  | |- holds_locks (bind (mbox_lock _ _ _) _) _ _ =>
      eapply holds_bind; [apply holds_mbox_lock|intros ? ?]
  | |- holds_locks (bind (mbox_unlock _ _) _) _ _ =>
      eapply holds_bind; [apply holds_mbox_unlock|intros ? ?]
  | |- holds_locks (bind _ _) _ _ =>
      eapply holds_bind;
      [apply holds_quiet; solve [appends_auto]|intros ? ?]
  | |- holds_locks (if ?b then _ else _) _ _ => destruct b eqn:?
  | |- holds_locks (match ?x with _ => _ end) _ _ => destruct x eqn:?
  | |- holds_locks (ret _) _ _ => apply holds_ret
  end.

Lemma holds_nothing_to_do (lock_id : Z) (h : list Z) :
  holds_locks (mbox_sync_nothing_to_do E lock_id) h
    (fun _ h' => h' = if lock_id =? 0 then h else remove_id lock_id h).
Proof.
  unfold mbox_sync_nothing_to_do.
  repeat locks_step.
  all: intros; subst; destruct (lock_id =? 0); cbn [negb] in *;
    first [discriminate|reflexivity].
Qed.

Lemma remove_id_single (id : Z) : remove_id id [id] = [].
Proof. cbn [remove_id]. rewrite Z.eqb_refl. reflexivity. Qed.

Lemma remove_id_first (id rid : Z) : remove_id id [id; rid] = [rid].
Proof. cbn [remove_id]. rewrite Z.eqb_refl. reflexivity. Qed.

Lemma holds_finish (fuel : nat) (fl : mbox_sync_flags) (lock_id : Z)
    (h : list Z) :
  MBOX_SYNC_LOCK_READING fl = false ->
  holds_locks (mbox_sync_finish E fuel fl lock_id) h
    (fun _ h' => h = [lock_id] -> h' = []).
Proof.
  intros Hfl. unfold mbox_sync_finish. rewrite Hfl. cbn [negb].
  repeat locks_step.
  all: cbn [fst snd]; intros; subst;
    repeat match goal with
    | H : (?r <=? 0) = true |- _ => apply Z.leb_le in H
    | H : (?r <=? 0) = false |- _ => apply Z.leb_gt in H
    | H : (if ?r >? 0 then _ else _) |- _ =>
        destruct (Z.gtb_spec r 0); [destruct H as [? H]|]; subst
    end;
    try lia;
    cbn [app]; rewrite ?remove_id_first, ?remove_id_single; reflexivity.
Qed.

Ltac locks_call Hfl IH :=
  cbv beta iota;
  match goal with
  | |- holds_locks (bind (mbox_sync_nothing_to_do _ _) _) _ _ =>
      eapply holds_bind; [apply holds_nothing_to_do|intros ? ?]
  | |- holds_locks (mbox_sync_nothing_to_do _ _) _ _ =>
      eapply holds_weaken; [apply holds_nothing_to_do|cbv beta; intros ? ?]
  | |- holds_locks (mbox_sync_finish _ _ _ _) _ _ =>
      eapply holds_weaken;
      [apply holds_finish; exact Hfl|cbv beta; intros ? ?]
  | H : (?x =? 0) = true
    |- holds_locks (bind _ (fun _ => mbox_sync_again _ _ _ _ _ _ ?x)) _ _ =>
      apply Z.eqb_eq in H; try subst x
  | |- holds_locks (mbox_sync_again _ _ _ _ _ _ 0) _ _ =>
      eapply holds_weaken; [apply IH|cbv beta; intros ? ?]
  | |- _ => locks_step
  end.

Lemma holds_again (fuel n : nat) (fl : mbox_sync_flags) (dw : bool) :
  MBOX_SYNC_LOCK_READING fl = false ->
  forall (changed : Z) (h : list Z),
    holds_locks (mbox_sync_again E fuel n fl dw changed 0) h
      (fun _ h' => h = [] -> h' = []).
Proof.
  intros Hfl. induction n as [|n' IH]; intros changed h.
  - intros s s' a H. discriminate H.
  - cbn [mbox_sync_again].
    repeat locks_call Hfl IH.
    all: cbn [fst snd]; intros; subst;
      repeat match goal with
      | H : (?r <=? 0) = true |- _ => apply Z.leb_le in H
      | H : (?r <=? 0) = false |- _ => apply Z.leb_gt in H
      | H : (if ?r >? 0 then _ else _) |- _ =>
          destruct (Z.gtb_spec r 0); [destruct H as [? H]|]; subst
      | H : negb _ = true |- _ => apply negb_true_iff in H
      | H : negb _ = false |- _ => apply negb_false_iff in H
      | H : _ && _ = true |- _ => apply andb_prop in H; destruct H
      | H : (_ =? 0) = true |- _ => apply Z.eqb_eq in H
      | H : (_ =? 0) = false |- _ => apply Z.eqb_neq in H
      end;
      try lia; try congruence;
      repeat match goal with
      | |- context [if ?x =? 0 then _ else _] => destruct (Z.eqb_spec x 0)
      | H : context [if ?x =? 0 then _ else _] |- _ =>
          destruct (Z.eqb_spec x 0)
      end;
      cbn [app] in *; rewrite ?remove_id_single in *;
      try lia; try congruence; auto.
Qed.

Lemma holds_sync (fuel : nat) (fl : mbox_sync_flags) (h : list Z) :
  MBOX_SYNC_LOCK_READING fl = false ->
  holds_locks (mbox_sync E fuel fl) h (fun _ h' => h = [] -> h' = []).
Proof.
  intros Hfl. unfold mbox_sync.
  eapply holds_bind; [apply holds_quiet; solve [appends_auto]|intros mb h1].
  cbv zeta.
  set (fl' := if negb (mbox_do_dirty_syncs mb)
              then set_MBOX_SYNC_UNDIRTY true fl else fl).
  assert (Hfl' : MBOX_SYNC_LOCK_READING fl' = false)
    by (subst fl'; destruct (negb _); [destruct fl|]; exact Hfl).
  clearbody fl'. rewrite Hfl'. cbn [andb].
  repeat locks_call Hfl' (fun n dw => @holds_again fuel n fl' dw Hfl').
  all: intros; subst; auto.
Qed.

(** When [MBOX_SYNC_FLAG_LOCK_READING] is not set, a sync that returns,
    with whatever result, has given back every lock it took, provided the
    successful [mbox_lock] calls answered with lock ids other than 0. *)
Theorem sync_releases_every_lock (fuel : nat) (fl : mbox_sync_flags)
    (s s' : st W) (r : Z) :
  MBOX_SYNC_LOCK_READING fl = false ->
  mbox_sync E fuel fl s = (Ok r, s') ->
  forallb lock_id_ok (events_since s s') = true ->
  locks_held (events_since s s') = [].
Proof.
  intros Hfl Hrun Hok.
  destruct (holds_sync fuel fl [] Hfl s s' r Hrun) as [l [Hl Hq]].
  rewrite (events_since_app _ _ _ Hl) in Hok |- *.
  exact (Hq Hok eq_refl).
Qed.

(** *** A read-only mailbox is not written *)

Lemma run_ret {A} (a : A) c mb (Q : A -> _ -> _ -> Prop) :
  Q a c mb -> run_from (W:=W) c mb (ret a) Q.
Proof.
  intros HQ s Hc Hmb. split.
  - exists []. rewrite app_nil_r. split; [reflexivity|constructor].
  - intros a' s' H. inversion H; subst. exact HQ.
Qed.

Lemma run_bind {A B} (m : M W A) (k : A -> M W B) c mb
    (Q1 : A -> _ -> _ -> Prop) (Q : B -> _ -> _ -> Prop) :
  run_from c mb m Q1 ->
  (forall a c1 mb1, Q1 a c1 mb1 -> run_from c1 mb1 (k a) Q) ->
  run_from c mb (bind m k) Q.
Proof.
  intros Hm Hk s Hc Hmb. destruct (Hm s Hc Hmb) as [[l1 [Hl1 Hf1]] Hq1].
  unfold bind. destruct (m s) as [[a| |] s1] eqn:Hs; cbn [snd] in *.
  - destruct (Hk a _ _ (Hq1 _ _ eq_refl) s1 eq_refl eq_refl)
      as [[l2 [Hl2 Hf2]] Hq].
    split.
    + exists (l1 ++ l2). rewrite Hl2, Hl1, app_assoc.
      split; [reflexivity|apply Forall_app; split; assumption].
    + exact Hq.
  - split; [exists l1; split; assumption|intros; discriminate].
  - split; [exists l1; split; assumption|intros; discriminate].
Qed.

Lemma run_weaken {A} (m : M W A) c mb (Q Q' : A -> _ -> _ -> Prop) :
  run_from c mb m Q -> (forall a c1 mb1, Q a c1 mb1 -> Q' a c1 mb1) ->
  run_from c mb m Q'.
Proof.
  intros Hm HQ s Hc Hmb. destruct (Hm s Hc Hmb) as [Hl Hq].
  split; [exact Hl|]. intros a s' H. apply HQ, (Hq _ _ H).
Qed.

Lemma run_assoc {A B C} (m : M W A) (f : A -> M W B) (g : B -> M W C)
    c mb (Q : C -> _ -> _ -> Prop) :
  run_from c mb (bind m (fun x => bind (f x) g)) Q ->
  run_from c mb (bind (bind m f) g) Q.
Proof.
  intros H s Hc Hmb. rewrite bind_assoc. exact (H s Hc Hmb).
Qed.

Lemma run_ret_bind {A B} (a : A) (k : A -> M W B) c mb
    (Q : B -> _ -> _ -> Prop) :
  run_from c mb (k a) Q -> run_from c mb (bind (ret a) k) Q.
Proof. intros H s Hc Hmb. exact (H s Hc Hmb). Qed.

(** A step that leaves the trace alone and turns the context and the
    mailbox into [c'] and [mb']. *)
Lemma run_state {A} (m : M W A) (a : A) c mb c' mb' :
  (forall s, ctx s = c -> mbox s = mb ->
     m s = (Ok a, {| ext := ext s; trace := trace s; mbox := mb';
                     ctx := c' |})) ->
  run_from c mb m (fun a1 c1 mb1 => a1 = a /\ c1 = c' /\ mb1 = mb').
Proof.
  intros Hm s Hc Hmb. rewrite (Hm s Hc Hmb). cbn [snd trace]. split.
  - exists []. rewrite app_nil_r. split; [reflexivity|constructor].
  - intros a1 s' H. inversion H; subst. cbn. auto.
Qed.

Lemma run_get_ctx c mb :
  run_from (W:=W) c mb get_ctx
    (fun a c1 mb1 => a = c /\ c1 = c /\ mb1 = mb).
Proof.
  apply run_state. intros [e tr m0 c0] Hc Hmb. cbn in *. subst.
  reflexivity.
Qed.

Lemma run_get_mbox c mb :
  run_from (W:=W) c mb get_mbox
    (fun a c1 mb1 => a = mb /\ c1 = c /\ mb1 = mb).
Proof.
  apply run_state. intros [e tr m0 c0] Hc Hmb. cbn in *. subst.
  reflexivity.
Qed.

Lemma run_put_ctx c mb c' :
  run_from (W:=W) c mb (put_ctx c')
    (fun a c1 mb1 => a = tt /\ c1 = c' /\ mb1 = mb).
Proof.
  apply run_state. intros [e tr m0 c0] Hc Hmb. cbn in *. subst.
  reflexivity.
Qed.

Lemma run_put_mbox c mb mb' :
  run_from (W:=W) c mb (put_mbox mb')
    (fun a c1 mb1 => a = tt /\ c1 = c /\ mb1 = mb').
Proof.
  apply run_state. intros [e tr m0 c0] Hc Hmb. cbn in *. subst.
  reflexivity.
Qed.

Lemma run_modify_ctx c mb f :
  run_from (W:=W) c mb (modify_ctx f)
    (fun a c1 mb1 => a = tt /\ c1 = f c /\ mb1 = mb).
Proof.
  apply run_state. intros [e tr m0 c0] Hc Hmb. cbn in *. subst.
  reflexivity.
Qed.

Lemma run_modify_mbox c mb f :
  run_from (W:=W) c mb (modify_mbox f)
    (fun a c1 mb1 => a = tt /\ c1 = c /\ mb1 = f mb).
Proof.
  apply run_state. intros [e tr m0 c0] Hc Hmb. cbn in *. subst.
  reflexivity.
Qed.

Lemma run_assert c mb (b : bool) :
  run_from (W:=W) c mb (i_assert b)
    (fun a c1 mb1 => b = true /\ c1 = c /\ mb1 = mb).
Proof.
  intros s Hc Hmb. split.
  - exists []. rewrite app_nil_r.
    split; [destruct b; reflexivity|constructor].
  - intros a s'. destruct b; cbn; intros H; inversion H; subst. auto.
Qed.

Lemma run_stop {A} (m : M W A) c mb (Q : A -> _ -> _ -> Prop) :
  (forall s, exists o, m s = (o, s) /\ forall a, o <> Ok a) ->
  run_from c mb m Q.
Proof.
  intros Hm s Hc Hmb. destruct (Hm s) as [o [Ho Hn]]. rewrite Ho.
  split.
  - exists []. rewrite app_nil_r. split; [reflexivity|constructor].
  - intros a s' H. inversion H; subst. destruct (Hn a eq_refl).
Qed.

Lemma run_panic {A} c mb (Q : A -> _ -> _ -> Prop) :
  run_from (W:=W) c mb panic Q.
Proof.
  apply run_stop. intros s. exists Panic.
  split; [reflexivity|discriminate].
Qed.

Lemma run_out_of_fuel {A} c mb (Q : A -> _ -> _ -> Prop) :
  run_from (W:=W) c mb out_of_fuel Q.
Proof.
  apply run_stop. intros s. exists OutOfFuel.
  split; [reflexivity|discriminate].
Qed.

Lemma run_call {T} (e : extE T) c mb :
  (forall a, no_write (Call e a)) ->
  run_from c mb (call_ext E e)
    (fun a c1 mb1 =>
       (exists w, a = fst (env_handle E e w)) /\ c1 = c /\ mb1 = mb).
Proof.
  intros He s Hc Hmb. split.
  - eexists. split; [reflexivity|].
    constructor; [apply He|constructor].
  - intros a s' H. inversion H; subst. cbn.
    split; [exists (ext s); reflexivity|auto].
Qed.

Lemma run_guarded {A} (m : M W A) (Q : A -> Prop) c mb :
  guarded m Q -> mbox_readonly mb = true -> write_guards c ->
  run_from c mb m
    (fun a c' mb' => mbox_readonly mb' = true /\ write_guards c' /\ Q a).
Proof. intros H. apply H. Qed.

Lemma guarded_weaken {A} (m : M W A) (Q Q' : A -> Prop) :
  guarded m Q -> (forall a, Q a -> Q' a) -> guarded m Q'.
Proof.
  intros H HQ c mb Hr Hg. eapply run_weaken; [exact (H c mb Hr Hg)|].
  cbv beta. intros a c1 mb1 [H1 [H2 H3]]. auto.
Qed.

Lemma guard_dw c : write_guards c -> delay_writes c = true.
Proof. intros H; apply H. Qed.

Lemma guard_es c : write_guards c -> expunged_space c = 0.
Proof. intros H; apply H. Qed.

Lemma guard_ns c : write_guards c -> need_space_seq c = 0.
Proof. intros H; apply H. Qed.

Lemma guard_sy c :
  write_guards c -> mbox_sync_buf_have_expunges (syncs c) = false.
Proof. intros H; apply H. Qed.

Lemma same_guards_keep c c' :
  write_guards c -> same_guards c c' -> write_guards c'.
Proof.
  unfold write_guards, same_guards.
  intros [H1 [H2 [H3 H4]]] [E1 [E2 [E3 E4]]].
  rewrite E1, E2, E3, E4. auto.
Qed.

Section ReadOnly.

Hypothesis HE : keeps_guards E.

Create HintDb guarded.

Lemma run_ro_kept {A} (m : M W A) c mb :
  ro_kept m -> mbox_readonly mb = true ->
  run_from c mb m (fun _ c' mb' => mbox_readonly mb' = true /\ c' = c).
Proof. intros H. apply H. Qed.

Lemma run_unwritten {A} (m : M W A) c mb :
  unwritten m -> mbox_readonly mb = true ->
  run_from c mb m (fun _ _ _ => True).
Proof. intros H. apply H. Qed.

Ltac prove_ro :=
  solve [ assumption
        | apply (kg_close_stream E HE); assumption
        | match goal with
          | R : mbox_readonly ?mb = true |- mbox_readonly ?t = true =>
              cbn; exact R
          end ].

Ltac prove_guards :=
  repeat match goal with
         | |- write_guards (if ?b then _ else _) => destruct b
         end;
  solve [ assumption
        | match goal with
          | G : write_guards ?c0 |- write_guards ?t =>
              apply (same_guards_keep c0 t G); unfold same_guards; msimpl;
              repeat split; reflexivity
          end ].

Ltac guard_facts :=
  repeat match goal with
  | H : snd (_, _) = false |- _ => cbn [snd] in H
  | H : ?b = false |- _ => is_var b; subst b
  end;
  repeat match goal with
  | G : write_guards ?c |- context [delay_writes ?c] =>
      rewrite (guard_dw c G)
  | G : write_guards ?c |- context [expunged_space ?c] =>
      rewrite (guard_es c G)
  | G : write_guards ?c |- context [need_space_seq ?c] =>
      rewrite (guard_ns c G)
  | G : write_guards ?c
    |- context [mbox_sync_buf_have_expunges (syncs ?c)] =>
      rewrite (guard_sy c G)
  | R : mbox_readonly ?mb = true |- context [mbox_readonly ?mb] =>
      rewrite R
  end;
  repeat match goal with
  | |- context [0 >? 0] => change (0 >? 0) with false
  | |- context [0 =? 0] => change (0 =? 0) with true
  end;
  cbn [andb orb negb];
  rewrite ?andb_false_r, ?orb_true_r;
  cbn [andb orb negb];
  cbv beta iota zeta.

(** The answers of the collaborators that hand back the context or the
    mailbox. *)
Ltac name_answer :=
  match goal with
  | |- context [fst (env_handle E (ParseNextMail ?c ?m) ?w)] =>
      let H := fresh "Hs" in
      pose proof (kg_parse E HE c m w) as H;
      destruct (fst (env_handle E (ParseNextMail c m) w)) as [? ?];
      cbn [fst] in H;
      let G := fresh "G" in
      match type of H with
      | same_guards _ ?c' =>
          assert (G : write_guards c')
            by (apply (same_guards_keep c c'); [prove_guards|exact H])
      end
  | |- context [fst (env_handle E (UpdateHeader ?c ?m) ?w)] =>
      let H := fresh "Hs" in
      pose proof (kg_update_header E HE c m w) as H;
      destruct (fst (env_handle E (UpdateHeader c m) w)) as [? ?];
      cbn [fst] in H;
      let G := fresh "G" in
      match type of H with
      | same_guards _ ?c' =>
          assert (G : write_guards c')
            by (apply (same_guards_keep c c'); [prove_guards|exact H])
      end
  | |- context [fst (env_handle E (MboxLock ?mb ?ty ?n) ?w)] =>
      let H := fresh "Hs" in
      pose proof (kg_lock E HE mb ty n w) as H;
      destruct (fst (env_handle E (MboxLock mb ty n) w)) as [[? ?] ?];
      cbn [fst snd] in H;
      let R := fresh "R" in
      match type of H with
      | _ -> mbox_readonly ?mb' = _ =>
          assert (R : mbox_readonly mb' = true) by (apply H; prove_ro)
      end
  | |- context [fst (env_handle E (MboxUnlock ?mb ?n) ?w)] =>
      let H := fresh "Hs" in
      pose proof (kg_unlock E HE mb n w) as H;
      destruct (fst (env_handle E (MboxUnlock mb n) w)) as [? ?];
      cbn [fst snd] in H;
      let R := fresh "R" in
      match type of H with
      | _ -> mbox_readonly ?mb' = _ =>
          assert (R : mbox_readonly mb' = true) by (apply H; prove_ro)
      end
  | |- context [fst (env_handle E (MboxFileOpenStream ?mb) ?w)] =>
      let H := fresh "Hs" in
      pose proof (kg_open_stream E HE mb w) as H;
      destruct (fst (env_handle E (MboxFileOpenStream mb) w)) as [? ?];
      cbn [fst snd] in H;
      let R := fresh "R" in
      match type of H with
      | _ -> mbox_readonly ?mb' = _ =>
          assert (R : mbox_readonly mb' = true) by (apply H; prove_ro)
      end
  | |- context [fst (env_handle E (MboxFileSeek ?mb ?n) ?w)] =>
      let H := fresh "Hs" in
      pose proof (kg_file_seek E HE mb n w) as H;
      destruct (fst (env_handle E (MboxFileSeek mb n) w)) as [[? ?] ?];
      cbn [fst snd] in H;
      let R := fresh "R" in
      match type of H with
      | _ -> mbox_readonly ?mb' = _ =>
          assert (R : mbox_readonly mb' = true) by (apply H; prove_ro)
      end
  end.

Ltac post_eqs a1 c1 mb1 :=
  repeat match goal with
  | H : ex _ |- _ => destruct H as [? H]
  | H : a1 = _ |- _ => subst a1
  | H : c1 = ?t |- _ =>
      first [ is_var t; subst c1
            | let G := fresh "G" in
              assert (G : write_guards c1);
              [rewrite H; clear H; try prove_guards|clear H] ]
  | H : mb1 = ?t |- _ =>
      first [ is_var t; subst mb1
            | let R := fresh "R" in
              assert (R : mbox_readonly mb1 = true)
                by (rewrite H; prove_ro);
              clear H
            | subst mb1 ]
  end.

Ltac post_intros :=
  let a1 := fresh "a" in
  let c1 := fresh "c" in
  let mb1 := fresh "mb" in
  let H := fresh "Hpost" in
  intros a1 c1 mb1 H; cbv beta in H;
  decompose [and] H; clear H;
  post_eqs a1 c1 mb1;
  try name_answer.

Ltac run_prim :=
  match goal with
  | |- run_from _ _ get_ctx _ => apply run_get_ctx
  | |- run_from _ _ get_mbox _ => apply run_get_mbox
  | |- run_from _ _ (put_ctx _) _ => apply run_put_ctx
  | |- run_from _ _ (put_mbox _) _ => apply run_put_mbox
  | |- run_from _ _ (modify_ctx _) _ => apply run_modify_ctx
  | |- run_from _ _ (modify_mbox _) _ => apply run_modify_mbox
  | |- run_from _ _ (i_assert _) _ => apply run_assert
  | |- run_from _ _ (call_ext _ _) _ =>
      apply run_call; intros; reflexivity
  | |- run_from _ _ _ _ =>
      eapply run_guarded;
      [solve [eauto with guarded]|prove_ro|prove_guards]
  | |- run_from _ _ _ _ =>
      eapply run_ro_kept; [solve [eauto with guarded]|prove_ro]
  | |- run_from _ _ _ _ =>
      eapply run_unwritten; [solve [eauto with guarded]|prove_ro]
  end.

Ltac run_leaf :=
  cbv beta; cbn [fst snd] in *;
  try solve [ subst; repeat match goal with |- _ /\ _ => split end;
              first [prove_ro|prove_guards|auto] ].

Ltac run_step :=
  guard_facts;
  match goal with
  | |- run_from _ _ (bind (bind _ _) _) _ => apply run_assoc
  | |- run_from _ _ (bind (ret _) _) _ => apply run_ret_bind
  | |- run_from _ _ (bind (if ?b then _ else _) _) _ => destruct b eqn:?
  | |- run_from _ _ (bind (match ?x with _ => _ end) _) _ =>
      destruct x eqn:?
  | |- run_from _ _ (bind _ _) _ =>
      eapply run_bind; [run_prim|post_intros]
  | |- run_from _ _ (if ?b then _ else _) _ => destruct b eqn:?
  | |- run_from _ _ (match ?x with _ => _ end) _ => destruct x eqn:?
  | |- run_from _ _ (ret _) _ => apply run_ret; run_leaf
  | |- run_from _ _ panic _ => apply run_panic
  | |- run_from _ _ out_of_fuel _ => apply run_out_of_fuel
  | |- run_from _ _ _ _ =>
      eapply run_weaken; [run_prim|post_intros; run_leaf]
  end.

Ltac run_auto := repeat run_step.

Lemma mbox_sync_seek_guarded from_offset :
  guarded (mbox_sync_seek E from_offset) (fun _ => True).
Proof. intros c mb R G. unfold mbox_sync_seek. run_auto. Qed.

Hint Resolve mbox_sync_seek_guarded : guarded.

Lemma expunge_rest_guarded fuel messages_count :
  guarded (expunge_rest E fuel messages_count) (fun _ => True).
Proof.
  induction fuel as [|fuel' IH]; intros c mb R G; cbn [expunge_rest];
    run_auto.
Qed.

Hint Resolve expunge_rest_guarded : guarded.

Lemma mbox_sync_read_next_mail_guarded mail_ctx :
  guarded (mbox_sync_read_next_mail E mail_ctx) (fun _ => True).
Proof. intros c mb R G. unfold mbox_sync_read_next_mail. run_auto. Qed.

Hint Resolve mbox_sync_read_next_mail_guarded : guarded.

Lemma no_expunges_filter f l :
  mbox_sync_buf_have_expunges l = false ->
  mbox_sync_buf_have_expunges (filter f l) = false.
Proof.
  intros H. destruct (mbox_sync_buf_have_expunges (filter f l)) eqn:Hf;
    [|reflexivity].
  apply have_expunges_filter in Hf. congruence.
Qed.

Lemma guards_set_syncs c l :
  write_guards c -> mbox_sync_buf_have_expunges l = false ->
  write_guards (set_syncs l c).
Proof.
  unfold write_guards. intros [H1 [H2 [H3 H4]]] Hl. msimpl. auto.
Qed.

Lemma mbox_sync_array_delete_to_guarded last_uid :
  guarded (mbox_sync_array_delete_to (W:=W) last_uid) (fun _ => True).
Proof.
  intros c mb R G. unfold mbox_sync_array_delete_to. run_auto.
  apply guards_set_syncs; [exact G|].
  apply no_expunges_filter, guard_sy, G.
Qed.

Hint Resolve mbox_sync_array_delete_to_guarded : guarded.

Lemma apply_index_syncs_loop_guarded l mail kc :
  guarded (apply_index_syncs_loop E l mail kc) (fun _ => True).
Proof.
  revert mail kc. induction l as [|r l' IH]; intros mail kc c mb R G;
    cbn [apply_index_syncs_loop]; run_auto.
Qed.

Hint Resolve apply_index_syncs_loop_guarded : guarded.

Lemma mbox_sync_apply_index_syncs_guarded mail :
  guarded (mbox_sync_apply_index_syncs E mail) (fun _ => True).
Proof. intros c mb R G. unfold mbox_sync_apply_index_syncs. run_auto. Qed.

Hint Resolve mbox_sync_apply_index_syncs_guarded : guarded.

Lemma read_index_rec_loop_guarded fuel uid messages_count rec :
  guarded (read_index_rec_loop E fuel uid messages_count rec)
    (fun _ => True).
Proof.
  revert rec. induction fuel as [|fuel' IH]; intros rec c mb R G;
    cbn [read_index_rec_loop]; run_auto.
Qed.

Hint Resolve read_index_rec_loop_guarded : guarded.

Lemma mbox_sync_read_index_rec_guarded fuel uid :
  guarded (mbox_sync_read_index_rec E fuel uid) (fun _ => True).
Proof. intros c mb R G. unfold mbox_sync_read_index_rec. run_auto. Qed.

Hint Resolve mbox_sync_read_index_rec_guarded : guarded.

Lemma find_index_md5_loop_guarded fuel sum messages_count rec :
  guarded (find_index_md5_loop E fuel sum messages_count rec)
    (fun _ => True).
Proof.
  revert rec. induction fuel as [|fuel' IH]; intros rec c mb R G;
    cbn [find_index_md5_loop]; run_auto.
Qed.

Hint Resolve find_index_md5_loop_guarded : guarded.

Lemma mbox_sync_find_index_md5_guarded fuel sum :
  guarded (mbox_sync_find_index_md5 E fuel sum) (fun _ => True).
Proof. intros c mb R G. unfold mbox_sync_find_index_md5. run_auto. Qed.

Hint Resolve mbox_sync_find_index_md5_guarded : guarded.

Lemma mbox_sync_update_from_offset_guarded mail nocheck :
  guarded (mbox_sync_update_from_offset E mail nocheck) (fun _ => True).
Proof. intros c mb R G. unfold mbox_sync_update_from_offset. run_auto. Qed.

Hint Resolve mbox_sync_update_from_offset_guarded : guarded.

Lemma mbox_sync_update_index_keywords_guarded mail_ctx :
  guarded (mbox_sync_update_index_keywords E mail_ctx) (fun _ => True).
Proof.
  intros c mb R G. unfold mbox_sync_update_index_keywords. run_auto.
Qed.

Hint Resolve mbox_sync_update_index_keywords_guarded : guarded.

Lemma mbox_sync_update_md5_if_changed_guarded mail_ctx :
  guarded (mbox_sync_update_md5_if_changed E mail_ctx) (fun _ => True).
Proof.
  intros c mb R G. unfold mbox_sync_update_md5_if_changed. run_auto.
Qed.

Hint Resolve mbox_sync_update_md5_if_changed_guarded : guarded.

Lemma mbox_sync_update_index_guarded mail_ctx rec :
  guarded (mbox_sync_update_index E mail_ctx rec) (fun _ => True).
Proof. intros c mb R G. unfold mbox_sync_update_index. run_auto. Qed.

Hint Resolve mbox_sync_update_index_guarded : guarded.

Lemma mbox_sync_handle_header_guarded fuel mail_ctx :
  guarded (mbox_sync_handle_header E fuel mail_ctx) (fun _ => True).
Proof. intros c mb R G. unfold mbox_sync_handle_header. run_auto. Qed.

Hint Resolve mbox_sync_handle_header_guarded : guarded.

Lemma mbox_sync_seek_to_seq_guarded seq0 :
  guarded (mbox_sync_seek_to_seq E seq0) (fun _ => True).
Proof. intros c mb R G. unfold mbox_sync_seek_to_seq. run_auto. Qed.

Hint Resolve mbox_sync_seek_to_seq_guarded : guarded.

Lemma mbox_sync_seek_to_uid_guarded uid :
  guarded (mbox_sync_seek_to_uid E uid) (fun _ => True).
Proof. intros c mb R G. unfold mbox_sync_seek_to_uid. run_auto. Qed.

Hint Resolve mbox_sync_seek_to_uid_guarded : guarded.

Lemma mbox_sync_partial_seek_next_guarded next_uid0 partial skipped :
  guarded (mbox_sync_partial_seek_next E next_uid0 partial skipped)
    (fun _ => True).
Proof.
  intros c mb R G. unfold mbox_sync_partial_seek_next. run_auto.
Qed.

Hint Resolve mbox_sync_partial_seek_next_guarded : guarded.

Lemma mbox_sync_loop_begin_guarded fuel :
  guarded (mbox_sync_loop_begin E fuel) (fun _ => True).
Proof. intros c mb R G. unfold mbox_sync_loop_begin. run_auto. Qed.

Hint Resolve mbox_sync_loop_begin_guarded : guarded.

Lemma mbox_sync_loop_end_guarded fuel messages_count skipped broken :
  guarded (mbox_sync_loop_end E fuel messages_count skipped broken)
    (fun _ => True).
Proof. intros c mb R G. unfold mbox_sync_loop_end. run_auto. Qed.

Hint Resolve mbox_sync_loop_end_guarded : guarded.

Lemma mbox_sync_loop_guards_guarded mail_ctx partial :
  guarded (mbox_sync_loop_guards E mail_ctx partial) (fun _ => True).
Proof. intros c mb R G. unfold mbox_sync_loop_guards. run_auto. Qed.

Hint Resolve mbox_sync_loop_guards_guarded : guarded.

Lemma mbox_sync_loop_lookup_guarded fuel messages_count mail_ctx :
  guarded (mbox_sync_loop_lookup E fuel messages_count mail_ctx)
    (fun _ => True).
Proof. intros c mb R G. unfold mbox_sync_loop_lookup. run_auto. Qed.

Hint Resolve mbox_sync_loop_lookup_guarded : guarded.

Lemma mbox_sync_loop_assign_uid_guarded fuel messages_count mail_ctx :
  guarded (mbox_sync_loop_assign_uid E fuel messages_count mail_ctx)
    (fun _ => True).
Proof. intros c mb R G. unfold mbox_sync_loop_assign_uid. run_auto. Qed.

Hint Resolve mbox_sync_loop_assign_uid_guarded : guarded.

Lemma mbox_sync_loop_dispatch_guarded fuel mail_ctx :
  guarded (mbox_sync_loop_dispatch E fuel false mail_ctx) (fun _ => True).
Proof.
  intros c mb R G. unfold mbox_sync_loop_dispatch. cbn [negb]. run_auto.
Qed.

Hint Resolve mbox_sync_loop_dispatch_guarded : guarded.

Lemma mbox_sync_loop_advance_guarded uid v :
  guarded (mbox_sync_loop_advance E uid false v) (fun _ => True).
Proof. intros c mb R G. unfold mbox_sync_loop_advance. run_auto. Qed.

Hint Resolve mbox_sync_loop_advance_guarded : guarded.

Lemma guards_take_sync c :
  write_guards c ->
  sync_type_eqb (sr_type (sync_rec c)) SYNC_TYPE_EXPUNGE = false ->
  write_guards (set_syncs (syncs c ++ [sync_rec c]) c).
Proof.
  intros G Hx. apply guards_set_syncs; [exact G|].
  rewrite have_expunges_app; [apply guard_sy, G|].
  constructor; [|constructor]. intros Ht.
  apply sync_type_eqb_eq in Ht. congruence.
Qed.

Lemma read_index_syncs_loop_guarded fuel uid e :
  guarded (read_index_syncs_loop E fuel uid e) (fun a => snd a = e).
Proof.
  revert e. induction fuel as [|fuel' IH]; intros e c mb R G;
    cbn [read_index_syncs_loop]; [run_auto|].
  do 2 run_step.
  destruct (sync_type_eqb (sr_type (sync_rec c)) SYNC_TYPE_EXPUNGE) eqn:Hx;
    guard_facts; rewrite ?andb_false_r, ?orb_false_r;
    cbv beta iota zeta; run_auto;
    try (apply guards_take_sync; assumption).
Qed.

Hint Resolve read_index_syncs_loop_guarded : guarded.

Lemma mbox_sync_read_index_syncs_guarded fuel uid :
  guarded (mbox_sync_read_index_syncs E fuel uid) (fun a => snd a = false).
Proof.
  intros c mb R G. unfold mbox_sync_read_index_syncs. run_auto.
Qed.

Hint Resolve mbox_sync_read_index_syncs_guarded : guarded.

Lemma mbox_sync_loop_body_guarded fuel messages_count v :
  guarded (mbox_sync_loop_body E fuel messages_count v) (fun _ => True).
Proof.
  intros c mb R G. unfold mbox_sync_loop_body, mbox_sync_loop_sync_mail.
  destruct (mc_pseudo (lv_mail_ctx v)); run_auto.
Qed.

Hint Resolve mbox_sync_loop_body_guarded : guarded.

Lemma mbox_sync_loop_while_guarded fuel n messages_count v :
  guarded (mbox_sync_loop_while E fuel n messages_count v) (fun _ => True).
Proof.
  revert v. induction n as [|n' IH]; intros v c mb R G;
    cbn [mbox_sync_loop_while]; run_auto.
Qed.

Hint Resolve mbox_sync_loop_while_guarded : guarded.

Lemma mbox_sync_loop_guarded fuel mail_ctx partial :
  guarded (mbox_sync_loop E fuel mail_ctx partial) (fun _ => True).
Proof. intros c mb R G. unfold mbox_sync_loop. run_auto. Qed.

Hint Resolve mbox_sync_loop_guarded : guarded.

Lemma mbox_sync_handle_eof_updates_guarded mail_ctx :
  guarded (mbox_sync_handle_eof_updates E mail_ctx) (fun _ => True).
Proof.
  intros c mb R G. unfold mbox_sync_handle_eof_updates. run_auto.
Qed.

Hint Resolve mbox_sync_handle_eof_updates_guarded : guarded.

Lemma wait_mtime_change_guarded fuel st_size st_mtime :
  guarded (wait_mtime_change E fuel st_size st_mtime) (fun _ => True).
Proof.
  revert st_size st_mtime.
  induction fuel as [|fuel' IH]; intros st_size st_mtime c mb R G;
    cbn [wait_mtime_change]; run_auto.
Qed.

Hint Resolve wait_mtime_change_guarded : guarded.

Lemma mbox_sync_update_index_header_guarded fuel :
  guarded (mbox_sync_update_index_header E fuel) (fun _ => True).
Proof.
  intros c mb R G. unfold mbox_sync_update_index_header. run_auto.
Qed.

Hint Resolve mbox_sync_update_index_header_guarded : guarded.

(** [mbox_sync_restart] puts the guards up when writes are delayed. *)
Lemma restart_sets_guards c mb :
  mbox_readonly mb = true -> delay_writes c = true ->
  run_from c mb (mbox_sync_restart E)
    (fun _ c' mb' => mbox_readonly mb' = true /\ write_guards c').
Proof.
  intros R D [e tr mb0 c0] Hc Hmb. cbn in Hc, Hmb. subst c0 mb0.
  unfold mbox_sync_restart. msimpl. split.
  - eexists. split; [reflexivity|].
    constructor; [reflexivity|constructor].
  - intros a s' H. inversion H; subst. cbn.
    split; [exact R|]. unfold write_guards. msimpl. auto.
Qed.

Lemma mbox_sync_restart_guarded :
  guarded (mbox_sync_restart E) (fun _ => True).
Proof.
  intros c mb R G. eapply run_weaken.
  - apply restart_sets_guards; [exact R|apply guard_dw, G].
  - cbv beta. intros a c1 mb1 [H1 H2]. auto.
Qed.

Hint Resolve mbox_sync_restart_guarded : guarded.

Lemma mbox_sync_do_attempts_guarded fuel n i partial mail_ctx :
  guarded (mbox_sync_do_attempts E fuel n i partial mail_ctx)
    (fun _ => True).
Proof.
  revert i partial mail_ctx.
  induction n as [|n' IH]; intros i partial mail_ctx c mb R G;
    cbn [mbox_sync_do_attempts]; run_auto.
Qed.

Hint Resolve mbox_sync_do_attempts_guarded : guarded.

Lemma guards_clear_syncs c :
  write_guards c ->
  write_guards (set_sync_rec sync_rec_zero (set_syncs [] c)).
Proof.
  unfold write_guards. intros [H1 [H2 [H3 H4]]]. msimpl. auto.
Qed.

(** A sync pass over a read-only mailbox with delayed writes writes
    nothing, and leaves the mailbox read-only and the writes delayed. *)
Lemma mbox_sync_do_run fuel fl c mb :
  mbox_readonly mb = true -> delay_writes c = true ->
  run_from c mb (mbox_sync_do E fuel fl)
    (fun _ c' mb' => mbox_readonly mb' = true /\ delay_writes c' = true).
Proof.
  intros R D. unfold mbox_sync_do.
  eapply run_bind; [apply run_call; intros; reflexivity|].
  intros st c1 mb1 [_ [-> ->]].
  destruct st as [[st_size st_mtime]|].
  - eapply run_bind; [apply run_modify_ctx|].
    intros ? c1 mb1 [_ [-> ->]].
    eapply run_bind; [apply run_get_ctx|].
    intros ? c1 mb1 [-> [-> ->]].
    match goal with
    | |- run_from _ _ (let (_, _) := ?x in _) _ =>
        destruct x as [partial dirty]
    end.
    eapply run_bind; [apply run_modify_mbox|].
    intros ? c1 mb1 [_ [-> ->]].
    eapply run_bind;
      [apply restart_sets_guards; [exact R|exact D]|].
    intros ? c1 mb1 [R1 G1].
    run_auto.
    all: try (split; [assumption|apply guard_dw; assumption]).
    apply guards_clear_syncs. assumption.
  - run_auto.
Qed.

Lemma mbox_sync_do_guarded fuel fl :
  guarded (mbox_sync_do E fuel fl) (fun _ => True).
Proof.
  intros c mb R G. unfold mbox_sync_do. run_step. run_step.
  - run_step. run_step. run_step.
    match goal with
    | |- run_from _ _ (let (_, _) := ?x in _) _ =>
        destruct x as [partial dirty]
    end.
    run_auto.
    apply guards_clear_syncs. assumption.
  - run_auto.
Qed.

Hint Resolve mbox_sync_do_guarded : guarded.

Lemma mbox_lock_kept ty lock_id : ro_kept (mbox_lock E ty lock_id).
Proof. intros c mb R. unfold mbox_lock. run_auto. Qed.

Lemma mbox_unlock_kept lock_id : ro_kept (mbox_unlock E lock_id).
Proof. intros c mb R. unfold mbox_unlock. run_auto. Qed.

Hint Resolve mbox_lock_kept mbox_unlock_kept : guarded.

Lemma mbox_sync_has_changed_kept leave_dirty :
  ro_kept (mbox_sync_has_changed E leave_dirty).
Proof. intros c mb R. unfold mbox_sync_has_changed. run_auto. Qed.

Lemma mbox_sync_nothing_to_do_kept lock_id :
  ro_kept (mbox_sync_nothing_to_do E lock_id).
Proof. intros c mb R. unfold mbox_sync_nothing_to_do. run_auto. Qed.

Hint Resolve mbox_sync_has_changed_kept mbox_sync_nothing_to_do_kept
  : guarded.

Lemma mbox_sync_context_free_guarded :
  guarded (mbox_sync_context_free E) (fun _ => True).
Proof. intros c mb R G. unfold mbox_sync_context_free. run_auto. Qed.

Hint Resolve mbox_sync_context_free_guarded : guarded.

Lemma mbox_sync_finish_guarded fuel fl lock_id :
  guarded (mbox_sync_finish E fuel fl lock_id) (fun _ => True).
Proof. intros c mb R G. unfold mbox_sync_finish. run_auto. Qed.

Hint Resolve mbox_sync_finish_guarded : guarded.

Lemma init_guards h fl : write_guards (sync_ctx_init h fl true).
Proof. unfold write_guards. cbn. auto. Qed.

Lemma mbox_sync_again_unwritten fuel n fl dw changed lock_id :
  unwritten (mbox_sync_again E fuel n fl dw changed lock_id).
Proof.
  revert changed lock_id.
  induction n as [|n' IH]; intros changed lock_id c mb R;
    cbn [mbox_sync_again]; run_auto.
  all: apply init_guards.
Qed.

Hint Resolve mbox_sync_again_unwritten : guarded.

Lemma mbox_sync_unwritten fuel fl : unwritten (mbox_sync E fuel fl).
Proof. intros c mb R. unfold mbox_sync. run_auto. Qed.

End ReadOnly.

Lemma no_write_filter (l : list call) :
  Forall no_write l -> mbox_writes l = [].
Proof.
  intros Hf. unfold mbox_writes.
  induction Hf as [|c l Hc _ IH]; cbn [filter]; [reflexivity|].
  unfold no_write in Hc. rewrite Hc. exact IH.
Qed.

(** A sync pass over a read-only mailbox with delayed writes makes no call
    that writes the mbox file, whatever its outcome; when it returns, the
    mailbox is still read-only and the writes are still delayed.  The
    header parser and [mbox_sync_update_header] are assumed to leave
    [delay_writes], [expunged_space], [need_space_seq] and the buffer of
    sync records as they are, and [mbox_file_seek] to keep a read-only
    mailbox read-only. *)
Theorem delayed_pass_writes_nothing (fuel : nat) (fl : mbox_sync_flags)
    (s : st W) :
  keeps_guards E ->
  mbox_readonly (mbox s) = true ->
  delay_writes (ctx s) = true ->
  let run := mbox_sync_do E fuel fl s in
  mbox_writes (events_since s (snd run)) = []
  /\ (forall r, fst run = Ok r ->
       mbox_readonly (mbox (snd run)) = true
       /\ delay_writes (ctx (snd run)) = true).
Proof.
  intros HE R D run. subst run.
  destruct (mbox_sync_do_run HE fuel fl (ctx s) (mbox s) R D s eq_refl
              eq_refl)
    as [[l [Hl Hf]] Hq].
  split.
  - rewrite (events_since_app _ _ _ Hl). apply no_write_filter, Hf.
  - intros r Hr. apply (Hq r). destruct (mbox_sync_do E fuel fl s) as [o s'].
    cbn [fst snd] in Hr |- *. rewrite Hr. reflexivity.
Qed.

(** [mbox_sync] on a read-only mailbox makes no call that writes the mbox
    file, whatever its flags and its outcome, as long as the collaborators
    that hand back the context or the mailbox leave the guards of the
    writes as they are and keep a read-only mailbox read-only. *)
Theorem readonly_mailbox_is_not_written (fuel : nat) (fl : mbox_sync_flags)
    (s : st W) :
  keeps_guards E ->
  mbox_readonly (mbox s) = true ->
  mbox_writes (events_since s (snd (mbox_sync E fuel fl s))) = [].
Proof.
  intros HE R.
  destruct (mbox_sync_unwritten HE fuel fl (ctx s) (mbox s) R s eq_refl
              eq_refl)
    as [[l [Hl Hf]] _].
  rewrite (events_since_app _ _ _ Hl). apply no_write_filter, Hf.
Qed.

(** *** Closing the rewrite window *)

Lemma no_write_splits space needed from_offset (l : list call) :
  Forall no_write l -> Forall (splits_space space needed from_offset) l.
Proof.
  apply Forall_impl. intros [T e a] Hc. unfold no_write in Hc.
  destruct e; cbn in Hc |- *; first [exact I|discriminate].
Qed.

Lemma splits_after_rewrite {A} space needed from_offset (s S s' : st W)
    (cl : call) (m : M W A) :
  trace S = trace s ++ [cl] ->
  splits_space space needed from_offset cl ->
  appends no_write m ->
  trace s' = trace (snd (m S)) ->
  Forall (splits_space space needed from_offset) (events_since s s').
Proof.
  intros HS Hcl Hm Hs'. destruct (Hm S) as [l [Hl Hf]].
  rewrite (events_since_app s s' ([cl] ++ l))
    by (rewrite Hs', Hl, HS, <- app_assoc; reflexivity).
  apply Forall_app. split; [constructor; [exact Hcl|constructor]|].
  apply no_write_splits, Hf.
Qed.

(** When [mbox_sync_handle_missing_space] closes the rewrite window on an
    expunged mail, the space of the mail is split between the rewrite and
    the expunged space that stays: the bytes moved and the bytes left
    expunged add up to the mail's space, and the bytes moved are the bytes
    that were missing plus the extra space handed to the rewrite. *)
Theorem missing_space_splits_expunged_mail
    (mail_ctx : mbox_sync_mail_context) (s : st W) :
  let mail := mc_mail mail_ctx in
  m_uid mail = 0 ->
  0 <= m_space mail < 2 ^ 63 ->
  - 2 ^ 63 <= space_diff (ctx s) <= 0 ->
  Forall (splits_space (m_space mail) (- space_diff (ctx s))
            (m_from_offset mail))
    (events_since s (snd (mbox_sync_handle_missing_space E mail_ctx s))).
Proof.
  intros mail Huid Hsp Hsd. subst mail.
  destruct s as [e tr mb c]. cbn [ctx] in *.
  unfold mbox_sync_handle_missing_space. rewrite Huid.
  msimpl.
  change (0 =? 0) with true. cbn [orb]. mrun.
  rewrite (s64_small (space_diff c + m_space (mc_mail mail_ctx))) by lia.
  set (sd := space_diff c + m_space (mc_mail mail_ctx)) in *.
  destruct (sd <? 0) eqn:Hneg.
  { destruct (expunged_space c >? 0); mrun;
      [destruct (expunged_space c =? _); mrun|];
      rewrite events_since_nil; constructor. }
  apply Z.ltb_ge in Hneg.
  destruct (m_space (mc_mail mail_ctx) >=? sd) eqn:Hge; mrun;
    [|rewrite events_since_nil; constructor].
  assert (Hn : m_space (mc_mail mail_ctx) - sd = - space_diff c)
    by (subst sd; lia).
  rewrite Hn.
  match goal with
  | |- context [u32 (env_MBOX_HEADER_PADDING E * ?x)] =>
      set (pad := u32 (env_MBOX_HEADER_PADDING E * x))
  end.
  assert (Hpad : 0 <= pad <= UINT32_MAX) by apply u32_range.
  unfold UINT32_MAX in Hpad.
  apply Z.geb_le in Hge.
  rewrite (u64_small sd), (u64_small (- space_diff c)),
    (u64_small (- space_diff c + pad)),
    (u64_small (m_space (mc_mail mail_ctx))) by lia.
  destruct (sd >? - space_diff c + pad) eqn:Hgt; msimpl.
  all: match goal with
       | |- context [env_handle E (Rewrite ?a1 ?a2 ?a3 ?a4 ?a5 ?a6 ?a7) ?w0] =>
           destruct (env_handle E (Rewrite a1 a2 a3 a4 a5 a6 a7) w0)
             as [[[r c'] m'] w] eqn:He
       end;
    cbn [fst snd];
    (destruct (r <? 0); msimpl;
     [ match goal with
       | |- Forall _ (events_since _ ?S0) =>
           eapply (splits_after_rewrite _ _ _ _ S0 _ _ (ret tt));
           [cbn [trace]; reflexivity| |apply appends_ret|reflexivity]
       end
     | match goal with
       | |- context [update_from_offsets_loop E ?l ?S0] =>
           eapply (splits_after_rewrite _ _ _ _ S0 _ _
                     (update_from_offsets_loop E l));
           [ cbn [trace]; reflexivity
           |
           | apply update_from_offsets_loop_quiet
           | destruct (update_from_offsets_loop E l S0) as [[u| |] s1];
             reflexivity ]
       end ]).
  all: cbn [splits_space]; msimpl;
    first [apply Z.gtb_lt in Hgt|rewrite Z.gtb_ltb in Hgt;
                                  apply Z.ltb_ge in Hgt];
    rewrite ?s64_small by lia; subst sd; repeat split; lia.
Qed.

(** *** Dirty flags in the index *)

Lemma u8_bits (x i : Z) :
  0 <= i ->
  Z.testbit (u8 x) i = if i <? 8 then Z.testbit x i else false.
Proof.
  intros Hi. unfold u8. destruct (Z.ltb_spec i 8).
  - apply Z.mod_pow2_bits_low. lia.
  - apply Z.mod_pow2_bits_high. lia.
Qed.

(** With dirty flags in the index, the flags computed for the index record
    are the flags of the index outside [MAIL_RECENT] and the dirty flag. *)
Lemma dirty_flags_kept (idx mb0 recent dirty : Z) (dw : bool) :
  0 <= idx < 256 ->
  Z.land
    (if dw
     then u8 (Z.lor
                (u8 (Z.lor (u8 (Z.land mb0 (Z.lor recent dirty)))
                       (Z.land idx (Z.lnot (Z.lor recent dirty)))))
                dirty)
     else u8 (Z.lor (u8 (Z.land mb0 (Z.lor recent dirty)))
                (Z.land idx (Z.lnot (Z.lor recent dirty)))))
    (Z.lnot (Z.lor recent dirty))
  = Z.land idx (Z.lnot (Z.lor recent dirty)).
Proof.
  intros Hidx. apply Z.bits_inj'. intros i Hi.
  assert (Hhigh : 8 <= i -> Z.testbit idx i = false).
  { intros H8. rewrite <- (Z.mod_small idx (2 ^ 8)) by lia.
    apply Z.mod_pow2_bits_high. lia. }
  destruct dw;
    repeat (rewrite ?Z.land_spec, ?Z.lor_spec, ?Z.lnot_spec, ?u8_bits
              by exact Hi);
    (destruct (Z.ltb_spec i 8);
     [|rewrite (Hhigh ltac:(lia)); reflexivity]);
    destruct (Z.testbit idx i), (Z.testbit mb0 i), (Z.testbit recent i),
      (Z.testbit dirty i); reflexivity.
Qed.

Lemma bind_get_ctx {A} (k : mbox_sync_context -> M W A) (s : st W) :
  bind get_ctx k s = k (ctx s) s.
Proof. reflexivity. Qed.

Lemma bind_get_mbox {A} (k : mbox_mailbox -> M W A) (s : st W) :
  bind get_mbox k s = k (mbox s) s.
Proof. reflexivity. Qed.

Lemma bind_ret {A B} (a : A) (k : A -> M W B) (s : st W) :
  bind (ret a) k s = k a s.
Proof. reflexivity. Qed.

Lemma bind_call {T A} (e : extE T) (k : T -> M W A) (s : st W) :
  bind (call_ext E e) k s
  = k (fst (env_handle E e (ext s)))
      {| ext := snd (env_handle E e (ext s));
         trace := trace s ++ [Call e (fst (env_handle E e (ext s)))];
         mbox := mbox s; ctx := ctx s |}.
Proof. reflexivity. Qed.

(** The calls of the rest of a run, when the run so far has added [l1]. *)
Lemma forall_events_rest {A} (P : call -> Prop) (m : M W A)
    (s s1 : st W) (l1 : list call) :
  appends P m ->
  trace s1 = trace s ++ l1 ->
  Forall P l1 ->
  Forall P (events_since s (snd (m s1))).
Proof.
  intros Hm Ht Hl1.
  destruct (appends_events_since P m s s1 l1 Hm Ht) as [l [Hl Hf]].
  rewrite Hl. apply Forall_app. split; assumption.
Qed.

Lemma mbox_sync_update_from_offset_keeps mail nocheck :
  appends keeps_index (mbox_sync_update_from_offset E mail nocheck).
Proof. unfold mbox_sync_update_from_offset. appends_auto. Qed.

Lemma mbox_sync_update_md5_if_changed_keeps mail_ctx :
  appends keeps_index (mbox_sync_update_md5_if_changed E mail_ctx).
Proof. unfold mbox_sync_update_md5_if_changed. appends_auto. Qed.

Lemma update_flags_if (b : bool) (n v : Z) (x y : modify_type) :
  call_ext E (IndexUpdateFlags n (if b then x else y) v)
  = if b then call_ext E (IndexUpdateFlags n x v)
    else call_ext E (IndexUpdateFlags n y v).
Proof. destruct b; reflexivity. Qed.

Hint Resolve mbox_sync_update_from_offset_keeps
  mbox_sync_update_md5_if_changed_keeps : appends.

Lemma update_index_dirty_keeps (mail_ctx : mbox_sync_mail_context)
    (rc : mail_index_record) (s : st W) :
  syncs (ctx s) = [] ->
  0 <= ir_flags rc < 256 ->
  Z.land (ir_flags rc) (env_MAIL_INDEX_MAIL_FLAG_DIRTY E) <> 0 ->
  Forall keeps_index
    (events_since s (snd (mbox_sync_update_index E mail_ctx (Some rc) s))).
Proof.
  intros Hsy Hfl Hd. unfold mbox_sync_update_index.
  rewrite bind_get_ctx, bind_get_mbox. cbv zeta.
  rewrite !bind_assoc, bind_call.
  destruct (fst (env_handle E (IndexLookupKeywords (idx_seq (ctx s)))
                   (ext s))) as [r kw].
  destruct (r <? 0).
  - eapply forall_events_rest;
      [appends_auto|cbn [trace]; reflexivity|repeat constructor].
  - rewrite bind_assoc. unfold mbox_sync_apply_index_syncs.
    rewrite bind_assoc, bind_get_ctx. cbn [ctx]. rewrite Hsy.
    cbn [apply_index_syncs_loop]. rewrite bind_ret. cbv beta iota.
    cbn [m_flags m_keywords set_m_keywords set_m_flags mail_zero].
    rewrite (proj2 (Z.eqb_neq _ _) Hd). cbn [negb andb]. cbv iota.
    unfold SYNC_FLAGS. rewrite dirty_flags_kept by exact Hfl.
    rewrite Z.eqb_refl. cbn [negb]. cbv iota.
    rewrite update_flags_if.
    eapply forall_events_rest;
      [appends_auto|cbn [trace]; reflexivity|repeat constructor].
Qed.

(** When the flags of the index record are dirty, [mbox_sync_update_index]
    replaces neither the flags nor the keywords of the record by those of
    the mbox: the flags of the index win.  Stated for a message with no
    buffered sync record, and flags of the width of [uint8_t]. *)
Theorem dirty_index_flags_win (mail_ctx : mbox_sync_mail_context)
    (rc : mail_index_record) (s : st W) :
  syncs (ctx s) = [] ->
  0 <= ir_flags rc < 256 ->
  Z.land (ir_flags rc) (env_MAIL_INDEX_MAIL_FLAG_DIRTY E) <> 0 ->
  Forall keeps_index
    (events_since s (snd (mbox_sync_update_index E mail_ctx (Some rc) s))).
Proof. apply update_index_dirty_keeps. Qed.

(** *** Flags of the index that the mbox does not hold *)

(** Without dirty flags in the index, the flags computed for the index
    record are those of the index outside [MAIL_FLAGS_MASK], [MAIL_RECENT]
    and the dirty flag. *)
Lemma internal_flags_kept (idx mb0 mask recent dirty : Z) :
  0 <= idx < 256 ->
  Z.land
    (u8 (Z.lor (u8 (Z.land mb0 (Z.lor mask (Z.lor recent dirty))))
           (Z.land idx (Z.lnot (Z.lor mask (Z.lor recent dirty))))))
    (Z.lnot (Z.lor mask (Z.lor recent dirty)))
  = Z.land idx (Z.lnot (Z.lor mask (Z.lor recent dirty))).
Proof.
  intros Hidx. apply Z.bits_inj'. intros i Hi.
  assert (Hhigh : 8 <= i -> Z.testbit idx i = false).
  { intros H8. rewrite <- (Z.mod_small idx (2 ^ 8)) by lia.
    apply Z.mod_pow2_bits_high. lia. }
  repeat (rewrite ?Z.land_spec, ?Z.lor_spec, ?Z.lnot_spec, ?u8_bits
            by exact Hi).
  destruct (Z.ltb_spec i 8);
    [|rewrite (Hhigh ltac:(lia)); reflexivity].
  destruct (Z.testbit idx i), (Z.testbit mb0 i), (Z.testbit mask i),
    (Z.testbit recent i), (Z.testbit dirty i); reflexivity.
Qed.

Lemma keeps_index_internal mask recent dirty idx (c : call) :
  keeps_index c -> keeps_internal_flags mask recent dirty idx c.
Proof.
  unfold keeps_index. destruct c as [T e a].
  destruct e; cbn; try (intros; exact I).
  match goal with
  | |- context [match ?m with _ => _ end] => destruct m
  end; first [intros; exact I|discriminate].
Qed.

Section Internal.

Variables mask recent dirty idx : Z.

Local Abbreviation P := (keeps_internal_flags mask recent dirty idx).

Lemma mbox_sync_update_from_offset_internal mail nocheck :
  appends P (mbox_sync_update_from_offset E mail nocheck).
Proof. unfold mbox_sync_update_from_offset. appends_auto. Qed.

Lemma mbox_sync_update_md5_if_changed_internal mail_ctx :
  appends P (mbox_sync_update_md5_if_changed E mail_ctx).
Proof. unfold mbox_sync_update_md5_if_changed. appends_auto. Qed.

Lemma mbox_sync_update_index_keywords_internal mail_ctx :
  appends P (mbox_sync_update_index_keywords E mail_ctx).
Proof. unfold mbox_sync_update_index_keywords. appends_auto. Qed.

End Internal.

Hint Resolve mbox_sync_update_from_offset_internal
  mbox_sync_update_md5_if_changed_internal
  mbox_sync_update_index_keywords_internal : appends.

(** [mbox_sync_update_index] leaves to the index the flags that the mbox
    does not hold: whenever it replaces the flags of an existing record,
    the new flags are those of the record outside [MAIL_FLAGS_MASK],
    [MAIL_RECENT] and the dirty flag.  Stated for a message with no
    buffered sync record, and flags of the width of [uint8_t]. *)
Theorem index_internal_flags_survive (mail_ctx : mbox_sync_mail_context)
    (rc : mail_index_record) (s : st W) :
  syncs (ctx s) = [] ->
  0 <= ir_flags rc < 256 ->
  Forall
    (keeps_internal_flags (env_MAIL_FLAGS_MASK E) (env_MAIL_RECENT E)
       (env_MAIL_INDEX_MAIL_FLAG_DIRTY E) (ir_flags rc))
    (events_since s (snd (mbox_sync_update_index E mail_ctx (Some rc) s))).
Proof.
  intros Hsy Hfl.
  destruct (Z.land (ir_flags rc) (env_MAIL_INDEX_MAIL_FLAG_DIRTY E) =? 0)
    eqn:Hd.
  2: { apply Z.eqb_neq in Hd.
       eapply Forall_impl; [apply keeps_index_internal|].
       apply update_index_dirty_keeps; assumption. }
  unfold mbox_sync_update_index.
  rewrite bind_get_ctx, bind_get_mbox. cbv zeta.
  rewrite !bind_assoc, bind_call.
  destruct (fst (env_handle E (IndexLookupKeywords (idx_seq (ctx s)))
                   (ext s))) as [r kw].
  destruct (r <? 0).
  - eapply forall_events_rest;
      [appends_auto|cbn [trace]; reflexivity|repeat constructor].
  - rewrite bind_assoc. unfold mbox_sync_apply_index_syncs.
    rewrite bind_assoc, bind_get_ctx. cbn [ctx]. rewrite Hsy.
    cbn [apply_index_syncs_loop]. rewrite bind_ret. cbv beta iota.
    cbn [m_flags m_keywords set_m_keywords set_m_flags mail_zero].
    rewrite Hd. cbn [negb andb]. cbv iota.
    match goal with
    | |- context [if negb ?c
                  then call_ext E (IndexUpdateFlags _ MODIFY_REPLACE _)
                  else _] => destruct c
    end; cbn [negb]; cbv iota.
    + rewrite update_flags_if.
      eapply forall_events_rest;
        [appends_auto|cbn [trace]; reflexivity|repeat constructor].
    + rewrite !bind_assoc, bind_call.
      eapply forall_events_rest;
        [ appends_auto
        | cbn [trace]; rewrite <- app_assoc; reflexivity
        | constructor; [exact I|constructor; [|constructor]] ].
      cbn [keeps_internal_flags]. unfold SYNC_FLAGS.
      apply internal_flags_kept. exact Hfl.
Qed.


(** *** The results of the sync *)

Lemma returns_ret {A} (a : A) (Q : A -> Prop) :
  Q a -> returns (W:=W) (ret a) Q.
Proof. intros HQ s a' s' H. inversion H; subst. exact HQ. Qed.

Lemma returns_bind {A B} (m : M W A) (k : A -> M W B)
    (Q1 : A -> Prop) (Q : B -> Prop) :
  returns m Q1 -> (forall a, Q1 a -> returns (k a) Q) ->
  returns (bind m k) Q.
Proof.
  intros Hm Hk s b s' H. unfold bind in H.
  destruct (m s) as [[a| |] s1] eqn:Hs; try discriminate.
  exact (Hk a (Hm _ _ _ Hs) _ _ _ H).
Qed.

Lemma returns_any {A} (m : M W A) : returns m (fun _ => True).
Proof. intros s a s' _. exact I. Qed.

Lemma returns_weaken {A} (m : M W A) (Q Q' : A -> Prop) :
  returns m Q -> (forall a, Q a -> Q' a) -> returns m Q'.
Proof. intros H HQ s a s' Hr. exact (HQ _ (H _ _ _ Hr)). Qed.

Lemma returns_assoc {A B C} (m : M W A) (f : A -> M W B) (g : B -> M W C)
    (Q : C -> Prop) :
  returns (bind m (fun x => bind (f x) g)) Q ->
  returns (bind (bind m f) g) Q.
Proof.
  intros H s c s' Hr. rewrite bind_assoc in Hr. exact (H _ _ _ Hr).
Qed.

Lemma returns_ret_bind {A B} (a : A) (k : A -> M W B) (Q : B -> Prop) :
  returns (k a) Q -> returns (bind (ret a) k) Q.
Proof. intros H s b s' Hr. exact (H _ _ _ Hr). Qed.

Lemma returns_call {T} (e : extE T) :
  returns (call_ext E e) (fun a => exists w, a = fst (env_handle E e w)).
Proof.
  intros s a s' H. inversion H; subst. exists (ext s). reflexivity.
Qed.

Lemma returns_never {A} (m : M W A) (Q : A -> Prop) :
  (forall s a s', m s <> (Ok a, s')) -> returns m Q.
Proof. intros H s a s' Hr. destruct (H _ _ _ Hr). Qed.

Create HintDb returns.

Ltac result_leaf :=
  cbv beta; intros;
  repeat match goal with
         | H : (_ <? _) = true |- _ => apply Z.ltb_lt in H
         | H : (_ <? _) = false |- _ => apply Z.ltb_ge in H
         | H : (_ <=? _) = true |- _ => apply Z.leb_le in H
         | H : (_ <=? _) = false |- _ => apply Z.leb_gt in H
         | H : _ /\ _ |- _ => destruct H
         end;
  cbn [fst snd] in *;
  repeat match goal with
         | |- context [if ?b then _ else _] => destruct b
         end;
  try solve [ exact I | lia | intros; discriminate | congruence | eauto ].

Ltac result_step :=
  cbv beta iota zeta;
  match goal with
  | |- returns (bind (bind _ _) _) _ => apply returns_assoc
  | |- returns (bind (ret _) _) _ => apply returns_ret_bind
  | |- returns (bind (if ?b then _ else _) _) _ => destruct b eqn:?
  | |- returns (bind (match ?x with _ => _ end) _) _ => destruct x eqn:?
  | |- returns (bind _ _) _ =>
      eapply returns_bind;
      [first [solve [eauto with returns]|apply returns_any]
      |intros ? ?]
  | |- returns (if ?b then _ else _) _ => destruct b eqn:?
  | |- returns (match ?x with _ => _ end) _ => destruct x eqn:?
  | |- returns (ret _) _ => apply returns_ret; result_leaf
  | |- returns panic _ => apply returns_never; discriminate
  | |- returns out_of_fuel _ => apply returns_never; discriminate
  | |- returns _ _ =>
      eapply returns_weaken; [solve [eauto with returns]|result_leaf]
  end.

Ltac result_auto := repeat result_step.

Lemma mbox_sync_do_attempts_returns fuel n i partial mail_ctx :
  returns (mbox_sync_do_attempts E fuel n i partial mail_ctx)
    (fun a => forall r, fst a = Return r -> r = -1).
Proof.
  revert i partial mail_ctx.
  induction n as [|n' IH]; intros i partial mail_ctx;
    cbn [mbox_sync_do_attempts]; result_auto.
Qed.

Hint Resolve mbox_sync_do_attempts_returns : returns.

Lemma mbox_sync_do_returns fuel fl :
  returns (mbox_sync_do E fuel fl) (fun r => r = 0 \/ r = -1).
Proof. unfold mbox_sync_do. result_auto. Qed.

Hint Resolve mbox_sync_do_returns : returns.

Lemma mbox_rewrite_base_uid_last_returns :
  returns (mbox_rewrite_base_uid_last E) (fun r => r = 0 \/ r = -1).
Proof. unfold mbox_rewrite_base_uid_last. result_auto. Qed.

Lemma mbox_sync_nothing_to_do_returns lock_id :
  returns (mbox_sync_nothing_to_do E lock_id) (fun r => r = 0 \/ r = -1).
Proof. unfold mbox_sync_nothing_to_do. result_auto. Qed.

Hint Resolve mbox_rewrite_base_uid_last_returns
  mbox_sync_nothing_to_do_returns : returns.

Lemma mbox_sync_finish_returns fuel fl lock_id :
  returns (mbox_sync_finish E fuel fl lock_id) (fun r => r = 0 \/ r = -1).
Proof. unfold mbox_sync_finish. result_auto. Qed.

Hint Resolve mbox_sync_finish_returns : returns.

Section SyncBegin.

Hypothesis HB : sync_begin_in_range E.

Lemma sync_begin_returns seq0 offset sync_recent sync_dirty :
  returns (call_ext E (IndexSyncBegin seq0 offset sync_recent sync_dirty))
    (fun r => -1 <= r).
Proof.
  eapply returns_weaken; [apply returns_call|].
  cbv beta. intros a [w ->]. apply HB.
Qed.

Hint Resolve sync_begin_returns : returns.

Lemma mbox_sync_again_returns fuel n fl dw changed lock_id :
  returns (mbox_sync_again E fuel n fl dw changed lock_id)
    (fun r => r = 0 \/ r = -1).
Proof.
  revert changed lock_id.
  induction n as [|n' IH]; intros changed lock_id;
    cbn [mbox_sync_again]; result_auto.
Qed.

Hint Resolve mbox_sync_again_returns : returns.

Lemma mbox_sync_returns fuel fl :
  returns (mbox_sync E fuel fl) (fun r => r = 0 \/ r = -1).
Proof. unfold mbox_sync. result_auto. Qed.

End SyncBegin.

(** [mbox_sync] returns 0 or -1 and nothing else, provided
    [mail_index_sync_begin] answers nothing below -1: its other results
    come from [mbox_sync_do], [mbox_rewrite_base_uid_last] and the commit
    of the index sync, which all answer 0 or -1 here. *)
Theorem sync_returns_0_or_minus_1 (fuel : nat) (fl : mbox_sync_flags)
    (s s' : st W) (r : Z) :
  sync_begin_in_range E ->
  mbox_sync E fuel fl s = (Ok r, s') ->
  r = 0 \/ r = -1.
Proof.
  intros HB Hrun. exact (mbox_sync_returns HB fuel fl s r s' Hrun).
Qed.

(** *** Finding a message by its MD5 sum *)

Lemma find_index_md5_loop_quiet fuel sum messages_count rec :
  appends no_write (find_index_md5_loop E fuel sum messages_count rec).
Proof.
  revert rec. induction fuel as [|fuel' IH]; intros rec;
    cbn [find_index_md5_loop]; appends_auto.
Qed.

Lemma events_since_trans (s s1 s' : st W) (l1 l2 : list call) :
  trace s1 = trace s ++ l1 ->
  trace s' = trace s1 ++ l2 ->
  events_since s s' = l1 ++ events_since s1 s'.
Proof.
  intros H1 H2. rewrite (events_since_app s1 s' l2 H2).
  apply events_since_app. rewrite H2, H1, app_assoc. reflexivity.
Qed.

(** The scan changes nothing but [idx_seq]; it stops with -1 after a
    lookup that failed, or without a failed lookup: with the record at
    [idx_seq] after the index answered a matching sum for it, or with no
    record. *)
Lemma find_index_md5_loop_result (fuel : nat) :
  forall (sum : list Z) (messages_count : Z) (s s' : st W)
         (f : flow Z (option mail_index_record)),
    find_index_md5_loop E fuel sum messages_count None s = (Ok f, s') ->
    set_idx_seq 0 (ctx s') = set_idx_seq 0 (ctx s)
    /\ mbox s' = mbox s
    /\ match f with
       | Return r =>
           r = -1
           /\ existsb index_read_failed (events_since s s') = true
       | Fall rec =>
           existsb index_read_failed (events_since s s') = false
           /\ match rec with
              | Some _ =>
                  existsb (md5_found (idx_seq (ctx s')) sum)
                    (events_since s s') = true
              | None => True
              end
       end.
Proof.
  induction fuel as [|fuel IH]; intros sum messages_count s s' f;
    cbn [find_index_md5_loop]; msimpl; [discriminate|].
  destruct (idx_seq (ctx s) <=? messages_count); msimpl;
    [|intros H; inversion H; subst; repeat split;
      unfold events_since; rewrite skipn_all; reflexivity].
  name_call. destruct a as [r rec]. msimpl.
  destruct (r <? 0) eqn:Hr; msimpl;
    [intros H; inversion H; subst; repeat split; unit_answers; events_norm;
     cbn [existsb index_read_failed]; rewrite Hr; reflexivity|].
  name_call. destruct a as [r2 data]. msimpl.
  destruct (r2 <? 0) eqn:Hr2; msimpl;
    [intros H; inversion H; subst; repeat split; unit_answers; events_norm;
     cbn [existsb index_read_failed]; rewrite Hr, Hr2; reflexivity|].
  assert (Hnext : forall w1,
            find_index_md5_loop E fuel sum messages_count None
              {| ext := w1;
                 trace := ((trace s
                            ++ [Call (IndexLookup (idx_seq (ctx s)))
                                  (r, rec)])
                           ++ [Call (IndexLookupExtMd5 (idx_seq (ctx s)))
                                 (r2, data)])
                          ++ [Call (IndexExpunge (idx_seq (ctx s))) tt];
                 mbox := mbox s;
                 ctx := set_idx_seq (u32 (idx_seq (ctx s) + 1)) (ctx s) |}
            = (Ok f, s') ->
            set_idx_seq 0 (ctx s') = set_idx_seq 0 (ctx s)
            /\ mbox s' = mbox s
            /\ match f with
               | Return r0 =>
                   r0 = -1
                   /\ existsb index_read_failed (events_since s s') = true
               | Fall rec0 =>
                   existsb index_read_failed (events_since s s') = false
                   /\ match rec0 with
                      | Some _ =>
                          existsb (md5_found (idx_seq (ctx s')) sum)
                            (events_since s s') = true
                      | None => True
                      end
               end).
  { intros w1 H.
    match type of H with
    | _ _ _ _ _ _ ?st = _ => set (s1 := st) in *
    end.
    destruct (find_index_md5_loop_quiet fuel sum messages_count None s1)
      as [l [Hl _]].
    rewrite H in Hl. cbn [snd] in Hl.
    apply IH in H. destruct H as [Hc [Hm Hf]].
    refine (conj Hc (conj Hm _)).
    erewrite (events_since_trans s s1 s')
      by (first [exact Hl|subst s1; cbn [trace];
                          rewrite <- !app_assoc; reflexivity]).
    rewrite !existsb_app.
    cbn [existsb index_read_failed orb app]. rewrite Hr, Hr2. cbn [orb].
    destruct f as [r0|[rc|]].
    - exact Hf.
    - destruct Hf as [Hf1 Hf2]. split; [exact Hf1|].
      rewrite Hf2. apply orb_true_r.
    - exact Hf. }
  destruct data as [d|]; [destruct (md5_equal d sum) eqn:Hmd|]; msimpl.
  - unfold ret. intros H; inversion H; subst. cbn [ctx mbox].
    repeat split.
    + events_norm. cbn [existsb index_read_failed]. rewrite Hr, Hr2.
      reflexivity.
    + destruct rec as [rc|]; [|exact I].
      events_norm. cbn [existsb md5_found].
      rewrite Z.eqb_refl, Hmd. reflexivity.
  - name_call. destruct a. apply Hnext.
  - name_call. destruct a. apply Hnext.
Qed.

(** [mbox_sync_find_index_md5] returns -1, with no record, exactly when
    one of its lookups in the index fails, and 0 otherwise; a record is
    only handed back after the index has answered, for the sequence
    [idx_seq] now points at, a stored sum equal to the header's.  It
    changes nothing but [idx_seq] and writes nothing to the mbox. *)
Theorem find_index_md5_result :
  forall (fuel : nat) (sum : list Z) (s s' : st W) (r : Z)
         (rec : option mail_index_record),
    mbox_sync_find_index_md5 E fuel sum s = (Ok (r, rec), s') ->
    set_idx_seq 0 (ctx s') = set_idx_seq 0 (ctx s)
    /\ mbox s' = mbox s
    /\ mbox_writes (events_since s s') = []
    /\ ((r = -1 /\ rec = None
         /\ existsb index_read_failed (events_since s s') = true)
        \/ (r = 0
            /\ existsb index_read_failed (events_since s s') = false
            /\ (rec <> None ->
                existsb (md5_found (idx_seq (ctx s')) sum)
                  (events_since s s') = true))).
Proof.
  intros fuel sum s s' r rec.
  unfold mbox_sync_find_index_md5. msimpl. name_call.
  match goal with
  | |- context [bind _ _ ?st] => set (s1 := st)
  end.
  destruct (find_index_md5_loop_quiet fuel sum a None s1) as [l [Htr Hq]].
  pose proof (find_index_md5_loop_result fuel sum a s1) as Hres.
  unfold bind at 1.
  destruct (find_index_md5_loop E fuel sum a None s1)
    as [[f| |] s2] eqn:Hloop; try discriminate.
  specialize (Hres s2 f eq_refl). cbn [snd] in Htr.
  destruct Hres as [Hc [Hm Hf]].
  assert (Hev : events_since s s2
                = [Call ViewGetMessagesCount a] ++ events_since s1 s2).
  { apply (events_since_trans s s1 s2 _ l); [reflexivity|exact Htr]. }
  assert (Hquiet : mbox_writes (events_since s s2) = []).
  { rewrite Hev, (events_since_app s1 s2 l Htr), mbox_writes_app.
    rewrite (no_write_writes l Hq). reflexivity. }
  subst s1. cbn [ctx mbox] in Hc, Hm.
  destruct f as [r0|rec0]; msimpl; intros H; inversion H; subst;
    refine (conj Hc (conj Hm (conj Hquiet _))).
  - left. destruct Hf as [Hf1 Hf2].
    refine (conj Hf1 (conj eq_refl _)).
    rewrite Hev, existsb_app, Hf2. apply orb_true_r.
  - right. destruct Hf as [Hf1 Hf2].
    refine (conj eq_refl (conj _ _)).
    + rewrite Hev, existsb_app, Hf1. reflexivity.
    + intros Hsome. destruct rec as [rc|]; [|congruence].
      rewrite Hev, existsb_app, Hf2. apply orb_true_r.
Qed.

(** *** Broken and reappearing UIDs, and the attempts of a pass *)

Lemma last_default {A} (l : list A) :
  forall x a b : A, last (x :: l) a = last (x :: l) b.
Proof.
  induction l as [|y l IH]; intros x a b; [reflexivity|].
  change (last (x :: y :: l) a) with (last (y :: l) a).
  change (last (x :: y :: l) b) with (last (y :: l) b).
  apply IH.
Qed.

Lemma last_cons {A} (b : A) (l : list A) (a : A) :
  last (b :: l) a = last l b.
Proof.
  destruct l as [|x l]; [reflexivity|].
  change (last (b :: x :: l) a) with (last (x :: l) a).
  apply last_default.
Qed.

Lemma seq4_run {A1 A2 A3 A4 X} (m1 : M W A1) (m2 : M W A2) (m3 : M W A3)
    (m4 : M W A4) (k : M W X) (s : st W) (a : A4) :
  fst ((m1 ;; m2 ;; m3 ;; m4) s) = Ok a ->
  (m1 ;; m2 ;; m3 ;; m4 ;; k) s = k (snd ((m1 ;; m2 ;; m3 ;; m4) s)).
Proof.
  unfold bind.
  destruct (m1 s) as [[a1| |] s1]; [|discriminate..].
  destruct (m2 s1) as [[a2| |] s2]; [|discriminate..].
  destruct (m3 s2) as [[a3| |] s3]; [|discriminate..].
  destruct (m4 s3) as [[a4| |] s4]; [|discriminate..].
  reflexivity.
Qed.

(** What [mbox_sync_do] does between two attempts. *)
Lemma restart_renew_run (s1 : st W) :
  let run := (mbox_sync_restart E ;;
              call_ext E TransactionRollback ;;
              call_ext E TransactionBegin ;;
              modify_ctx (set_t true)) s1 in
  fst run = Ok tt
  /\ reset_context (ctx (snd run))
  /\ kept_by_reset (ctx s1) (ctx (snd run))
  /\ t (ctx (snd run)) = true
  /\ mbox (snd run) = mbox s1
  /\ (exists h, trace (snd run)
        = trace s1 ++ [Call IndexSyncReset tt; Call TransactionRollback h;
                       Call TransactionBegin tt])
  /\ ext (snd run)
     = snd (env_handle E TransactionBegin
              (snd (env_handle E TransactionRollback
                      (snd (env_handle E IndexSyncReset (ext s1)))))).
Proof.
  unfold mbox_sync_restart, bind, modify_ctx, call_ext, ret.
  cbn [ext trace mbox ctx fst snd].
  destruct (env_handle E IndexSyncReset (ext s1)) as [[] w1].
  cbn [fst snd].
  destruct (env_handle E TransactionRollback w1) as [h w2].
  cbn [fst snd].
  destruct (env_handle E TransactionBegin w2) as [[] w3].
  cbn [fst snd ext trace mbox ctx].
  refine (conj eq_refl (conj _ (conj _ (conj eq_refl (conj eq_refl
           (conj _ eq_refl)))))).
  - unfold reset_context. cbn. repeat split.
  - unfold kept_by_reset. cbn. repeat split.
  - exists h. rewrite <- !app_assoc. reflexivity.
Qed.

(** One iteration of the [for] loop of [mbox_sync_do]. *)
Lemma attempts_step (fuel n : nat) (i : Z) (partial : bool)
    (mc : mbox_sync_mail_context) (s : st W) :
  mbox_sync_do_attempts E fuel (S n) i partial mc s
  = match mbox_sync_loop E fuel mc partial s with
    | (Ok (rl, ml), s1) =>
      if rl >? 0 then (Ok (Fall (rl, i), ml), s1)
      else if rl <? 0 then (Ok (Return (-1), ml), s1)
      else if mbox_sync_dirty (mbox s1) then
        mbox_sync_do_attempts E fuel n (i + 1) false ml
          (snd ((mbox_sync_restart E ;;
                 call_ext E TransactionRollback ;;
                 call_ext E TransactionBegin ;;
                 modify_ctx (set_t true)) s1))
      else (Panic, s1)
    | (Panic, s1) => (Panic, s1)
    | (OutOfFuel, s1) => (OutOfFuel, s1)
    end.
Proof.
  cbn [mbox_sync_do_attempts]. unfold bind at 1.
  destruct (mbox_sync_loop E fuel mc partial s) as [[[rl ml]| |] s1];
    try reflexivity.
  destruct (rl >? 0); [reflexivity|].
  destruct (rl <? 0); [reflexivity|].
  unfold bind at 1. cbn [get_mbox].
  destruct (mbox_sync_dirty (mbox s1)); [|reflexivity].
  cbn [i_assert]. unfold bind at 1. cbn [ret].
  destruct (restart_renew_run s1) as [Hok _].
  cbv zeta in Hok.
  apply (seq4_run _ _ _ _ _ _ _ Hok).
Qed.

(** The [for] loop of [mbox_sync_do] with [n] iterations left makes
    between one and [n] attempts, each the restart after the one before;
    the loop is left after the last of them, and a failed attempt on a
    dirty mailbox is the last one only when no iteration is left. *)
Lemma attempts_chain (fuel n : nat) :
  forall (i : Z) (partial : bool) (mc : mbox_sync_mail_context) (s : st W),
    (0 < n)%nat ->
    let run := mbox_sync_do_attempts E fuel n i partial mc s in
    exists (a : attempt W) (l : list (attempt W)),
      (S (List.length l) <= n)%nat
      /\ is_attempt E fuel a
      /\ Forall (is_attempt E fuel) l
      /\ chained E a l
      /\ a_partial a = partial /\ a_mail a = mc /\ a_start a = s
      /\ (exists rest, trace (snd run) = trace (a_end (last l a)) ++ rest)
      /\ (forall m,
            a_result (last l a) = Ok (0, m) ->
            mbox_sync_dirty (mbox (a_end (last l a))) = true ->
            S (List.length l) = n)
      /\ (forall r m,
            a_result (last l a) = Ok (r, m) -> r < 0 ->
            run = (Ok (Return (-1), m), a_end (last l a)))
      /\ (forall r m,
            a_result (last l a) = Ok (r, m) -> 0 < r ->
            exists j, run = (Ok (Fall (r, j), m), a_end (last l a)))
      /\ (forall r m, fst run = Ok (Return r, m) -> r = -1).
Proof.
  induction n as [|n IH]; intros i partial mc s Hn run; [lia|].
  destruct (mbox_sync_loop E fuel mc partial s) as [o s1] eqn:Hloop.
  pose (a := {| a_partial := partial; a_mail := mc; a_start := s;
                a_result := o; a_end := s1 |}).
  assert (Ha : is_attempt E fuel a) by exact Hloop.
  assert (Hrun := attempts_step fuel n i partial mc s).
  fold run in Hrun. rewrite Hloop in Hrun. clearbody run.
  destruct o as [[rl ml]| |].
  - destruct (rl >? 0) eqn:Hpos.
    { subst run.
      exists a, []. cbn [List.length last a_end a_result a chained].
      rewrite Z.gtb_ltb in Hpos. apply Z.ltb_lt in Hpos.
      refine (conj _ (conj Ha (conj (Forall_nil _) (conj I
               (conj eq_refl (conj eq_refl (conj eq_refl
               (conj _ (conj _ (conj _ (conj _ _))))))))))).
      - lia.
      - exists []. cbn. rewrite app_nil_r. reflexivity.
      - intros m H. inversion H. lia.
      - intros r m H. inversion H. lia.
      - intros r m H _. inversion H. subst. eexists. reflexivity.
      - intros r m H. inversion H. }
    destruct (rl <? 0) eqn:Hneg.
    { subst run.
      exists a, []. cbn [List.length last a_end a_result a chained].
      apply Z.ltb_lt in Hneg.
      refine (conj _ (conj Ha (conj (Forall_nil _) (conj I
               (conj eq_refl (conj eq_refl (conj eq_refl
               (conj _ (conj _ (conj _ (conj _ _))))))))))).
      - lia.
      - exists []. cbn. rewrite app_nil_r. reflexivity.
      - intros m H. inversion H. lia.
      - intros r m H _. inversion H. subst. reflexivity.
      - intros r m H. inversion H. lia.
      - intros r m H. inversion H. reflexivity. }
    assert (Hrl : rl = 0).
    { rewrite Z.gtb_ltb in Hpos. apply Z.ltb_ge in Hpos, Hneg. lia. }
    subst rl.
    destruct (mbox_sync_dirty (mbox s1)) eqn:Hd.
    2:{ subst run.
        exists a, []. cbn [List.length last a_end a_result a chained].
        refine (conj _ (conj Ha (conj (Forall_nil _) (conj I
                 (conj eq_refl (conj eq_refl (conj eq_refl
                 (conj _ (conj _ (conj _ (conj _ _))))))))))).
        - lia.
        - exists []. cbn. rewrite app_nil_r. reflexivity.
        - intros m _ H. rewrite Hd in H. discriminate H.
        - intros r m H. inversion H. lia.
        - intros r m H. inversion H. lia.
        - intros r m H. cbn in H. discriminate H. }
    set (s3 := snd ((mbox_sync_restart E ;;
                     call_ext E TransactionRollback ;;
                     call_ext E TransactionBegin ;;
                     modify_ctx (set_t true)) s1)) in Hrun.
    assert (Hs3 := restart_renew_run s1). cbv zeta in Hs3.
    fold s3 in Hs3. destruct Hs3 as [_ Hs3].
    destruct Hs3 as [Hreset [Hkept [Ht3 [Hmb3 [[h Htr3] Hext3]]]]].
    assert (Hrestart : forall b : attempt W,
               a_partial b = false -> a_mail b = ml -> a_start b = s3 ->
               restarts E a b).
    { intros b Hp Hm Hs. exists ml, h.
      cbn [a_result a_end a]. rewrite Hp, Hm, Hs.
      exact (conj eq_refl (conj Hd (conj eq_refl (conj eq_refl
               (conj Hreset (conj Hkept (conj Ht3 (conj Hmb3
               (conj Htr3 Hext3))))))))). }
    clearbody s3.
    destruct n as [|n'].
    { subst run.
      exists a, []. cbn [List.length last a_end a_result a chained].
      cbn [mbox_sync_do_attempts ret fst snd].
      refine (conj _ (conj Ha (conj (Forall_nil _) (conj I
               (conj eq_refl (conj eq_refl (conj eq_refl
               (conj _ (conj _ (conj _ (conj _ _))))))))))).
      - lia.
      - eexists. exact Htr3.
      - reflexivity.
      - intros r m H. inversion H. lia.
      - intros r m H. inversion H. lia.
      - intros r m H. inversion H. }
    destruct (IH (i + 1) false ml s3 ltac:(lia))
      as [b [l [Hlen [Hb [Hl [Hch [Hp [Hm [Hs [Htr [Hlast [Hneg' [Hpos' Hret]]]]]]]]]]]]].
    rewrite <- Hrun in Htr, Hneg', Hpos', Hret.
    exists a, (b :: l). rewrite last_cons. cbn [List.length chained].
    refine (conj _ (conj Ha (conj (Forall_cons _ Hb Hl)
             (conj (conj (Hrestart b Hp Hm Hs) Hch)
             (conj eq_refl (conj eq_refl (conj eq_refl
             (conj Htr (conj _ (conj Hneg' (conj Hpos' Hret)))))))))));
      [lia|].
    intros m H1 H2. rewrite (Hlast m H1 H2). reflexivity.
  - subst run. exists a, []. cbn [List.length last a_end a_result a chained].
    refine (conj _ (conj Ha (conj (Forall_nil _) (conj I
             (conj eq_refl (conj eq_refl (conj eq_refl
             (conj _ (conj _ (conj _ (conj _ _))))))))))).
    + lia.
    + exists []. cbn. rewrite app_nil_r. reflexivity.
    + intros m H. discriminate H.
    + intros r m H. discriminate H.
    + intros r m H. discriminate H.
    + intros r m H. discriminate H.
  - subst run. exists a, []. cbn [List.length last a_end a_result a chained].
    refine (conj _ (conj Ha (conj (Forall_nil _) (conj I
             (conj eq_refl (conj eq_refl (conj eq_refl
             (conj _ (conj _ (conj _ (conj _ _))))))))))).
    + lia.
    + exists []. cbn. rewrite app_nil_r. reflexivity.
    + intros m H. discriminate H.
    + intros r m H. discriminate H.
    + intros r m H. discriminate H.
    + intros r m H. discriminate H.
Qed.

(** [mbox_sync_restart] asks the index to reset its sync and leaves a
    reset context. *)
Lemma restart_run (s : st W) :
  exists s',
    mbox_sync_restart E s = (Ok tt, s')
    /\ reset_context (ctx s')
    /\ kept_by_reset (ctx s) (ctx s')
    /\ t (ctx s') = t (ctx s)
    /\ mbox s' = mbox s
    /\ trace s' = trace s ++ [Call IndexSyncReset tt]
    /\ ext s' = snd (env_handle E IndexSyncReset (ext s)).
Proof.
  unfold mbox_sync_restart, bind, modify_ctx, call_ext, ret.
  cbn [ext trace mbox ctx fst snd].
  destruct (env_handle E IndexSyncReset (ext s)) as [[] w1].
  cbn [fst snd].
  eexists. split; [reflexivity|]. cbn [ext trace mbox ctx].
  refine (conj _ (conj _ (conj _ (conj eq_refl (conj eq_refl eq_refl))))).
  - unfold reset_context. cbn. repeat split.
  - unfold kept_by_reset. cbn. repeat split.
  - cbn. reflexivity.
Qed.

(** What [mbox_sync_do] does after its loop only adds calls. *)
Lemma do_tail_appends (fuel : nat) (mail_ctx : mbox_sync_mail_context) :
  appends pass_call
    (r <- mbox_sync_handle_eof_updates E mail_ctx ;;
     if r <? 0 then ret (-1)
     else
       modify_ctx (fun c => set_sync_rec sync_rec_zero (set_syncs [] c)) ;;
       r <- mbox_sync_update_index_header E fuel ;;
       if r <? 0 then ret (-1) else ret 0).
Proof. appends_auto. Qed.


(** C5, as amended: when the UID of a message is below [idx_next_uid]
    and no index record matches it, [mbox_sync_read_index_rec] logs the
    critical error and returns 0 with no record, not a failure.  The turn
    of the loop goes on with UID 0: it reads the sync records for UID 0
    and, when that read succeeds and the UIDs are not used up, gives the
    message [next_uid] as its new UID, marks it for rewriting, leaves the
    partial mode and handles the message with that UID. *)
Theorem reappeared_uid_gets_new_uid :
  forall (fuel : nat) (messages_count count : Z) (v : loop_vars)
         (s s1 s2 : st W),
    let mail_ctx := lv_mail_ctx v in
    let uid := m_uid (mc_mail mail_ctx) in
    (mc_seq mail_ctx =? 1) && negb (base_uid_validity (ctx s) =? 0)
      && negb (h_uid_validity (hdr (ctx s)) =? 0)
      && negb (base_uid_validity (ctx s) =? h_uid_validity (hdr (ctx s)))
    = false ->
    m_uid_broken (mc_mail mail_ctx) && lv_partial v = false ->
    mc_pseudo mail_ctx = false ->
    uid <> 0 ->
    call_ext E ViewGetMessagesCount s = (Ok count, s1) ->
    read_index_rec_loop E fuel uid count None s1 = (Ok (Fall None), s2) ->
    uid < idx_next_uid (ctx s2) ->
    exists s3,
      mbox_sync_read_index_rec E fuel uid s = (Ok (0, None), s3)
      /\ trace s3 =
         trace s2 ++
         [Call (SetCritical (CRIT_EXPUNGED_REAPPEARED uid
                               (idx_next_uid (ctx s2)) (seq (ctx s2)) count))
            tt]
      /\ ctx s3 = ctx s2
      /\ mbox s3 = mbox s2
      /\ forall (r : Z) (expunged : bool) (s4 s5 : st W),
           mbox_sync_read_index_syncs E fuel 0 s3 = (Ok (r, expunged), s4) ->
           0 <= r ->
           expunge_rest E fuel messages_count s4 = (Ok tt, s5) ->
           next_uid (ctx s5) <> UINT32_MAX ->
           mbox_sync_loop_body E fuel messages_count v s
           = mbox_sync_loop_sync_mail E fuel 0 None expunged
               {| lv_mail_ctx :=
                    upd_mail (set_m_uid (next_uid (ctx s5)))
                      (set_mc_need_rewrite true mail_ctx);
                  lv_partial := false;
                  lv_skipped_mails := lv_skipped_mails v;
                  lv_uids_broken :=
                    if m_uid_broken (mc_mail mail_ctx) then true
                    else lv_uids_broken v |}
               {| ext := ext s5; trace := trace s5; mbox := mbox s5;
                  ctx := set_prev_msg_uid (next_uid (ctx s5))
                           (set_next_uid (u32 (next_uid (ctx s5) + 1))
                              (ctx s5)) |}.
Proof.
  intros fuel messages_count count v s s1 s2 mail_ctx uid Hg1 Hg2 Hps Huid
    Hcount Hscan Hlt.
  assert (Hrec : exists s3,
             mbox_sync_read_index_rec E fuel uid s = (Ok (0, None), s3)
             /\ trace s3 =
                trace s2 ++
                [Call (SetCritical (CRIT_EXPUNGED_REAPPEARED uid
                                      (idx_next_uid (ctx s2)) (seq (ctx s2))
                                      count)) tt]
             /\ ctx s3 = ctx s2
             /\ mbox s3 = mbox s2).
  { eexists. split.
    { unfold mbox_sync_read_index_rec.
      rewrite ?bind_assoc.
      rewrite (bind_ok _ _ _ _ _ Hcount).
      rewrite ?bind_assoc.
      rewrite (bind_ok _ _ _ _ _ Hscan).
      msimpl. rewrite ?bind_assoc. msimpl.
      apply Z.ltb_lt in Hlt. rewrite Hlt. msimpl.
      unit_answers.
      reflexivity. }
    cbn [trace ctx mbox]. repeat split. }
  destruct Hrec as [s3 [Hrec [Htr [Hctx Hmb]]]].
  exists s3.
  refine (conj Hrec (conj Htr (conj Hctx (conj Hmb _)))).
  intros r expunged s4 s5 Hsyncs Hr Hrest Hmax.
  match goal with |- _ = ?R => set (rhs := R) end.
  unfold mbox_sync_loop_body, mbox_sync_loop_guards.
  fold mail_ctx.
  repeat (rewrite bind_assoc; msimpl).
  rewrite Hg1, Hg2. msimpl.
  unfold mbox_sync_loop_lookup. rewrite Hps. fold uid.
  apply Z.eqb_neq in Huid. rewrite Huid. cbn [negb].
  rewrite ?bind_assoc.
  rewrite (bind_ok _ _ _ _ _ Hrec).
  change (0 <? 0) with false. change (0 =? 0) with true. cbv iota.
  msimpl.
  rewrite (bind_ok _ _ _ _ _ Hsyncs).
  assert (Hr' : (r <? 0) = false) by (apply Z.ltb_ge; lia).
  rewrite Hr'. msimpl.
  change (0 =? 0) with true. cbn [andb].
  unfold mbox_sync_loop_assign_uid.
  rewrite ?bind_assoc.
  rewrite (bind_ok _ _ _ _ _ Hrest). msimpl.
  repeat (rewrite bind_assoc; msimpl).
  apply Z.eqb_neq in Hmax. rewrite Hmax. msimpl.
  repeat (rewrite bind_assoc; msimpl).
  subst rhs. unfold mbox_sync_loop_sync_mail. msimpl.
  fold mail_ctx. rewrite Hps. msimpl.
  repeat (rewrite bind_assoc; msimpl).
  reflexivity.
Qed.
End Properties.

(** ** Runs of the engine on the scripted collaborator *)

Lemma handle_expunge_accounts_full_span_witness :
  0 <= 100 <= 150
  /\ 0 <= 200
  /\ 0 <= 0
  /\ 0 + (150 - 100 + 200) + 1 <= OFF_T_MAX
  /\ exists mail_ctx' s',
       mbox_sync_handle_expunge sim_env expunged_mail first_message_state
       = (Ok mail_ctx', s')
       /\ m_offset (mc_mail mail_ctx') = 100
       /\ m_space (mc_mail mail_ctx') = 251
       /\ expunged_space (ctx s') = 251
       /\ base_uid_last_offset (ctx s') = 0.
Proof.
  assert (H1 : 0 <= 100 <= 150) by lia.
  assert (H2 : 0 <= 200) by lia.
  assert (H3 : 0 <= 0) by lia.
  assert (H4 : 0 + (150 - 100 + 200) + 1 <= OFF_T_MAX)
    by (unfold OFF_T_MAX; lia).
  destruct (handle_expunge_accounts_full_span sim_env expunged_mail
              first_message_state H1 H2 H3 H4)
    as [mail_ctx' [s' [Hrun [Hoff [Hspace [Hexp [Hbase _]]]]]]].
  repeat (split; [assumption|]).
  exists mail_ctx', s'.
  repeat split;
    [exact Hrun|exact Hoff|exact Hspace|exact Hexp|exact (Hbase eq_refl)].
Defined.

Lemma write_pseudo_out_of_space_witness :
  let s := disk_full_state in
  let run := mbox_write_pseudo sim_env s in
  let evs := events_since s (snd run) in
  write_fd (ctx s) <> -1
  /\ 5 <> 0
  /\ existsb pwrite_failed evs = true
  /\ existsb errno_was_nospace evs = true
  /\ fst run = Ok 0
  /\ (exists pre str w r,
        evs = pre
              ++ [Call (PwriteFull 3 str 0) w;
                  Call ErrnoIsNoSpace true;
                  Call (Ftruncate 3 0) r]
              ++ (if r <? 0
                  then [Call (SetSyscallError "ftruncate()") tt]
                  else []))
  /\ base_uid_last_offset (ctx (snd run)) = 0
  /\ base_uid_last (ctx (snd run)) = 10.
Proof.
  intros s run evs.
  assert (H1 : write_fd (ctx s) <> -1) by (simpl; lia).
  assert (H2 : 5 <> 0) by lia.
  assert (H3 : existsb pwrite_failed evs = true) by (vm_compute; reflexivity).
  assert (H4 : existsb errno_was_nospace evs = true)
    by (vm_compute; reflexivity).
  repeat (split; [assumption|]).
  exact (proj1 (write_pseudo_out_of_space sim_env s H1 H2) H3 H4).
Defined.

Lemma eof_window_grows_file_witness :
  let s := eof_window_state in
  let w := ext s in
  env_handle sim_env RawIsEof w = (true, w)
  /\ env_handle sim_env (StreamSync STREAM_FILE_INPUT) w = (tt, w)
  /\ env_handle sim_env (StreamStat true) w = (Some (1000, 5), w)
  /\ env_handle sim_env (StreamVOffset STREAM_FILE_INPUT) w = (1000, w)
  /\ 0 <= 1000 <= 1000
  /\ 1000 <= 1000 + 2
  /\ write_fd (ctx s) <> -1
  /\ 0 < 1 <= 1
  /\ 1 <= UINT32_MAX
  /\ 0 <= 64
  /\ 64 * (1 - 1 + 1) <= UINT32_MAX
  /\ -80 < 0
  /\ 0 <= 0 < - -80 + 64 * (1 - 1 + 1)
  /\ - 2 ^ 63 < -80 - 64 * (1 - 1 + 1)
  /\ 1000 + (- -80 - 0 + 64 * (1 - 1 + 1)) < 2 ^ 64
  /\ exists rest,
       events_since s
         (snd (mbox_sync_handle_eof_updates sim_env mail_ctx_zero s)) =
         [Call RawIsEof true;
          Call (StreamSync STREAM_FILE_INPUT) tt;
          Call (StreamStat true) (Some (1000, 5));
          Call (StreamVOffset STREAM_FILE_INPUT) 1000;
          Call (FileSetSize 3 1144) 0] ++ rest.
Proof.
  intros s w.
  assert (H1 : env_handle sim_env RawIsEof w = (true, w)) by reflexivity.
  assert (H2 : env_handle sim_env (StreamSync STREAM_FILE_INPUT) w = (tt, w))
    by reflexivity.
  assert (H3 : env_handle sim_env (StreamStat true) w = (Some (1000, 5), w))
    by reflexivity.
  assert (H4 : env_handle sim_env (StreamVOffset STREAM_FILE_INPUT) w
               = (1000, w)) by reflexivity.
  assert (H5 : 0 <= 1000 <= 1000) by lia.
  assert (H6 : 1000 <= 1000 + 2) by lia.
  assert (H7 : write_fd (ctx s) <> -1) by (simpl; lia).
  assert (H8 : 0 < 1 <= 1) by lia.
  assert (H9 : 1 <= UINT32_MAX) by (unfold UINT32_MAX; lia).
  assert (H10 : 0 <= 64) by lia.
  assert (H11 : 64 * (1 - 1 + 1) <= UINT32_MAX) by (unfold UINT32_MAX; lia).
  assert (H12 : -80 < 0) by lia.
  assert (H13 : 0 <= 0 < - -80 + 64 * (1 - 1 + 1)) by lia.
  assert (H14 : - 2 ^ 63 < -80 - 64 * (1 - 1 + 1)) by lia.
  assert (H15 : 1000 + (- -80 - 0 + 64 * (1 - 1 + 1)) < 2 ^ 64) by lia.
  destruct (eof_window_grows_file sim_env mail_ctx_zero s 1000 5 1000 w w w w
              H1 H2 H3 H4 H5 H6 H7 H8 H9 H10 H11 H12 H13 H14 H15)
    as [rest [Hev _]].
  repeat (split; [assumption|]).
  exists rest. exact Hev.
Defined.

Lemma readonly_never_buffers_expunge_witness :
  let s := readonly_expunge_state in
  let run := mbox_sync_read_index_syncs sim_env 10 1 s in
  mbox_readonly (mbox s) = true
  /\ mbox_sync_buf_have_expunges (syncs (ctx s)) = false
  /\ mbox_sync_buf_have_expunges (syncs (ctx (snd run))) = false.
Proof.
  intros s run.
  assert (Hro : mbox_readonly (mbox s) = true) by reflexivity.
  assert (Hnone : mbox_sync_buf_have_expunges (syncs (ctx s)) = false)
    by reflexivity.
  destruct (readonly_never_buffers_expunge sim_env 10 1 s Hro)
    as [_ [_ Hkeep]].
  exact (conj Hro (conj Hnone (Hkeep Hnone))).
Defined.

Lemma uidvalidity_change_aborts_pass_witness :
  let s0 := one_mail_state uid3_mail (index_header 7 10) in
  let s := snd (mbox_sync_loop_begin sim_env 1 s0) in
  let rd := mbox_sync_read_next_mail sim_env mail_ctx_zero s in
  let mail_ctx := uid3_mail (set_mc_seq 1 mail_ctx_zero) in
  let s1 := snd rd in
  mbox_sync_loop_begin sim_env 1 s0 = (Ok (Fall 0), s)
  /\ rd = (Ok (1, mail_ctx), s1)
  /\ mc_seq mail_ctx = 1
  /\ base_uid_validity (ctx s1) <> 0
  /\ h_uid_validity (hdr (ctx s1)) <> 0
  /\ base_uid_validity (ctx s1) <> h_uid_validity (hdr (ctx s1))
  /\ exists s2,
       mbox_sync_loop sim_env 1 mail_ctx_zero false s0
       = (Ok (-1, mail_ctx), s2)
       /\ events_since s1 s2 =
          [Call (SetCritical (CRIT_UIDVALIDITY_CHANGED 7 5)) tt;
           Call IndexMarkCorrupted tt]
       /\ mbox_writes (trace s2) = [].
Proof.
  intros s0 s rd mail_ctx s1.
  assert (Hbegin : mbox_sync_loop_begin sim_env 1 s0 = (Ok (Fall 0), s))
    by (vm_compute; reflexivity).
  assert (Hread : rd = (Ok (1, mail_ctx), s1)) by (vm_compute; reflexivity).
  assert (Hseq : mc_seq mail_ctx = 1) by reflexivity.
  assert (Hbase : base_uid_validity (ctx s1) <> 0) by (vm_compute; lia).
  assert (Hhdr : h_uid_validity (hdr (ctx s1)) <> 0) by (vm_compute; lia).
  assert (Hneq : base_uid_validity (ctx s1) <> h_uid_validity (hdr (ctx s1)))
    by (vm_compute; lia).
  destruct (uidvalidity_change_aborts_pass sim_env 0 false mail_ctx_zero
              mail_ctx s0 s s1 0 Hbegin Hread Hseq Hbase Hhdr Hneq)
    as [s2 [Hrun [Htrace [_ [_ Hwrites]]]]].
  repeat (split; [assumption|]).
  exists s2.
  refine (conj Hrun (conj _ Hwrites)).
  unfold events_since. rewrite Htrace.
  vm_compute. reflexivity.
Defined.


Lemma reappeared_uid_gets_new_uid_witness :
  let s0 := one_mail_state uid3_mail (index_header 5 10) in
  let sb := snd (mbox_sync_loop_begin sim_env 5 s0) in
  let s := snd (mbox_sync_read_next_mail sim_env mail_ctx_zero sb) in
  let mail_ctx := uid3_mail (set_mc_seq 1 mail_ctx_zero) in
  let v := first_turn mail_ctx true in
  let s1 := snd (call_ext sim_env ViewGetMessagesCount s) in
  let s2 := snd (read_index_rec_loop sim_env 5 3 0 None s1) in
  let s3 := snd (mbox_sync_read_index_rec sim_env 5 3 s) in
  let s4 := snd (mbox_sync_read_index_syncs sim_env 5 0 s3) in
  let s5 := snd (expunge_rest sim_env 5 0 s4) in
  (mc_seq mail_ctx =? 1) && negb (base_uid_validity (ctx s) =? 0)
    && negb (h_uid_validity (hdr (ctx s)) =? 0)
    && negb (base_uid_validity (ctx s) =? h_uid_validity (hdr (ctx s)))
  = false
  /\ m_uid_broken (mc_mail mail_ctx) && true = false
  /\ mc_pseudo mail_ctx = false
  /\ 3 <> 0
  /\ call_ext sim_env ViewGetMessagesCount s = (Ok 0, s1)
  /\ read_index_rec_loop sim_env 5 3 0 None s1 = (Ok (Fall None), s2)
  /\ 3 < idx_next_uid (ctx s2)
  /\ mbox_sync_read_index_rec sim_env 5 3 s = (Ok (0, None), s3)
  /\ events_since s2 s3
     = [Call (SetCritical (CRIT_EXPUNGED_REAPPEARED 3 10 1 0)) tt]
  /\ mbox_sync_read_index_syncs sim_env 5 0 s3 = (Ok (0, false), s4)
  /\ 0 <= 0
  /\ expunge_rest sim_env 5 0 s4 = (Ok tt, s5)
  /\ next_uid (ctx s5) <> UINT32_MAX
  /\ next_uid (ctx s5) = 10
  /\ mbox_sync_loop_body sim_env 5 0 v s
     = mbox_sync_loop_sync_mail sim_env 5 0 None false
         {| lv_mail_ctx :=
              upd_mail (set_m_uid (next_uid (ctx s5)))
                (set_mc_need_rewrite true (lv_mail_ctx v));
            lv_partial := false;
            lv_skipped_mails := lv_skipped_mails v;
            lv_uids_broken :=
              if m_uid_broken (mc_mail (lv_mail_ctx v)) then true
              else lv_uids_broken v |}
         {| ext := ext s5; trace := trace s5; mbox := mbox s5;
            ctx := set_prev_msg_uid (next_uid (ctx s5))
                     (set_next_uid (u32 (next_uid (ctx s5) + 1))
                        (ctx s5)) |}.
Proof.
  intros s0 sb s mail_ctx v s1 s2 s3 s4 s5.
  assert (Hg1 : (mc_seq mail_ctx =? 1) && negb (base_uid_validity (ctx s) =? 0)
                  && negb (h_uid_validity (hdr (ctx s)) =? 0)
                  && negb (base_uid_validity (ctx s)
                           =? h_uid_validity (hdr (ctx s)))
                = false) by (vm_compute; reflexivity).
  assert (Hg2 : m_uid_broken (mc_mail mail_ctx) && true = false)
    by reflexivity.
  assert (Hps : mc_pseudo mail_ctx = false) by reflexivity.
  assert (Huid : 3 <> 0) by lia.
  assert (Hcount : call_ext sim_env ViewGetMessagesCount s = (Ok 0, s1))
    by (vm_compute; reflexivity).
  assert (Hscan : read_index_rec_loop sim_env 5 3 0 None s1
                  = (Ok (Fall None), s2)) by (vm_compute; reflexivity).
  assert (Hlt : 3 < idx_next_uid (ctx s2)) by (vm_compute; reflexivity).
  assert (Hsyncs : mbox_sync_read_index_syncs sim_env 5 0 s3
                   = (Ok (0, false), s4)) by (vm_compute; reflexivity).
  assert (Hr : 0 <= 0) by lia.
  assert (Hrest : expunge_rest sim_env 5 0 s4 = (Ok tt, s5))
    by (vm_compute; reflexivity).
  assert (Hmax : next_uid (ctx s5) <> UINT32_MAX)
    by (vm_compute; discriminate).
  destruct (reappeared_uid_gets_new_uid sim_env 5 0 0 v s s1 s2
              Hg1 Hg2 Hps Huid Hcount Hscan Hlt)
    as [s3' [Hrec [Htr [_ [_ Hbody]]]]].
  change (m_uid (mc_mail (lv_mail_ctx v))) with 3 in Hrec, Htr.
  assert (Hs3 : s3' = s3) by (unfold s3; rewrite Hrec; reflexivity).
  subst s3'.
  assert (Hev : events_since s2 s3
                = [Call (SetCritical (CRIT_EXPUNGED_REAPPEARED 3 10 1 0)) tt])
    by (vm_compute; reflexivity).
  assert (Hnext : next_uid (ctx s5) = 10) by (vm_compute; reflexivity).
  exact (conj Hg1 (conj Hg2 (conj Hps (conj Huid (conj Hcount (conj Hscan
          (conj Hlt (conj Hrec (conj Hev (conj Hsyncs (conj Hr (conj Hrest
          (conj Hmax (conj Hnext
            (Hbody 0 false s4 s5 Hsyncs Hr Hrest Hmax))))))))))))))).
Defined.

(** *** Runs that the sentences of the specification do not cover *)


(** A mail with UID 3 below the index's next UID 10 and no index record:
    the critical error is logged and the whole sync still returns 0. *)
Lemma reappeared_uid_counterexample :
  ~ reappeared_uid_claim_as_stated sim_env 10 no_flags
      (one_mail_state uid3_mail (index_header 5 10)).
Proof.
  unfold reappeared_uid_claim_as_stated. intros H.
  assert (Hret := H ltac:(vm_compute; reflexivity)).
  vm_compute in Hret. discriminate.
Qed.

(** The write of the pseudo message fails with ENOSPC: the file is cut to
    zero length and the step returns 0. *)
Lemma disk_full_counterexample :
  ~ disk_full_claim_as_stated sim_env disk_full_state.
Proof.
  unfold disk_full_claim_as_stated. intros H.
  destruct H as [_ Hret];
    [ vm_compute; reflexivity | vm_compute; reflexivity | ].
  apply Hret. vm_compute. reflexivity.
Qed.

(** C1: the safety check of [mbox_rewrite_base_uid_last] is to make sure
    that the ten bytes are there and exactly as expected, so that the
    engine never writes to a wrong place of the mbox.  The read-back
    accumulates the digits in 32 bits and marks other bytes with
    [(uint32_t)-1], a value the stored uid-last can have as well.  The ten
    digits 4294967297 are not the stored uid-last 1, and the ten bytes
    12345678x0 are not digits at all: both are accepted and overwritten,
    where the claim says that the engine reports the error and does not
    write. *)
Theorem uid_last_check_accepts_other_bytes :
  let s := uid_last_state "4294967297" 1 11 in
  let run := mbox_rewrite_base_uid_last sim_env s in
  let s2 := uid_last_state "12345678x0" UINT32_MAX 11 in
  let run2 := mbox_rewrite_base_uid_last sim_env s2 in
  (uid_last_matches "4294967297" 1 = false
   /\ fst run = Ok 0
   /\ mbox_writes (events_since s (snd run))
      = [Call (PwriteFull 3 "0000000010" 40) 0]
   /\ ~ uid_last_claim_as_stated sim_env s)
  /\ (uid_last_matches "12345678x0" UINT32_MAX = false
      /\ fst run2 = Ok 0
      /\ mbox_writes (events_since s2 (snd run2))
         = [Call (PwriteFull 3 "0000000010" 40) 0]
      /\ ~ uid_last_claim_as_stated sim_env s2).
Proof.
  intros s run s2 run2.
  split; (refine (conj _ (conj _ (conj _ _))); try (vm_compute; reflexivity)).
  all: unfold uid_last_claim_as_stated; intros H;
    destruct H as [Hret _];
    [ vm_compute; reflexivity
    | vm_compute; reflexivity
    | vm_compute in Hret; discriminate ].
Qed.

(** A pass in partial mode over two mails: the first mail is rewritten for
    a flag change, then the reader reports a broken UID on the second and
    the loop returns 0 with the mailbox marked dirty.  The mbox was
    written before the loop gave up. *)
Lemma broken_uid_after_rewrite :
  let s := two_mails_state in
  let run := mbox_sync_loop sim_env 10 mail_ctx_zero true s in
  (exists m, fst run = Ok (0, m) /\ m_uid_broken (mc_mail m) = true)
  /\ mbox_sync_dirty (mbox (snd run)) = true
  /\ List.length (mbox_writes (events_since s (snd run))) = 1%nat
  /\ existsb is_try_rewrite (events_since s (snd run)) = true.
Proof.
  intros s run.
  split; [eexists; split; vm_compute; reflexivity|].
  repeat split; vm_compute; reflexivity.
Qed.

(** C8: the index hands over an append record whose last UID is 2^32 - 1
    while [next_uid] is 5.  [mbox_sync_read_index_syncs] stores
    [uid2 + 1] in 32 bits, so [next_uid] becomes 0: the assignment made it
    smaller, where the claim says that an assignment from an append record
    only keeps [next_uid] or makes it larger. *)
Theorem append_of_last_uid_wraps_next_uid :
  let s := append_last_uid_state in
  let run := mbox_sync_read_index_syncs sim_env 10 7 s in
  fst run = Ok (0, false)
  /\ next_uid (ctx s) = 5
  /\ next_uid (ctx (snd run)) = 0
  /\ ~ next_uid_claim_as_stated sim_env 10 7 s.
Proof.
  intros s run.
  refine (conj _ (conj eq_refl (conj _ _)));
    [vm_compute; reflexivity|vm_compute; reflexivity|].
  unfold next_uid_claim_as_stated. vm_compute.
  intros H. apply H. reflexivity.
Qed.

(** C9: a read-only mailbox whose file is unchanged, with sync records
    waiting in the index, and [mail_index_sync_next] failing.  [mbox_sync]
    has begun the transaction, gets -1 from [mbox_sync_read_index_syncs]
    and returns -1 at once: the transaction is neither rolled back nor
    committed and the context still holds it, where the claim says that
    every failing path rolls the transaction back. *)
Theorem read_error_leaves_transaction_open :
  let s := read_error_state in
  let run := mbox_sync sim_env 10 no_flags s in
  let evs := events_since s (snd run) in
  fst run = Ok (-1)
  /\ existsb is_transaction_begin evs = true
  /\ existsb is_transaction_end evs = false
  /\ t (ctx (snd run)) = true
  /\ index_sync_ctx (ctx (snd run)) = true
  /\ ~ cleanup_claim_as_stated sim_env 10 no_flags s.
Proof.
  intros s run evs.
  refine (conj _ (conj _ (conj _ (conj _ (conj _ _)))));
    try (vm_compute; reflexivity).
  unfold cleanup_claim_as_stated. vm_compute.
  intros H. destruct (H eq_refl) as [_ Hroll].
  discriminate (Hroll eq_refl).
Qed.

(** With the lock-reading flag, a sync that fails after the mbox was locked
    again goes through the last part of [mbox_sync], which unlocks only
    without the flag: -1 is returned and the read lock taken for the
    downgrade is still held. *)
Lemma failed_sync_keeps_read_lock :
  let s := failing_sync_state in
  let run := mbox_sync sim_env 10 lock_reading s in
  fst run = Ok (-1)
  /\ locks_held (events_since s (snd run)) = [3].
Proof.
  intros s run. split; vm_compute; reflexivity.
Qed.

(** ** Runs for the further properties *)

Lemma fmt_010u_read_back_witness :
  0 <= 4294967294 <= UINT32_MAX
  /\ read_uid_last (fmt_010u 4294967294) 0 10 0 = 4294967294
  /\ uid_last_matches (fmt_010u 4294967294) 4294967294 = true.
Proof.
  assert (H : 0 <= 4294967294 <= UINT32_MAX) by (unfold UINT32_MAX; lia).
  exact (conj H (fmt_010u_read_back 4294967294 H)).
Defined.

Lemma rewrite_base_uid_last_writes_once_witness :
  let s := uid_last_state "0000000009" 9 11 in
  let run := mbox_rewrite_base_uid_last sim_env s in
  base_uid_last_offset (ctx s) <> 0
  /\ mbox (snd run) = mbox s
  /\ (fst run = Ok 0 \/ fst run = Ok (-1)).
Proof.
  intros s run.
  assert (H : base_uid_last_offset (ctx s) <> 0) by (simpl; lia).
  destruct (rewrite_base_uid_last_writes_once sim_env s H) as [Hm [Hr _]].
  exact (conj H (conj Hm Hr)).
Defined.

Lemma read_index_syncs_buffer_covers_uid_witness :
  let s := pending_flags_state in
  let run := mbox_sync_read_index_syncs sim_env 10 3 s in
  index_sync_ctx (ctx s) = true
  /\ run = (Ok (0, false), snd run)
  /\ Forall (covers 3) (syncs (ctx (snd run)))
  /\ syncs (ctx (snd run)) = [sync_record SYNC_TYPE_FLAGS 1 5].
Proof.
  intros s run.
  assert (Hi : index_sync_ctx (ctx s) = true) by reflexivity.
  assert (Hrun : run = (Ok (0, false), snd run)) by (vm_compute; reflexivity).
  destruct (read_index_syncs_buffer_covers_uid sim_env 10 3 s (snd run)
              0 false Hi Hrun) as [Hcov _].
  refine (conj Hi (conj Hrun (conj Hcov _))).
  vm_compute. reflexivity.
Defined.

Lemma read_index_rec_result_witness :
  let s := indexed_uid3_state in
  let run := mbox_sync_read_index_rec sim_env 5 3 s in
  let rc := {| ir_uid := 3; ir_flags := 0 |} in
  run = (Ok (1, Some rc), snd run)
  /\ mbox (snd run) = mbox s
  /\ mbox_writes (events_since s (snd run)) = [].
Proof.
  intros s run rc.
  assert (Hrun : run = (Ok (1, Some rc), snd run))
    by (vm_compute; reflexivity).
  destruct (read_index_rec_result sim_env 5 3 s (snd run) 1 (Some rc) Hrun)
    as [_ [Hm [Hw _]]].
  exact (conj Hrun (conj Hm Hw)).
Defined.

Lemma read_from_line_reads_whole_line_witness :
  let s := from_line_state in
  let run := mbox_read_from_line line_env 10 from_line_mail s in
  run = (Ok 0, snd run)
  /\ string_len (from_line (ctx (snd run))) = u64 (58 - 20)
  /\ from_line (ctx (snd run))
     = ("From root@example.org Thu Jan  1 1970" ++ LF)%string
  /\ List.length (filter is_stream_read (events_since s (snd run))) = 4%nat.
Proof.
  intros s run.
  assert (Hrun : run = (Ok 0, snd run)) by (vm_compute; reflexivity).
  destruct (read_from_line_reads_whole_line line_env 10 from_line_mail s
              (snd run) 0 Hrun) as [_ [_ [_ Hlen]]].
  refine (conj Hrun (conj (Hlen eq_refl) (conj _ _)));
    vm_compute; reflexivity.
Defined.

Lemma assign_uid_never_wraps_witness :
  let s := next_uid5_state in
  let run := mbox_sync_loop_assign_uid sim_env 5 0 mail_ctx_zero s in
  let m := upd_mail (set_m_uid 5) (set_mc_need_rewrite true mail_ctx_zero) in
  0 <= next_uid (ctx s) <= UINT32_MAX
  /\ run = (Ok (Fall m), snd run)
  /\ next_uid (ctx s) <= next_uid (ctx (snd run)) <= UINT32_MAX
  /\ next_uid (ctx (snd run)) = 6.
Proof.
  intros s run m.
  assert (Hn : 0 <= next_uid (ctx s) <= UINT32_MAX)
    by (unfold UINT32_MAX; simpl; lia).
  assert (Hrun : run = (Ok (Fall m), snd run)) by (vm_compute; reflexivity).
  destruct (assign_uid_never_wraps sim_env 5 0 mail_ctx_zero s (snd run)
              (Fall m) Hn Hrun) as [Hmono [_ [_ [_ [Hnext _]]]]].
  exact (conj Hn (conj Hrun (conj Hmono Hnext))).
Defined.

Lemma has_changed_result_witness :
  let s := sim_st sim_world sim_mbox sim_ctx in
  let run := mbox_sync_has_changed sim_env true s in
  run = (Ok 0, snd run)
  /\ ctx (snd run) = ctx s
  /\ mbox_writes (events_since s (snd run)) = [].
Proof.
  intros s run.
  assert (Hrun : run = (Ok 0, snd run)) by (vm_compute; reflexivity).
  destruct (has_changed_result sim_env true s (snd run) 0 Hrun)
    as [Hc [Hw _]].
  exact (conj Hrun (conj Hc Hw)).
Defined.

Lemma eof_expunged_space_is_cut_off_witness :
  let s := eof_expunged_state in
  let w := ext s in
  env_handle sim_env RawIsEof w = (true, w)
  /\ env_handle sim_env (StreamSync STREAM_FILE_INPUT) w = (tt, w)
  /\ env_handle sim_env (StreamStat true) w = (Some (1000, 5), w)
  /\ env_handle sim_env (StreamVOffset STREAM_FILE_INPUT) w = (1000, w)
  /\ 0 <= 1000 <= 1000
  /\ 1000 <= 1000 + 2
  /\ need_space_seq (ctx s) = 0
  /\ write_fd (ctx s) <> -1
  /\ 0 < 100
  /\ 100 + 0 <= 1000 < 2 ^ 64
  /\ (900 = 0 \/ 31 < 900)
  /\ exists answer rest,
       events_since s
         (snd (mbox_sync_handle_eof_updates sim_env mail_ctx_zero s)) =
         [Call RawIsEof true;
          Call (StreamSync STREAM_FILE_INPUT) tt;
          Call (StreamStat true) (Some (1000, 5));
          Call (StreamVOffset STREAM_FILE_INPUT) 1000;
          Call (StreamStat true) (Some (1000, 5));
          Call (MboxMove 900 1000 0) 0]
         ++ Call (Ftruncate 3 900) answer :: rest.
Proof.
  intros s w.
  assert (H1 : env_handle sim_env RawIsEof w = (true, w)) by reflexivity.
  assert (H2 : env_handle sim_env (StreamSync STREAM_FILE_INPUT) w = (tt, w))
    by reflexivity.
  assert (H3 : env_handle sim_env (StreamStat true) w = (Some (1000, 5), w))
    by reflexivity.
  assert (H4 : env_handle sim_env (StreamVOffset STREAM_FILE_INPUT) w
               = (1000, w)) by reflexivity.
  assert (H5 : 0 <= 1000 <= 1000) by lia.
  assert (H6 : 1000 <= 1000 + 2) by lia.
  assert (H7 : need_space_seq (ctx s) = 0) by reflexivity.
  assert (H8 : write_fd (ctx s) <> -1) by (simpl; lia).
  assert (H9 : 0 < 100) by lia.
  assert (H10 : 100 + 0 <= 1000 < 2 ^ 64) by lia.
  assert (H11 : 900 = 0 \/ 31 < 900) by lia.
  destruct (eof_expunged_space_is_cut_off sim_env mail_ctx_zero s
              1000 5 1000 1000 5 w w w w w
              H1 H2 H3 H4 H3 H5 H6 H7 H8 H9 H10 H11)
    as [rest [Hev [_ Hcut]]].
  destruct (Hcut ltac:(simpl; lia)) as [answer [rest' Hrest]].
  repeat (split; [assumption|]).
  exists answer, rest'.
  rewrite Hev, Hrest. reflexivity.
Defined.

Lemma write_pseudo_result_witness :
  let s := pseudo_state in
  let run := mbox_write_pseudo sim_env s in
  write_fd (ctx s) <> -1
  /\ 5 <> 0
  /\ mbox (snd run) = mbox s.
Proof.
  intros s run.
  assert (H1 : write_fd (ctx s) <> -1) by (simpl; lia).
  assert (H2 : 5 <> 0) by lia.
  destruct (write_pseudo_result sim_env s H1 H2) as [Hm _].
  exact (conj H1 (conj H2 Hm)).
Defined.

Lemma update_index_header_result_witness :
  let s := pseudo_state in
  let run := mbox_sync_update_index_header sim_env 5 s in
  run = (Ok 0, snd run)
  /\ mbox_writes (events_since s (snd run)) = [].
Proof.
  intros s run.
  assert (Hrun : run = (Ok 0, snd run)) by (vm_compute; reflexivity).
  destruct (update_index_header_result sim_env 5 s (snd run) 0 Hrun)
    as [_ [Hw _]].
  exact (conj Hrun Hw).
Defined.

Lemma partial_seek_next_result_witness :
  let s := sim_st sim_world sim_mbox sim_ctx in
  let run := mbox_sync_partial_seek_next sim_env 4 true false s in
  run = (Ok (0, true, false), snd run)
  /\ sr_uid1 (sync_rec (ctx s)) = 0
  /\ mbox_sync_dirty (mbox s) = false
  /\ events_since s (snd run) = [].
Proof.
  intros s run.
  assert (Hrun : run = (Ok (0, true, false), snd run))
    by (vm_compute; reflexivity).
  destruct (partial_seek_next_result sim_env 4 true false s (snd run)
              0 true false Hrun) as [_ [_ [_ [_ Hstop]]]].
  destruct (Hstop eq_refl) as [_ [Hu [Hd [_ [_ Hev]]]]].
  exact (conj Hrun (conj Hu (conj Hd Hev))).
Defined.

Lemma seek_to_start_result_witness :
  let s := sim_st sim_world sim_mbox sim_ctx in
  let run := mbox_sync_seek_to_seq sim_env 0 s in
  run = (Ok 1, snd run)
  /\ mbox (snd run) = mbox s
  /\ mbox_writes (events_since s (snd run)) = [].
Proof.
  intros s run.
  assert (Hrun : run = (Ok 1, snd run)) by (vm_compute; reflexivity).
  destruct (seek_to_start_result sim_env s (snd run) 1 Hrun)
    as [Hm [Hw _]].
  exact (conj Hrun (conj Hm Hw)).
Defined.

(** The scripted collaborators leave the guards of the writes alone. *)
Lemma sim_env_keeps_guards : keeps_guards sim_env.
Proof.
  constructor; intros; cbn; try assumption.
  - unfold sim_parse, same_guards.
    destruct (sim_base w) as [[[v l] o]|];
      [destruct (mc_seq m =? 1)|]; cbn; auto.
  - unfold same_guards. auto.
  - destruct (sim_lock w <=? 0); cbn; assumption.
Qed.

Lemma delayed_pass_writes_nothing_witness :
  let s := readonly_mail_state in
  let run := mbox_sync_do sim_env 50 no_flags s in
  keeps_guards sim_env
  /\ mbox_readonly (mbox s) = true
  /\ delay_writes (ctx s) = true
  /\ fst run = Ok 0
  /\ mbox_writes (events_since s (snd run)) = []
  /\ delay_writes (ctx (snd run)) = true.
Proof.
  intros s run.
  assert (Hr : fst run = Ok 0) by (vm_compute; reflexivity).
  destruct (delayed_pass_writes_nothing sim_env 50 no_flags s
              sim_env_keeps_guards eq_refl eq_refl) as [Hw Hq].
  destruct (Hq 0 Hr) as [_ Hd].
  exact (conj sim_env_keeps_guards
           (conj eq_refl (conj eq_refl (conj Hr (conj Hw Hd))))).
Defined.

Lemma readonly_mailbox_is_not_written_witness :
  let s := readonly_mail_state in
  let run := mbox_sync sim_env 50 no_flags s in
  keeps_guards sim_env
  /\ mbox_readonly (mbox s) = true
  /\ fst run = Ok 0
  /\ mbox_writes (events_since s (snd run)) = [].
Proof.
  intros s run.
  assert (Hr : fst run = Ok 0) by (vm_compute; reflexivity).
  exact (conj sim_env_keeps_guards
           (conj eq_refl
              (conj Hr
                 (readonly_mailbox_is_not_written sim_env 50 no_flags s
                    sim_env_keeps_guards eq_refl)))).
Defined.

Lemma sync_releases_every_lock_witness :
  let s := one_mail_state uid3_mail (index_header 5 10) in
  let run := mbox_sync sim_env 50 no_flags s in
  MBOX_SYNC_LOCK_READING no_flags = false
  /\ run = (Ok 0, snd run)
  /\ forallb lock_id_ok (events_since s (snd run)) = true
  /\ existsb is_lock_call (events_since s (snd run)) = true
  /\ locks_held (events_since s (snd run)) = [].
Proof.
  intros s run.
  assert (Hrun : run = (Ok 0, snd run)) by (vm_compute; reflexivity).
  assert (Hok : forallb lock_id_ok (events_since s (snd run)) = true)
    by (vm_compute; reflexivity).
  assert (Hex : existsb is_lock_call (events_since s (snd run)) = true)
    by (vm_compute; reflexivity).
  exact (conj eq_refl
           (conj Hrun
              (conj Hok
                 (conj Hex
                    (sync_releases_every_lock sim_env 50 no_flags s
                       (snd run) 0 eq_refl Hrun Hok))))).
Defined.

Lemma missing_space_splits_expunged_mail_witness :
  let s := window_state in
  let run := mbox_sync_handle_missing_space sim_env expunged_500_mail s in
  m_uid (mc_mail expunged_500_mail) = 0
  /\ 0 <= m_space (mc_mail expunged_500_mail) < 2 ^ 63
  /\ - 2 ^ 63 <= space_diff (ctx s) <= 0
  /\ existsb is_rewrite (events_since s (snd run)) = true
  /\ Forall (splits_space 500 80 100) (events_since s (snd run)).
Proof.
  intros s run.
  assert (H1 : 0 <= m_space (mc_mail expunged_500_mail) < 2 ^ 63)
    by (cbn; lia).
  assert (H2 : - 2 ^ 63 <= space_diff (ctx s) <= 0) by (cbn; lia).
  assert (H3 : existsb is_rewrite (events_since s (snd run)) = true)
    by (vm_compute; reflexivity).
  exact (conj eq_refl
           (conj H1
              (conj H2
                 (conj H3
                    (missing_space_splits_expunged_mail sim_env
                       expunged_500_mail s eq_refl H1 H2))))).
Defined.

Lemma dirty_index_flags_win_witness :
  let s := sim_st sim_world sim_mbox (set_idx_seq 1 sim_ctx) in
  let run :=
    mbox_sync_update_index sim_env flagged_mail (Some dirty_record) s in
  syncs (ctx s) = []
  /\ 0 <= ir_flags dirty_record < 256
  /\ Z.land (ir_flags dirty_record) 128 <> 0
  /\ fst run = Ok 0
  /\ Forall keeps_index (events_since s (snd run)).
Proof.
  intros s run.
  assert (H1 : 0 <= ir_flags dirty_record < 256) by (cbn; lia).
  assert (H2 : Z.land (ir_flags dirty_record) 128 <> 0)
    by (vm_compute; discriminate).
  assert (H3 : fst run = Ok 0) by (vm_compute; reflexivity).
  exact (conj eq_refl
           (conj H1
              (conj H2
                 (conj H3
                    (dirty_index_flags_win sim_env flagged_mail
                       dirty_record s eq_refl H1 H2))))).
Defined.

Lemma strict_env_in_range : sync_begin_in_range strict_env.
Proof. intros seq0 offset sr sd w. cbn. lia. Qed.

Lemma sync_returns_0_or_minus_1_witness :
  let s := one_mail_state uid3_mail (index_header 5 10) in
  let run := mbox_sync strict_env 50 no_flags s in
  sync_begin_in_range strict_env
  /\ run = (Ok 0, snd run)
  /\ (0 = 0 \/ 0 = -1).
Proof.
  intros s run.
  assert (Hrun : run = (Ok 0, snd run)) by (vm_compute; reflexivity).
  exact (conj strict_env_in_range
           (conj Hrun
              (sync_returns_0_or_minus_1 strict_env 50 no_flags s
                 (snd run) 0 strict_env_in_range Hrun))).
Defined.

Lemma find_index_md5_result_witness :
  let s := two_records_state in
  let run := mbox_sync_find_index_md5 md5_env 5 [2] s in
  run = (Ok (0, Some {| ir_uid := 4; ir_flags := 0 |}), snd run)
  /\ idx_seq (ctx (snd run)) = 2
  /\ mbox_writes (events_since s (snd run)) = []
  /\ existsb index_read_failed (events_since s (snd run)) = false
  /\ existsb (md5_found 2 [2]) (events_since s (snd run)) = true.
Proof.
  intros s run.
  assert (Hrun : run = (Ok (0, Some {| ir_uid := 4; ir_flags := 0 |}),
                        snd run))
    by (vm_compute; reflexivity).
  destruct (find_index_md5_result md5_env 5 [2] s (snd run) 0
              (Some {| ir_uid := 4; ir_flags := 0 |}) Hrun)
    as [_ [_ [Hw [[Hr _]|[_ [Hn Hf]]]]]]; [discriminate Hr|].
  refine (conj Hrun (conj eq_refl (conj Hw (conj Hn (Hf _))))).
  discriminate.
Defined.

Lemma index_internal_flags_survive_witness :
  let s := sim_st sim_world sim_mbox (set_idx_seq 1 sim_ctx) in
  let run :=
    mbox_sync_update_index sim_env flagged_mail (Some internal_record) s in
  syncs (ctx s) = []
  /\ 0 <= ir_flags internal_record < 256
  /\ existsb overwrites_index (events_since s (snd run)) = true
  /\ Forall (keeps_internal_flags 63 32 128 65) (events_since s (snd run)).
Proof.
  intros s run.
  assert (H1 : 0 <= ir_flags internal_record < 256) by (cbn; lia).
  assert (H2 : existsb overwrites_index (events_since s (snd run)) = true)
    by (vm_compute; reflexivity).
  exact (conj eq_refl
           (conj H1
              (conj H2
                 (index_internal_flags_survive sim_env flagged_mail
                    internal_record s eq_refl H1)))).
Defined.
